(** * alpaquero: the storage provisioning subsystem

  A shallow embedding of
    - [alpaquero/smanager/manager.py]      (StorageManager),
    - [alpaquero/smanager/utils.py]        (get_fs_uuid),
    - [alpaquero/installers/installer.py]  (Installer),
    - [alpaquero/installers/storage.py]    (UnitParams, StorageInstaller),
    - [alpaquero/controllers/installer.py] (BaseInstallerController),
  and the properties of the storage life cycle proved about it. *)

From Stdlib Require Import ZArith String Ascii List Sorted Permutation Lia Bool OrderedTypeEx
  FunctionalExtensionality.
From stdpp Require Import base tactics option list strings sorting relations.
Import ListNotations.

Set Warnings "-register-all".

Local Open Scope string_scope.
Local Open Scope list_scope.

(** ** Python values, exceptions and the few library functions the code uses *)

Module Py.

(** The exception classes the modelled code raises.  Messages are kept
    where the source spells them out. *)
Inductive exn :=
| ValueError (msg : string)
| TypeError (msg : string)
| RuntimeError (msg : string)
| InstallerException (msg : string)
| OSError (msg : string).

Inductive res (A : Type) :=
| Ok (a : A)
| Raise (e : exn).
Arguments Ok {A} a.
Arguments Raise {A} e.

Definition is_ok {A} (r : res A) : bool :=
  match r with Ok _ => true | Raise _ => false end.

Definition is_ValueError {A} (r : res A) : bool :=
  match r with Raise (ValueError _) => true | _ => false end.

(** Code that mutates an object and may raise: a state transformer that
    yields a value or an exception together with the state reached. *)
Definition M (S A : Type) : Type := S -> res A * S.

Definition ret {S A} (a : A) : M S A := fun s => (Ok a, s).
Definition raise {S A} (e : exn) : M S A := fun s => (Raise e, s).
Definition bind {S A B} (c : M S A) (k : A -> M S B) : M S B :=
  fun s => match c s with
           | (Ok a, s') => k a s'
           | (Raise e, s') => (Raise e, s')
           end.
Definition get {S} : M S S := fun s => (Ok s, s).
Definition put {S} (s : S) : M S unit := fun _ => (Ok tt, s).
Definition modify {S} (f : S -> S) : M S unit := fun s => (Ok tt, f s).
Definition lift {S A} (r : res A) : M S A := fun s => (r, s).

(** A computation that leaves the state as it is. *)
Definition readonly {S A} (c : M S A) : Prop := forall s, snd (c s) = s.

(** [for x in l: body(x)] *)
Fixpoint for_each {S A} (l : list A) (body : A -> M S unit) : M S unit :=
  match l with
  | [] => ret tt
  | x :: l' => bind (body x) (fun _ => for_each l' body)
  end.

(** [[f(x) for x in l]] with an effectful [f] *)
Fixpoint map_M {S A B} (f : A -> M S B) (l : list A) : M S (list B) :=
  match l with
  | [] => ret []
  | x :: l' => bind (f x) (fun y => bind (map_M f l') (fun ys => ret (y :: ys)))
  end.

(** The values [yaml.safe_load] hands to the installers. *)
Inductive pyval :=
| PNone
| PBool (b : bool)
| PInt (z : Z)
| PStr (s : string)
| PList (l : list pyval)
| PDict (d : list (string * pyval)).

Inductive pytype := TBool | TInt | TStr | TList | TDict.

(** [isinstance(v, t)]; [bool] is a subclass of [int]. *)
Definition isinstance (v : pyval) (t : pytype) : bool :=
  match v, t with
  | PBool _, TBool | PBool _, TInt | PInt _, TInt
  | PStr _, TStr | PList _, TList | PDict _, TDict => true
  | _, _ => false
  end.

(** A [dict] with [str] keys, in insertion order. *)
Definition dict (V : Type) : Type := list (string * V).

Fixpoint dict_get {V} (d : dict V) (k : string) : option V :=
  match d with
  | [] => None
  | (k', v) :: d' => if String.eqb k' k then Some v else dict_get d' k
  end.

Definition dict_contains {V} (d : dict V) (k : string) : bool :=
  match dict_get d k with Some _ => true | None => false end.

(** [d[k] = v]: an existing key keeps its position. *)
Fixpoint dict_set {V} (d : dict V) (k : string) (v : V) : dict V :=
  match d with
  | [] => [(k, v)]
  | (k', v') :: d' =>
      if String.eqb k' k then (k', v) :: d' else (k', v') :: dict_set d' k v
  end.

Definition dict_values {V} (d : dict V) : list V := map snd d.

(** [data.get(key, None)] *)
Definition pyget (data : dict pyval) (key : string) : pyval :=
  match dict_get data key with Some v => v | None => PNone end.

(** [s.startswith('/')], which is also [os.path.isabs(s)] on POSIX. *)
Definition isabs (s : string) : bool :=
  match s with
  | String c _ => Ascii.eqb c "/"
  | EmptyString => false
  end.

(** [s.lstrip('/')] *)
Fixpoint lstrip_slash (s : string) : string :=
  match s with
  | String c s' => if Ascii.eqb c "/" then lstrip_slash s' else s
  | EmptyString => EmptyString
  end.

Fixpoint endswith_slash (s : string) : bool :=
  match s with
  | EmptyString => false
  | String c EmptyString => Ascii.eqb c "/"
  | String _ s' => endswith_slash s'
  end.

(** [os.path.join(a, b)] of [posixpath]: an absolute [b] discards [a]. *)
Definition path_join (a b : string) : string :=
  if isabs b then b
  else if orb (String.eqb a "") (endswith_slash a) then a ++ b
  else a ++ "/" ++ b.

(** [sep.join(l)] *)
Definition join (sep : string) (l : list string) : string := String.concat sep l.

(** White space for [str.strip()] among the characters of ASCII: the
    space, the controls 9 to 13 and the separators 28 to 31. *)
Definition is_space (c : ascii) : bool :=
  match c with
  | " "%char | "009"%char | "010"%char | "011"%char | "012"%char | "013"%char
  | "028"%char | "029"%char | "030"%char | "031"%char => true
  | _ => false
  end.

Fixpoint lstrip (s : string) : string :=
  match s with
  | String c s' => if is_space c then lstrip s' else s
  | EmptyString => EmptyString
  end.

Fixpoint rstrip (s : string) : string :=
  match s with
  | EmptyString => EmptyString
  | String c s' =>
      match rstrip s' with
      | EmptyString => if is_space c then EmptyString else String c EmptyString
      | r => String c r
      end
  end.

(** [s.strip()] *)
Definition strip (s : string) : string := rstrip (lstrip s).

(** [sorted(l, key=key, reverse=reverse)] on [str] keys.  The sort is
    stable; with [reverse] the list is reversed, sorted and reversed again,
    which is how [list.sort] keeps equal keys in their original order. *)
Section Sorted.
Context {A : Type} (key : A -> string).

Fixpoint insert_sorted (x : A) (l : list A) : list A :=
  match l with
  | [] => [x]
  | y :: l' =>
      if String.leb (key x) (key y) then x :: y :: l'
      else y :: insert_sorted x l'
  end.

Definition sort_stable (l : list A) : list A :=
  fold_right insert_sorted [] l.

Definition sorted (reverse : bool) (l : list A) : list A :=
  if reverse then rev (sort_stable (rev l)) else sort_stable l.

(** The order of the keys: [<=] and [<] on [str]. *)
Definition key_le (x y : A) : Prop := String.leb (key x) (key y) = true.
Definition key_lt (x y : A) : Prop := String.ltb (key x) (key y) = true.
End Sorted.

End Py.
Import Py.

Declare Scope py_scope.
Delimit Scope py_scope with py.
Notation "x <- c ;; k" := (bind c (fun x => k))
(at level 100, c at next level, right associativity) : py_scope.
Notation "c ;;; k" := (bind c (fun _ => k))
(at level 100, right associativity) : py_scope.
Local Open Scope py_scope.

(** ** The unit and device model *)

(** The file-system vocabulary.  [file_system.py] is not among the sources:
    the members are the ones the sources and the example configuration in
    [installers/storage.py] name. *)
Inductive FSType := EXT4 | XFS | VFAT | SWAP | RAID_MEMBER | CRYPTO_PARTITION | PHYSICAL_VOLUME.

Inductive StorageUnitFlag := ESP.

Inductive UnitClass := Partition | LogicalVolume | CryptoVolume.

#[global] Instance FSType_eq_dec : EqDecision FSType.
Proof. solve_decision. Defined.
#[global] Instance UnitClass_eq_dec : EqDecision UnitClass.
Proof. solve_decision. Defined.
#[global] Instance StorageUnitFlag_eq_dec : EqDecision StorageUnitFlag.
Proof. solve_decision. Defined.

(** [str(fs_type)], as used for [mount -t], [modprobe] and the fstab. *)
Definition FSType_str (t : FSType) : string :=
  match t with
  | EXT4 => "ext4" | XFS => "xfs" | VFAT => "vfat" | SWAP => "swap"
  | RAID_MEMBER => "raid_member" | CRYPTO_PARTITION => "crypto_partition"
  | PHYSICAL_VOLUME => "physical_volume"
  end.

Definition all_FSType : list FSType :=
  [EXT4; XFS; VFAT; SWAP; RAID_MEMBER; CRYPTO_PARTITION; PHYSICAL_VOLUME].

(** Modelled from the spec: [FSType.from_str] ([file_system.py] is missing);
    a closed vocabulary of file-system kind strings, anything else is a
    configuration error. *)
Definition FSType_from_str (v : pyval) : res FSType :=
  match v with
  | PStr s =>
      match find (fun t => String.eqb (FSType_str t) s) all_FSType with
      | Some t => Ok t
      | None => Raise (ValueError "unknown file system type")
      end
  | _ => Raise (ValueError "unknown file system type")
  end.

(** Modelled from the spec: [StorageUnitFlag.from_str] ([storage_unit.py] is
    missing); a closed vocabulary of flag strings. *)
Definition StorageUnitFlag_from_str (s : string) : res StorageUnitFlag :=
  if String.eqb s "esp" then Ok ESP else Raise (ValueError "unknown flag").

(** A storage unit.  [unit_device] is the id of the device that owns the
    unit and [unit_number] its position there; [partition] is set for a
    crypto volume and names the partition it wraps. *)
Record StorageUnit := mkUnit {
  unit_class : UnitClass;
  unit_device : string;
  unit_number : nat;
  unit_id : string;
  unit_size : Z;
  fs_type : option FSType;
  fs_opts : list string;
  mount_point : option string;
  flags : list StorageUnitFlag;
  crypto_passphrase : pyval;
  partition : option string
}.

(** The storage devices; each owns the units created on it. *)
Inductive StorageDevice :=
| Disk (id : string) (partitions : list StorageUnit)
| RAID (id : string) (level : pyval) (metadata : string)
       (members : list StorageUnit) (partitions : list StorageUnit)
| VolumeGroup (id : string) (physical_volumes : list StorageUnit)
              (logical_volumes : list StorageUnit)
| Cryptsetup (id : string) (volumes : list StorageUnit).

Inductive DeviceClass := TDisk | TRAID | TVolumeGroup | TCryptsetup.

Definition device_class (d : StorageDevice) : DeviceClass :=
  match d with
  | Disk _ _ => TDisk
  | RAID _ _ _ _ _ => TRAID
  | VolumeGroup _ _ _ => TVolumeGroup
  | Cryptsetup _ _ => TCryptsetup
  end.

#[global] Instance DeviceClass_eq_dec : EqDecision DeviceClass.
Proof. solve_decision. Defined.

Definition device_id (d : StorageDevice) : string :=
  match d with
  | Disk id _ | RAID id _ _ _ _ | VolumeGroup id _ _ | Cryptsetup id _ => id
  end.

(** [device.storage_units] *)
Definition storage_units_of (d : StorageDevice) : list StorageUnit :=
  match d with
  | Disk _ us | RAID _ _ _ _ us | VolumeGroup _ _ us | Cryptsetup _ us => us
  end.

Definition append_unit (d : StorageDevice) (u : StorageUnit) : StorageDevice :=
  match d with
  | Disk id us => Disk id (us ++ [u])
  | RAID id l md ms us => RAID id l md ms (us ++ [u])
  | VolumeGroup id pvs us => VolumeGroup id pvs (us ++ [u])
  | Cryptsetup id us => Cryptsetup id (us ++ [u])
  end.

(** ** StorageManager: the registry ([smanager/manager.py]) *)

(** Devices are objects that the registry, the installer and the manager's
    [_cryptsetup] field refer to and that are mutated after registration
    (units are added to them): [heap] holds the objects, the other fields
    hold addresses into it. *)
Record StorageManager := mkManager {
  heap : list StorageDevice;
  _devices : dict nat;
  _mount_root_base : option string;
  _cryptsetup : nat
}.

Definition set_heap (h : list StorageDevice) (m : StorageManager) : StorageManager :=
  mkManager h (_devices m) (_mount_root_base m) (_cryptsetup m).

Definition set_devices (d : dict nat) (m : StorageManager) : StorageManager :=
  mkManager (heap m) d (_mount_root_base m) (_cryptsetup m).

Definition set_mount_root_base (v : option string) (m : StorageManager) : StorageManager :=
  mkManager (heap m) (_devices m) v (_cryptsetup m).

(** [StorageManager.__init__] *)
Definition StorageManager_init : StorageManager :=
  {| heap := [Cryptsetup "__cryptsetup__" []];
     _devices := [("__cryptsetup__", 0)];
     _mount_root_base := None;
     _cryptsetup := 0 |}.

Definition deref (m : StorageManager) (a : nat) : option StorageDevice := heap m !! a.

(** [self._devices.values()], as objects, in insertion order *)
Definition devices_values (m : StorageManager) : list StorageDevice :=
  omap (deref m) (dict_values (_devices m)).

Definition has_mount_point (mp : string) (u : StorageUnit) : bool :=
  bool_decide (mount_point u = Some mp).

Definition _get_unit_by_mount_point (m : StorageManager) (mp : string) : option StorageUnit :=
  find (has_mount_point mp) (flat_map storage_units_of (devices_values m)).

Definition check_can_mount_to (m : StorageManager) (mp : string) : res unit :=
  if negb (isabs mp) then Raise (ValueError (mp ++ ": must be an absolute path"))
  else match _get_unit_by_mount_point m mp with
       | Some _ => Raise (ValueError ("Mount point '" ++ mp ++ "' is already defined"))
       | None => Ok tt
       end.

Definition get_device_by_id (m : StorageManager) (id : string) : option nat :=
  dict_get (_devices m) id.

Definition get_devices_by_type (m : StorageManager) (t : DeviceClass) : list StorageDevice :=
  filter (fun d => device_class d = t) (devices_values m).

(** Modelled from the spec: the ids of units and devices share one
    namespace.  An id is in use when a device is registered under it or a
    unit of a registered device has it; the constructors of the units and
    of the devices, which are missing, refuse an id that is in use. *)
Definition id_in_use (m : StorageManager) (id : string) : bool :=
  bool_decide (is_Some (get_device_by_id m id)) ||
  existsb (fun u => String.eqb (unit_id u) id)
          (flat_map storage_units_of (devices_values m)).

Definition check_id_free (m : StorageManager) (id : string) : res unit :=
  if id_in_use m id then Raise (ValueError ("id '" ++ id ++ "' is already in use"))
  else Ok tt.

(** Modelled from the spec: the constructor of a device ([disk.py],
    [raid.py], [lvm.py] and [cryptsetup.py] are missing), which refuses an
    id in use, followed by [self._devices[id] = device]: the new object
    gets the next free address. *)
Definition register (id : string) (d : StorageDevice) : M StorageManager nat :=
  m <- get ;;
  lift (check_id_free m id) ;;;
  (fun m => let a := length (heap m) in
            (Ok a, set_devices (dict_set (_devices m) id a) (set_heap (heap m ++ [d]) m))).

(** [str(device)] in the message is approximated by the device's id. *)
Definition already_exists (m : StorageManager) (a : nat) : exn :=
  ValueError (match deref m a with Some d => device_id d | None => "" end ++ " already exists").

Definition add_disk (id : string) : M StorageManager nat :=
  m <- get ;;
  match get_device_by_id m id with
  | Some device => raise (already_exists m device)
  | None => register id (Disk id [])
  end.

Definition add_vg (id : string) (physical_volumes : list StorageUnit) : M StorageManager nat :=
  m <- get ;;
  match get_device_by_id m id with
  | Some device => raise (already_exists m device)
  | None => register id (VolumeGroup id physical_volumes [])
  end.

Definition add_raid (id : string) (level : pyval) (members : list StorageUnit)
    (metadata : string) : M StorageManager nat :=
  m <- get ;;
  match get_device_by_id m id with
  | Some device => raise (already_exists m device)
  | None => register id (RAID id level metadata members [])
  end.

(** ** Reading the configuration ([installers/utils.py], [installers/storage.py]) *)

(** Modelled from the spec: [read_key_or_fail] of [installers/utils.py],
    which is missing.  A missing or wrong-typed field is a configuration
    error; the [error_label] argument only feeds the message and is left
    out. *)
Definition read_key_or_fail (data : dict pyval) (key : string) (value_type : pytype)
    : res pyval :=
  match pyget data key with
  | PNone => Raise (ValueError ("'" ++ key ++ "' is not set"))
  | v => if isinstance v value_type then Ok v
         else Raise (ValueError ("'" ++ key ++ "' has a wrong type"))
  end.

(** Modelled from the spec: [read_list] of [installers/utils.py], which is
    missing.  An absent key reads as the empty list; a value that is not a
    list, or an item of the wrong type, is a configuration error. *)
Definition read_list (data : dict pyval) (key : string) (item_type : pytype)
    : res (list pyval) :=
  match pyget data key with
  | PNone => Ok []
  | PList l => if forallb (fun v => isinstance v item_type) l then Ok l
               else Raise (ValueError ("'" ++ key ++ "' has an item of a wrong type"))
  | _ => Raise (ValueError ("'" ++ key ++ "' is not a list"))
  end.

Definition as_str (v : pyval) : option string :=
  match v with PStr s => Some s | _ => None end.

Definition as_dict (v : pyval) : option (dict pyval) :=
  match v with PDict d => Some d | _ => None end.

Definition rmap {A B} (f : A -> B) (r : res A) : res B :=
  match r with Ok a => Ok (f a) | Raise e => Raise e end.

(** The helpers at the types the callers ask for. *)
Definition read_str_or_fail (data : dict pyval) (key : string) : res string :=
  rmap (fun v => default "" (as_str v)) (read_key_or_fail data key TStr).

Definition read_str_list (data : dict pyval) (key : string) : res (list string) :=
  rmap (omap as_str) (read_list data key TStr).

Definition read_dict_list (data : dict pyval) (key : string) : res (list (dict pyval)) :=
  rmap (omap as_dict) (read_list data key TDict).

Definition digit (c : ascii) : option Z :=
  let n := Z.of_N (N_of_ascii c) in
  if (48 <=? n)%Z && (n <=? 57)%Z then Some (n - 48)%Z else None.

Definition size_suffix (s : string) : option Z :=
  if String.eqb s "" then Some 1%Z
  else if String.eqb s "K" then Some 1024%Z
  else if String.eqb s "M" then Some (1024 * 1024)%Z
  else if String.eqb s "G" then Some (1024 * 1024 * 1024)%Z
  else if String.eqb s "T" then Some (1024 * 1024 * 1024 * 1024)%Z
  else None.

Fixpoint parse_size (s : string) (acc : option Z) : option Z :=
  match s with
  | EmptyString => acc
  | String c s' =>
      match digit c with
      | Some d => parse_size s' (Some (10 * default 0%Z acc + d)%Z)
      | None => n ← acc; k ← size_suffix s; Some (n * k)%Z
      end
  end.

(** Modelled from the spec: [str_size_to_bytes(str(size))];
    [str_size_to_bytes] of [installers/utils.py] is missing.  A size is a
    number with an optional K, M, G or T suffix: [512M] is 536870912 bytes
    and [10G] is 10737418240 bytes. *)
Definition str_size_to_bytes (size : pyval) : res Z :=
  match size with
  | PInt z => if (0 <=? z)%Z then Ok z else Raise (ValueError "invalid size")
  | PStr s => match parse_size s None with
              | Some z => Ok z
              | None => Raise (ValueError "invalid size")
              end
  | _ => Raise (ValueError "invalid size")
  end.

(** [UnitParams] *)
Record UnitParams := mkParams {
  p_id : pyval;
  p_size : Z;
  p_fs_type : option FSType;
  p_mount_point : pyval;
  p_crypto_passphrase : pyval;
  p_fs_opts : list string;
  p_flags : list StorageUnitFlag
}.

(** [UnitParams.from_dict] *)
Definition from_dict {S} (data : dict pyval) : M S UnitParams :=
  let id := pyget data "id" in
  size <- match pyget data "size" with
          | PNone => ret 0%Z
          | size => lift (str_size_to_bytes size)
          end ;;
  fs_type <- match pyget data "fs_type" with
             | PNone => ret None
             | fs_type => lift (rmap Some (FSType_from_str fs_type))
             end ;;
  let mount_point := pyget data "mount_point" in
  let crypto_passphrase := pyget data "crypto_passphrase" in
  fs_opts <- lift (read_str_list data "fs_opts") ;;
  flags_s <- lift (read_str_list data "flags") ;;
  flags <- map_M (fun flag_s => lift (StorageUnitFlag_from_str flag_s)) flags_s ;;
  ret (mkParams id size fs_type mount_point crypto_passphrase fs_opts flags).

(** *** What a configuration declares *)

(** The entries of the list under [key], or none when it cannot be read. *)
Definition entries (data : dict pyval) (key : string) : list (dict pyval) :=
  match read_dict_list data key with Ok l => l | Raise _ => [] end.

(** The ids of the disk partitions that the [storage] mapping declares. *)
Definition disk_partition_ids (data : dict pyval) : list string :=
  flat_map (fun disk => omap (fun part => as_str (pyget part "id"))
                             (entries disk "partitions"))
           (entries data "disks").

(** All unit entries of the [storage] mapping: the partitions of the
    disks, the crypto volumes, the partitions of the RAIDs and the logical
    volumes of the volume groups. *)
Definition unit_entries (data : dict pyval) : list (dict pyval) :=
  flat_map (fun disk => entries disk "partitions") (entries data "disks")
  ++ entries data "crypto_volumes"
  ++ flat_map (fun raid => entries raid "partitions") (entries data "raids")
  ++ flat_map (fun vg => entries vg "logical_volumes") (entries data "volume_groups").

(** ** The unit factories of the devices

    [disk.py], [raid.py], [lvm.py], [cryptsetup.py] and [storage_unit.py]
    are missing; the factories are modelled from the spec's data model. *)

(** Modelled from the spec: the constructor of a storage unit on the device
    at address [dev].  The id is a string that no unit and no device has
    yet; a mount point, if present, must be an absolute path that no other
    unit has ([check_can_mount_to]); the unit is appended to the units of
    its device. *)
Definition new_unit (cls : UnitClass) (dev : nat) (id : pyval) (size : Z)
    (fs_type : option FSType) (fs_opts : list string) (mount_point : pyval)
    (flags : list StorageUnitFlag) (crypto_passphrase : pyval)
    (partition : option string) : M StorageManager StorageUnit :=
  m <- get ;;
  match deref m dev, id with
  | Some d, PStr id =>
      lift (check_id_free m id) ;;;
      mp <- match mount_point with
            | PNone => ret None
            | PStr mp => (lift (check_can_mount_to m mp) ;;; ret (Some mp))
            | _ => raise (TypeError "mount_point is not a string")
            end ;;
      let unit := mkUnit cls (device_id d) (Datatypes.S (length (storage_units_of d)))
                         id size fs_type fs_opts mp flags crypto_passphrase partition in
      (put (set_heap (<[dev := append_unit d unit]> (heap m)) m) ;;;
       ret unit)
  | Some _, _ => raise (ValueError "the unit id is not a string")
  | None, _ => raise (RuntimeError "no such device")
  end.

(** Modelled from the spec: a unit of size 0 takes the rest of its container
    and is only valid as its last unit, so nothing can follow it. *)
Definition check_rest_of_container (dev : nat) : M StorageManager unit :=
  m <- get ;;
  match deref m dev with
  | Some d =>
      if existsb (fun u => (unit_size u =? 0)%Z) (storage_units_of d)
      then raise (ValueError "a unit without a size must be the last one of its container")
      else ret tt
  | None => ret tt
  end.

(** Modelled from the spec: [Disk.add_partition] and [RAID.add_partition]. *)
Definition add_partition (dev : nat) (p : UnitParams) : M StorageManager StorageUnit :=
  check_rest_of_container dev ;;;
  new_unit Partition dev (p_id p) (p_size p) (p_fs_type p) (p_fs_opts p)
           (p_mount_point p) (p_flags p) (p_crypto_passphrase p) None.

(** Modelled from the spec: [VolumeGroup.add_lv]. *)
Definition add_lv (dev : nat) (p : UnitParams) : M StorageManager StorageUnit :=
  check_rest_of_container dev ;;;
  new_unit LogicalVolume dev (p_id p) (p_size p) (p_fs_type p) (p_fs_opts p)
           (p_mount_point p) [] PNone None.

(** Modelled from the spec: [Cryptsetup.add_volume].  A crypto volume wraps
    a partition; a reference that does not resolve to a partition is a
    configuration error. *)
Definition add_volume (dev : nat) (p : UnitParams) (part : StorageUnit)
    : M StorageManager StorageUnit :=
  if bool_decide (unit_class part = Partition)
  then new_unit CryptoVolume dev (p_id p) 0%Z (p_fs_type p) (p_fs_opts p)
                (p_mount_point p) [] PNone (Some (unit_id part))
  else raise (ValueError "a crypto volume must be on a partition").

(** ** The managers that the factories can build *)

(** The operations that build the device graph; [op_add_volume] is
    [self.cryptsetup.add_volume]. *)
Inductive factory_op :=
| op_add_disk (id : string)
| op_add_vg (id : string) (physical_volumes : list StorageUnit)
| op_add_raid (id : string) (level : pyval) (members : list StorageUnit) (metadata : string)
| op_add_partition (dev : nat) (p : UnitParams)
| op_add_lv (dev : nat) (p : UnitParams)
| op_add_volume (p : UnitParams) (part : StorageUnit)
| op_set_mount_root_base (v : option string).

(** The manager after the operation, whether it returned or raised. *)
Definition run_op (o : factory_op) (m : StorageManager) : StorageManager :=
  match o with
  | op_add_disk id => snd (add_disk id m)
  | op_add_vg id pvs => snd (add_vg id pvs m)
  | op_add_raid id level members metadata => snd (add_raid id level members metadata m)
  | op_add_partition dev p => snd (add_partition dev p m)
  | op_add_lv dev p => snd (add_lv dev p m)
  | op_add_volume p part => snd (add_volume (_cryptsetup m) p part m)
  | op_set_mount_root_base v => set_mount_root_base v m
  end.

Inductive reachable : StorageManager -> Prop :=
| reachable_init : reachable StorageManager_init
| reachable_step o m : reachable m -> reachable (run_op o m).

(** The Cryptsetup singleton is registered under its id and is the object
    the manager's [_cryptsetup] field refers to. *)
Definition cryptsetup_registered (m : StorageManager) : Prop :=
  get_device_by_id m "__cryptsetup__" = Some (_cryptsetup m) /\
  exists volumes, deref m (_cryptsetup m) = Some (Cryptsetup "__cryptsetup__" volumes).

(** Every device object is registered, once, in the order of creation. *)
Definition registry_wf (m : StorageManager) : Prop :=
  dict_values (_devices m) = seq 0 (length (heap m)) /\
  NoDup (map fst (_devices m)).

(** All units of all registered devices. *)
Definition all_units (m : StorageManager) : list StorageUnit :=
  flat_map storage_units_of (devices_values m).

(** No two of the units and devices of the manager share an id. *)
Definition ids_distinct (m : StorageManager) : Prop :=
  NoDup (map fst (_devices m) ++ map unit_id (all_units m)).

(** What an operation on the manager can do to it. *)
Inductive manager_step (m : StorageManager) : StorageManager -> Prop :=
| step_none : manager_step m m
| step_register id d :
    get_device_by_id m id = None -> device_id d = id -> storage_units_of d = [] ->
    id_in_use m id = false ->
    manager_step m (mkManager (heap m ++ [d]) (_devices m ++ [(id, length (heap m))])
                              (_mount_root_base m) (_cryptsetup m))
| step_unit dev d u :
    deref m dev = Some d ->
    (forall mp, mount_point u = Some mp ->
                isabs mp = true /\ _get_unit_by_mount_point m mp = None) ->
    id_in_use m (unit_id u) = false ->
    manager_step m (set_heap (<[dev := append_unit d u]> (heap m)) m)
| step_base v : manager_step m (set_mount_root_base v m).

(** A device with the property [P] is registered under [id]. *)
Definition registered_with (m : StorageManager) (id : string)
    (P : StorageDevice -> Prop) : Prop :=
  exists a d, get_device_by_id m id = Some a /\ deref m a = Some d /\ P d.

(** A device of class [cls] whose id is [id] is registered under [id]. *)
Definition registered_as (m : StorageManager) (id : string) (cls : DeviceClass) : Prop :=
  registered_with m id (fun d => device_class d = cls /\ device_id d = id).

(** A RAID with this metadata version is registered under [id]. *)
Definition raid_registered (m : StorageManager) (id : string) (metadata : string) : Prop :=
  registered_with m id (fun d =>
    exists level members partitions, d = RAID id level metadata members partitions).

(** Every registered device is registered under its own id. *)
Definition ids_match (m : StorageManager) : Prop :=
  forall k a, get_device_by_id m k = Some a ->
              exists d, deref m a = Some d /\ device_id d = k.

(** The units a RAID or a volume group is built from, each with its id,
    its class and the id of the device that owns it. *)
Definition built_from (m : StorageManager) (id : string)
    : option (list (string * UnitClass * string)) :=
  a ← get_device_by_id m id;
  d ← deref m a;
  match d with
  | RAID _ _ _ members _ =>
      Some (map (fun u => (unit_id u, unit_class u, unit_device u)) members)
  | VolumeGroup _ physical_volumes _ =>
      Some (map (fun u => (unit_id u, unit_class u, unit_device u)) physical_volumes)
  | _ => None
  end.

(** ** Example data *)

Definition example_params (id : string) (fs : FSType) (mp : pyval) : UnitParams :=
  mkParams (PStr id) 1024 (Some fs) mp PNone [] [].

(** A manager with one disk whose partitions are declared in an order that
    is not the order of their mount points, and a swap partition. *)
Definition example_manager : StorageManager :=
  snd ((disk <- add_disk "/dev/vda" ;;
        add_partition disk (example_params "home" EXT4 (PStr "/home")) ;;;
        add_partition disk (example_params "efi" VFAT (PStr "/boot/efi")) ;;;
        add_partition disk (example_params "swap" SWAP PNone) ;;;
        add_partition disk (example_params "root" EXT4 (PStr "/")) ;;;
        add_partition disk (example_params "boot" EXT4 (PStr "/boot")))
         (set_mount_root_base (Some "/mnt/target_root") StorageManager_init)).

(** A configuration with the root file system on a disk partition. *)
Definition example_config : dict pyval :=
  [("storage", PDict [
     ("disks", PList [
        PDict [("id", PStr "/dev/vda");
               ("partitions", PList [
                  PDict [("id", PStr "boot"); ("size", PStr "1G");
                         ("fs_type", PStr "ext4"); ("mount_point", PStr "/boot")];
                  PDict [("id", PStr "root"); ("fs_type", PStr "ext4");
                         ("mount_point", PStr "/")]])]])])].

(** A configuration in which a volume group takes the id of a partition. *)
Definition config_shared_id : dict pyval :=
  [("storage", PDict [
     ("disks", PList [
        PDict [("id", PStr "/dev/vda");
               ("partitions", PList [
                  PDict [("id", PStr "data"); ("size", PStr "10G");
                         ("fs_type", PStr "physical_volume")];
                  PDict [("id", PStr "root"); ("fs_type", PStr "ext4");
                         ("mount_point", PStr "/")]])]]);
     ("volume_groups", PList [
        PDict [("id", PStr "data");
               ("physical_volumes", PList [PStr "data"]);
               ("logical_volumes", PList [
                  PDict [("id", PStr "home"); ("fs_type", PStr "ext4");
                         ("mount_point", PStr "/home")]])]])])].

(** A configuration whose RAID has an absolute path as its id. *)
Definition config_raid_absolute_id : dict pyval :=
  [("storage", PDict [
     ("disks", PList [
        PDict [("id", PStr "/dev/vda");
               ("partitions", PList [
                  PDict [("id", PStr "r1"); ("size", PStr "10G");
                         ("fs_type", PStr "raid_member")];
                  PDict [("id", PStr "root"); ("fs_type", PStr "ext4");
                         ("mount_point", PStr "/")]])];
        PDict [("id", PStr "/dev/vdb");
               ("partitions", PList [
                  PDict [("id", PStr "r2"); ("size", PStr "10G");
                         ("fs_type", PStr "raid_member")]])]]);
     ("raids", PList [
        PDict [("id", PStr "/dev/md0"); ("level", PInt 1); ("metadata", PStr "1.2");
               ("members", PList [PStr "r1"; PStr "r2"]);
               ("partitions", PList [
                  PDict [("id", PStr "home"); ("fs_type", PStr "ext4");
                         ("mount_point", PStr "/home")]])]])])].

(** The configuration given as the example in the comment at the head of
    [installers/storage.py]; [raid_extra] are further keys of its RAID
    entry, which in the source has none. *)
Definition source_example_config (raid_extra : dict pyval) : dict pyval :=
  [("storage", PDict [
     ("disks", PList [
        PDict [("id", PStr "/dev/vda");
               ("partitions", PList [
                  PDict [("id", PStr "efi"); ("size", PStr "512M");
                         ("mount_point", PStr "/boot/efi"); ("fs_type", PStr "vfat");
                         ("flags", PList [PStr "esp"])];
                  PDict [("id", PStr "boot"); ("size", PStr "1G");
                         ("fs_type", PStr "ext4"); ("mount_point", PStr "/boot")];
                  PDict [("id", PStr "raid_vda"); ("size", PStr "10G");
                         ("fs_type", PStr "raid_member")];
                  PDict [("id", PStr "secret_data"); ("fs_type", PStr "crypto_partition");
                         ("crypto_passphrase", PStr "super-secret")]])];
        PDict [("id", PStr "/dev/vdb");
               ("partitions", PList [
                  PDict [("id", PStr "raid_vdb"); ("size", PStr "10G");
                         ("fs_type", PStr "raid_member")]])]]);
     ("crypto_volumes", PList [
        PDict [("id", PStr "crypto_volume"); ("on_partition", PStr "secret_data");
               ("fs_type", PStr "ext4"); ("fs_opts", PList [PStr "ro"]);
               ("mount_point", PStr "/secret")]]);
     ("raids", PList [
        PDict ([("id", PStr "some_raid"); ("level", PInt 1);
                ("members", PList [PStr "raid_vda"; PStr "raid_vdb"]);
                ("partitions", PList [
                   PDict [("id", PStr "pv1"); ("size", PStr "5G");
                          ("fs_type", PStr "physical_volume")];
                   PDict [("id", PStr "pv2"); ("fs_type", PStr "physical_volume")]])]
               ++ raid_extra)]);
     ("volume_groups", PList [
        PDict [("id", PStr "some_vg");
               ("physical_volumes", PList [PStr "pv1"; PStr "pv2"]);
               ("logical_volumes", PList [
                  PDict [("id", PStr "root"); ("size", PStr "2G");
                         ("fs_type", PStr "ext4"); ("mount_point", PStr "/")];
                  PDict [("id", PStr "home"); ("fs_type", PStr "ext4");
                         ("fs_opts", PList [PStr "noauto"]);
                         ("mount_point", PStr "/home")]])]])])].

(** A configuration with a RAID on crypto volumes and a volume group on a
    RAID partition and a crypto volume. *)
Definition config_layered : dict pyval :=
  [("storage", PDict [
     ("disks", PList [
        PDict [("id", PStr "/dev/vda");
               ("partitions", PList [
                  PDict [("id", PStr "root"); ("size", PStr "2G");
                         ("fs_type", PStr "ext4"); ("mount_point", PStr "/")];
                  PDict [("id", PStr "s1"); ("size", PStr "1G");
                         ("fs_type", PStr "crypto_partition");
                         ("crypto_passphrase", PStr "one")];
                  PDict [("id", PStr "s2"); ("size", PStr "1G");
                         ("fs_type", PStr "crypto_partition");
                         ("crypto_passphrase", PStr "two")];
                  PDict [("id", PStr "s3"); ("fs_type", PStr "crypto_partition");
                         ("crypto_passphrase", PStr "three")]])]]);
     ("crypto_volumes", PList [
        PDict [("id", PStr "c1"); ("on_partition", PStr "s1");
               ("fs_type", PStr "raid_member")];
        PDict [("id", PStr "c2"); ("on_partition", PStr "s2");
               ("fs_type", PStr "raid_member")];
        PDict [("id", PStr "c3"); ("on_partition", PStr "s3");
               ("fs_type", PStr "physical_volume")]]);
     ("raids", PList [
        PDict [("id", PStr "md0"); ("level", PInt 1); ("metadata", PStr "1.2");
               ("members", PList [PStr "c1"; PStr "c2"]);
               ("partitions", PList [
                  PDict [("id", PStr "pv1"); ("fs_type", PStr "physical_volume")]])]]);
     ("volume_groups", PList [
        PDict [("id", PStr "vg0");
               ("physical_volumes", PList [PStr "pv1"; PStr "c3"]);
               ("logical_volumes", PList [
                  PDict [("id", PStr "home"); ("fs_type", PStr "ext4");
                         ("mount_point", PStr "/home")]])]])])].

(** The example of the source with the metadata version given and the
    crypto volume placed on [on_partition]. *)
Definition config_crypto_on (on_partition : string) : dict pyval :=
  [("storage", PDict [
     ("disks", PList [
        PDict [("id", PStr "/dev/vda");
               ("partitions", PList [
                  PDict [("id", PStr "raid_vda"); ("size", PStr "10G");
                         ("fs_type", PStr "raid_member")];
                  PDict [("id", PStr "secret_data");
                         ("fs_type", PStr "crypto_partition");
                         ("crypto_passphrase", PStr "super-secret")]])];
        PDict [("id", PStr "/dev/vdb");
               ("partitions", PList [
                  PDict [("id", PStr "raid_vdb"); ("size", PStr "10G");
                         ("fs_type", PStr "raid_member")]])]]);
     ("crypto_volumes", PList [
        PDict [("id", PStr "crypto_volume"); ("on_partition", PStr on_partition);
               ("fs_type", PStr "ext4"); ("mount_point", PStr "/secret")]]);
     ("raids", PList [
        PDict [("id", PStr "some_raid"); ("level", PInt 1); ("metadata", PStr "1.2");
               ("members", PList [PStr "raid_vda"; PStr "raid_vdb"]);
               ("partitions", PList [
                  PDict [("id", PStr "pv1"); ("size", PStr "5G");
                         ("fs_type", PStr "physical_volume")];
                  PDict [("id", PStr "pv2"); ("fs_type", PStr "physical_volume")]])]]);
     ("volume_groups", PList [
        PDict [("id", PStr "some_vg");
               ("physical_volumes", PList [PStr "pv1"]);
               ("logical_volumes", PList [
                  PDict [("id", PStr "root"); ("size", PStr "2G");
                         ("fs_type", PStr "ext4"); ("mount_point", PStr "/")];
                  PDict [("id", PStr "home"); ("fs_type", PStr "ext4");
                         ("mount_point", PStr "/home")]])]])])].

(** A configuration with one disk and two partitions mounted at [mp1] and
    [mp2]. *)
Definition config_two_partitions (mp1 mp2 : string) : dict pyval :=
  [("storage", PDict [
     ("disks", PList [
        PDict [("id", PStr "/dev/vda");
               ("partitions", PList [
                  PDict [("id", PStr "first"); ("size", PStr "1G");
                         ("fs_type", PStr "ext4"); ("mount_point", PStr mp1)];
                  PDict [("id", PStr "second"); ("fs_type", PStr "ext4");
                         ("mount_point", PStr mp2)]])]])])].

(** ** The host: subprocesses, the file system and the device tools *)

(** [subprocess.CompletedProcess], as far as the code reads it *)
Record CompletedProcess := mkCompleted {
  returncode : Z;
  stdout : string
}.

(** Calls that leave the sources at hand: methods of the missing device
    classes and operating-system calls.  What they do is up to the host. *)
Inductive ext_call :=
| disk_create_partitions (id : string)
| raid_create_partitions (id : string)
| raid_stop (id : string)
| vg_create_logical_volumes (id : string)
| vg_deactivate (id : string)
| cryptsetup_open_volumes
| cryptsetup_close_volumes
| unit_make_fs (id : string)
| os_makedirs (path : string) (exist_ok : bool)
| os_rmdir (path : string)
| write_file (path mode data : string)
| copy_yaml_config (dst : string).

Inductive phase := PApply | PPostApply | PCleanup.

(** What a run leaves behind for an observer: the commands run, the
    external calls made, the events reported, and which life-cycle method
    of which installer (by position in the controller's list) was called. *)
Inductive event :=
| Run (args : list string)
| Call (c : ext_call)
| StartEvent (msg : string)
| LogLine (msg : string)
| Phase (installer : nat) (p : phase).

(** Machines for the examples: one on which every command and call
    succeeds, and one on which every [umount] exits with status 32. *)
Definition machine_ok (args : list string) (w : unit) : res CompletedProcess * unit :=
  (Ok (mkCompleted 0 ("ABCD" ++ String "010" "")), w).

Definition machine_umount_fails (args : list string) (w : unit)
    : res CompletedProcess * unit :=
  match args with
  | cmd :: _ => if String.eqb cmd "umount" then (Ok (mkCompleted 32 ""), w)
                else (Ok (mkCompleted 0 ""), w)
  | [] => (Ok (mkCompleted 0 ""), w)
  end.

(** A machine on which every [mount] exits with status 32. *)
Definition machine_mount_fails (args : list string) (w : unit)
    : res CompletedProcess * unit :=
  match args with
  | cmd :: _ => if String.eqb cmd "mount" then (Ok (mkCompleted 32 ""), w)
                else (Ok (mkCompleted 0 ""), w)
  | [] => (Ok (mkCompleted 0 ""), w)
  end.

Definition example_block_device (u : StorageUnit) : string :=
  "/dev/disk/by-partlabel/" ++ unit_id u.

Definition ext_ok (c : ext_call) (w : unit) : res unit * unit := (Ok tt, w).

(** [set] iteration in insertion order, for the examples *)
Definition in_order (A : Type) (l : list A) : list A := l.

Section Installation.

(** The state of the machine the installer runs on. *)
Variable W : Type.

(** [subprocess.run(args)]: the machine answers with a completed process
    or fails to start one. *)
Variable subprocess_run : list string -> W -> res CompletedProcess * W.

(** The answer of the machine to an external call. *)
Variable ext : ext_call -> W -> res unit * W.

(** The order in which a [set] built from the given distinct elements is
    iterated; Python does not specify it. *)
Variable set_iter : forall A : Type, list A -> list A.

(** [unit.block_device], a property defined in the missing
    [storage_unit.py]. *)
Variable block_device : StorageUnit -> string.

Record Host := mkHost {
  world : W;
  trace : list event
}.

Definition emit (e : event) : M Host unit :=
  fun h => (Ok tt, mkHost (world h) (trace h ++ [e])).

Definition on_world {A} (c : M W A) : M Host A :=
  fun h => let (r, w) := c (world h) in (r, mkHost w (trace h)).

(** Modelled from the spec: [run_cmd] of [common/utils.py], which is
    missing.  The exit status is the sole success signal: a non-zero
    status is a hard failure unless [ignore_status] is set. *)
Definition run_cmd (args : list string) (ignore_status : bool) : M Host CompletedProcess :=
  emit (Run args) ;;;
  r <- on_world (subprocess_run args) ;;
  if negb ignore_status && negb (returncode r =? 0)%Z
  then raise (RuntimeError (join " " args ++ ": failed"))
  else ret r.

Definition call (c : ext_call) : M Host unit :=
  emit (Call c) ;;; on_world (ext c).

Definition start_event (msg : string) : M Host unit := emit (StartEvent msg).
Definition add_log_line (msg : string) : M Host unit := emit (LogLine msg).

(** [get_fs_uuid] of [smanager/utils.py] *)
Definition blkid_args (device_path : string) : list string :=
  ["blkid"; "-c"; "/dev/null"; "-o"; "value"; "--match-tag"; "UUID"; device_path].

(** [res.stdout.decode().strip()] is taken on output in ASCII, where
    [decode()] is the identity; a UUID as [blkid] prints it is such text. *)
Definition get_fs_uuid (device_path : string) : M Host string :=
  r <- run_cmd (blkid_args device_path) false ;;
  let uuid := strip (stdout r) in
  if String.eqb uuid ""
  then raise (RuntimeError ("Unable to determine a file system UUID of " ++ device_path))
  else ret uuid.

(** Modelled from the spec: [unit.fs_uuid], the file-system UUID queried
    from the live block device. *)
Definition fs_uuid (u : StorageUnit) : M Host string := get_fs_uuid (block_device u).

(** *** StorageManager: queries and phases *)

Definition _path_relative_to_mount_root_base (m : StorageManager) (path : string) : string :=
  match _mount_root_base m with
  | Some base =>
      if String.eqb base "" then path
      else path_join base (if isabs path then lstrip_slash path else path)
  | None => path
  end.

(** [self.devices]: the set of registered device objects, as iterated *)
Definition devices (m : StorageManager) : list StorageDevice :=
  omap (deref m) (set_iter nat (remove_dups (dict_values (_devices m)))).

Definition storage_units (m : StorageManager) : list StorageUnit :=
  flat_map storage_units_of (devices m).

(** [if unit.mount_point:] *)
Definition mount_point_set (u : StorageUnit) : option string :=
  match mount_point u with
  | Some mp => if String.eqb mp "" then None else Some mp
  | None => None
  end.

Definition mount_points (m : StorageManager) : list (string * StorageUnit) :=
  omap (fun u => mp ← mount_point_set u; Some (mp, u)) (storage_units m).

Definition get_unit_by_mount_point (m : StorageManager) (mp : string) : option StorageUnit :=
  option_map snd (find (fun x => String.eqb mp (fst x)) (mount_points m)).

Definition fs_type_str (t : option FSType) : string :=
  match t with Some t => FSType_str t | None => "None" end.

Definition create_filesystems (m : StorageManager) : M Host unit :=
  for_each (get_devices_by_type m TDisk) (fun disk =>
    call (disk_create_partitions (device_id disk)) ;;;
    for_each (storage_units_of disk) (fun part => call (unit_make_fs (unit_id part)))) ;;;
  call cryptsetup_open_volumes ;;;
  for_each (from_option storage_units_of [] (deref m (_cryptsetup m))) (fun volume =>
    call (unit_make_fs (unit_id volume))) ;;;
  for_each (get_devices_by_type m TRAID) (fun raid =>
    call (raid_create_partitions (device_id raid)) ;;;
    for_each (storage_units_of raid) (fun part => call (unit_make_fs (unit_id part)))) ;;;
  for_each (get_devices_by_type m TVolumeGroup) (fun vg =>
    call (vg_create_logical_volumes (device_id vg)) ;;;
    for_each (storage_units_of vg) (fun lv => call (unit_make_fs (unit_id lv)))).

(** The items [mount] and [unmount] iterate over. *)
Definition mount_items (m : StorageManager) : list (string * StorageUnit) :=
  sorted fst false (mount_points m).

Definition unmount_items (m : StorageManager) : list (string * StorageUnit) :=
  sorted fst true (mount_points m).

Definition mount_one (m : StorageManager) (item : string * StorageUnit) : M Host unit :=
  let '(mount_point, unit) := item in
  let mnt_dir := _path_relative_to_mount_root_base m mount_point in
  run_cmd ["mkdir"; "-p"; mnt_dir] false ;;;
  run_cmd ["mount"; "-t"; fs_type_str (fs_type unit); block_device unit; mnt_dir] false ;;;
  ret tt.

Definition mount (m : StorageManager) : M Host unit :=
  for_each (mount_items m) (mount_one m).

Definition unmount_one (m : StorageManager) (item : string * StorageUnit) : M Host unit :=
  let '(mount_point, _) := item in
  let mnt_dir := _path_relative_to_mount_root_base m mount_point in
  run_cmd ["umount"; mnt_dir] false ;;; ret tt.

Definition unmount (m : StorageManager) : M Host unit :=
  for_each (unmount_items m) (unmount_one m).

(** The commands that mounting the item takes, and the command that
    unmounting it takes. *)
Definition mount_commands (m : StorageManager) (item : string * StorageUnit) : list event :=
  [Run ["mkdir"; "-p"; _path_relative_to_mount_root_base m (fst item)];
   Run ["mount"; "-t"; fs_type_str (fs_type (snd item)); block_device (snd item);
        _path_relative_to_mount_root_base m (fst item)]].

Definition unmount_command (m : StorageManager) (item : string * StorageUnit) : event :=
  Run ["umount"; _path_relative_to_mount_root_base m (fst item)].

Definition deactivate_block_devices (m : StorageManager) : M Host unit :=
  for_each (get_devices_by_type m TVolumeGroup) (fun vg => call (vg_deactivate (device_id vg))) ;;;
  for_each (get_devices_by_type m TRAID) (fun raid => call (raid_stop (device_id raid))) ;;;
  call cryptsetup_close_volumes.

Definition write_mdadm_conf (path : string) : M Host unit :=
  r <- run_cmd ["mdadm"; "--detail"; "--scan"] false ;;
  if String.eqb (stdout r) ""
  then raise (RuntimeError "mdadm did not find any RAID devices")
  else call (write_file path "wb" (stdout r)).

Definition is_swap (u : StorageUnit) : bool := bool_decide (fs_type u = Some SWAP).

(** The units [write_fstab] renders, in order. *)
Definition fstab_units (m : StorageManager) : list StorageUnit :=
  let swap_units := filter (fun u => is_swap u) (storage_units m) in
  let mount_units := map snd (sorted fst false (mount_points m)) in
  mount_units ++ swap_units.

(** The body of the loop of [write_fstab], once [unit.fs_uuid] is read. *)
Definition fstab_line (fs_spec : string) (u : StorageUnit) : string :=
  let fs_file := if is_swap u then "none"
                 else match mount_point u with Some mp => mp | None => "None" end in
  let fs_vfstype := fs_type_str (fs_type u) in
  let fs_mntopts := if is_swap u || bool_decide (fs_opts u = [])
                    then "defaults" else join "," (fs_opts u) in
  let fs_freq := "0" in
  let fs_passno := if is_swap u then "0"
                   else if bool_decide (mount_point u = Some "/") then "1"
                   else "2" in
  "UUID=" ++ fs_spec ++ " " ++ fs_file ++ " " ++ fs_vfstype ++ " " ++ fs_mntopts
    ++ " " ++ fs_freq ++ " " ++ fs_passno ++ String "010" "".

Definition write_fstab (m : StorageManager) (path : string) : M Host unit :=
  lines <- map_M (fun unit => fs_spec <- fs_uuid unit ;; ret (fstab_line fs_spec unit))
                 (fstab_units m) ;;
  call (write_file path "w" (String.concat "" lines)).

(** *** Installer ([installers/installer.py]) *)

(** [Installer.__init__]: reads [config[name]] into [self._data]. *)
Definition Installer_init (name : string) (config : dict pyval) (data_type : pytype)
    (data_is_optional : bool) : res pyval :=
  let data := pyget config name in
  match data with
  | PNone =>
      if negb data_is_optional
      then Raise (InstallerException ("'" ++ name ++ "' is not set"))
      else Ok data
  | _ =>
      if negb (isinstance data data_type)
      then Raise (InstallerException ("'" ++ name ++ "' is of an unexpected type"))
      else Ok data
  end.

(** [abs_target_path] *)
Definition abs_target_path (target_root rel_target_path : string) : string :=
  path_join target_root (lstrip_slash rel_target_path).

Definition run_in_chroot (target_root : string) (args : list string) : M Host CompletedProcess :=
  run_cmd (["chroot"; target_root] ++ args) false.

Definition enable_service (target_root service runlevel : string) : M Host unit :=
  run_in_chroot target_root ["rc-update"; "add"; service; runlevel] ;;; ret tt.

(** *** StorageInstaller ([installers/storage.py]) *)

Record StorageInstaller := mkStorageInstaller {
  _data : dict pyval;
  target_root : string;
  _units : dict StorageUnit;
  _smanager : StorageManager;
  _has_disks : bool;
  _has_crypto : bool;
  _has_raids : bool;
  _has_lvm : bool;
  _packages : list string;
  _file_systems : list FSType
}.

Definition set_units (u : dict StorageUnit) (s : StorageInstaller) : StorageInstaller :=
  mkStorageInstaller (_data s) (target_root s) u (_smanager s) (_has_disks s)
    (_has_crypto s) (_has_raids s) (_has_lvm s) (_packages s) (_file_systems s).

Definition set_smanager (m : StorageManager) (s : StorageInstaller) : StorageInstaller :=
  mkStorageInstaller (_data s) (target_root s) (_units s) m (_has_disks s)
    (_has_crypto s) (_has_raids s) (_has_lvm s) (_packages s) (_file_systems s).

Definition set_has (disks crypto raids lvm : bool) (s : StorageInstaller) : StorageInstaller :=
  mkStorageInstaller (_data s) (target_root s) (_units s) (_smanager s) disks
    crypto raids lvm (_packages s) (_file_systems s).

Definition set_packages (p : list string) (s : StorageInstaller) : StorageInstaller :=
  mkStorageInstaller (_data s) (target_root s) (_units s) (_smanager s) (_has_disks s)
    (_has_crypto s) (_has_raids s) (_has_lvm s) p (_file_systems s).

Definition set_file_systems (f : list FSType) (s : StorageInstaller) : StorageInstaller :=
  mkStorageInstaller (_data s) (target_root s) (_units s) (_smanager s) (_has_disks s)
    (_has_crypto s) (_has_raids s) (_has_lvm s) (_packages s) f.

(** A method of [self._smanager] called from the installer. *)
Definition on_manager {A} (c : M StorageManager A) : M StorageInstaller A :=
  fun s => let (r, m) := c (_smanager s) in (r, set_smanager m s).

(** [set.update]/[set.add] on a set kept as a list of distinct elements *)
Definition set_add {A} `{EqDecision A} (x : A) (l : list A) : list A :=
  if bool_decide (x ∈ l) then l else l ++ [x].

Definition add_package (names : list string) : M StorageInstaller unit :=
  modify (fun s => set_packages (fold_left (fun l x => set_add x l) names (_packages s)) s).

Definition _add_unit (u : StorageUnit) : M StorageInstaller unit :=
  s <- get ;;
  if dict_contains (_units s) (unit_id u)
  then raise (ValueError ("Unit with id '" ++ unit_id u ++ "' is already defined"))
  else put (set_units (dict_set (_units s) (unit_id u) u) s).

(** [_unit_by_id(id)]; every caller leaves [fail] at its default [True]. *)
Definition _unit_by_id (id : string) : M StorageInstaller StorageUnit :=
  s <- get ;;
  match dict_get (_units s) id with
  | Some unit => ret unit
  | None => raise (ValueError ("Unknown unit id '" ++ id ++ "'"))
  end.

Definition _validate : M StorageInstaller unit :=
  s <- get ;;
  match get_unit_by_mount_point (_smanager s) "/" with
  | None => raise (ValueError "No / mount point defined")
  | Some _ => ret tt
  end.

Definition nonempty {A} (l : list A) : bool :=
  match l with [] => false | _ => true end.

(** The body of the loops over [part_list] and [lv_list]: [add] is the
    factory of the container ([disk.add_partition], [raid.add_partition]
    or [vg.add_lv]). *)
Definition parse_unit_item (add : UnitParams -> M StorageManager StorageUnit)
    (item : dict pyval) : M StorageInstaller unit :=
  params <- from_dict item ;;
  unit <- on_manager (add params) ;;
  _add_unit unit.

Definition parse_disk_item (disk_item : dict pyval) : M StorageInstaller unit :=
  id <- lift (read_str_or_fail disk_item "id") ;;
  disk <- on_manager (add_disk id) ;;
  part_list <- lift (read_dict_list disk_item "partitions") ;;
  for_each part_list (parse_unit_item (add_partition disk)).

(** The loops set their [..._created] flag in every iteration, so the value
    returned is whether the list read had an entry. *)
Definition _parse_disks : M StorageInstaller bool :=
  s <- get ;;
  disk_list <- lift (read_dict_list (_data s) "disks") ;;
  for_each disk_list parse_disk_item ;;;
  ret (nonempty disk_list).

Definition parse_raid_item (raid_item : dict pyval) : M StorageInstaller unit :=
  raid_id <- lift (read_str_or_fail raid_item "id") ;;
  level <- lift (read_key_or_fail raid_item "level" TInt) ;;
  metadata <- lift (read_str_or_fail raid_item "metadata") ;;
  let metadata := if String.eqb metadata "" then "1.2" else metadata in
  members_list <- lift (read_str_list raid_item "members") ;;
  members <- map_M _unit_by_id members_list ;;
  raid <- on_manager (add_raid (path_join "/dev/md" raid_id) level members metadata) ;;
  part_list <- lift (read_dict_list raid_item "partitions") ;;
  for_each part_list (parse_unit_item (add_partition raid)).

Definition _parse_raids : M StorageInstaller bool :=
  s <- get ;;
  if negb (dict_contains (_data s) "raids") then ret false
  else
    raid_list <- lift (read_dict_list (_data s) "raids") ;;
    for_each raid_list parse_raid_item ;;;
    ret (nonempty raid_list).

Definition parse_crypto_item (crypto_item : dict pyval) : M StorageInstaller unit :=
  params <- from_dict crypto_item ;;
  part_id <- lift (read_str_or_fail crypto_item "on_partition") ;;
  part <- _unit_by_id part_id ;;
  s <- get ;;
  unit <- on_manager (add_volume (_cryptsetup (_smanager s)) params part) ;;
  _add_unit unit.

Definition _parse_crypto_volumes : M StorageInstaller bool :=
  s <- get ;;
  if negb (dict_contains (_data s) "crypto_volumes") then ret false
  else
    crypto_list <- lift (read_dict_list (_data s) "crypto_volumes") ;;
    for_each crypto_list parse_crypto_item ;;;
    ret (nonempty crypto_list).

Definition parse_vg_item (vg_item : dict pyval) : M StorageInstaller unit :=
  vg_id <- lift (read_str_or_fail vg_item "id") ;;
  pv_list <- lift (read_str_list vg_item "physical_volumes") ;;
  physical_volumes <- map_M _unit_by_id pv_list ;;
  vg <- on_manager (add_vg vg_id physical_volumes) ;;
  lv_list <- lift (read_dict_list vg_item "logical_volumes") ;;
  for_each lv_list (parse_unit_item (add_lv vg)).

Definition _parse_volume_groups : M StorageInstaller bool :=
  s <- get ;;
  if negb (dict_contains (_data s) "volume_groups") then ret false
  else
    vg_list <- lift (read_dict_list (_data s) "volume_groups") ;;
    for_each vg_list parse_vg_item ;;;
    ret (nonempty vg_list).

Definition fs_to_pkg (fs : FSType) : option string :=
  match fs with
  | EXT4 => Some "e2fsprogs"
  | XFS => Some "xfsprogs"
  | VFAT => Some "dosfstools"
  | _ => None
  end.

(** The body of [StorageInstaller.__init__] after [super().__init__]. *)
Definition StorageInstaller_setup : M StorageInstaller unit :=
  has_disks <- _parse_disks ;;
  has_crypto <- _parse_crypto_volumes ;;
  has_raids <- _parse_raids ;;
  has_lvm <- _parse_volume_groups ;;
  modify (set_has has_disks has_crypto has_raids has_lvm) ;;;
  _validate ;;;
  (if has_raids then add_package ["mdadm"; "mdadm-udev"] else ret tt) ;;;
  (if has_crypto then add_package ["cryptsetup"; "cryptsetup-openrc"] else ret tt) ;;;
  (if has_lvm then add_package ["lvm2"] else ret tt) ;;;
  s <- get ;;
  let file_systems :=
    fold_left (fun l u => match fs_type u with Some t => set_add t l | None => l end)
              (dict_values (_units s)) [] in
  put (set_file_systems file_systems s) ;;;
  for_each (set_iter FSType file_systems) (fun fs =>
    match fs_to_pkg fs with
    | Some pkg => add_package [pkg]
    | None => ret tt
    end).

(** The installer when the parsing starts: [_data] is read, [_units] is
    empty and [_smanager] is a fresh manager with its [mount_root_base]. *)
Definition initial_installer (target_root : string) (data : pyval) : StorageInstaller :=
  {| _data := default [] (as_dict data);
     target_root := target_root;
     _units := [];
     _smanager := set_mount_root_base (Some target_root) StorageManager_init;
     _has_disks := false; _has_crypto := false;
     _has_raids := false; _has_lvm := false;
     _packages := [];
     _file_systems := [] |}.

(** [StorageInstaller(target_root, config, event_receiver)]: the installer
    built, or the exception the constructor raises. *)
Definition StorageInstaller_init (target_root : string) (config : dict pyval)
    : res StorageInstaller :=
  match Installer_init "storage" config TDict false with
  | Raise e => Raise e
  | Ok data =>
      match StorageInstaller_setup (initial_installer target_root data) with
      | (Ok _, s) => Ok s
      | (Raise e, _) => Raise e
      end
  end.

(** [efi_mount_point] *)
Definition efi_mount_point (s : StorageInstaller) : option string :=
  match find (fun u => bool_decide (ESP ∈ flags u)) (storage_units (_smanager s)) with
  | Some unit => mount_point unit
  | None => None
  end.

Definition _bind_mounts : list string := ["dev"; "proc"; "sys"].

Definition StorageInstaller_apply (s : StorageInstaller) : M Host unit :=
  start_event "Creating and mounting file systems" ;;;
  for_each (set_iter FSType (_file_systems s)) (fun fs =>
    run_cmd ["modprobe"; FSType_str fs] true ;;; ret tt) ;;;
  create_filesystems (_smanager s) ;;;
  mount (_smanager s) ;;;
  for_each _bind_mounts (fun mount =>
    let src := path_join "/" mount in
    let dst := abs_target_path (target_root s) mount in
    call (os_makedirs dst false) ;;;
    run_cmd ["mount"; "-o"; "bind"; src; dst] false ;;; ret tt).

Definition StorageInstaller_post_apply (s : StorageInstaller) : M Host unit :=
  start_event "Updating storage configuration" ;;;
  write_fstab (_smanager s) (abs_target_path (target_root s) "/etc/fstab") ;;;
  (if _has_raids s
   then write_mdadm_conf (abs_target_path (target_root s) "/etc/mdadm.conf") ;;;
        for_each ["mdadm"; "mdadm-raid"] (fun service =>
          enable_service (target_root s) service "boot")
   else ret tt) ;;;
  (if _has_lvm s then enable_service (target_root s) "lvm" "boot" else ret tt).

Definition StorageInstaller_cleanup (s : StorageInstaller) : M Host unit :=
  start_event "Unmounting file systems" ;;;
  for_each _bind_mounts (fun mount =>
    run_cmd ["umount"; abs_target_path (target_root s) mount] false ;;; ret tt) ;;;
  unmount (_smanager s) ;;;
  deactivate_block_devices (_smanager s).

(** *** BaseInstallerController ([controllers/installer.py]) *)

(** An installer as the controller sees it. *)
Record Installer := mkInstaller {
  i_apply : M Host unit;
  i_post_apply : M Host unit;
  i_cleanup : M Host unit
}.

(** The installers other than the storage installer (repositories, proxy,
    packages, ...) are outside the storage subsystem: each is taken as
    arbitrary code acting on the machine. *)
Record OtherInstaller := mkOther {
  o_apply : M W unit;
  o_post_apply : M W unit;
  o_cleanup : M W unit
}.

Definition storage_as_installer (s : StorageInstaller) : Installer :=
  mkInstaller (StorageInstaller_apply s) (StorageInstaller_post_apply s)
              (StorageInstaller_cleanup s).

Definition other_as_installer (o : OtherInstaller) : Installer :=
  mkInstaller (on_world (o_apply o)) (on_world (o_post_apply o)) (on_world (o_cleanup o)).

Definition TARGET_ROOT : string := "/mnt/target_root".

(** [_copy_yaml_config]: [shutil.copy], [os.chown] and [os.chmod] of the
    configuration file, taken as one external call. *)
Definition _copy_yaml_config : M Host unit :=
  start_event "Saving the config file for this installation on the new system." ;;;
  call (copy_yaml_config (path_join TARGET_ROOT "root/config.yaml")).

(** [enumerate(installers)] *)
Definition enumerate {A} (l : list A) : list (nat * A) := combine (seq 0 (length l)) l.

(** One call [i.apply()], [i.post_apply()] or [i.cleanup()] of a loop of
    [_install_config], recorded in the trace. *)
Definition call_phase (p : phase) (ni : nat * Installer) : M Host unit :=
  emit (Phase (fst ni) p) ;;;
  match p with
  | PApply => i_apply (snd ni)
  | PPostApply => i_post_apply (snd ni)
  | PCleanup => i_cleanup (snd ni)
  end.

(** The loops of [_install_config] over the list [installers].  The first
    loop of the source hands every installer's packages to the packages
    installer, which is one of the arbitrary others. *)
Definition run_installers (installers : list Installer) (copy_config : bool) : M Host unit :=
  for_each (enumerate installers) (call_phase PApply) ;;;
  for_each (enumerate installers) (call_phase PPostApply) ;;;
  (if copy_config then _copy_yaml_config else ret tt) ;;;
  for_each (rev (enumerate installers)) (call_phase PCleanup) ;;;
  add_log_line ("Removing " ++ TARGET_ROOT) ;;;
  call (os_rmdir TARGET_ROOT) ;;;
  start_event (String "010" "Installation complete!").

(** [_install_config], from the point where the configuration document is
    loaded.  [others] is the construction of the other installers. *)
Definition _install_config (config : dict pyval) (copy_config : bool)
    (others : res (list OtherInstaller)) : M Host unit :=
  add_log_line ("Creating a temporary root " ++ TARGET_ROOT) ;;;
  call (os_makedirs TARGET_ROOT true) ;;;
  storage_installer <- lift (StorageInstaller_init TARGET_ROOT config) ;;
  others <- lift others ;;
  let installers := storage_as_installer storage_installer
                      :: map other_as_installer others in
  run_installers installers copy_config.


(** *** The fstab as the specification words it *)

Record fstab_entry := mkEntry {
  fs_spec : string;
  fs_file : string;
  fs_vfstype : string;
  fs_mntopts : string;
  fs_freq : string;
  fs_passno : string
}.

(** The entry of a unit whose file system has the UUID [uuid]: keyed by the
    UUID; the mount point, or [none] for swap; the file-system type; the
    options joined by commas, or [defaults] for swap or without options;
    dump frequency 0; pass number 0 for swap, 1 for the unit mounted at
    [/], 2 otherwise. *)
Definition spec_fstab_entry (uuid : string) (u : StorageUnit) : fstab_entry :=
  {| fs_spec := "UUID=" ++ uuid;
     fs_file := match fs_type u, mount_point u with
                | Some SWAP, _ => "none"
                | _, Some mp => mp
                | _, None => ""
                end;
     fs_vfstype := fs_type_str (fs_type u);
     fs_mntopts := match fs_type u, fs_opts u with
                   | Some SWAP, _ | _, [] => "defaults"
                   | _, opts => String.concat "," opts
                   end;
     fs_freq := "0";
     fs_passno := match fs_type u with
                  | Some SWAP => "0"
                  | _ => if decide (mount_point u = Some "/") then "1" else "2"
                  end |}.

(** One line of the file: the six fields separated by blanks. *)
Definition render_fstab_entry (e : fstab_entry) : string :=
  fs_spec e ++ " " ++ fs_file e ++ " " ++ fs_vfstype e ++ " " ++ fs_mntopts e
    ++ " " ++ fs_freq e ++ " " ++ fs_passno e ++ String "010" "".

Definition spec_fstab_line (uuid : string) (u : StorageUnit) : string :=
  render_fstab_entry (spec_fstab_entry uuid u).

(** *** Observing a run *)

(** Every event a computation appends to the trace satisfies [P]. *)
Definition emits {A} (P : event -> Prop) (c : M Host A) : Prop :=
  forall h, exists evs, trace (snd (c h)) = trace h ++ evs /\ Forall P evs.

(** The events that belong to the teardown: a call of a [cleanup()], an
    [umount], a deactivation of a volume group, a RAID or the crypto
    volumes, and the event [StorageInstaller.cleanup] starts with. *)
Definition is_teardown (e : event) : bool :=
  match e with
  | Phase _ PCleanup => true
  | Run (cmd :: _) => String.eqb cmd "umount"
  | Call (vg_deactivate _) | Call (raid_stop _) | Call cryptsetup_close_volumes => true
  | StartEvent msg => String.eqb msg "Unmounting file systems"
  | _ => false
  end.

Definition no_teardown (e : event) : Prop := is_teardown e = false.

(** The teardown steps of [StorageInstaller.cleanup], in the order of the
    source, each named by the event that records it. *)
Definition cleanup_steps (s : StorageInstaller) : list event :=
  map (fun mount => Run ["umount"; abs_target_path (target_root s) mount]) _bind_mounts
  ++ map (fun item => Run ["umount"; _path_relative_to_mount_root_base (_smanager s) (fst item)])
         (unmount_items (_smanager s))
  ++ map (fun vg => Call (vg_deactivate (device_id vg)))
         (get_devices_by_type (_smanager s) TVolumeGroup)
  ++ map (fun raid => Call (raid_stop (device_id raid)))
         (get_devices_by_type (_smanager s) TRAID)
  ++ [Call cryptsetup_close_volumes].

(** Carrying out the step recorded as [e]. *)
Definition do_step (e : event) : M Host unit :=
  match e with
  | Run args => run_cmd args false ;;; ret tt
  | Call c => call c
  | _ => emit e
  end.

(** What the answer of the host makes of the step recorded as [e] when it
    is carried out in the world [w]: the exception it ends with, if any.  A
    command fails when it cannot be run or exits with a status other than
    0, a call fails when it raises. *)
Definition step_error (e : event) (w : W) : option exn :=
  match e with
  | Run args =>
      match fst (subprocess_run args w) with
      | Ok r => if (returncode r =? 0)%Z then None
                else Some (RuntimeError (join " " args ++ ": failed"))
      | Raise err => Some err
      end
  | Call c =>
      match fst (ext c w) with
      | Ok _ => None
      | Raise err => Some err
      end
  | _ => None
  end.

(** The world the step leaves. *)
Definition step_world (e : event) (w : W) : W :=
  match e with
  | Run args => snd (subprocess_run args w)
  | Call c => snd (ext c w)
  | _ => w
  end.

(** The first of the steps to fail when they are carried out one after the
    other from the world [w]: its position and the exception. *)
Fixpoint first_failure (steps : list event) (w : W) : option (nat * exn) :=
  match steps with
  | [] => None
  | e :: steps' =>
      match step_error e w with
      | Some err => Some (0, err)
      | None =>
          match first_failure steps' (step_world e w) with
          | Some (n, err) => Some (Datatypes.S n, err)
          | None => None
          end
      end
  end.

(** What [_install_config] does before the loop over [cleanup()]. *)
Definition apply_all (installers : list Installer) (copy_config : bool) : M Host unit :=
  for_each (enumerate installers) (call_phase PApply) ;;;
  for_each (enumerate installers) (call_phase PPostApply) ;;;
  (if copy_config then _copy_yaml_config else ret tt).

(** The other installers with their positions in the controller's list,
    where the storage installer has position 0. *)
Definition enumerate_others (others : list OtherInstaller) : list (nat * Installer) :=
  combine (seq 1 (length others)) (map other_as_installer others).

(** *** The states the constructor of the storage installer goes through *)

(** What one action of the constructor can do to the installer: a step of
    the manager, the registration of a unit under a free id, or an update
    of its own flags, packages and file systems. *)
Inductive installer_step (s : StorageInstaller) : StorageInstaller -> Prop :=
| istep_manager m' :
    manager_step (_smanager s) m' -> installer_step s (set_smanager m' s)
| istep_unit u :
    dict_get (_units s) (unit_id u) = None ->
    installer_step s (set_units (_units s ++ [(unit_id u, u)]) s)
| istep_has a b c d : installer_step s (set_has a b c d s)
| istep_packages p : installer_step s (set_packages p s)
| istep_file_systems f : installer_step s (set_file_systems f s).

Definition installer_steps : relation StorageInstaller := rtc installer_step.

(** A computation of the constructor moves the installer by such steps,
    whether it returns or raises. *)
Definition stepwise {A} (c : M StorageInstaller A) : Prop :=
  forall s, installer_steps s (snd (c s)).

(** The units registered so far are partitions declared in the [disks]
    section of [data], or crypto volumes. *)
Definition units_from_disks (data : dict pyval) (s : StorageInstaller) : Prop :=
  forall id u, dict_get (_units s) id = Some u ->
               id ∈ disk_partition_ids data \/ unit_class u = CryptoVolume.

(** *** What the unit factories have in common *)

(** The mount point a unit entry declares. *)
Definition declared_mount_point (v : pyval) (mp : option string) : Prop :=
  match v with
  | PNone => mp = None
  | PStr s => mp = Some s
  | _ => False
  end.

(** A factory of units of class [cls]: when it returns, the unit has the
    id and the mount point of its parameters, an absolute mount point that
    no unit had, and has been appended to the units of a device. *)
Definition unit_factory (cls : UnitClass)
    (add : UnitParams -> M StorageManager StorageUnit) : Prop :=
  forall p m u m',
    add p m = (Ok u, m') ->
    p_id p = PStr (unit_id u) /\ unit_class u = cls /\
    declared_mount_point (p_mount_point p) (mount_point u) /\
    (forall mp, mount_point u = Some mp ->
                isabs mp = true /\ _get_unit_by_mount_point m mp = None) /\
    exists dev d, deref m dev = Some d /\
                  m' = set_heap (<[dev := append_unit d u]> (heap m)) m.

(** The four sections of the configuration, parsed in the order of
    [StorageInstaller.__init__]. *)
Definition parse_sections : M StorageInstaller (bool * bool * bool * bool) :=
  has_disks <- _parse_disks ;;
  has_crypto <- _parse_crypto_volumes ;;
  has_raids <- _parse_raids ;;
  has_lvm <- _parse_volume_groups ;;
  ret (has_disks, has_crypto, has_raids, has_lvm).

(** A computation that returns and only updates the installer's flags,
    packages and file systems. *)
Definition bookkeeping {A} (c : M StorageInstaller A) : Prop :=
  forall s, exists a s', c s = (Ok a, s') /\
                         _smanager s' = _smanager s /\ _units s' = _units s.

(** *** The root mount point *)

(** The mount point that a unit entry of the configuration declares. *)
Definition entry_mount_point (item : dict pyval) : option string :=
  as_str (pyget item "mount_point").

(** The unit entry declares the mount point [/]. *)
Definition declares_root (item : dict pyval) : bool :=
  bool_decide (entry_mount_point item = Some "/").

(** The units built so far are those of the entries [acc]: one unit for
    each entry, with the mount point that the entry declares. *)
Definition units_declared (acc : list (dict pyval)) (s : StorageInstaller) : Prop :=
  registry_wf (_smanager s) /\
  map mount_point (all_units (_smanager s)) ≡ₚ map entry_mount_point acc.

(** No two units of the manager have the same mount point. *)
Definition mount_points_unique (m : StorageManager) : Prop :=
  NoDup (omap mount_point (all_units m)).

(** The units mounted at [/]. *)
Definition root_units (m : StorageManager) : list StorageUnit :=
  List.filter (has_mount_point "/") (all_units m).

(** ** Where the storage life cycle touches the machine *)

(** The event is a command of [mount] or [unmount] whose directory lies
    under [base]. *)
Definition under_root_base (base : string) (e : event) : Prop :=
  match e with
  | Run ["mkdir"; "-p"; dir] => String.prefix base dir = true
  | Run ["mount"; "-t"; _; _; dir] => String.prefix base dir = true
  | Run ["umount"; dir] => String.prefix base dir = true
  | _ => False
  end.

(** The installer's table of units holds the units of the manager's
    devices. *)
Definition units_registered (s : StorageInstaller) : Prop :=
  registry_wf (_smanager s) /\
  dict_values (_units s) ≡ₚ all_units (_smanager s).

(** Every unit of the table is registered under its own id. *)
Definition unit_keys_match (s : StorageInstaller) : Prop :=
  Forall (fun kv => unit_id (snd kv) = fst kv) (_units s).

(** A computation that does not change what [f] reads off the installer. *)
Definition keeps {A B} (f : StorageInstaller -> B) (c : M StorageInstaller A) : Prop :=
  forall s, f (snd (c s)) = f s.

(** The package that the constructor asks for on behalf of a unit: the
    tool that makes the unit's file system. *)
Definition fs_package (u : StorageUnit) : option string :=
  fs ← fs_type u; fs_to_pkg fs.

(** What [post_apply] of the storage installer may do on the machine: query
    the UUID of a block device, write [/etc/fstab]; and, when the
    configuration has RAIDs, scan them, write a non-empty
    [/etc/mdadm.conf] and enable the services [mdadm] and [mdadm-raid];
    and, when it has volume groups, enable the service [lvm]. *)
Definition post_apply_event (s : StorageInstaller) (e : event) : Prop :=
  match e with
  | StartEvent msg => msg = "Updating storage configuration"
  | Run args =>
      (exists device_path, args = blkid_args device_path) \/
      (_has_raids s = true /\
       (args = ["mdadm"; "--detail"; "--scan"] \/
        exists service, service ∈ ["mdadm"; "mdadm-raid"] /\
          args = ["chroot"; target_root s; "rc-update"; "add"; service; "boot"])) \/
      (_has_lvm s = true /\
       args = ["chroot"; target_root s; "rc-update"; "add"; "lvm"; "boot"])
  | Call c =>
      (exists data,
         c = write_file (abs_target_path (target_root s) "/etc/fstab") "w" data) \/
      (_has_raids s = true /\
       exists data, data <> "" /\
         c = write_file (abs_target_path (target_root s) "/etc/mdadm.conf") "wb" data)
  | _ => False
  end.

(** The life-cycle call that an event records, if it records one. *)
Definition phase_of (e : event) : option (nat * phase) :=
  match e with
  | Phase i p => Some (i, p)
  | _ => None
  end.

(** When the computation returns, what [obs] reads off the events it has
    recorded is [l], in order. *)
Definition records {A B} (obs : event -> option B) (l : list B) (c : M Host A) : Prop :=
  forall h a h', c h = (Ok a, h') ->
    exists evs, trace h' = trace h ++ evs /\ omap obs evs = l.

(** The unit whose file system the event records as made. *)
Definition formatted (e : event) : option string :=
  match e with
  | Call (unit_make_fs id) => Some id
  | _ => None
  end.

(** The Cryptsetup singleton is the first object of the manager and the
    only device of its class. *)
Definition cryptsetup_single (m : StorageManager) : Prop :=
  exists volumes rest,
    _cryptsetup m = 0 /\
    heap m = Cryptsetup "__cryptsetup__" volumes :: rest /\
    Forall (fun d => device_class d <> TCryptsetup) rest.

(** The units of the devices of class [t], in the order of the registry. *)
Definition units_of_class (m : StorageManager) (t : DeviceClass) : list StorageUnit :=
  flat_map storage_units_of (get_devices_by_type m t).

(** What [apply] and [cleanup] of the storage installer may do on the
    machine for the target root [root]: load a file-system module, drive
    the device tools, and create, mount on, bind-mount on and unmount
    directories whose path starts, as a string, with [root]. *)
Definition storage_event_under (root : string) (e : event) : Prop :=
  match e with
  | Run ["modprobe"; _] => True
  | Run ["mkdir"; "-p"; dir] => String.prefix root dir = true
  | Run ["mount"; "-t"; _; _; dir] => String.prefix root dir = true
  | Run ["mount"; "-o"; "bind"; _; dir] => String.prefix root dir = true
  | Run ["umount"; dir] => String.prefix root dir = true
  | Run _ => False
  | Call (os_makedirs dir _) => String.prefix root dir = true
  | Call (os_rmdir _) | Call (write_file _ _ _) | Call (copy_yaml_config _) => False
  | Call _ => True
  | StartEvent _ => True
  | LogLine _ | Phase _ _ => False
  end.

(** ** The password file ([installers/users.py]) *)

(** [':' in s] *)
Fixpoint has_colon (s : string) : bool :=
  match s with
  | EmptyString => false
  | String c s' => Ascii.eqb c ":" || has_colon s'
  end.

(** [s.split(':')]: the fields of a line, at least one. *)
Fixpoint split_colon (s : string) : list string :=
  match s with
  | EmptyString => [EmptyString]
  | String c s' =>
      if Ascii.eqb c ":" then EmptyString :: split_colon s'
      else match split_colon s' with
           | t :: ts => String c t :: ts
           | [] => [String c EmptyString]
           end
  end.

(** [tokens[0]] of a line *)
Definition first_field (line : string) : string := hd EmptyString (split_colon line).

(** How [update_user_hash] ends: it writes the file anew, or an assignment
    to [tokens[1]] or [tokens[2]] raises [IndexError], or it raises
    [RuntimeError] because no line is the user's. *)
Inductive user_hash_result :=
| Written (data : string)
| Raised_IndexError
| Raised_RuntimeError (msg : string).

(** The assignments [tokens[1] = password_hash] and [tokens[2] = days]; a
    line with fewer than three fields has no such index. *)
Definition set_hash_fields (tokens : list string) (password_hash days : string)
    : option (list string) :=
  match tokens with
  | t0 :: _ :: _ :: rest => Some (t0 :: password_hash :: days :: rest)
  | _ => None
  end.

(** The loop of [update_user_hash] over the lines read: the lines as they
    are afterwards with [found_user], or nothing when an assignment raised.
    [days] is [str((now - epoch).days)], read off the clock. *)
Fixpoint update_lines (lines : list string) (user password_hash days : string)
    : option (list string * bool) :=
  match lines with
  | [] => Some ([], false)
  | line :: lines' =>
      let tokens := split_colon line in
      if negb (String.eqb (hd EmptyString tokens) user)
      then '(rest, found) ← update_lines lines' user password_hash days;
           Some (line :: rest, found)
      else tokens' ← set_hash_fields tokens password_hash days;
           '(rest, _) ← update_lines lines' user password_hash days;
           Some (join ":" tokens' :: rest, true)
  end.

(** [update_user_hash(etc_shadow, user, password_hash)] between reading
    the lines of the file ([file.readlines()]) and writing the file anew
    ([write_file(etc_shadow, 'w', data)]). *)
Definition update_user_hash (lines : list string) (etc_shadow user password_hash days : string)
    : user_hash_result :=
  match update_lines lines user password_hash days with
  | None => Raised_IndexError
  | Some (_, false) =>
      Raised_RuntimeError ("No user '" ++ user ++ "' found in '" ++ etc_shadow ++ "'")
  | Some (lines', true) => Written (String.concat "" lines')
  end.

(** The output is text in ASCII: every byte is below 128.  On such output
    [decode()] is the identity and the white space of [str.strip()] is that
    of [is_space]. *)
Definition ascii_text (out : string) : bool :=
  forallb (fun c => Nat.ltb (nat_of_ascii c) 128) (list_ascii_of_string out).

(** The directory that the event records as mounted on. *)
Definition mounted_dir (e : event) : option string :=
  match e with
  | Run ["mount"; "-t"; _; _; dir] => Some dir
  | _ => None
  end.

(** The directory that the event records as unmounted. *)
Definition unmounted_dir (e : event) : option string :=
  match e with
  | Run ["umount"; dir] => Some dir
  | _ => None
  end.

(** ** Example data for the further properties *)

(** A manager built through its operations: one disk with a boot and a
    root partition, under the target root. *)
Definition example_built : StorageManager :=
  run_op (op_add_partition 1 (example_params "root" EXT4 (PStr "/")))
    (run_op (op_add_partition 1 (example_params "boot" EXT4 (PStr "/boot")))
       (run_op (op_add_disk "/dev/vda")
          (run_op (op_set_mount_root_base (Some "/mnt/target_root"))
                  StorageManager_init))).

(** A machine on which [mdadm] prints nothing. *)
Definition machine_silent (args : list string) (w : unit) : res CompletedProcess * unit :=
  (Ok (mkCompleted 0 ""), w).

(** A configuration with an EFI system partition and the root file system. *)
Definition config_with_esp : dict pyval :=
  [("storage", PDict [
     ("disks", PList [
        PDict [("id", PStr "/dev/vda");
               ("partitions", PList [
                  PDict [("id", PStr "efi"); ("size", PStr "512M");
                         ("fs_type", PStr "vfat"); ("mount_point", PStr "/boot/efi");
                         ("flags", PList [PStr "esp"])];
                  PDict [("id", PStr "root"); ("fs_type", PStr "ext4");
                         ("mount_point", PStr "/")]])]])])].

(** A root partition as a disk would build it. *)
Definition example_root_unit : StorageUnit :=
  mkUnit Partition "/dev/vda" 1 "root" 0 (Some EXT4) [] (Some "/") [] PNone None.

(** An installer whose manager is [example_built]. *)
Definition example_installer : StorageInstaller :=
  set_smanager example_built (initial_installer "/mnt/target_root" PNone).

(** ** Devices built on units *)

(** The units a device is built on: the members of a RAID, the physical
    volumes of a volume group. *)
Definition members_of (d : StorageDevice) : list StorageUnit :=
  match d with
  | RAID _ _ _ members _ => members
  | VolumeGroup _ physical_volumes _ => physical_volumes
  | _ => []
  end.

(** The place of a class of devices in the order in which
    [create_filesystems] goes through the devices. *)
Definition layer (t : DeviceClass) : nat :=
  match t with
  | TDisk => 0
  | TCryptsetup => 1
  | TRAID => 2
  | TVolumeGroup => 3
  end.

(** [create_filesystems] goes through the device [d'] at address [a']
    before the device [d] at address [a]. *)
Definition comes_before (d' : StorageDevice) (a' : nat) (d : StorageDevice) (a : nat)
    : Prop :=
  layer (device_class d') < layer (device_class d) \/
  (device_class d' = device_class d /\ a' < a).

(** Every unit a device is built on is a unit of a device that comes
    before it. *)
Definition layered (m : StorageManager) : Prop :=
  forall a d u, deref m a = Some d -> u ∈ members_of d ->
    exists a' d', deref m a' = Some d' /\ u ∈ storage_units_of d' /\
                  comes_before d' a' d a.

(** No volume group is registered. *)
Definition no_vg (m : StorageManager) : Prop :=
  forall a d, deref m a = Some d -> device_class d <> TVolumeGroup.

(** What the parsing of the sections keeps: the table of units holds the
    units of the devices, the devices are layered and, until the volume
    groups are parsed ([before_lvm]), no volume group is registered. *)
Definition built_in_layers (before_lvm : bool) (s : StorageInstaller) : Prop :=
  units_registered s /\ layered (_smanager s) /\
  (before_lvm = true -> no_vg (_smanager s)).

(** The call by which [create_filesystems] sets a device up, before it
    makes the file systems of its units. *)
Definition create_call (d : StorageDevice) : ext_call :=
  match d with
  | Disk id _ => disk_create_partitions id
  | RAID id _ _ _ _ => raid_create_partitions id
  | VolumeGroup id _ _ => vg_create_logical_volumes id
  | Cryptsetup _ _ => cryptsetup_open_volumes
  end.

(** The call an event records, unless it makes a file system. *)
Definition set_up (e : event) : option ext_call :=
  match e with
  | Call (unit_make_fs _) => None
  | Call c => Some c
  | _ => None
  end.

(** [x] occurs in [l] at some place before an occurrence of [y]. *)
Definition precedes {A} (x y : A) (l : list A) : Prop :=
  exists l1 l2 l3, l = l1 ++ x :: l2 ++ y :: l3.

(** The call by which [deactivate_block_devices] takes a device down; it
    makes none for a disk. *)
Definition stop_call (d : StorageDevice) : option ext_call :=
  match d with
  | Disk _ _ => None
  | RAID id _ _ _ _ => Some (raid_stop id)
  | VolumeGroup id _ _ => Some (vg_deactivate id)
  | Cryptsetup _ _ => Some cryptsetup_close_volumes
  end.

(** The call an event records. *)
Definition call_of (e : event) : option ext_call :=
  match e with
  | Call c => Some c
  | _ => None
  end.


(** ** Facts about the Python layer *)

Lemma leb_iff (s1 s2 : string) :
  String.leb s1 s2 = true <-> String_as_OT.lt s1 s2 \/ s1 = s2.
Proof.
  unfold String.leb. destruct (String.compare s1 s2) eqn:E.
  - apply String_as_OT.cmp_eq in E. tauto.
  - apply String_as_OT.cmp_lt in E. tauto.
  - split; [discriminate|]. intros [H | ->].
    + apply String_as_OT.cmp_lt in H. unfold String_as_OT.cmp in H. congruence.
    + assert (String_as_OT.cmp s2 s2 = Eq) as H by (by apply String_as_OT.cmp_eq).
      unfold String_as_OT.cmp in H. congruence.
Qed.

Lemma ltb_iff (s1 s2 : string) :
  String.ltb s1 s2 = true <-> String_as_OT.lt s1 s2.
Proof.
  unfold String.ltb. rewrite <- String_as_OT.cmp_lt. unfold String_as_OT.cmp.
  destruct (String.compare s1 s2); intuition congruence.
Qed.

Lemma leb_refl (s : string) : String.leb s s = true.
Proof. apply leb_iff. by right. Qed.

Lemma leb_trans (s1 s2 s3 : string) :
  String.leb s1 s2 = true -> String.leb s2 s3 = true -> String.leb s1 s3 = true.
Proof.
  rewrite !leb_iff. intros [H1 | ->] [H2 | ->]; eauto using String_as_OT.lt_trans.
Qed.

Lemma ltb_leb_ne (s1 s2 : string) :
  String.ltb s1 s2 = true <-> String.leb s1 s2 = true /\ s1 <> s2.
Proof.
  rewrite ltb_iff, leb_iff. split.
  - intros H. split; [by left|]. intros ->. by apply String_as_OT.lt_not_eq in H.
  - intros [[H | H] Hne]; done.
Qed.

Lemma ltb_asym (s1 s2 : string) :
  String.ltb s1 s2 = true -> String.ltb s2 s1 = true -> False.
Proof.
  rewrite !ltb_leb_ne. intros [H1 Hne] [H2 _]. by apply Hne, String.leb_antisym.
Qed.

Lemma ltb_trans (s1 s2 s3 : string) :
  String.ltb s1 s2 = true -> String.ltb s2 s3 = true -> String.ltb s1 s3 = true.
Proof. rewrite !ltb_iff. apply String_as_OT.lt_trans. Qed.

(** A proper prefix sorts first: a parent directory precedes what is
    nested beneath it. *)
Lemma prefix_ltb (p q : string) :
  String.prefix p q = true -> p <> q -> String.ltb p q = true.
Proof.
  rewrite ltb_iff. revert q. induction p as [|c p IH]; intros [|d q]; simpl; try done.
  - intros _ _. constructor.
  - destruct (ascii_dec c d) as [->|]; [|done].
    intros Hp Hne. constructor. apply IH; [done|]. congruence.
Qed.

Section SortedFacts.
Context {A : Type} (key : A -> string).

Lemma insert_sorted_perm (x : A) (l : list A) : insert_sorted key x l ≡ₚ x :: l.
Proof.
  induction l as [|y l IH]; simpl; [done|].
  destruct (String.leb (key x) (key y)); [done|].
  rewrite IH. apply Permutation_swap.
Qed.

Lemma sort_stable_perm (l : list A) : sort_stable key l ≡ₚ l.
Proof.
  induction l as [|x l IH]; simpl; [done|].
  by rewrite insert_sorted_perm, IH.
Qed.

Lemma insert_sorted_sorted (x : A) (l : list A) :
  StronglySorted (key_le key) l -> StronglySorted (key_le key) (insert_sorted key x l).
Proof.
  induction 1 as [|y l Hl IH Hy]; simpl.
  - repeat constructor.
  - destruct (String.leb (key x) (key y)) eqn:E.
    + constructor; [by constructor|]. constructor; [done|].
      eapply Forall_impl; [exact Hy|]. intros z Hz. eapply leb_trans; eauto.
    + constructor; [done|].
      rewrite insert_sorted_perm. constructor; [|done].
      destruct (String.leb_total (key x) (key y)); [congruence | done].
Qed.

Lemma sort_stable_sorted (l : list A) : StronglySorted (key_le key) (sort_stable key l).
Proof.
  induction l; simpl; [constructor | by apply insert_sorted_sorted].
Qed.

Lemma sorted_le_lt (l : list A) :
  NoDup (map key l) -> StronglySorted (key_le key) l -> StronglySorted (key_lt key) l.
Proof.
  intros Hnd. induction 1 as [|x l Hl IH Hx]; [constructor|].
  apply NoDup_cons in Hnd as [Hx' Hnd]. constructor; [by apply IH|].
  apply Forall_forall. intros y Hy. apply ltb_leb_ne. split.
  - by eapply Forall_forall in Hx.
  - intros E. apply Hx'. rewrite E. by apply (list_elem_of_fmap_2 key).
Qed.

Lemma sort_stable_unique (l1 l2 : list A) :
  NoDup (map key l1) -> l1 ≡ₚ l2 -> sort_stable key l1 = sort_stable key l2.
Proof.
  intros Hnd Hp.
  apply (StronglySorted_unique_strong (key_lt key)).
  - intros x1 x2 _ _ H1 H2. by destruct (ltb_asym _ _ H1 H2).
  - apply sorted_le_lt; [|apply sort_stable_sorted].
    by rewrite sort_stable_perm.
  - apply sorted_le_lt; [|apply sort_stable_sorted].
    by rewrite sort_stable_perm, <- Hp.
  - by rewrite !sort_stable_perm.
Qed.

(** With distinct keys, sorting in reverse is the reverse of sorting. *)
Lemma sorted_reverse (l : list A) :
  NoDup (map key l) -> sorted key true l = rev (sorted key false l).
Proof.
  intros Hnd. unfold sorted. f_equal. apply sort_stable_unique.
  - by rewrite map_rev, <- Permutation_rev.
  - by rewrite <- Permutation_rev.
Qed.

Lemma sorted_ascending (l : list A) :
  NoDup (map key l) -> StronglySorted (key_lt key) (sorted key false l).
Proof.
  intros Hnd. apply sorted_le_lt; [|apply sort_stable_sorted].
  unfold sorted. by rewrite sort_stable_perm.
Qed.

(** In a strictly ascending list the smaller of two members comes first. *)
Lemma ascending_before (l : list A) (x y : A) :
  StronglySorted (key_lt key) l -> x ∈ l -> y ∈ l -> key_lt key x y ->
  exists l1 l2 l3, l = l1 ++ x :: l2 ++ y :: l3.
Proof.
  intros Hs Hx Hy Hlt.
  apply list_elem_of_split in Hx as (l1 & r & ->).
  apply StronglySorted_app in Hs as (H12 & _ & Hr).
  apply StronglySorted_inv in Hr as [_ Hr].
  rewrite elem_of_app, elem_of_cons in Hy. destruct Hy as [Hy | [-> | Hy]].
  - destruct (ltb_asym _ _ Hlt). apply H12; [done | left].
  - destruct (ltb_asym _ _ Hlt Hlt).
  - apply list_elem_of_split in Hy as (l2 & l3 & ->). by exists l1, l2, l3.
Qed.

End SortedFacts.

Lemma StronglySorted_rev_flip {A} (R : relation A) (l : list A) :
  StronglySorted R l -> StronglySorted (flip R) (rev l).
Proof.
  induction 1 as [|x l Hl IH Hx]; simpl; [constructor|].
  apply StronglySorted_app_2; [|done|repeat constructor].
  intros y z Hy Hz. apply list_elem_of_singleton in Hz as ->.
  apply list_elem_of_In, in_rev, list_elem_of_In in Hy.
  by eapply Forall_forall in Hx.
Qed.

(** The iteration order of a set is some order of its elements. *)
Hypothesis set_iter_perm : forall (A : Type) (l : list A), NoDup l -> set_iter A l ≡ₚ l.

(** ** Facts about computations *)

Section MonadFacts.
Context {St : Type}.

Lemma bind_assoc {A B C} (c : M St A) (k : A -> M St B) (k' : B -> M St C) :
  bind (bind c k) k' = bind c (fun a => bind (k a) k').
Proof.
  extensionality s. unfold bind. by destruct (c s) as [[a|e] s1].
Qed.

Lemma bind_ret_r (c : M St unit) : bind c (fun _ => ret tt) = c.
Proof.
  extensionality s. unfold bind, ret. by destruct (c s) as [[[]|e] s1].
Qed.

Lemma bind_run_ok {A B} (c : M St A) (k : A -> M St B) s a s1 :
  c s = (Ok a, s1) -> bind c k s = k a s1.
Proof. unfold bind. by intros ->. Qed.

Lemma bind_run_raise {A B} (c : M St A) (k : A -> M St B) s e s1 :
  c s = (Raise e, s1) -> bind c k s = (Raise e, s1).
Proof. unfold bind. by intros ->. Qed.

Lemma bind_ok_inv {A B} (c : M St A) (k : A -> M St B) s b s' :
  bind c k s = (Ok b, s') ->
  exists a s1, c s = (Ok a, s1) /\ k a s1 = (Ok b, s').
Proof.
  unfold bind. destruct (c s) as [[a|e] s1]; [eauto | done].
Qed.

Lemma bind_raise_inv {A B} (c : M St A) (k : A -> M St B) s e s' :
  bind c k s = (Raise e, s') ->
  c s = (Raise e, s') \/ exists a s1, c s = (Ok a, s1) /\ k a s1 = (Raise e, s').
Proof.
  unfold bind. destruct (c s) as [[a|e'] s1] eqn:E; intros H; [right; eauto | left; congruence].
Qed.

Lemma for_each_app {A} (l1 l2 : list A) (f : A -> M St unit) :
  for_each (l1 ++ l2) f = (for_each l1 f ;;; for_each l2 f).
Proof.
  induction l1 as [|x l1 IH]; simpl; [done|].
  by rewrite IH, bind_assoc.
Qed.

Lemma for_each_map {A B} (g : A -> B) (l : list A) (f : B -> M St unit) :
  for_each (map g l) f = for_each l (fun x => f (g x)).
Proof. induction l as [|x l IH]; simpl; [done | by rewrite IH]. Qed.

Lemma for_each_ext {A} (l : list A) (f g : A -> M St unit) :
  (forall x, x ∈ l -> f x = g x) -> for_each l f = for_each l g.
Proof.
  induction l as [|x l IH]; simpl; [done|]. intros H.
  rewrite (H x) by left. rewrite IH; [done|]. intros y Hy. apply H. by right.
Qed.

(** A loop that returns has run its body, with success, on every element;
    an invariant that every run of the body keeps holds throughout. *)
Lemma for_each_ok_inv {A} (I : St -> Prop) (l : list A) (body : A -> M St unit) s s' :
  (forall x s1, x ∈ l -> I s1 -> I (snd (body x s1))) ->
  I s -> for_each l body s = (Ok tt, s') ->
  I s' /\ forall x, x ∈ l -> exists s1 s2, I s1 /\ body x s1 = (Ok tt, s2).
Proof.
  revert s. induction l as [|x l IH]; simpl; intros s Hbody Hs Hrun.
  - inversion Hrun; subst. split; [done|]. intros x Hx. by apply elem_of_nil in Hx.
  - apply bind_ok_inv in Hrun as ([] & s1 & Hx & Hrest).
    assert (I s1) as Hs1.
    { specialize (Hbody x s (list_elem_of_here _ _) Hs). by rewrite Hx in Hbody. }
    destruct (IH s1) as [Hs' Hall]; [|done|done|].
    { intros y s2 Hy. apply Hbody. by right. }
    split; [done|]. intros y Hy. apply elem_of_cons in Hy as [->|Hy]; eauto.
Qed.

(** An invariant kept by the body is kept by the loop, however it ends. *)
Lemma for_each_inv {A} (I : St -> Prop) (l : list A) (body : A -> M St unit) s :
  (forall x s1, x ∈ l -> I s1 -> I (snd (body x s1))) ->
  I s -> I (snd (for_each l body s)).
Proof.
  revert s. induction l as [|x l IH]; simpl; intros s Hbody Hs; [done|].
  unfold bind. pose proof (Hbody x s (list_elem_of_here _ _) Hs) as Hx.
  destruct (body x s) as [[[]|e] s1]; simpl in *; [|done].
  apply IH; [|done]. intros y s2 Hy. apply Hbody. by right.
Qed.

Lemma map_M_inv {A B} (I : St -> Prop) (l : list A) (f : A -> M St B) s :
  (forall x s1, x ∈ l -> I s1 -> I (snd (f x s1))) ->
  I s -> I (snd (map_M f l s)).
Proof.
  revert s. induction l as [|x l IH]; simpl; intros s Hf Hs; [done|].
  unfold bind. pose proof (Hf x s (list_elem_of_here _ _) Hs) as Hx.
  destruct (f x s) as [[b|e] s1]; simpl in *; [|done].
  assert (I (snd (map_M f l s1))) as Hl.
  { apply IH; [|done]. intros y s2 Hy. apply Hf. by right. }
  by destruct (map_M f l s1) as [[bs|e] s2].
Qed.

End MonadFacts.

(** ** Mounting and unmounting *)

(** ** What a run emits *)

Section EmitsFacts.
Context (P : event -> Prop).

Lemma emits_ret {A} (a : A) : emits P (ret a).
Proof. intros h. exists []. by rewrite app_nil_r. Qed.

Lemma emits_raise {A} (e : exn) : emits P (raise (A := A) e).
Proof. intros h. exists []. by rewrite app_nil_r. Qed.

Lemma emits_lift {A} (r : res A) : emits P (lift r).
Proof. intros h. exists []. by rewrite app_nil_r. Qed.

Lemma emits_on_world {A} (c : M W A) : emits P (on_world c).
Proof.
  intros h. exists []. unfold on_world. destruct (c (world h)). by rewrite app_nil_r.
Qed.

Lemma emits_emit (e : event) : P e -> emits P (emit e).
Proof. intros He h. exists [e]. split; [done | by constructor]. Qed.

Lemma emits_bind {A B} (c : M Host A) (k : A -> M Host B) :
  emits P c -> (forall a, emits P (k a)) -> emits P (bind c k).
Proof.
  intros Hc Hk h. destruct (Hc h) as (evs & Ht & Hevs). unfold bind.
  destruct (c h) as [[a|e] h1]; simpl in *; [|eauto].
  destruct (Hk a h1) as (evs' & Ht' & Hevs').
  exists (evs ++ evs'). split; [|by apply Forall_app].
  by rewrite Ht', Ht, app_assoc.
Qed.

Lemma emits_for_each {A} (l : list A) (f : A -> M Host unit) :
  (forall x, emits P (f x)) -> emits P (for_each l f).
Proof.
  intros Hf. induction l; simpl; [apply emits_ret | by apply emits_bind].
Qed.

Lemma emits_map_M {A B} (l : list A) (f : A -> M Host B) :
  (forall x, emits P (f x)) -> emits P (map_M f l).
Proof.
  intros Hf. induction l; simpl; [apply emits_ret|].
  apply emits_bind; [done|]. intros b. apply emits_bind; [done|].
  intros bs. apply emits_ret.
Qed.

Lemma emits_run_cmd (args : list string) (ignore_status : bool) :
  P (Run args) -> emits P (run_cmd args ignore_status).
Proof.
  intros HP. unfold run_cmd. apply emits_bind; [by apply emits_emit|]. intros _.
  apply emits_bind; [apply emits_on_world|]. intros r.
  destruct (_ && _); [apply emits_raise | apply emits_ret].
Qed.

Lemma emits_call (c : ext_call) : P (Call c) -> emits P (call c).
Proof.
  intros HP. unfold call. apply emits_bind; [by apply emits_emit|]. intros _.
  apply emits_on_world.
Qed.

End EmitsFacts.

Ltac emits_step :=
  first
    [ apply emits_ret | apply emits_raise | apply emits_lift | apply emits_on_world
    | apply emits_emit; reflexivity
    | apply emits_run_cmd; reflexivity
    | apply emits_call; reflexivity
    | apply emits_for_each; intros
    | apply emits_map_M; intros
    | apply emits_bind; [|intros]
    | match goal with
      | |- emits _ (if ?b then _ else _) => destruct b
      | |- emits _ (match ?x with _ => _ end) => destruct x
      end ].

Lemma apply_emits_no_teardown (s : StorageInstaller) :
  emits no_teardown (StorageInstaller_apply s).
Proof.
  unfold StorageInstaller_apply, create_filesystems, mount, mount_one, start_event.
  repeat emits_step.
Qed.

Lemma post_apply_emits_no_teardown (s : StorageInstaller) :
  emits no_teardown (StorageInstaller_post_apply s).
Proof.
  unfold StorageInstaller_post_apply, write_fstab, write_mdadm_conf, enable_service,
    run_in_chroot, fs_uuid, get_fs_uuid, start_event.
  repeat emits_step.
Qed.

(** ** Teardown *)

Lemma do_step_trace (e : event) (h : Host) :
  trace (snd (do_step e h)) = trace h ++ [e].
Proof.
  destruct e as [args|c| | |]; simpl; try done.
  - unfold run_cmd, bind, emit, on_world; simpl.
    destruct (subprocess_run args (world h)) as [[r|e] w]; simpl; [|done].
    by destruct (returncode r =? 0)%Z.
  - unfold call, bind, emit, on_world; simpl.
    by destruct (ext c (world h)) as [[[]|e] w].
Qed.

(** A sequence of steps is attempted in order up to and including the first
    one that raises. *)
Lemma for_each_do_step_trace (steps : list event) (h : Host) :
  exists n,
    trace (snd (for_each steps do_step h)) = trace h ++ firstn n steps /\
    match fst (for_each steps do_step h) with
    | Ok _ => n = length steps
    | Raise _ => 1 <= n <= length steps
    end.
Proof.
  revert h. induction steps as [|e steps IH]; intros h; simpl.
  - exists 0. by rewrite app_nil_r.
  - unfold bind. pose proof (do_step_trace e h) as He.
    destruct (do_step e h) as [[[]|err] h1]; simpl in *.
    + destruct (IH h1) as (n & Ht & Hr). exists (Datatypes.S n). split.
      * by rewrite Ht, He, <- app_assoc.
      * destruct (fst (for_each steps do_step h1)); lia.
    + exists 1. split; [done | lia].
Qed.

Lemma cleanup_as_steps (s : StorageInstaller) :
  StorageInstaller_cleanup s
  = (start_event "Unmounting file systems" ;;; for_each (cleanup_steps s) do_step).
Proof.
  unfold StorageInstaller_cleanup, cleanup_steps, unmount, deactivate_block_devices.
  f_equal. extensionality u0.
  rewrite !for_each_app, !for_each_map.
  f_equal. extensionality u1. f_equal.
  { apply for_each_ext. by intros [mp u] _. }
  extensionality u2. f_equal. extensionality u3. f_equal. extensionality u4.
  simpl. by rewrite bind_ret_r.
Qed.

(** [StorageInstaller.cleanup] attempts its teardown steps in order, up to
    and including the one that raises. *)
Lemma cleanup_attempts_in_order (s : StorageInstaller) (h : Host) :
  exists n,
    trace (snd (StorageInstaller_cleanup s h))
      = trace h ++ StartEvent "Unmounting file systems" :: firstn n (cleanup_steps s) /\
    match fst (StorageInstaller_cleanup s h) with
    | Ok _ => n = length (cleanup_steps s)
    | Raise _ => 1 <= n <= length (cleanup_steps s)
    end.
Proof.
  rewrite cleanup_as_steps.
  change ((start_event "Unmounting file systems" ;;; for_each (cleanup_steps s) do_step) h)
    with (for_each (cleanup_steps s) do_step
            (mkHost (world h) (trace h ++ [StartEvent "Unmounting file systems"]))).
  destruct (for_each_do_step_trace (cleanup_steps s)
              (mkHost (world h) (trace h ++ [StartEvent "Unmounting file systems"])))
    as (n & Ht & Hr).
  exists n. split; [|done]. rewrite Ht. simpl. by rewrite <- app_assoc.
Qed.

(** What a step does on the host: it is recorded, the world moves on, and
    it ends as the answer of the host says. *)
Lemma do_step_spec (e : event) (h : Host) :
  do_step e h
  = (match step_error e (world h) with Some err => Raise err | None => Ok tt end,
     mkHost (step_world e (world h)) (trace h ++ [e])).
Proof.
  destruct e as [args|c| | |]; try done.
  - unfold do_step, step_error, step_world, run_cmd, bind, emit, on_world, ret, raise.
    cbn [world trace fst snd].
    destruct (subprocess_run args (world h)) as [[r|err] w]; cbn [fst snd]; [|done].
    by destruct (returncode r =? 0)%Z.
  - unfold do_step, step_error, step_world, call, bind, emit, on_world.
    cbn [world trace fst snd].
    by destruct (ext c (world h)) as [[[]|err] w].
Qed.

(** Steps carried out one after the other: all of them when none fails,
    and otherwise those up to and including the first that fails, whose
    exception ends the run. *)
Lemma run_steps_spec (steps : list event) (h : Host) :
  match first_failure steps (world h) with
  | None =>
      fst (for_each steps do_step h) = Ok tt /\
      trace (snd (for_each steps do_step h)) = trace h ++ steps
  | Some (n, err) =>
      n < length steps /\
      fst (for_each steps do_step h) = Raise err /\
      trace (snd (for_each steps do_step h)) = trace h ++ firstn (Datatypes.S n) steps
  end.
Proof.
  revert h. induction steps as [|e steps IH]; intros h.
  - simpl. by rewrite app_nil_r.
  - assert (for_each (e :: steps) do_step h
            = match step_error e (world h) with
              | Some err => (Raise err, mkHost (step_world e (world h)) (trace h ++ [e]))
              | None => for_each steps do_step
                          (mkHost (step_world e (world h)) (trace h ++ [e]))
              end) as ->.
    { cbn [for_each]. unfold bind. rewrite do_step_spec.
      by destruct (step_error e (world h)). }
    cbn [first_failure].
    destruct (step_error e (world h)) as [err|].
    + cbn [fst snd trace length firstn]. split; [lia|]. done.
    + specialize (IH (mkHost (step_world e (world h)) (trace h ++ [e]))).
      cbn [world trace] in IH.
      destruct (first_failure steps (step_world e (world h))) as [[n err]|].
      * destruct IH as (Hn & Hf & Ht). cbn [length firstn]. split; [lia|].
        split; [done|]. rewrite Ht, <- app_assoc. done.
      * destruct IH as [Hf Ht]. split; [done|]. rewrite Ht, <- app_assoc. done.
Qed.

(** C2 (as amended): [StorageInstaller.cleanup] attempts its teardown steps
    in order: the umounts of the bind mounts, the umounts of the layered
    file systems in descending order, the deactivation of every volume
    group, the stop of every RAID, the closing of the crypto volumes.  When
    no step fails on the host, it returns and every step was attempted.
    Otherwise the first step that fails (an umount that exits with a status
    other than 0 or cannot be run, a deactivation that raises) ends it: the
    exception of that step is raised out of [cleanup], the steps before it
    and the step itself were attempted and no later step was. *)
Theorem cleanup_stops_at_first_failure (s : StorageInstaller) (h : Host) :
  match first_failure (cleanup_steps s) (world h) with
  | None =>
      fst (StorageInstaller_cleanup s h) = Ok tt /\
      trace (snd (StorageInstaller_cleanup s h))
      = trace h ++ StartEvent "Unmounting file systems" :: cleanup_steps s
  | Some (n, err) =>
      n < length (cleanup_steps s) /\
      fst (StorageInstaller_cleanup s h) = Raise err /\
      trace (snd (StorageInstaller_cleanup s h))
      = trace h ++ StartEvent "Unmounting file systems"
                :: firstn (Datatypes.S n) (cleanup_steps s)
  end.
Proof.
  rewrite cleanup_as_steps.
  change ((start_event "Unmounting file systems" ;;; for_each (cleanup_steps s) do_step) h)
    with (for_each (cleanup_steps s) do_step
            (mkHost (world h) (trace h ++ [StartEvent "Unmounting file systems"]))).
  pose proof (run_steps_spec (cleanup_steps s)
                (mkHost (world h) (trace h ++ [StartEvent "Unmounting file systems"])))
    as H.
  cbn [world trace] in H.
  destruct (first_failure (cleanup_steps s) (world h)) as [[n err]|].
  - destruct H as (Hn & Hf & Ht). split; [done|]. split; [done|].
    rewrite Ht, <- app_assoc. done.
  - destruct H as [Hf Ht]. split; [done|]. rewrite Ht, <- app_assoc. done.
Qed.

(** ** The commands of [mount] and [unmount] *)

Lemma mount_as_steps (m : StorageManager) :
  mount m = for_each (flat_map (mount_commands m) (mount_items m)) do_step.
Proof.
  unfold mount. induction (mount_items m) as [|[mp u] l IH]; [done|].
  cbn [for_each flat_map mount_commands app fst snd]. rewrite IH.
  extensionality h. unfold mount_one, do_step, bind, ret.
  destruct (run_cmd _ false h) as [[r|e] h1]; [|done].
  by destruct (run_cmd _ false h1) as [[r1|e] h2].
Qed.

Lemma unmount_as_steps (m : StorageManager) :
  unmount m = for_each (map (unmount_command m) (unmount_items m)) do_step.
Proof.
  unfold unmount. rewrite for_each_map. apply for_each_ext. by intros [mp u] _.
Qed.

(** C3: with pairwise-distinct mount points, [mount] goes through the
    (mount point, unit) pairs in strictly ascending lexical order of the
    mount point, so that a mount point that is a proper prefix of another
    comes first, and runs for each pair, in that order, [mkdir -p] and
    [mount -t] on its directory; [unmount] runs [umount] on the directories
    of the same pairs in the exact reverse of that order.  Each stops at
    the first command that fails and raises; when none fails, every command
    was run. *)
Theorem mount_ascending_unmount_reverse (m : StorageManager) :
  NoDup (map fst (mount_points m)) ->
  mount_items m ≡ₚ mount_points m /\
  StronglySorted (key_lt fst) (mount_items m) /\
  (forall x y, x ∈ mount_points m -> y ∈ mount_points m ->
     String.prefix (fst x) (fst y) = true -> fst x <> fst y ->
     exists l1 l2 l3, mount_items m = l1 ++ x :: l2 ++ y :: l3) /\
  (forall h : Host,
     match first_failure (flat_map (mount_commands m) (mount_items m)) (world h) with
     | None =>
         fst (mount m h) = Ok tt /\
         trace (snd (mount m h)) = trace h ++ flat_map (mount_commands m) (mount_items m)
     | Some (n, err) =>
         fst (mount m h) = Raise err /\
         trace (snd (mount m h))
         = trace h ++ firstn (Datatypes.S n) (flat_map (mount_commands m) (mount_items m))
     end) /\
  (forall h : Host,
     match first_failure (map (unmount_command m) (rev (mount_items m))) (world h) with
     | None =>
         fst (unmount m h) = Ok tt /\
         trace (snd (unmount m h))
         = trace h ++ map (unmount_command m) (rev (mount_items m))
     | Some (n, err) =>
         fst (unmount m h) = Raise err /\
         trace (snd (unmount m h))
         = trace h ++ firstn (Datatypes.S n)
                        (map (unmount_command m) (rev (mount_items m)))
     end).
Proof.
  intros Hnd.
  assert (unmount_items m = rev (mount_items m)) as Hrev.
  { unfold mount_items, unmount_items. apply (sorted_reverse fst _ Hnd). }
  assert (mount_items m ≡ₚ mount_points m) as Hp by apply sort_stable_perm.
  split; [done|]. split; [apply (sorted_ascending fst _ Hnd)|]. split.
  { intros x y Hx Hy Hpre Hne. rewrite <- Hp in Hx, Hy. unfold mount_items in *.
    apply (ascending_before fst); [apply (sorted_ascending fst _ Hnd) | done | done |].
    by apply prefix_ltb. }
  split; intros h.
  - rewrite mount_as_steps.
    pose proof (run_steps_spec (flat_map (mount_commands m) (mount_items m)) h) as H.
    destruct (first_failure _ (world h)) as [[n err]|]; [|done].
    by destruct H as (_ & Hf & Ht).
  - rewrite unmount_as_steps, Hrev.
    pose proof (run_steps_spec (map (unmount_command m) (rev (mount_items m))) h) as H.
    destruct (first_failure _ (world h)) as [[n err]|]; [|done].
    by destruct H as (_ & Hf & Ht).
Qed.

(** ** The installation run *)

Lemma emits_for_each_in (P : event -> Prop) {A} (l : list A) (f : A -> M Host unit) :
  (forall x, x ∈ l -> emits P (f x)) -> emits P (for_each l f).
Proof.
  induction l as [|x l IH]; simpl; intros Hf; [apply emits_ret|].
  apply emits_bind; [apply Hf; left|]. intros _. apply IH. intros y Hy. apply Hf. by right.
Qed.

Lemma enumerate_elem {A} (l : list A) (n : nat) (x : A) (k : nat) :
  (n, x) ∈ combine (seq k (length l)) l -> x ∈ l.
Proof. intros H. apply list_elem_of_In in H. apply in_combine_r in H. by apply list_elem_of_In. Qed.

Lemma run_installers_split (installers : list Installer) (copy_config : bool) :
  run_installers installers copy_config
  = (apply_all installers copy_config ;;;
     for_each (rev (enumerate installers)) (call_phase PCleanup) ;;;
     add_log_line ("Removing " ++ TARGET_ROOT) ;;;
     call (os_rmdir TARGET_ROOT) ;;;
     start_event (String "010" "Installation complete!")).
Proof.
  unfold run_installers, apply_all. by rewrite !bind_assoc.
Qed.

Lemma enumerate_storage_first (s : StorageInstaller) (others : list OtherInstaller) :
  rev (enumerate (storage_as_installer s :: map other_as_installer others))
  = rev (enumerate_others others) ++ [(0, storage_as_installer s)].
Proof.
  unfold enumerate, enumerate_others. simpl. by rewrite length_map.
Qed.

Lemma apply_all_emits_no_teardown (s : StorageInstaller) (others : list OtherInstaller)
    (copy_config : bool) :
  emits no_teardown
    (apply_all (storage_as_installer s :: map other_as_installer others) copy_config).
Proof.
  assert (forall p ni,
    p <> PCleanup ->
    ni ∈ enumerate (storage_as_installer s :: map other_as_installer others) ->
    emits no_teardown (call_phase p ni)) as Hphase.
  { intros p [n i] Hp Hni. apply enumerate_elem in Hni.
    unfold call_phase. apply emits_bind; [apply emits_emit; by destruct p|]. intros _.
    apply elem_of_cons in Hni as [-> | Hi].
    - destruct p; simpl;
        [apply apply_emits_no_teardown | apply post_apply_emits_no_teardown | done].
    - apply list_elem_of_fmap in Hi as (o & -> & _).
      destruct p; simpl; apply emits_on_world. }
  unfold apply_all.
  apply emits_bind; [apply emits_for_each_in; intros; by apply Hphase|]. intros _.
  apply emits_bind; [apply emits_for_each_in; intros; by apply Hphase|]. intros _.
  destruct copy_config; [|apply emits_ret].
  unfold _copy_yaml_config, start_event. repeat emits_step.
Qed.

Lemma others_cleanup_emits (others : list OtherInstaller) :
  emits (fun e => exists i, e = Phase (Datatypes.S i) PCleanup)
        (for_each (rev (enumerate_others others)) (call_phase PCleanup)).
Proof.
  apply emits_for_each_in. intros [n i] Hni.
  apply list_elem_of_In, in_rev in Hni. unfold enumerate_others in Hni.
  pose proof (in_combine_l _ _ _ _ Hni) as Hn. apply in_seq in Hn.
  apply in_combine_r, list_elem_of_In, list_elem_of_fmap in Hni as (o & -> & _).
  unfold call_phase. simpl. apply emits_bind; [|intros; apply emits_on_world].
  apply emits_emit. exists (pred n). f_equal. lia.
Qed.

(** C1 (as amended): the storage installer's [cleanup()] is called, after
    the [cleanup()] of every other installer in reverse order, when
    [apply()] and [post_apply()] of every installer and the optional copy of
    the configuration returned without raising.  An exception raised by any
    of them ends [_install_config] at once: it propagates and no teardown
    is attempted.  An exception raised by the [cleanup()] of another
    installer propagates as well, before the storage installer's
    [cleanup()] is reached. *)
Theorem cleanup_only_after_success (s : StorageInstaller) (others : list OtherInstaller)
    (copy_config : bool) (h : Host) :
  let installers := storage_as_installer s :: map other_as_installer others in
  match apply_all installers copy_config h with
  | (Raise e, h1) =>
      run_installers installers copy_config h = (Raise e, h1) /\
      exists evs, trace h1 = trace h ++ evs /\ Forall no_teardown evs
  | (Ok _, h1) =>
      match for_each (rev (enumerate_others others)) (call_phase PCleanup) h1 with
      | (Raise e, h2) =>
          run_installers installers copy_config h = (Raise e, h2) /\
          exists evs, trace h2 = trace h1 ++ evs /\
                      Forall (fun e => exists i, e = Phase (Datatypes.S i) PCleanup) evs
      | (Ok _, h2) =>
          exists evs,
            trace (snd (run_installers installers copy_config h))
            = trace h2 ++ Phase 0 PCleanup :: StartEvent "Unmounting file systems" :: evs
      end
  end.
Proof.
  intros installers. subst installers.
  rewrite run_installers_split, enumerate_storage_first, for_each_app.
  pose proof (apply_all_emits_no_teardown s others copy_config h) as (evs & Ht & Hevs).
  destruct (apply_all _ copy_config h) as [[[]|e] h1] eqn:E1; simpl in Ht.
  2: { rewrite (bind_run_raise _ _ _ _ _ E1). split; [done | by exists evs]. }
  rewrite (bind_run_ok _ _ _ _ _ E1), bind_assoc.
  pose proof (others_cleanup_emits others h1) as (evs1 & Ht1 & Hevs1).
  destruct (for_each (rev (enumerate_others others)) _ h1) as [[[]|e] h2] eqn:E2;
    simpl in Ht1.
  2: { rewrite (bind_run_raise _ _ _ _ _ E2). split; [done | by exists evs1]. }
  rewrite (bind_run_ok _ _ _ _ _ E2).
  simpl for_each. rewrite bind_ret_r.
  unfold call_phase at 1. simpl. rewrite !bind_assoc.
  change ((emit (Phase 0 PCleanup) ;;; ?k) h2)
    with (k (mkHost (world h2) (trace h2 ++ [Phase 0 PCleanup]))).
  destruct (cleanup_attempts_in_order s
              (mkHost (world h2) (trace h2 ++ [Phase 0 PCleanup]))) as (n & Hc & _).
  simpl in Hc.
  pose proof (emits_bind (fun _ => True) (add_log_line ("Removing " ++ TARGET_ROOT))
    (fun _ => call (os_rmdir TARGET_ROOT) ;;;
              start_event (String "010" "Installation complete!"))) as Hrest.
  destruct (StorageInstaller_cleanup s _) as [[[]|e] h3] eqn:E3; simpl in Hc.
  - rewrite (bind_run_ok _ _ _ _ _ E3).
    destruct (Hrest ltac:(by apply emits_emit)
                    ltac:(intros; repeat emits_step; by apply emits_emit) h3)
      as (evs3 & Ht3 & _).
    exists (firstn n (cleanup_steps s) ++ evs3). rewrite Ht3, Hc.
    by rewrite <- !app_assoc.
  - rewrite (bind_run_raise _ _ _ _ _ E3).
    exists (firstn n (cleanup_steps s)). simpl. rewrite Hc. by rewrite <- !app_assoc.
Qed.

(** ** The registry *)

Lemma dict_get_set {V} (d : dict V) (k k' : string) (v : V) :
  dict_get (dict_set d k v) k' = if decide (k = k') then Some v else dict_get d k'.
Proof.
  induction d as [|[k0 v0] d IH]; simpl.
  - destruct (String.eqb_spec k k'); by case_decide.
  - destruct (String.eqb_spec k0 k) as [->|Hne]; simpl.
    + destruct (String.eqb_spec k k'); by case_decide.
    + rewrite IH. destruct (String.eqb_spec k0 k'); [|done].
      case_decide; congruence.
Qed.

Lemma dict_get_None {V} (d : dict V) (k : string) :
  dict_get d k = None <-> k ∉ map fst d.
Proof.
  induction d as [|[k0 v0] d IH]; simpl.
  - split; [intros _ H; by apply elem_of_nil in H | done].
  - rewrite not_elem_of_cons. destruct (String.eqb_spec k0 k) as [->|Hne].
    + split; [done | by intros [? _]].
    + rewrite IH. split; [by intros ? | by intros [_ ?]].
Qed.

Lemma dict_get_Some_elem {V} (d : dict V) (k : string) (v : V) :
  dict_get d k = Some v -> (k, v) ∈ d.
Proof.
  induction d as [|[k0 v0] d IH]; simpl; [done|].
  destruct (String.eqb_spec k0 k) as [->|Hne].
  - intros [= ->]. left.
  - intros H. right. auto.
Qed.

Lemma dict_set_fresh {V} (d : dict V) (k : string) (v : V) :
  dict_get d k = None -> dict_set d k v = d ++ [(k, v)].
Proof.
  induction d as [|[k0 v0] d IH]; simpl; [done|].
  destruct (String.eqb_spec k0 k); [done|]. intros H. by rewrite IH.
Qed.

Lemma dict_contains_true {V} (d : dict V) (k : string) :
  dict_contains d k = true <-> is_Some (dict_get d k).
Proof.
  unfold dict_contains. destruct (dict_get d k) eqn:E; split; intros H.
  - by eexists.
  - done.
  - done.
  - by destruct H.
Qed.

Lemma register_spec (id : string) (d : StorageDevice) (m : StorageManager) :
  get_device_by_id m id = None ->
  register id d m
  = if id_in_use m id
    then (Raise (ValueError ("id '" ++ id ++ "' is already in use")), m)
    else (Ok (length (heap m)),
          mkManager (heap m ++ [d]) (_devices m ++ [(id, length (heap m))])
                    (_mount_root_base m) (_cryptsetup m)).
Proof.
  intros H. unfold register, check_id_free, bind, get, lift, set_devices, set_heap.
  destruct (id_in_use m id); [done|]. simpl. by rewrite dict_set_fresh.
Qed.

(** What a registration that returned has done. *)
Lemma register_ok (id : string) (d : StorageDevice) (m m' : StorageManager) (a : nat) :
  get_device_by_id m id = None -> register id d m = (Ok a, m') ->
  id_in_use m id = false /\ a = length (heap m) /\
  m' = mkManager (heap m ++ [d]) (_devices m ++ [(id, length (heap m))])
                 (_mount_root_base m) (_cryptsetup m).
Proof.
  intros H Hr. rewrite (register_spec _ _ _ H) in Hr.
  destruct (id_in_use m id); [done|]. by injection Hr as <- <-.
Qed.

Lemma add_disk_dup (id : string) (m : StorageManager) (a : nat) :
  get_device_by_id m id = Some a -> add_disk id m = (Raise (already_exists m a), m).
Proof. intros H. unfold add_disk, bind, get. by rewrite H. Qed.

Lemma add_vg_dup (id : string) (pvs : list StorageUnit) (m : StorageManager) (a : nat) :
  get_device_by_id m id = Some a -> add_vg id pvs m = (Raise (already_exists m a), m).
Proof. intros H. unfold add_vg, bind, get. by rewrite H. Qed.

Lemma add_raid_dup (id : string) (level : pyval) (members : list StorageUnit)
    (metadata : string) (m : StorageManager) (a : nat) :
  get_device_by_id m id = Some a ->
  add_raid id level members metadata m = (Raise (already_exists m a), m).
Proof. intros H. unfold add_raid, bind, get. by rewrite H. Qed.

Lemma add_disk_fresh (id : string) (m : StorageManager) :
  get_device_by_id m id = None -> add_disk id m = register id (Disk id []) m.
Proof. intros H. unfold add_disk, bind, get. by rewrite H. Qed.

Lemma add_vg_fresh (id : string) (pvs : list StorageUnit) (m : StorageManager) :
  get_device_by_id m id = None -> add_vg id pvs m = register id (VolumeGroup id pvs []) m.
Proof. intros H. unfold add_vg, bind, get. by rewrite H. Qed.

Lemma add_raid_fresh (id : string) (level : pyval) (members : list StorageUnit)
    (metadata : string) (m : StorageManager) :
  get_device_by_id m id = None ->
  add_raid id level members metadata m = register id (RAID id level metadata members []) m.
Proof. intros H. unfold add_raid, bind, get. by rewrite H. Qed.

Lemma new_unit_spec cls dev id size fs opts mp fl pass part (m : StorageManager) :
  match new_unit cls dev id size fs opts mp fl pass part m with
  | (Ok u, m') =>
      exists d, deref m dev = Some d /\
        id = PStr (unit_id u) /\ unit_class u = cls /\ unit_device u = device_id d /\
        match mp with
        | PNone => mount_point u = None
        | PStr s => mount_point u = Some s /\ isabs s = true /\
                    _get_unit_by_mount_point m s = None
        | _ => False
        end /\
        partition u = part /\
        m' = set_heap (<[dev := append_unit d u]> (heap m)) m
  | (Raise _, m') => m' = m
  end.
Proof.
  unfold new_unit, bind, get. simpl.
  destruct (deref m dev) as [d|] eqn:Hd; [|done].
  destruct id; try done.
  unfold check_id_free. destruct (id_in_use m s); [done|].
  destruct mp as [| | |mp| |]; try done.
  - simpl. by exists d.
  - unfold lift, check_can_mount_to. simpl.
    destruct (isabs mp) eqn:Habs; simpl; [|done].
    destruct (_get_unit_by_mount_point m mp) eqn:Hget; simpl; [done|].
    by exists d.
Qed.

Lemma new_unit_id_free cls dev id size fs opts mp fl pass part (m m' : StorageManager)
    (u : StorageUnit) :
  new_unit cls dev id size fs opts mp fl pass part m = (Ok u, m') ->
  id_in_use m (unit_id u) = false.
Proof.
  unfold new_unit, bind, get. simpl.
  destruct (deref m dev) as [d|] eqn:Hd; [|done].
  destruct id; try done.
  unfold check_id_free. destruct (id_in_use m s) eqn:E; [done|].
  destruct mp as [| | |mp| |]; try done.
  - simpl. by intros [= <- _].
  - unfold lift, check_can_mount_to. simpl.
    destruct (isabs mp) eqn:Habs; simpl; [|done].
    destruct (_get_unit_by_mount_point m mp) eqn:Hget; simpl; [done|].
    by intros [= <- _].
Qed.

Lemma new_unit_in_use cls dev id size fs opts mp fl pass part (m : StorageManager) :
  id_in_use m id = true ->
  exists e, new_unit cls dev (PStr id) size fs opts mp fl pass part m = (Raise e, m).
Proof.
  intros H. unfold new_unit, bind, get. simpl.
  destruct (deref m dev) as [d|] eqn:Hd; [|by eexists].
  unfold check_id_free. rewrite H. by eexists.
Qed.

Lemma new_unit_step cls dev id size fs opts mp fl pass part (m : StorageManager) :
  manager_step m (snd (new_unit cls dev id size fs opts mp fl pass part m)).
Proof.
  pose proof (new_unit_spec cls dev id size fs opts mp fl pass part m) as H.
  destruct (new_unit _ _ _ _ _ _ _ _ _ _ m) as [[u|e] m'] eqn:E; simpl.
  - pose proof (new_unit_id_free _ _ _ _ _ _ _ _ _ _ _ _ _ E) as Hfree.
    destruct H as (d & Hd & _ & _ & _ & Hmp & _ & ->).
    apply step_unit; [done| |done]. intros s Hs.
    destruct mp; try done; [congruence|]. destruct Hmp as (Hmp & ? & ?). by simplify_eq.
  - subst. constructor.
Qed.

Lemma check_rest_state (dev : nat) (m : StorageManager) :
  snd (check_rest_of_container dev m) = m.
Proof.
  unfold check_rest_of_container, bind, get. simpl.
  destruct (deref m dev); [|done]. by destruct (existsb _ _).
Qed.

Lemma add_partition_step (dev : nat) (p : UnitParams) (m : StorageManager) :
  manager_step m (snd (add_partition dev p m)).
Proof.
  unfold add_partition, bind. pose proof (check_rest_state dev m) as H.
  destruct (check_rest_of_container dev m) as [[[]|e] m']; simpl in H; subst;
    [apply new_unit_step | constructor].
Qed.

Lemma add_lv_step (dev : nat) (p : UnitParams) (m : StorageManager) :
  manager_step m (snd (add_lv dev p m)).
Proof.
  unfold add_lv, bind. pose proof (check_rest_state dev m) as H.
  destruct (check_rest_of_container dev m) as [[[]|e] m']; simpl in H; subst;
    [apply new_unit_step | constructor].
Qed.

Lemma add_volume_step (dev : nat) (p : UnitParams) (part : StorageUnit) (m : StorageManager) :
  manager_step m (snd (add_volume dev p part m)).
Proof.
  unfold add_volume. case_bool_decide; [apply new_unit_step | constructor].
Qed.

Lemma add_disk_step (id : string) (m : StorageManager) :
  manager_step m (snd (add_disk id m)).
Proof.
  destruct (get_device_by_id m id) as [a|] eqn:H.
  - rewrite (add_disk_dup _ _ _ H). constructor.
  - rewrite (add_disk_fresh _ _ H), (register_spec _ _ _ H).
    destruct (id_in_use m id) eqn:E; by constructor.
Qed.

Lemma add_vg_step (id : string) (pvs : list StorageUnit) (m : StorageManager) :
  manager_step m (snd (add_vg id pvs m)).
Proof.
  destruct (get_device_by_id m id) as [a|] eqn:H.
  - rewrite (add_vg_dup _ _ _ _ H). constructor.
  - rewrite (add_vg_fresh _ _ _ H), (register_spec _ _ _ H).
    destruct (id_in_use m id) eqn:E; by constructor.
Qed.

Lemma add_raid_step (id : string) (level : pyval) (members : list StorageUnit)
    (metadata : string) (m : StorageManager) :
  manager_step m (snd (add_raid id level members metadata m)).
Proof.
  destruct (get_device_by_id m id) as [a|] eqn:H.
  - rewrite (add_raid_dup _ _ _ _ _ _ H). constructor.
  - rewrite (add_raid_fresh _ _ _ _ _ H), (register_spec _ _ _ H).
    destruct (id_in_use m id) eqn:E; by constructor.
Qed.

Lemma run_op_step (o : factory_op) (m : StorageManager) : manager_step m (run_op o m).
Proof.
  destruct o; simpl;
    auto using add_disk_step, add_vg_step, add_raid_step, add_partition_step,
      add_lv_step, add_volume_step, step_base.
Qed.

(** An invariant of the steps holds of every manager the factories build. *)
Lemma reachable_ind_step (I : StorageManager -> Prop) :
  I StorageManager_init ->
  (forall m m', I m -> manager_step m m' -> I m') ->
  forall m, reachable m -> I m.
Proof.
  intros Hinit Hstep m Hm. induction Hm; [done|].
  eapply Hstep; [done | apply run_op_step].
Qed.

Lemma cryptsetup_registered_step (m m' : StorageManager) :
  cryptsetup_registered m -> manager_step m m' -> cryptsetup_registered m'.
Proof.
  intros [Hreg [vols Hvols]] Hstep.
  destruct Hstep as [|id d Hid _ _ _|dev d u Hd _ _|v];
    unfold cryptsetup_registered, get_device_by_id, deref in *; simpl.
  - eauto.
  - split.
    + assert (dict_get (_devices m ++ [(id, length (heap m))]) "__cryptsetup__"
              = dict_get (dict_set (_devices m) id (length (heap m))) "__cryptsetup__") as ->
        by (by rewrite dict_set_fresh).
      rewrite dict_get_set. case_decide; [congruence | done].
    + exists vols. by apply lookup_app_l_Some.
  - split; [done|]. destruct (decide (dev = _cryptsetup m)) as [->|Hne].
    + unfold deref in Hd. rewrite Hvols in Hd. injection Hd as <-.
      exists (vols ++ [u]). simpl. rewrite list_lookup_insert_eq; [done|].
      by eapply lookup_lt_Some.
    + exists vols. by rewrite list_lookup_insert_ne.
  - eauto.
Qed.

Lemma cryptsetup_registered_reachable (m : StorageManager) :
  reachable m -> cryptsetup_registered m.
Proof.
  apply reachable_ind_step; [|apply cryptsetup_registered_step].
  split; [done | by exists []].
Qed.

Lemma registry_wf_register (m : StorageManager) (id : string) (d : StorageDevice) :
  registry_wf m -> get_device_by_id m id = None ->
  registry_wf (mkManager (heap m ++ [d]) (_devices m ++ [(id, length (heap m))])
                         (_mount_root_base m) (_cryptsetup m)).
Proof.
  intros [Hv Hnd] Hid. unfold registry_wf, dict_values in *. simpl.
  rewrite !map_app, Hv, length_app. simpl. split.
  - by rewrite seq_app.
  - apply NoDup_app. split; [done|]. split; [|apply NoDup_singleton].
    intros k Hk Hk'. apply list_elem_of_singleton in Hk' as ->.
    by apply dict_get_None in Hid.
Qed.

Lemma registry_wf_step (m m' : StorageManager) :
  registry_wf m -> manager_step m m' -> registry_wf m'.
Proof.
  intros Hwf Hstep.
  destruct Hstep as [|id d Hid _ _ _|dev d u Hd _ _|v]; [done| | |done].
  - by apply registry_wf_register.
  - destruct Hwf as [Hv Hnd]. unfold registry_wf, dict_values in *. simpl.
    by rewrite length_insert.
Qed.

Lemma registry_wf_reachable (m : StorageManager) : reachable m -> registry_wf m.
Proof.
  apply reachable_ind_step; [|apply registry_wf_step].
  split; [done|]. simpl. apply NoDup_singleton.
Qed.

Lemma omap_lookup_seq {A} (k l : list A) :
  omap (fun a => (k ++ l) !! a) (seq (length k) (length l)) = l.
Proof.
  revert k. induction l as [|x l IH]; intros k; [done|].
  simpl. rewrite list_lookup_middle by done. f_equal.
  specialize (IH (k ++ [x])). rewrite length_app, Nat.add_1_r, <- app_assoc in IH.
  exact IH.
Qed.

(** With every object registered in order, the registered devices are the
    objects of the heap. *)
Lemma devices_values_heap (m : StorageManager) :
  registry_wf m -> devices_values m = heap m.
Proof.
  intros [Hv _]. unfold devices_values, deref. rewrite Hv.
  apply (omap_lookup_seq [] (heap m)).
Qed.

Lemma cryptsetup_in_devices (m : StorageManager) :
  cryptsetup_registered m ->
  exists volumes, Cryptsetup "__cryptsetup__" volumes ∈ devices m.
Proof.
  intros [Hreg [vols Hvols]]. exists vols. unfold devices.
  apply list_elem_of_omap. exists (_cryptsetup m). split; [|done].
  rewrite set_iter_perm by apply NoDup_remove_dups.
  apply elem_of_remove_dups. unfold dict_values.
  apply dict_get_Some_elem in Hreg.
  by apply (list_elem_of_fmap_2 snd) in Hreg.
Qed.

(** C10: a freshly constructed manager has the Cryptsetup singleton
    registered under the id [__cryptsetup__]; every factory operation
    preserves this registration; [add_disk], [add_raid] and [add_vg] with
    that id raise the duplicate-id error and leave the manager as it is;
    and the [devices] set contains the Cryptsetup device. *)
Theorem cryptsetup_always_registered (m : StorageManager) :
  reachable m ->
  cryptsetup_registered StorageManager_init /\
  cryptsetup_registered m /\
  (forall o, cryptsetup_registered (run_op o m)) /\
  add_disk "__cryptsetup__" m
    = (Raise (ValueError "__cryptsetup__ already exists"), m) /\
  (forall pvs, add_vg "__cryptsetup__" pvs m
    = (Raise (ValueError "__cryptsetup__ already exists"), m)) /\
  (forall level members metadata, add_raid "__cryptsetup__" level members metadata m
    = (Raise (ValueError "__cryptsetup__ already exists"), m)) /\
  exists volumes, Cryptsetup "__cryptsetup__" volumes ∈ devices m.
Proof.
  intros Hm. pose proof (cryptsetup_registered_reachable m Hm) as Hc.
  split; [by apply cryptsetup_registered_reachable, reachable_init|].
  split; [done|].
  split; [intros o; by apply cryptsetup_registered_reachable, reachable_step|].
  pose proof Hc as [Hreg [vols Hvols]].
  assert (already_exists m (_cryptsetup m) = ValueError "__cryptsetup__ already exists")
    as Hex by (unfold already_exists; by rewrite Hvols).
  split; [by rewrite (add_disk_dup _ _ _ Hreg), Hex|].
  split; [intros; by rewrite (add_vg_dup _ _ _ _ Hreg), Hex|].
  split; [intros; by rewrite (add_raid_dup _ _ _ _ _ _ Hreg), Hex|].
  by apply cryptsetup_in_devices.
Qed.

(** ** The constructor of the storage installer, step by step *)

Lemma stepwise_ret {A} (a : A) : stepwise (ret a).
Proof. intros s. apply rtc_refl. Qed.

Lemma stepwise_raise {A} (e : exn) : stepwise (raise (A := A) e).
Proof. intros s. apply rtc_refl. Qed.

Lemma stepwise_lift {A} (r : res A) : stepwise (lift r).
Proof. intros s. apply rtc_refl. Qed.

Lemma stepwise_get : stepwise get.
Proof. intros s. apply rtc_refl. Qed.

Lemma stepwise_bind {A B} (c : M StorageInstaller A) (k : A -> M StorageInstaller B) :
  stepwise c -> (forall a, stepwise (k a)) -> stepwise (bind c k).
Proof.
  intros Hc Hk s. unfold bind. specialize (Hc s).
  destruct (c s) as [[a|e] s1]; simpl in *; [|done].
  etrans; [done | apply Hk].
Qed.

Lemma stepwise_for_each {A} (l : list A) (f : A -> M StorageInstaller unit) :
  (forall x, stepwise (f x)) -> stepwise (for_each l f).
Proof.
  intros Hf. induction l; simpl; [apply stepwise_ret | by apply stepwise_bind].
Qed.

Lemma stepwise_map_M {A B} (l : list A) (f : A -> M StorageInstaller B) :
  (forall x, stepwise (f x)) -> stepwise (map_M f l).
Proof.
  intros Hf. induction l; simpl; [apply stepwise_ret|].
  apply stepwise_bind; [done|]. intros b. apply stepwise_bind; [done|].
  intros bs. apply stepwise_ret.
Qed.

Lemma stepwise_on_manager {A} (c : M StorageManager A) :
  (forall m, manager_step m (snd (c m))) -> stepwise (on_manager c).
Proof.
  intros Hc s. unfold on_manager. specialize (Hc (_smanager s)).
  destruct (c (_smanager s)) as [r m']; simpl in *.
  apply rtc_once. by constructor.
Qed.

Lemma stepwise_from_dict (data : dict pyval) : stepwise (from_dict data).
Proof.
  unfold from_dict.
  repeat first [ apply stepwise_ret | apply stepwise_lift
               | apply stepwise_map_M; intros
               | apply stepwise_bind; [|intros]
               | match goal with |- stepwise (match ?x with _ => _ end) => destruct x end ].
Qed.

Lemma stepwise_unit_by_id (id : string) : stepwise (_unit_by_id id).
Proof.
  intros s. unfold _unit_by_id, bind, get. simpl.
  destruct (dict_get (_units s) id); apply rtc_refl.
Qed.

Lemma stepwise_add_unit (u : StorageUnit) : stepwise (_add_unit u).
Proof.
  intros s. unfold _add_unit, bind, get. simpl.
  destruct (dict_contains (_units s) (unit_id u)) eqn:E; simpl; [apply rtc_refl|].
  assert (dict_get (_units s) (unit_id u) = None) as Hn.
  { unfold dict_contains in E. by destruct (dict_get _ _). }
  rewrite (dict_set_fresh _ _ _ Hn). apply rtc_once. by constructor.
Qed.

Lemma stepwise_add_package (names : list string) : stepwise (add_package names).
Proof. intros s. apply rtc_once. constructor. Qed.

Lemma stepwise_parse_unit_item (add : UnitParams -> M StorageManager StorageUnit)
    (item : dict pyval) :
  (forall p m, manager_step m (snd (add p m))) -> stepwise (parse_unit_item add item).
Proof.
  intros Hadd. unfold parse_unit_item.
  apply stepwise_bind; [apply stepwise_from_dict|]. intros p.
  apply stepwise_bind; [by apply stepwise_on_manager|]. intros u.
  apply stepwise_add_unit.
Qed.

Ltac stepwise_tac :=
  repeat first
    [ apply stepwise_ret | apply stepwise_raise | apply stepwise_lift | apply stepwise_get
    | apply stepwise_from_dict | apply stepwise_unit_by_id | apply stepwise_add_unit
    | apply stepwise_add_package
    | apply stepwise_parse_unit_item; intros;
        first [apply add_partition_step | apply add_lv_step]
    | apply stepwise_on_manager; intros;
        first [apply add_disk_step | apply add_vg_step | apply add_raid_step
              | apply add_volume_step]
    | apply stepwise_for_each; intros
    | apply stepwise_map_M; intros
    | apply stepwise_bind; [|intros]
    | match goal with
      | |- stepwise (if ?b then _ else _) => destruct b
      | |- stepwise (match ?x with _ => _ end) => destruct x
      end ].

Lemma stepwise_parse_disk_item (item : dict pyval) : stepwise (parse_disk_item item).
Proof. unfold parse_disk_item. stepwise_tac. Qed.

Lemma stepwise_parse_crypto_item (item : dict pyval) : stepwise (parse_crypto_item item).
Proof. unfold parse_crypto_item. stepwise_tac. Qed.

Lemma stepwise_parse_raid_item (item : dict pyval) : stepwise (parse_raid_item item).
Proof. unfold parse_raid_item. stepwise_tac. Qed.

Lemma stepwise_parse_vg_item (item : dict pyval) : stepwise (parse_vg_item item).
Proof. unfold parse_vg_item. stepwise_tac. Qed.

Lemma stepwise_get_bind {A} (k : StorageInstaller -> M StorageInstaller A) :
  (forall s, installer_steps s (snd (k s s))) -> stepwise (bind get k).
Proof. intros Hk s. apply Hk. Qed.

Lemma stepwise_collect_file_systems :
  stepwise
    (s <- get ;;
     let file_systems :=
       fold_left (fun l u => match fs_type u with Some t => set_add t l | None => l end)
                 (dict_values (_units s)) [] in
     put (set_file_systems file_systems s) ;;;
     for_each (set_iter FSType file_systems) (fun fs =>
       match fs_to_pkg fs with
       | Some pkg => add_package [pkg]
       | None => ret tt
       end)).
Proof.
  apply stepwise_get_bind. intros s.
  cbv beta iota zeta delta [bind put].
  etrans; [apply rtc_once, istep_file_systems|].
  apply stepwise_for_each. intros fs.
  destruct (fs_to_pkg fs); [apply stepwise_add_package | apply stepwise_ret].
Qed.

Lemma stepwise_setup : stepwise StorageInstaller_setup.
Proof.
  unfold StorageInstaller_setup, _parse_disks, _parse_crypto_volumes, _parse_raids,
    _parse_volume_groups, _validate.
  repeat first
    [ apply stepwise_collect_file_systems
    | apply stepwise_parse_disk_item | apply stepwise_parse_crypto_item
    | apply stepwise_parse_raid_item | apply stepwise_parse_vg_item
    | apply stepwise_ret | apply stepwise_raise | apply stepwise_lift | apply stepwise_get
    | apply stepwise_add_package
    | (intros s; simpl; apply rtc_once; apply istep_has)
    | apply stepwise_for_each; intros
    | apply stepwise_bind; [|intros]
    | match goal with
      | |- stepwise (if ?b then _ else _) => destruct b
      | |- stepwise (match ?x with _ => _ end) => destruct x
      end ].
Qed.

Lemma init_ok_steps (root : string) (config : dict pyval) (s : StorageInstaller) :
  StorageInstaller_init root config = Ok s ->
  exists data, Installer_init "storage" config TDict false = Ok data /\
    StorageInstaller_setup (initial_installer root data) = (Ok tt, s) /\
    installer_steps (initial_installer root data) s.
Proof.
  unfold StorageInstaller_init. intros H.
  destruct (Installer_init _ _ _ _) as [data|e]; [|done].
  pose proof (stepwise_setup (initial_installer root data)) as Hs.
  destruct (StorageInstaller_setup _) as [[[]|e] s'] eqn:E; [|done].
  simpl in Hs. injection H as <-. by exists data.
Qed.

(** An invariant of the steps holds once the constructor returns. *)
Lemma init_ok_inv (I : StorageInstaller -> Prop) (root : string) (config : dict pyval)
    (s : StorageInstaller) :
  (forall data, I (initial_installer root data)) ->
  (forall s1 s2, I s1 -> installer_step s1 s2 -> I s2) ->
  StorageInstaller_init root config = Ok s -> I s.
Proof.
  intros Hinit Hstep H. apply init_ok_steps in H as (data & _ & _ & Hs).
  specialize (Hinit data). induction Hs; eauto.
Qed.

Lemma manager_step_installer (I : StorageManager -> Prop) (s1 s2 : StorageInstaller) :
  (forall m m', I m -> manager_step m m' -> I m') ->
  I (_smanager s1) -> installer_step s1 s2 -> I (_smanager s2).
Proof. intros Hm H1 Hs. destruct Hs; simpl; eauto. Qed.

Lemma unit_ids_step (s1 s2 : StorageInstaller) :
  NoDup (map fst (_units s1)) -> installer_step s1 s2 -> NoDup (map fst (_units s2)).
Proof.
  intros H1 Hs. destruct Hs as [| u Hu | | |]; simpl; try done.
  rewrite map_app. apply NoDup_app. split; [done|]. split; [|apply NoDup_singleton].
  intros k Hk Hk'. apply list_elem_of_singleton in Hk' as ->.
  by apply dict_get_None in Hu.
Qed.

Lemma initial_registry_wf (root : string) (data : pyval) :
  registry_wf (_smanager (initial_installer root data)).
Proof. split; [done|]. simpl. apply NoDup_singleton. Qed.

(** ** RAID ids *)

Lemma path_join_dev_md (raid_id : string) :
  path_join "/dev/md" raid_id
  = if isabs raid_id then raid_id else ("/dev/md/" ++ raid_id)%string.
Proof. unfold path_join. by destruct (isabs raid_id). Qed.

Lemma string_length_app (a b : string) :
  String.length (a ++ b)%string = String.length a + String.length b.
Proof. induction a; simpl; [done | by f_equal]. Qed.

Lemma prefixed_ne (p s : string) : p <> "" -> (p ++ s)%string <> s.
Proof.
  intros Hp H. apply (f_equal String.length) in H.
  rewrite string_length_app in H. destruct p; [done|]. simpl in H. lia.
Qed.

Lemma get_device_by_id_app (m : StorageManager) (id k : string) (a : nat) h b c :
  get_device_by_id m id = None ->
  get_device_by_id (mkManager h (_devices m ++ [(id, a)]) b c) k
  = if decide (id = k) then Some a else get_device_by_id m k.
Proof.
  intros H. unfold get_device_by_id in *. simpl.
  by rewrite <- (dict_set_fresh _ _ _ H), dict_get_set.
Qed.

Lemma registered_with_step (m m' : StorageManager) (id : string)
    (P : StorageDevice -> Prop) :
  (forall d u, P d -> P (append_unit d u)) ->
  registered_with m id P -> manager_step m m' -> registered_with m' id P.
Proof.
  intros HP (a & d & Hget & Hd & Hd') Hstep.
  destruct Hstep as [|id' d' Hid' _ _ _|dev d' u Hdev _ _|v]; unfold deref in *.
  - by exists a, d.
  - exists a, d. rewrite get_device_by_id_app by done. simpl.
    split; [case_decide; [congruence | done]|].
    split; [by apply lookup_app_l_Some | done].
  - destruct (decide (dev = a)) as [->|Hne].
    + exists a, (append_unit d u). unfold deref. simpl.
      rewrite Hd in Hdev. injection Hdev as <-.
      rewrite list_lookup_insert_eq by (by eapply lookup_lt_Some).
      repeat split; [done | by apply HP].
    + exists a, d. unfold deref. simpl. by rewrite list_lookup_insert_ne.
  - by exists a, d.
Qed.

Lemma registered_as_step (m m' : StorageManager) (id : string) (cls : DeviceClass) :
  registered_as m id cls -> manager_step m m' -> registered_as m' id cls.
Proof. apply registered_with_step. intros d u. by destruct d. Qed.

Lemma raid_registered_step (m m' : StorageManager) (id metadata : string) :
  raid_registered m id metadata -> manager_step m m' -> raid_registered m' id metadata.
Proof.
  apply registered_with_step. intros d u (l & ms & ps & ->). simpl. eauto.
Qed.

Lemma raid_registered_as (m : StorageManager) (id metadata : string) :
  raid_registered m id metadata -> registered_as m id TRAID.
Proof.
  intros (a & d & Hget & Hd & (l & ms & ps & ->)). by exists a, (RAID id l metadata ms ps).
Qed.

Lemma ids_match_step (m m' : StorageManager) :
  ids_match m -> manager_step m m' -> ids_match m'.
Proof.
  intros Hm Hstep k a.
  destruct Hstep as [|id' d' Hid' Hd'id _ _|dev d' u Hd' _ _|v]; [apply Hm| | |apply Hm].
  - rewrite get_device_by_id_app by done. simpl. case_decide as Hk.
    + intros [= <-]. exists d'. split; [|congruence].
      unfold deref. simpl. by rewrite lookup_app_r, Nat.sub_diag.
    + intros H. destruct (Hm k a H) as (d & Hd & Hdid). exists d.
      split; [by apply lookup_app_l_Some | done].
  - intros H. destruct (Hm k a H) as (d & Hd & Hdid). unfold deref in *. simpl.
    destruct (decide (dev = a)) as [->|Hne].
    + exists (append_unit d u). rewrite Hd in Hd'. injection Hd' as <-.
      rewrite list_lookup_insert_eq by (by eapply lookup_lt_Some).
      split; [done | by destruct d].
    + exists d. by rewrite list_lookup_insert_ne.
Qed.

Lemma installer_steps_inv (I : StorageInstaller -> Prop) (s s' : StorageInstaller) :
  (forall s1 s2, I s1 -> installer_step s1 s2 -> I s2) ->
  I s -> installer_steps s s' -> I s'.
Proof. intros Hstep Hs Hss. induction Hss; eauto. Qed.

Lemma installer_steps_manager (I : StorageManager -> Prop) (s s' : StorageInstaller) :
  (forall m m', I m -> manager_step m m' -> I m') ->
  I (_smanager s) -> installer_steps s s' -> I (_smanager s').
Proof.
  intros Hstep. apply (installer_steps_inv (fun s => I (_smanager s))).
  intros s1 s2. by apply manager_step_installer.
Qed.

Lemma installer_steps_data (s s' : StorageInstaller) :
  installer_steps s s' -> _data s' = _data s.
Proof.
  intros H. symmetry. revert H.
  apply (installer_steps_inv (fun s1 => _data s = _data s1)); [|done].
  intros s1 s2 -> Hs. by destruct Hs.
Qed.

(** The registry is only changed by the [add_] operations of the manager. *)
Lemma new_unit_devices cls dev id size fs opts mp fl pass part (m : StorageManager) :
  _devices (snd (new_unit cls dev id size fs opts mp fl pass part m)) = _devices m.
Proof.
  pose proof (new_unit_spec cls dev id size fs opts mp fl pass part m) as H.
  destruct (new_unit _ _ _ _ _ _ _ _ _ _ m) as [[u|e] m']; simpl.
  - by destruct H as (d & _ & _ & _ & _ & _ & _ & ->).
  - by subst.
Qed.

Lemma add_partition_devices (dev : nat) (p : UnitParams) (m : StorageManager) :
  _devices (snd (add_partition dev p m)) = _devices m.
Proof.
  unfold add_partition, bind. pose proof (check_rest_state dev m) as H.
  destruct (check_rest_of_container dev m) as [[[]|e] m']; simpl in H; subst;
    [apply new_unit_devices | done].
Qed.

Lemma add_lv_devices (dev : nat) (p : UnitParams) (m : StorageManager) :
  _devices (snd (add_lv dev p m)) = _devices m.
Proof.
  unfold add_lv, bind. pose proof (check_rest_state dev m) as H.
  destruct (check_rest_of_container dev m) as [[[]|e] m']; simpl in H; subst;
    [apply new_unit_devices | done].
Qed.

Lemma readonly_ret {St A} (a : A) : readonly (ret (S := St) a).
Proof. done. Qed.

Lemma readonly_raise {St A} (e : exn) : readonly (raise (S := St) (A := A) e).
Proof. done. Qed.

Lemma readonly_lift {St A} (r : res A) : readonly (lift (S := St) r).
Proof. done. Qed.

Lemma readonly_get {St} : readonly (get (S := St)).
Proof. done. Qed.

Lemma readonly_bind {St A B} (c : M St A) (k : A -> M St B) :
  readonly c -> (forall a, readonly (k a)) -> readonly (bind c k).
Proof.
  intros Hc Hk s. unfold bind. specialize (Hc s).
  destruct (c s) as [[a|e] s1]; simpl in *; subst; [apply Hk | done].
Qed.

Lemma readonly_map_M {St A B} (l : list A) (f : A -> M St B) :
  (forall x, readonly (f x)) -> readonly (map_M f l).
Proof.
  intros Hf. induction l; simpl; [done|].
  apply readonly_bind; [done|]. intros b. by apply readonly_bind.
Qed.

Lemma readonly_from_dict {St} (data : dict pyval) : readonly (from_dict (S := St) data).
Proof.
  unfold from_dict.
  repeat first [ apply readonly_ret | apply readonly_lift
               | apply readonly_map_M; intros
               | apply readonly_bind; [|intros]
               | match goal with |- readonly (match ?x with _ => _ end) => destruct x end ].
Qed.

Lemma readonly_unit_by_id (id : string) : readonly (_unit_by_id id).
Proof.
  intros s. unfold _unit_by_id, bind, get. simpl. by destruct (dict_get _ _).
Qed.

Lemma lift_ok_inv {St A} (r : res A) (s s1 : St) (a : A) :
  lift r s = (Ok a, s1) -> r = Ok a /\ s1 = s.
Proof. unfold lift. by intros [= -> ->]. Qed.

Lemma get_ok_inv {St} (s s1 a : St) : get s = (Ok a, s1) -> a = s /\ s1 = s.
Proof. unfold get. by intros [= -> ->]. Qed.

Lemma ret_ok_inv {St A} (a b : A) (s s1 : St) : ret a s = (Ok b, s1) -> b = a /\ s1 = s.
Proof. unfold ret. by intros [= -> ->]. Qed.

Lemma readonly_ok_inv {St A} (c : M St A) (s s1 : St) (r : res A) :
  readonly c -> c s = (r, s1) -> s1 = s.
Proof. intros Hc H. specialize (Hc s). by rewrite H in Hc. Qed.

Lemma on_manager_ok_inv {A} (c : M StorageManager A) (s s1 : StorageInstaller) (a : A) :
  on_manager c s = (Ok a, s1) ->
  exists m', c (_smanager s) = (Ok a, m') /\ s1 = set_smanager m' s.
Proof.
  unfold on_manager. destruct (c (_smanager s)) as [r m'] eqn:E.
  intros [= -> <-]. by exists m'.
Qed.

Lemma for_each_ok_steps {A} (l : list A) (body : A -> M StorageInstaller unit)
    (s s' : StorageInstaller) :
  (forall x, stepwise (body x)) ->
  for_each l body s = (Ok tt, s') ->
  forall x, x ∈ l ->
    exists s1 s2, installer_steps s s1 /\ body x s1 = (Ok tt, s2) /\ installer_steps s2 s'.
Proof.
  intros Hbody. revert s. induction l as [|y l IH]; simpl; intros s Hrun x Hx.
  - by apply elem_of_nil in Hx.
  - apply bind_ok_inv in Hrun as ([] & s1 & Hy & Hrest).
    assert (installer_steps s s1) as Hs1
      by (pose proof (Hbody y s) as Hb; by rewrite Hy in Hb).
    assert (installer_steps s1 s') as Hs'.
    { pose proof (stepwise_for_each l body Hbody s1) as Hb. by rewrite Hrest in Hb. }
    apply elem_of_cons in Hx as [->|Hx].
    + exists s, s1. split; [apply rtc_refl | done].
    + destruct (IH s1 Hrest x Hx) as (sa & sb & Ha & Hb & Hc).
      exists sa, sb. split; [by etrans | done].
Qed.

Lemma read_dict_list_absent (data : dict pyval) (key : string) :
  dict_contains data key = false -> read_dict_list data key = Ok [].
Proof.
  unfold dict_contains, read_dict_list, read_list, pyget.
  by destruct (dict_get data key).
Qed.

(** Each section is read as a list of entries and parsed entry by entry;
    an absent section reads as the empty list. *)
Lemma parse_disks_ok (s s' : StorageInstaller) (b : bool) :
  _parse_disks s = (Ok b, s') ->
  exists l, read_dict_list (_data s) "disks" = Ok l /\
            for_each l parse_disk_item s = (Ok tt, s').
Proof.
  unfold _parse_disks. intros H.
  apply bind_ok_inv in H as (? & ? & Hg & H). apply get_ok_inv in Hg as [-> ->].
  apply bind_ok_inv in H as (l & ? & Hl & H). apply lift_ok_inv in Hl as [Hl ->].
  apply bind_ok_inv in H as ([] & s1 & Hf & H). apply ret_ok_inv in H as [_ ->].
  by exists l.
Qed.

Lemma parse_section_ok (key : string) (body : dict pyval -> M StorageInstaller unit)
    (s s' : StorageInstaller) (b : bool) :
  (s0 <- get ;;
   if negb (dict_contains (_data s0) key) then ret false
   else l <- lift (read_dict_list (_data s0) key) ;;
        for_each l body ;;; ret (nonempty l)) s = (Ok b, s') ->
  exists l, read_dict_list (_data s) key = Ok l /\ for_each l body s = (Ok tt, s').
Proof.
  intros H.
  apply bind_ok_inv in H as (? & ? & Hg & H). apply get_ok_inv in Hg as [-> ->].
  destruct (dict_contains _ _) eqn:E; simpl in H.
  - apply bind_ok_inv in H as (l & ? & Hl & H). apply lift_ok_inv in Hl as [Hl ->].
    apply bind_ok_inv in H as ([] & s1 & Hf & H). apply ret_ok_inv in H as [_ ->].
    by exists l.
  - apply ret_ok_inv in H as [_ ->]. exists []. by rewrite read_dict_list_absent.
Qed.

Lemma parse_crypto_volumes_ok (s s' : StorageInstaller) (b : bool) :
  _parse_crypto_volumes s = (Ok b, s') ->
  exists l, read_dict_list (_data s) "crypto_volumes" = Ok l /\
            for_each l parse_crypto_item s = (Ok tt, s').
Proof. apply parse_section_ok. Qed.

Lemma parse_raids_ok (s s' : StorageInstaller) (b : bool) :
  _parse_raids s = (Ok b, s') ->
  exists l, read_dict_list (_data s) "raids" = Ok l /\
            for_each l parse_raid_item s = (Ok tt, s').
Proof. apply parse_section_ok. Qed.

Lemma parse_volume_groups_ok (s s' : StorageInstaller) (b : bool) :
  _parse_volume_groups s = (Ok b, s') ->
  exists l, read_dict_list (_data s) "volume_groups" = Ok l /\
            for_each l parse_vg_item s = (Ok tt, s').
Proof. apply parse_section_ok. Qed.

Lemma stepwise_run {A} (c : M StorageInstaller A) (s s' : StorageInstaller) (r : res A) :
  stepwise c -> c s = (r, s') -> installer_steps s s'.
Proof. intros Hc H. specialize (Hc s). by rewrite H in Hc. Qed.

(** The constructor returns after the four sections were parsed, in the
    order disks, crypto volumes, RAIDs, volume groups, and [_validate]
    found a unit mounted at [/]. *)
Lemma setup_ok (s0 s : StorageInstaller) :
  StorageInstaller_setup s0 = (Ok tt, s) ->
  exists s1 s2 s3 s4 b1 b2 b3 b4,
    _parse_disks s0 = (Ok b1, s1) /\
    _parse_crypto_volumes s1 = (Ok b2, s2) /\
    _parse_raids s2 = (Ok b3, s3) /\
    _parse_volume_groups s3 = (Ok b4, s4) /\
    is_Some (get_unit_by_mount_point (_smanager s4) "/") /\
    installer_steps s4 s.
Proof.
  intros H. pose proof (stepwise_run _ _ _ _ stepwise_setup H) as Hsteps.
  unfold StorageInstaller_setup in H.
  apply bind_ok_inv in H as (b1 & s1 & H1 & H).
  apply bind_ok_inv in H as (b2 & s2 & H2 & H).
  apply bind_ok_inv in H as (b3 & s3 & H3 & H).
  apply bind_ok_inv in H as (b4 & s4 & H4 & H).
  exists s1, s2, s3, s4, b1, b2, b3, b4. repeat (split; [done|]).
  apply bind_ok_inv in H as ([] & s5 & H5 & H).
  injection H5 as <-.
  apply bind_ok_inv in H as ([] & s6 & H6 & H).
  unfold _validate, bind, get in H6. simpl in H6.
  destruct (get_unit_by_mount_point (_smanager s4) "/") as [u|] eqn:E; [|done].
  injection H6 as <-. split; [done|].
  etrans; [apply rtc_once, istep_has|].
  unfold StorageInstaller_setup in Hsteps.
  eapply (stepwise_run _ _ _ _ _ H).
  Unshelve.
  repeat first
    [ apply stepwise_collect_file_systems | apply stepwise_ret | apply stepwise_add_package
    | apply stepwise_bind; [|intros]
    | match goal with |- stepwise (if ?b then _ else _) => destruct b end ].
Qed.

Lemma add_unit_manager (u : StorageUnit) (s : StorageInstaller) :
  _smanager (snd (_add_unit u s)) = _smanager s.
Proof.
  unfold _add_unit, bind, get. simpl. by destruct (dict_contains _ _).
Qed.

Lemma parse_unit_item_devices (add : UnitParams -> M StorageManager StorageUnit)
    (item : dict pyval) (s : StorageInstaller) :
  (forall p m, _devices (snd (add p m)) = _devices m) ->
  _devices (_smanager (snd (parse_unit_item add item s))) = _devices (_smanager s).
Proof.
  intros Hadd. unfold parse_unit_item, bind.
  pose proof (readonly_from_dict (St := StorageInstaller) item s) as Hf.
  destruct (from_dict item s) as [[p|e] s1]; simpl in Hf; subst; [|done].
  unfold on_manager. specialize (Hadd p (_smanager s)).
  destruct (add p (_smanager s)) as [[u|e] m']; simpl in *; [|done].
  by rewrite add_unit_manager.
Qed.

Lemma for_each_units_devices (add : UnitParams -> M StorageManager StorageUnit)
    (l : list (dict pyval)) (s : StorageInstaller) :
  (forall p m, _devices (snd (add p m)) = _devices m) ->
  _devices (_smanager (snd (for_each l (parse_unit_item add) s))) = _devices (_smanager s).
Proof.
  intros Hadd.
  apply (for_each_inv (fun s1 => _devices (_smanager s1) = _devices (_smanager s)));
    [|done].
  intros x s1 _ <-. by apply parse_unit_item_devices.
Qed.

(** A RAID entry that is accepted: the RAID is registered under the path
    [os.path.join('/dev/md', id)], which was free, with the metadata
    version of the entry, or [1.2] when the entry gives the empty string;
    no other id of the registry is touched. *)
Lemma parse_raid_item_ok (item : dict pyval) (s s' : StorageInstaller) :
  parse_raid_item item s = (Ok tt, s') ->
  exists raid_id metadata,
    read_str_or_fail item "id" = Ok raid_id /\
    read_str_or_fail item "metadata" = Ok metadata /\
    get_device_by_id (_smanager s) (path_join "/dev/md" raid_id) = None /\
    raid_registered (_smanager s') (path_join "/dev/md" raid_id)
      (if String.eqb metadata "" then "1.2" else metadata) /\
    (forall k, k <> path_join "/dev/md" raid_id ->
       get_device_by_id (_smanager s') k = get_device_by_id (_smanager s) k).
Proof.
  unfold parse_raid_item. intros H.
  apply bind_ok_inv in H as (raid_id & ? & Hid & H). apply lift_ok_inv in Hid as [Hid ->].
  apply bind_ok_inv in H as (level & ? & Hlv & H). apply lift_ok_inv in Hlv as [Hlv ->].
  apply bind_ok_inv in H as (md & ? & Hmd & H). apply lift_ok_inv in Hmd as [Hmd ->].
  apply bind_ok_inv in H as (ml & ? & Hml & H). apply lift_ok_inv in Hml as [Hml ->].
  apply bind_ok_inv in H as (members & s1 & Hms & H).
  apply readonly_ok_inv in Hms as ->;
    [|apply readonly_map_M; intros; apply readonly_unit_by_id].
  apply bind_ok_inv in H as (raid & s2 & Hadd & H).
  apply on_manager_ok_inv in Hadd as (m' & Hadd & ->).
  apply bind_ok_inv in H as (pl & ? & Hpl & H). apply lift_ok_inv in Hpl as [Hpl ->].
  exists raid_id, md. do 2 (split; [done|]).
  set (id := path_join "/dev/md" raid_id) in *.
  set (metadata := if String.eqb md "" then "1.2" else md) in *.
  destruct (get_device_by_id (_smanager s) id) as [a|] eqn:Hfree.
  { by rewrite (add_raid_dup _ _ _ _ _ _ Hfree) in Hadd. }
  split; [done|].
  rewrite (add_raid_fresh _ _ _ _ _ Hfree), (register_spec _ _ _ Hfree) in Hadd.
  destruct (id_in_use (_smanager s) id); [done|]. injection Hadd as <- <-.
  pose proof (for_each_units_devices (add_partition (length (heap (_smanager s)))) pl
                (set_smanager
                   (mkManager (heap (_smanager s) ++ [RAID id level metadata members []])
                      (_devices (_smanager s) ++ [(id, length (heap (_smanager s)))])
                      (_mount_root_base (_smanager s)) (_cryptsetup (_smanager s))) s)
                (add_partition_devices _)) as Hdev.
  pose proof (stepwise_run _ _ _ _
                (stepwise_for_each pl _
                   (fun x => stepwise_parse_unit_item _ x (add_partition_step _))) H)
    as Hsteps.
  rewrite H in Hdev. simpl in Hdev. split.
  - revert Hsteps.
    apply (installer_steps_manager (fun m => raid_registered m id metadata));
      [intros; by eapply raid_registered_step|].
    simpl. exists (length (heap (_smanager s))), (RAID id level metadata members []).
    rewrite get_device_by_id_app by done. rewrite decide_True by done.
    split; [done|]. split; [|by eauto].
    unfold deref. simpl. by rewrite lookup_app_r, Nat.sub_diag.
  - intros k Hk. unfold get_device_by_id at 1. rewrite Hdev.
    rewrite <- (dict_set_fresh _ _ _ Hfree), dict_get_set. by rewrite decide_False.
Qed.

Lemma stepwise_parse_disks : stepwise _parse_disks.
Proof.
  unfold _parse_disks.
  repeat first [ apply stepwise_parse_disk_item | apply stepwise_ret | apply stepwise_lift
               | apply stepwise_get | apply stepwise_for_each; intros
               | apply stepwise_bind; [|intros] ].
Qed.

Lemma stepwise_section (key : string) (body : dict pyval -> M StorageInstaller unit) :
  (forall x, stepwise (body x)) ->
  stepwise (s0 <- get ;;
            if negb (dict_contains (_data s0) key) then ret false
            else l <- lift (read_dict_list (_data s0) key) ;;
                 for_each l body ;;; ret (nonempty l)).
Proof.
  intros Hb. apply stepwise_bind; [apply stepwise_get|]. intros s0.
  destruct (negb _); [apply stepwise_ret|].
  apply stepwise_bind; [apply stepwise_lift|]. intros l.
  apply stepwise_bind; [by apply stepwise_for_each|]. intros _. apply stepwise_ret.
Qed.

Lemma stepwise_parse_crypto_volumes : stepwise _parse_crypto_volumes.
Proof. apply stepwise_section, stepwise_parse_crypto_item. Qed.

Lemma stepwise_parse_raids : stepwise _parse_raids.
Proof. apply stepwise_section, stepwise_parse_raid_item. Qed.

Lemma stepwise_parse_volume_groups : stepwise _parse_volume_groups.
Proof. apply stepwise_section, stepwise_parse_vg_item. Qed.

(** The constructor returned: the configuration has a [storage] mapping
    and the four sections were parsed from it in order. *)
Lemma init_ok_sections (root : string) (config : dict pyval) (s : StorageInstaller) :
  StorageInstaller_init root config = Ok s ->
  exists data s1 s2 s3 s4 b1 b2 b3 b4,
    pyget config "storage" = PDict data /\
    let s0 := initial_installer root (PDict data) in
    _parse_disks s0 = (Ok b1, s1) /\
    _parse_crypto_volumes s1 = (Ok b2, s2) /\
    _parse_raids s2 = (Ok b3, s3) /\
    _parse_volume_groups s3 = (Ok b4, s4) /\
    is_Some (get_unit_by_mount_point (_smanager s4) "/") /\
    installer_steps s4 s /\
    _data s1 = data /\ _data s2 = data /\ _data s3 = data.
Proof.
  intros H. apply init_ok_steps in H as (data0 & Hi & Hsetup & _).
  unfold Installer_init in Hi. simpl in Hi.
  destruct (pyget config "storage") as [| | | | |data] eqn:Hd; try done.
  injection Hi as <-.
  apply setup_ok in Hsetup as (s1 & s2 & s3 & s4 & b1 & b2 & b3 & b4 &
                                H1 & H2 & H3 & H4 & Hv & Hs).
  exists data, s1, s2, s3, s4, b1, b2, b3, b4. split; [done|].
  pose proof (stepwise_run _ _ _ _ stepwise_parse_disks H1) as S1.
  pose proof (stepwise_run _ _ _ _ stepwise_parse_crypto_volumes H2) as S2.
  pose proof (stepwise_run _ _ _ _ stepwise_parse_raids H3) as S3.
  apply installer_steps_data in S1, S2, S3. simpl in S1.
  cbv zeta. repeat split; try done; congruence.
Qed.

Lemma initial_ids_match (root : string) (data : pyval) :
  ids_match (_smanager (initial_installer root data)).
Proof.
  intros k a H. apply dict_get_Some_elem in H.
  apply list_elem_of_singleton in H as [= -> ->]. by eexists.
Qed.

(** After the constructor returned, the RAID of every entry of the [raids]
    section is registered under the path joined from [/dev/md] and its
    configured id. *)
Lemma init_raid_registered (root : string) (config data : dict pyval)
    (s : StorageInstaller) (raid_list : list (dict pyval)) (item : dict pyval)
    (raid_id : string) :
  StorageInstaller_init root config = Ok s ->
  pyget config "storage" = PDict data ->
  read_dict_list data "raids" = Ok raid_list -> item ∈ raid_list ->
  read_str_or_fail item "id" = Ok raid_id ->
  registered_as (_smanager s) (path_join "/dev/md" raid_id) TRAID.
Proof.
  intros Hinit Hdata Hl Hitem Hid.
  apply init_ok_sections in Hinit
    as (data' & s1 & s2 & s3 & s4 & b1 & b2 & b3 & b4 & Hd & _ & _ & H3 & H4 & _ &
        Hs & _ & Hd2 & _).
  assert (data' = data) as -> by congruence.
  apply parse_raids_ok in H3 as (l & Hl' & Hfor). rewrite Hd2 in Hl'.
  assert (l = raid_list) as -> by congruence.
  destruct (for_each_ok_steps _ _ _ _ stepwise_parse_raid_item Hfor item Hitem)
    as (sa & sb & _ & Hrun & Hsb).
  apply parse_raid_item_ok in Hrun as (r & md & Hr & _ & _ & Hreg & _).
  assert (r = raid_id) as -> by congruence.
  apply raid_registered_as in Hreg.
  pose proof (stepwise_run _ _ _ _ stepwise_parse_volume_groups H4) as S4.
  assert (installer_steps sb s) as Hsteps by (etrans; [done|]; by etrans).
  revert Hsteps.
  apply (installer_steps_manager (fun m => registered_as m _ TRAID)); [|done].
  intros; by eapply registered_as_step.
Qed.

(** C9 (as amended): a RAID is registered under
    [os.path.join('/dev/md', id)], which is ['/dev/md/' + id] unless the
    configured id starts with ['/'], and is the id itself when it does.
    For every configured id: an accepted entry finds the joined path free
    (so duplicates are detected on the joined path), registers the RAID
    under it and leaves every other registration as it was; after the
    constructor returned, the RAID of every entry is still registered under
    the joined path.  So a RAID whose configured id starts with ['/'] is
    registered under that id itself.  For an id that does not start with
    ['/'], the RAID is registered under the prefixed id, the registration
    of the unprefixed id is left as it was, and a device registered under
    the unprefixed id is another device, whose own id that is. *)
Theorem raid_registered_under_dev_md :
  (forall raid_id,
     path_join "/dev/md" raid_id
     = if isabs raid_id then raid_id else ("/dev/md/" ++ raid_id)%string) /\
  (forall (item : dict pyval) (s s' : StorageInstaller) (raid_id : string),
     read_str_or_fail item "id" = Ok raid_id -> isabs raid_id = false ->
     parse_raid_item item s = (Ok tt, s') ->
     get_device_by_id (_smanager s) ("/dev/md/" ++ raid_id) = None /\
     registered_as (_smanager s') ("/dev/md/" ++ raid_id) TRAID /\
     get_device_by_id (_smanager s') raid_id = get_device_by_id (_smanager s) raid_id) /\
  (forall (root : string) (config data : dict pyval) (s : StorageInstaller)
          (raid_list : list (dict pyval)) (item : dict pyval) (raid_id : string),
     StorageInstaller_init root config = Ok s ->
     pyget config "storage" = PDict data ->
     read_dict_list data "raids" = Ok raid_list -> item ∈ raid_list ->
     read_str_or_fail item "id" = Ok raid_id -> isabs raid_id = false ->
     registered_as (_smanager s) ("/dev/md/" ++ raid_id) TRAID /\
     forall a, get_device_by_id (_smanager s) raid_id = Some a ->
               exists d, deref (_smanager s) a = Some d /\ device_id d = raid_id) /\
  (forall (item : dict pyval) (s s' : StorageInstaller) (raid_id : string),
     read_str_or_fail item "id" = Ok raid_id ->
     parse_raid_item item s = (Ok tt, s') ->
     get_device_by_id (_smanager s) (path_join "/dev/md" raid_id) = None /\
     registered_as (_smanager s') (path_join "/dev/md" raid_id) TRAID /\
     (forall k, k <> path_join "/dev/md" raid_id ->
        get_device_by_id (_smanager s') k = get_device_by_id (_smanager s) k) /\
     (isabs raid_id = true ->
      get_device_by_id (_smanager s) raid_id = None /\
      registered_as (_smanager s') raid_id TRAID)) /\
  (forall (root : string) (config data : dict pyval) (s : StorageInstaller)
          (raid_list : list (dict pyval)) (item : dict pyval) (raid_id : string),
     StorageInstaller_init root config = Ok s ->
     pyget config "storage" = PDict data ->
     read_dict_list data "raids" = Ok raid_list -> item ∈ raid_list ->
     read_str_or_fail item "id" = Ok raid_id ->
     registered_as (_smanager s) (path_join "/dev/md" raid_id) TRAID /\
     (isabs raid_id = true -> registered_as (_smanager s) raid_id TRAID)).
Proof.
  split; [apply path_join_dev_md|]. split; [|split; [|split]].
  - intros item s s' raid_id Hid Habs H.
    apply parse_raid_item_ok in H as (r & md & Hr & _ & Hfree & Hreg & Hother).
    assert (r = raid_id) as -> by congruence.
    rewrite path_join_dev_md, Habs in Hfree, Hreg, Hother.
    split; [done|]. split; [by eapply raid_registered_as|].
    apply Hother. intros E. by eapply (prefixed_ne "/dev/md/").
  - intros root config data s raid_list item raid_id Hinit Hdata Hl Hitem Hid Habs.
    split.
    + pose proof (init_raid_registered _ _ _ _ _ _ _ Hinit Hdata Hl Hitem Hid) as Hreg.
      by rewrite path_join_dev_md, Habs in Hreg.
    + assert (ids_match (_smanager s)) as Hm; [|by apply Hm].
      apply (init_ok_inv (fun s => ids_match (_smanager s)) root config);
        [apply initial_ids_match | | done].
      intros s1 s2. apply manager_step_installer, ids_match_step.
  - intros item s s' raid_id Hid H.
    apply parse_raid_item_ok in H as (r & md & Hr & _ & Hfree & Hreg & Hother).
    assert (r = raid_id) as -> by congruence.
    apply raid_registered_as in Hreg.
    split; [done|]. split; [done|]. split; [done|].
    intros Habs. rewrite path_join_dev_md, Habs in Hfree, Hreg. done.
  - intros root config data s raid_list item raid_id Hinit Hdata Hl Hitem Hid.
    pose proof (init_raid_registered _ _ _ _ _ _ _ Hinit Hdata Hl Hitem Hid) as Hreg.
    split; [done|]. intros Habs. by rewrite path_join_dev_md, Habs in Hreg.
Qed.

(** ** The metadata version of a RAID *)

(** A RAID entry without the [metadata] key is not accepted. *)
Lemma parse_raid_item_needs_metadata (item : dict pyval) (s : StorageInstaller) :
  dict_get item "metadata" = None -> is_ok (fst (parse_raid_item item s)) = false.
Proof.
  intros Hmd. destruct (parse_raid_item item s) as [[[]|e] s'] eqn:H; [|done].
  apply parse_raid_item_ok in H as (_ & md & _ & Hread & _).
  unfold read_str_or_fail, read_key_or_fail, pyget in Hread. by rewrite Hmd in Hread.
Qed.

(** ** The fstab *)

Lemma is_swap_true (u : StorageUnit) : is_swap u = true <-> fs_type u = Some SWAP.
Proof. unfold is_swap. apply bool_decide_eq_true. Qed.

Lemma mount_points_elem (m : StorageManager) (mp : string) (u : StorageUnit) :
  (mp, u) ∈ mount_points m <-> u ∈ storage_units m /\ mount_point u = Some mp /\ mp <> "".
Proof.
  unfold mount_points. rewrite list_elem_of_omap. unfold mount_point_set. split.
  - intros (u' & Hu' & H). destruct (mount_point u') as [mp'|] eqn:E; [|done].
    destruct (String.eqb mp' "") eqn:Heq; [done|].
    apply String.eqb_neq in Heq. simpl in H. injection H as -> ->. done.
  - intros (Hu & Hmp & Hne). exists u. split; [done|]. rewrite Hmp.
    apply String.eqb_neq in Hne. by rewrite Hne.
Qed.

(** Every unit rendered is a swap unit or has a mount point. *)
Lemma fstab_units_elem (m : StorageManager) (u : StorageUnit) :
  u ∈ fstab_units m -> is_swap u = true \/ exists mp, mount_point u = Some mp.
Proof.
  unfold fstab_units. rewrite elem_of_app. intros [H|H].
  - right. apply list_elem_of_fmap in H as ([mp u'] & -> & H).
    unfold sorted in H. rewrite sort_stable_perm in H.
    apply mount_points_elem in H as (_ & ? & _). by exists mp.
  - left. apply list_elem_of_filter in H as [H _]. by apply Is_true_true.
Qed.

(** The line the code writes is the line of the specification. *)
Lemma fstab_line_spec (m : StorageManager) (uuid : string) (u : StorageUnit) :
  u ∈ fstab_units m -> fstab_line uuid u = spec_fstab_line uuid u.
Proof.
  intros Hu. apply fstab_units_elem in Hu.
  unfold fstab_line, spec_fstab_line, render_fstab_entry, spec_fstab_entry, is_swap, join.
  simpl. destruct (fs_type u) as [[]|] eqn:Ht; simpl.
  all: try (destruct Hu as [Hu | [mp Hu]];
            [ by rewrite is_swap_true, Ht in Hu | rewrite Hu ]).
  all: try (destruct (fs_opts u) as [|o os] eqn:Ho; simpl).
  all: try by rewrite bool_decide_decide; destruct (decide _).
  all: done.
Qed.

(** The queries [write_fstab] runs, one per unit. *)
Lemma fstab_lines_run (l : list StorageUnit) (h h' : Host) (lines : list string) :
  map_M (fun unit => fs_spec <- fs_uuid unit ;; ret (fstab_line fs_spec unit)) l h
    = (Ok lines, h') ->
  exists uuids,
    length uuids = length l /\
    lines = zip_with fstab_line uuids l /\
    trace h' = trace h ++ map (fun u => Run (blkid_args (block_device u))) l.
Proof.
  revert h lines. induction l as [|u l IH]; simpl; intros h lines H.
  - injection H as <- <-. exists []. by rewrite app_nil_r.
  - apply bind_ok_inv in H as (line & h1 & Hu & H).
    apply bind_ok_inv in H as (lines' & h2 & Hl & H). injection H as <- <-.
    apply bind_ok_inv in Hu as (uuid & h1' & Hu & Hr). injection Hr as <- <-.
    destruct (IH _ _ Hl) as (uuids & Hlen & -> & Ht).
    exists (uuid :: uuids). simpl. split; [by f_equal|]. split; [done|].
    rewrite Ht. unfold fs_uuid, get_fs_uuid in Hu.
    pose proof (emits_run_cmd (fun e => e = Run (blkid_args (block_device u)))
                  (blkid_args (block_device u)) false eq_refl h) as (evs & He & Hevs).
    unfold run_cmd at 1 in Hu. rewrite !bind_assoc in Hu.
    change ((emit ?e ;;; ?k) h) with (k (mkHost (world h) (trace h ++ [e]))) in Hu.
    assert (trace h1' = trace h ++ [Run (blkid_args (block_device u))]) as ->.
    { revert Hu. unfold bind, on_world, raise, ret. simpl.
      destruct (subprocess_run _ _) as [[r|e] w]; simpl; [|done].
      destruct (negb _); simpl; [done|]. destruct (String.eqb _ _); [done|].
      by intros [= _ <-]. }
    by rewrite <- app_assoc.
Qed.

Lemma fstab_lines_answered (uuid_of : StorageUnit -> string) (l : list StorageUnit)
    (h : Host) :
  (forall u w, u ∈ l ->
     exists out w',
       subprocess_run (blkid_args (block_device u)) w = (Ok (mkCompleted 0 out), w') /\
       strip out = uuid_of u /\ uuid_of u <> "") ->
  exists h',
    map_M (fun unit => fs_spec <- fs_uuid unit ;; ret (fstab_line fs_spec unit)) l h
      = (Ok (map (fun u => fstab_line (uuid_of u) u) l), h') /\
    trace h' = trace h ++ map (fun u => Run (blkid_args (block_device u))) l.
Proof.
  revert h. induction l as [|u l IH]; simpl; intros h Hans.
  - exists h. by rewrite app_nil_r.
  - destruct (Hans u (world h) (list_elem_of_here _ _)) as (out & w' & Hrun & Hout & Hne).
    destruct (IH (mkHost w' (trace h ++ [Run (blkid_args (block_device u))])))
      as (h' & Hl & Ht).
    { intros u' w Hu'. apply Hans. by right. }
    exists h'. split; [|by rewrite Ht; simpl; rewrite <- app_assoc].
    assert (fs_uuid u h
            = (Ok (uuid_of u), mkHost w' (trace h ++ [Run (blkid_args (block_device u))])))
      as Hu.
    { unfold fs_uuid, get_fs_uuid, run_cmd, bind, emit, on_world. simpl.
      rewrite Hrun. simpl. rewrite Hout.
      apply String.eqb_neq in Hne. by rewrite Hne. }
    erewrite bind_run_ok; [|erewrite bind_run_ok; [reflexivity | exact Hu]].
    erewrite bind_run_ok; [|exact Hl]. reflexivity.
Qed.

Lemma zip_with_ext_elem {A B C} (f g : A -> B -> C) (l : list A) (k : list B) :
  (forall x y, y ∈ k -> f x y = g x y) -> zip_with f l k = zip_with g l k.
Proof.
  revert k. induction l as [|x l IH]; intros [|y k] H; simpl; try done.
  rewrite H by left. f_equal. apply IH. intros x' y' Hy'. apply H. by right.
Qed.

(** C7: [write_fstab] renders the mounted units in ascending order of their
    mount points, followed by the swap units, one line each: keyed by the
    UUID read from the unit's block device, with the mount point ([none]
    for swap), the file-system type, the options joined by commas
    ([defaults] for swap or without options), 0, and the pass number 0 for
    swap, 1 for the unit mounted at [/] and 2 otherwise.  The file it
    writes is the concatenation of these lines, and it does write it on a
    machine that answers every UUID query. *)
Theorem write_fstab_renders_spec (m : StorageManager) (path : string) :
  (exists mounted,
     fstab_units m = map snd mounted ++ filter (fun u => is_swap u) (storage_units m) /\
     mounted ≡ₚ mount_points m /\
     StronglySorted (key_le fst) mounted) /\
  (forall uuid u, u ∈ fstab_units m -> fstab_line uuid u = spec_fstab_line uuid u) /\
  (forall h h',
     write_fstab m path h = (Ok tt, h') ->
     exists uuids,
       length uuids = length (fstab_units m) /\
       trace h' = trace h
         ++ map (fun u => Run (blkid_args (block_device u))) (fstab_units m)
         ++ [Call (write_file path "w"
                     (String.concat "" (zip_with spec_fstab_line uuids (fstab_units m))))]) /\
  (forall (uuid_of : StorageUnit -> string) h,
     (forall u w, u ∈ fstab_units m ->
        exists out w',
          subprocess_run (blkid_args (block_device u)) w = (Ok (mkCompleted 0 out), w') /\
          strip out = uuid_of u /\ uuid_of u <> "") ->
     (forall data w, exists w', ext (write_file path "w" data) w = (Ok tt, w')) ->
     exists h',
       write_fstab m path h = (Ok tt, h') /\
       trace h' = trace h
         ++ map (fun u => Run (blkid_args (block_device u))) (fstab_units m)
         ++ [Call (write_file path "w"
                     (String.concat ""
                        (map (fun u => spec_fstab_line (uuid_of u) u) (fstab_units m))))]) /\
  (forall u, mount_point u = Some "/" -> fs_type u = Some EXT4 -> fs_opts u = [] ->
     fstab_line "ABCD" u = ("UUID=ABCD / ext4 defaults 0 1" ++ String "010" "")%string) /\
  (forall uuid u, fs_type u = Some SWAP ->
     fstab_line uuid u
     = ("UUID=" ++ uuid ++ " none swap defaults 0 0" ++ String "010" "")%string).
Proof.
  split; [|split; [|split; [|split; [|split]]]].
  - exists (sorted fst false (mount_points m)). split; [done|].
    split; [apply sort_stable_perm | apply sort_stable_sorted].
  - intros uuid u. apply fstab_line_spec.
  - intros h h' H. unfold write_fstab in H.
    apply bind_ok_inv in H as (lines & h1 & Hl & H).
    apply fstab_lines_run in Hl as (uuids & Hlen & -> & Ht).
    exists uuids. split; [done|].
    rewrite (zip_with_ext_elem fstab_line spec_fstab_line)
      in H by (intros; by eapply fstab_line_spec).
    revert H. unfold call, bind, emit, on_world. simpl.
    destruct (ext _ (world h1)) as [[[]|e] w]; [|done].
    intros [= <-]. simpl. by rewrite Ht, <- app_assoc.
  - intros uuid_of h Hans Hw.
    destruct (fstab_lines_answered uuid_of (fstab_units m) h Hans) as (h1 & Hl & Ht).
    unfold write_fstab, bind at 1. rewrite Hl.
    rewrite (map_ext_in _ (fun u => spec_fstab_line (uuid_of u) u))
      by (intros u Hu; apply list_elem_of_In in Hu; by eapply fstab_line_spec).
    unfold call, bind, emit, on_world. simpl.
    destruct (Hw (String.concat ""
                    (map (fun u => spec_fstab_line (uuid_of u) u) (fstab_units m)))
                 (world h1)) as (w' & ->).
    eexists. split; [done|]. simpl. by rewrite Ht, <- app_assoc.
  - intros u Hmp Ht Ho. unfold fstab_line, is_swap. rewrite Hmp, Ht, Ho. done.
  - intros uuid u Ht. unfold fstab_line, is_swap. rewrite Ht. done.
Qed.

(** ** The unit entries of a configuration *)

Lemma new_unit_factory cls dev size fs opts fl pass part (p : UnitParams)
    (m m' : StorageManager) (u : StorageUnit) :
  new_unit cls dev (p_id p) size fs opts (p_mount_point p) fl pass part m = (Ok u, m') ->
  p_id p = PStr (unit_id u) /\ unit_class u = cls /\
  declared_mount_point (p_mount_point p) (mount_point u) /\
  (forall mp, mount_point u = Some mp ->
              isabs mp = true /\ _get_unit_by_mount_point m mp = None) /\
  exists dev d, deref m dev = Some d /\
                m' = set_heap (<[dev := append_unit d u]> (heap m)) m.
Proof.
  intros H.
  pose proof (new_unit_spec cls dev (p_id p) size fs opts (p_mount_point p) fl pass part m)
    as Hs.
  rewrite H in Hs. destruct Hs as (d & Hd & Hid & Hcls & _ & Hmp & _ & ->).
  split; [done|]. split; [done|]. split; [|split; [|by exists dev, d]].
  - destruct (p_mount_point p); try done. by destruct Hmp.
  - intros mp Hu. destruct (p_mount_point p); try done; [congruence|].
    destruct Hmp as (Hmp & ? & ?). by simplify_eq.
Qed.

Lemma check_rest_ok (dev : nat) (m m' : StorageManager) :
  check_rest_of_container dev m = (Ok tt, m') -> m' = m.
Proof. intros H. pose proof (check_rest_state dev m) as Hs. by rewrite H in Hs. Qed.

Lemma add_partition_factory (dev : nat) : unit_factory Partition (add_partition dev).
Proof.
  intros p m u m' H. unfold add_partition in H.
  apply bind_ok_inv in H as ([] & m1 & Hc & H). apply check_rest_ok in Hc as ->.
  by eapply new_unit_factory.
Qed.

Lemma add_lv_factory (dev : nat) : unit_factory LogicalVolume (add_lv dev).
Proof.
  intros p m u m' H. unfold add_lv in H.
  apply bind_ok_inv in H as ([] & m1 & Hc & H). apply check_rest_ok in Hc as ->.
  by eapply new_unit_factory.
Qed.

Lemma add_volume_factory (dev : nat) (part : StorageUnit) :
  unit_factory CryptoVolume (fun p => add_volume dev p part).
Proof.
  intros p m u m' H. unfold add_volume in H. case_bool_decide; [|done].
  by eapply new_unit_factory.
Qed.

Lemma add_volume_on_partition (dev : nat) (p : UnitParams) (part u : StorageUnit)
    (m m' : StorageManager) :
  add_volume dev p part m = (Ok u, m') -> unit_class part = Partition.
Proof. unfold add_volume. by case_bool_decide. Qed.

Lemma from_dict_ok {St} (data : dict pyval) (s s' : St) (p : UnitParams) :
  from_dict data s = (Ok p, s') ->
  s' = s /\ p_id p = pyget data "id" /\ p_mount_point p = pyget data "mount_point".
Proof.
  intros H. split; [by eapply readonly_ok_inv, H; apply readonly_from_dict|].
  unfold from_dict in H.
  apply bind_ok_inv in H as (size & ? & _ & H).
  apply bind_ok_inv in H as (fs & ? & _ & H).
  apply bind_ok_inv in H as (opts & ? & _ & H).
  apply bind_ok_inv in H as (fls & ? & _ & H).
  apply bind_ok_inv in H as (fl & ? & _ & H).
  by injection H as <- _.
Qed.

Lemma add_unit_ok (u : StorageUnit) (s s' : StorageInstaller) :
  _add_unit u s = (Ok tt, s') ->
  dict_get (_units s) (unit_id u) = None /\
  s' = set_units (_units s ++ [(unit_id u, u)]) s.
Proof.
  unfold _add_unit, bind, get. simpl.
  destruct (dict_contains (_units s) (unit_id u)) eqn:E; simpl; [done|].
  assert (dict_get (_units s) (unit_id u) = None) as Hn.
  { unfold dict_contains in E. by destruct (dict_get _ _). }
  rewrite (dict_set_fresh _ _ _ Hn). by intros [= <-].
Qed.

(** A unit entry that is accepted: the factory returned the unit declared
    by the entry and the unit was registered under its id, which was free. *)
Lemma parse_unit_item_ok (add : UnitParams -> M StorageManager StorageUnit)
    (item : dict pyval) (s s' : StorageInstaller) :
  parse_unit_item add item s = (Ok tt, s') ->
  exists p u m',
    p_id p = pyget item "id" /\ p_mount_point p = pyget item "mount_point" /\
    add p (_smanager s) = (Ok u, m') /\
    dict_get (_units s) (unit_id u) = None /\
    s' = set_units (_units s ++ [(unit_id u, u)]) (set_smanager m' s).
Proof.
  unfold parse_unit_item. intros H.
  apply bind_ok_inv in H as (p & s1 & Hp & H). apply from_dict_ok in Hp as (-> & Hid & Hmp).
  apply bind_ok_inv in H as (u & s2 & Hu & H).
  apply on_manager_ok_inv in Hu as (m' & Hu & ->).
  apply add_unit_ok in H as [Hfree ->].
  by exists p, u, m'.
Qed.

Lemma parse_disk_item_ok (item : dict pyval) (s s' : StorageInstaller) :
  parse_disk_item item s = (Ok tt, s') ->
  exists id disk m1 part_list,
    read_str_or_fail item "id" = Ok id /\
    add_disk id (_smanager s) = (Ok disk, m1) /\
    read_dict_list item "partitions" = Ok part_list /\
    for_each part_list (parse_unit_item (add_partition disk)) (set_smanager m1 s)
      = (Ok tt, s').
Proof.
  unfold parse_disk_item. intros H.
  apply bind_ok_inv in H as (id & ? & Hid & H). apply lift_ok_inv in Hid as [Hid ->].
  apply bind_ok_inv in H as (disk & s1 & Hd & H).
  apply on_manager_ok_inv in Hd as (m1 & Hd & ->).
  apply bind_ok_inv in H as (pl & ? & Hpl & H). apply lift_ok_inv in Hpl as [Hpl ->].
  by exists id, disk, m1, pl.
Qed.

Lemma parse_crypto_item_ok (item : dict pyval) (s s' : StorageInstaller) :
  parse_crypto_item item s = (Ok tt, s') ->
  exists p part_id part u m',
    p_id p = pyget item "id" /\ p_mount_point p = pyget item "mount_point" /\
    read_str_or_fail item "on_partition" = Ok part_id /\
    dict_get (_units s) part_id = Some part /\
    add_volume (_cryptsetup (_smanager s)) p part (_smanager s) = (Ok u, m') /\
    dict_get (_units s) (unit_id u) = None /\
    s' = set_units (_units s ++ [(unit_id u, u)]) (set_smanager m' s).
Proof.
  unfold parse_crypto_item. intros H.
  apply bind_ok_inv in H as (p & s1 & Hp & H). apply from_dict_ok in Hp as (-> & Hid & Hmp).
  apply bind_ok_inv in H as (pid & ? & Hpid & H). apply lift_ok_inv in Hpid as [Hpid ->].
  apply bind_ok_inv in H as (part & s1 & Hpart & H).
  assert (s1 = s /\ dict_get (_units s) pid = Some part) as [-> Hget].
  { revert Hpart. unfold _unit_by_id, bind, get. simpl.
    destruct (dict_get (_units s) pid); [|done]. by intros [= -> ->]. }
  apply bind_ok_inv in H as (? & ? & Hg & H). apply get_ok_inv in Hg as [-> ->].
  apply bind_ok_inv in H as (u & s2 & Hu & H).
  apply on_manager_ok_inv in Hu as (m' & Hu & ->).
  apply add_unit_ok in H as [Hfree ->].
  by exists p, pid, part, u, m'.
Qed.

(** A loop that returned ran its body, with success, on every element, in
    states that satisfy every invariant of the successful runs. *)
Lemma for_each_ok_inv2 {St A} (I : St -> Prop) (l : list A) (body : A -> M St unit)
    (s s' : St) :
  (forall x s1 s2, x ∈ l -> I s1 -> body x s1 = (Ok tt, s2) -> I s2) ->
  I s -> for_each l body s = (Ok tt, s') ->
  I s' /\ forall x, x ∈ l -> exists s1 s2, I s1 /\ body x s1 = (Ok tt, s2).
Proof.
  revert s. induction l as [|x l IH]; simpl; intros s Hbody Hs Hrun.
  - injection Hrun as <-. split; [done|]. intros x Hx. by apply elem_of_nil in Hx.
  - apply bind_ok_inv in Hrun as ([] & s1 & Hx & Hrest).
    assert (I s1) as Hs1 by (eapply Hbody; [left | done..]).
    destruct (IH s1) as [Hs' Hall]; [|done|done|].
    { intros y sa sb Hy. apply Hbody. by right. }
    split; [done|]. intros y Hy. apply elem_of_cons in Hy as [->|Hy]; eauto.
Qed.

(** ** The layering of crypto volumes *)

Lemma dict_get_app_fresh {V} (d : dict V) (k k' : string) (v : V) :
  dict_get d k = None ->
  dict_get (d ++ [(k, v)]) k' = if decide (k = k') then Some v else dict_get d k'.
Proof. intros H. by rewrite <- (dict_set_fresh _ _ _ H), dict_get_set. Qed.

Lemma entries_ok (data : dict pyval) (key : string) (l : list (dict pyval)) :
  read_dict_list data key = Ok l -> entries data key = l.
Proof. unfold entries. by intros ->. Qed.

Lemma units_from_disks_disk_item (data : dict pyval) (item : dict pyval)
    (s s' : StorageInstaller) :
  item ∈ entries data "disks" ->
  units_from_disks data s ->
  parse_disk_item item s = (Ok tt, s') ->
  units_from_disks data s'.
Proof.
  intros Hitem Hs H.
  apply parse_disk_item_ok in H as (id & disk & m1 & pl & _ & _ & Hpl & H).
  apply entries_ok in Hpl.
  refine (proj1 (for_each_ok_inv2 (units_from_disks data) _ _ _ _ _ _ H)); [|done].
  intros part sa sb Hpart Hsa Hrun.
  apply parse_unit_item_ok in Hrun as (p & u & m' & Hid & _ & Hadd & Hfree & ->).
  apply add_partition_factory in Hadd as (Hpid & _).
  intros k v. simpl. rewrite dict_get_app_fresh by done.
  case_decide as Hk; [|apply Hsa]. intros [= <-]. left. subst k.
  unfold disk_partition_ids. apply list_elem_of_In, in_flat_map.
  exists item. split; [by apply list_elem_of_In|].
  apply list_elem_of_In, list_elem_of_omap. exists part.
  split; [by rewrite Hpl|]. by rewrite <- Hid, Hpid.
Qed.

Lemma units_from_disks_crypto_item (data : dict pyval) (item : dict pyval)
    (s s' : StorageInstaller) :
  units_from_disks data s ->
  parse_crypto_item item s = (Ok tt, s') ->
  units_from_disks data s'.
Proof.
  intros Hs H.
  apply parse_crypto_item_ok in H as (p & pid & part & u & m' & _ & _ & _ & _ &
                                       Hadd & Hfree & ->).
  apply add_volume_factory in Hadd as (_ & Hcls & _).
  intros k v. simpl. rewrite dict_get_app_fresh by done.
  case_decide as Hk; [|apply Hs]. intros [= <-]. by right.
Qed.

(** A crypto entry is only accepted on a partition declared in the [disks]
    section. *)
Lemma crypto_item_on_disk_partition (data : dict pyval) (item : dict pyval)
    (s s' : StorageInstaller) (part_id : string) :
  units_from_disks data s ->
  parse_crypto_item item s = (Ok tt, s') ->
  pyget item "on_partition" = PStr part_id ->
  part_id ∈ disk_partition_ids data.
Proof.
  intros Hs H Hon.
  apply parse_crypto_item_ok in H as (p & pid & part & u & m' & _ & _ & Hpid & Hget &
                                       Hadd & _).
  unfold read_str_or_fail, read_key_or_fail in Hpid. rewrite Hon in Hpid.
  simpl in Hpid. injection Hpid as <-.
  apply add_volume_on_partition in Hadd.
  destruct (Hs _ _ Hget) as [?|Hc]; [done | congruence].
Qed.

(** ** When the constructor returns *)

Lemma devices_perm (m : StorageManager) :
  registry_wf m -> devices m ≡ₚ heap m.
Proof.
  intros Hwf. rewrite <- (devices_values_heap m Hwf). unfold devices, devices_values.
  destruct Hwf as [Hv _].
  assert (NoDup (dict_values (_devices m))) as Hnd by (rewrite Hv; apply NoDup_seq).
  assert (remove_dups (dict_values (_devices m)) = dict_values (_devices m)) as ->.
  { generalize dependent (dict_values (_devices m)). intros l _ Hnd.
    induction Hnd as [|x l Hx Hnd IH]; simpl; [done|].
    unfold decide_rel. destruct (list_elem_of_dec x l); [done | by f_equal]. }
  by rewrite (set_iter_perm _ _ Hnd).
Qed.

Lemma storage_units_perm (m : StorageManager) :
  registry_wf m -> storage_units m ≡ₚ all_units m.
Proof.
  intros Hwf. unfold storage_units, all_units.
  rewrite (devices_values_heap m Hwf).
  rewrite !flat_map_concat_map. by rewrite (devices_perm m Hwf).
Qed.

(** [_validate] passes exactly when some unit of the graph is mounted at
    [/]. *)
Lemma root_mounted_iff (m : StorageManager) :
  registry_wf m ->
  is_Some (get_unit_by_mount_point m "/")
  <-> exists u, u ∈ all_units m /\ mount_point u = Some "/".
Proof.
  intros Hwf. unfold get_unit_by_mount_point. split.
  - intros [u Hu]. destruct (find _ _) as [[mp u']|] eqn:E; [|done].
    apply find_some in E as [Hin Heq].
    change (String.eqb "/" mp = true) in Heq. apply String.eqb_eq in Heq as <-.
    change (Some u' = Some u) in Hu. injection Hu as ->.
    apply list_elem_of_In, mount_points_elem in Hin as (Hin & Hmp & _).
    exists u. by rewrite <- (storage_units_perm m Hwf).
  - intros (u & Hu & Hmp).
    destruct (find _ _) as [x|] eqn:E; [by eexists|].
    assert (("/", u) ∈ mount_points m) as Hin.
    { apply mount_points_elem. by rewrite (storage_units_perm m Hwf). }
    apply list_elem_of_In in Hin. by apply (find_none _ _ E) in Hin.
Qed.

Lemma bookkeeping_ret {A} (a : A) : bookkeeping (ret a).
Proof. intros s. by exists a, s. Qed.

Lemma bookkeeping_bind {A B} (c : M StorageInstaller A) (k : A -> M StorageInstaller B) :
  bookkeeping c -> (forall a, bookkeeping (k a)) -> bookkeeping (bind c k).
Proof.
  intros Hc Hk s. destruct (Hc s) as (a & s1 & Hs & Hm & Hu).
  destruct (Hk a s1) as (b & s2 & Hs2 & Hm2 & Hu2).
  exists b, s2. rewrite (bind_run_ok _ _ _ _ _ Hs). split; [done|]. split; congruence.
Qed.

Lemma bookkeeping_add_package (names : list string) : bookkeeping (add_package names).
Proof. intros s. by eexists tt, _. Qed.

Lemma bookkeeping_for_each {A} (l : list A) (f : A -> M StorageInstaller unit) :
  (forall x, bookkeeping (f x)) -> bookkeeping (for_each l f).
Proof.
  intros Hf. induction l; simpl; [apply bookkeeping_ret | by apply bookkeeping_bind].
Qed.

Lemma bookkeeping_pkgs (l : list FSType) :
  bookkeeping (for_each l (fun fs => match fs_to_pkg fs with
                                     | Some pkg => add_package [pkg]
                                     | None => ret tt
                                     end)).
Proof.
  apply bookkeeping_for_each. intros fs.
  destruct (fs_to_pkg fs); [apply bookkeeping_add_package | apply bookkeeping_ret].
Qed.

(** The constructor returns when the four sections are accepted and a unit
    is mounted at [/]; it then holds the graph the sections built. *)
Lemma setup_returns (s0 s4 : StorageInstaller) (flags : bool * bool * bool * bool) :
  parse_sections s0 = (Ok flags, s4) ->
  registry_wf (_smanager s4) ->
  (exists u, u ∈ all_units (_smanager s4) /\ mount_point u = Some "/") ->
  exists s, StorageInstaller_setup s0 = (Ok tt, s) /\
            _smanager s = _smanager s4 /\ _units s = _units s4.
Proof.
  intros Hp Hwf Hroot. unfold parse_sections in Hp.
  apply bind_ok_inv in Hp as (b1 & s1 & H1 & Hp).
  apply bind_ok_inv in Hp as (b2 & s2 & H2 & Hp).
  apply bind_ok_inv in Hp as (b3 & s3 & H3 & Hp).
  apply bind_ok_inv in Hp as (b4 & s4' & H4 & Hp).
  apply ret_ok_inv in Hp as [-> ->]. rename s4' into s4.
  unfold StorageInstaller_setup.
  rewrite (bind_run_ok _ _ _ _ _ H1), (bind_run_ok _ _ _ _ _ H2),
    (bind_run_ok _ _ _ _ _ H3), (bind_run_ok _ _ _ _ _ H4).
  apply root_mounted_iff in Hroot as [u Hu]; [|done].
  rewrite (bind_run_ok _ _ _ tt (set_has b1 b2 b3 b4 s4)) by done.
  rewrite (bind_run_ok _ _ _ tt (set_has b1 b2 b3 b4 s4))
    by (unfold _validate, bind, get; simpl; by rewrite Hu).
  assert (bookkeeping
    ((if b3 then add_package ["mdadm"; "mdadm-udev"] else ret tt) ;;;
     (if b2 then add_package ["cryptsetup"; "cryptsetup-openrc"] else ret tt) ;;;
     (if b4 then add_package ["lvm2"] else ret tt) ;;;
     s <- get ;;
     let file_systems :=
       fold_left (fun l u => match fs_type u with Some t => set_add t l | None => l end)
                 (dict_values (_units s)) [] in
     put (set_file_systems file_systems s) ;;;
     for_each (set_iter FSType file_systems) (fun fs =>
       match fs_to_pkg fs with
       | Some pkg => add_package [pkg]
       | None => ret tt
       end))) as Hb.
  { repeat (apply bookkeeping_bind;
            [by destruct b2, b3, b4;
               first [apply bookkeeping_add_package | apply bookkeeping_ret]|];
            intros _).
    intros s.
    destruct (bookkeeping_pkgs
                (set_iter FSType
                   (fold_left (fun l u => match fs_type u with
                                          | Some t => set_add t l | None => l end)
                              (dict_values (_units s)) []))
                (set_file_systems
                   (fold_left (fun l u => match fs_type u with
                                          | Some t => set_add t l | None => l end)
                              (dict_values (_units s)) []) s))
      as ([] & s' & Hs' & Hm & Hu').
    exists tt, s'. split; [exact Hs' | done]. }
  destruct (Hb (set_has b1 b2 b3 b4 s4)) as ([] & s & Hs & Hm & Hus).
  exists s. split; [exact Hs | done].
Qed.

Lemma stepwise_parse_sections : stepwise parse_sections.
Proof.
  unfold parse_sections.
  repeat first [ apply stepwise_parse_disks | apply stepwise_parse_crypto_volumes
               | apply stepwise_parse_raids | apply stepwise_parse_volume_groups
               | apply stepwise_ret | apply stepwise_bind; [|intros] ].
Qed.

Lemma init_returns (root : string) (config data : dict pyval) :
  pyget config "storage" = PDict data ->
  is_ok (fst (parse_sections (initial_installer root (PDict data)))) = true ->
  existsb (has_mount_point "/")
    (all_units (_smanager (snd (parse_sections (initial_installer root (PDict data))))))
    = true ->
  exists s,
    StorageInstaller_init root config = Ok s /\
    _smanager s = _smanager (snd (parse_sections (initial_installer root (PDict data)))) /\
    _units s = _units (snd (parse_sections (initial_installer root (PDict data)))).
Proof.
  intros Hdata Hok Hroot.
  destruct (parse_sections _) as [[flags|e] s4] eqn:E; [|done]. simpl in *.
  destruct (setup_returns _ _ _ E) as (s & Hs & Hm & Hu).
  - pose proof (stepwise_run _ _ _ _ stepwise_parse_sections E) as Hsteps.
    revert Hsteps. apply (installer_steps_manager registry_wf);
      [apply registry_wf_step | apply initial_registry_wf].
  - apply existsb_exists in Hroot as (u & Hu & Hmp).
    exists u. split; [by apply list_elem_of_In|].
    by apply bool_decide_eq_true in Hmp.
  - exists s. unfold StorageInstaller_init, Installer_init. rewrite Hdata. simpl.
    by rewrite Hs.
Qed.


(** C5: a configuration whose [crypto_volumes] entry names, as
    [on_partition], anything but a partition declared in the [disks]
    section (a RAID partition, a logical volume, a crypto volume, an
    unknown id) is rejected; a RAID with crypto volumes as members, and a
    volume group with a RAID partition and a crypto volume as physical
    volumes, are accepted. *)
Theorem crypto_volume_only_on_disk_partition :
  (forall (root : string) (config data : dict pyval) (crypto_list : list (dict pyval))
          (item : dict pyval) (part_id : string),
     pyget config "storage" = PDict data ->
     read_dict_list data "crypto_volumes" = Ok crypto_list -> item ∈ crypto_list ->
     pyget item "on_partition" = PStr part_id ->
     part_id ∉ disk_partition_ids data ->
     is_ok (StorageInstaller_init root config) = false) /\
  (exists s,
     StorageInstaller_init "/mnt/target_root" config_layered = Ok s /\
     built_from (_smanager s) "/dev/md/md0"
     = Some [("c1", CryptoVolume, "__cryptsetup__"); ("c2", CryptoVolume, "__cryptsetup__")] /\
     built_from (_smanager s) "vg0"
     = Some [("pv1", Partition, "/dev/md/md0"); ("c3", CryptoVolume, "__cryptsetup__")]).
Proof.
  split.
  - intros root config data crypto_list item part_id Hdata Hl Hitem Hon Hnot.
    destruct (StorageInstaller_init root config) as [s|e] eqn:Hinit; [|done].
    exfalso. apply Hnot.
    apply init_ok_sections in Hinit
      as (data' & s1 & s2 & s3 & s4 & b1 & b2 & b3 & b4 & Hd & H1 & H2 & _ & _ & _ &
          _ & Hd1 & _ & _).
    assert (data' = data) as -> by congruence.
    apply parse_disks_ok in H1 as (dl & Hdl & H1). simpl in Hdl.
    apply entries_ok in Hdl.
    assert (units_from_disks data s1) as Hs1.
    { refine (proj1 (for_each_ok_inv2 (units_from_disks data) _ _ _ _ _ _ H1)).
      - intros x sa sb Hx. apply units_from_disks_disk_item. by rewrite Hdl.
      - intros id u. by simpl. }
    apply parse_crypto_volumes_ok in H2 as (cl & Hcl & H2). rewrite Hd1 in Hcl.
    assert (cl = crypto_list) as -> by congruence.
    destruct (for_each_ok_inv2 (units_from_disks data) _ _ _ _
                (fun x sa sb _ => units_from_disks_crypto_item data x sa sb) Hs1 H2)
      as [_ Hall].
    destruct (Hall item Hitem) as (sa & sb & Hsa & Hrun).
    by eapply crypto_item_on_disk_partition.
  - destruct (init_returns "/mnt/target_root" config_layered
                (default [] (as_dict (pyget config_layered "storage"))) eq_refl)
      as (s & Hs & Hm & _); [vm_compute; reflexivity | vm_compute; reflexivity |].
    exists s. split; [exact Hs|]. rewrite Hm. clear Hs Hm.
    vm_compute. split; reflexivity.
Qed.

(** ** One unit for each entry, one mount point for each unit *)

Lemma storage_units_append (d : StorageDevice) (u : StorageUnit) :
  storage_units_of (append_unit d u) = storage_units_of d ++ [u].
Proof. by destruct d. Qed.

Lemma flat_map_insert_perm {A B} (f : A -> list B) (h : list A) (i : nat)
    (d d' : A) (u : B) :
  h !! i = Some d -> f d' = f d ++ [u] ->
  flat_map f (<[i := d']> h) ≡ₚ u :: flat_map f h.
Proof.
  revert i. induction h as [|a h IH]; intros [|i] Hl Hf; try done; simpl in *.
  - injection Hl as ->. rewrite Hf, <- app_assoc. simpl.
    symmetry. apply Permutation_middle.
  - rewrite (IH i Hl Hf). symmetry. apply Permutation_middle.
Qed.

Lemma flat_map_singleton {A} (l : list A) : flat_map (fun x => [x]) l = l.
Proof. induction l as [|x l IH]; simpl; congruence. Qed.

Lemma all_units_heap (m : StorageManager) :
  registry_wf m -> all_units m = flat_map storage_units_of (heap m).
Proof. intros H. unfold all_units. by rewrite devices_values_heap. Qed.

Lemma registry_wf_append (m : StorageManager) (dev : nat) (d : StorageDevice) :
  registry_wf m -> registry_wf (set_heap (<[dev := d]> (heap m)) m).
Proof.
  intros [Hv Hnd]. split; simpl; [by rewrite length_insert | done].
Qed.

Lemma all_units_step_unit (m : StorageManager) (dev : nat) (d : StorageDevice)
    (u : StorageUnit) :
  registry_wf m -> deref m dev = Some d ->
  all_units (set_heap (<[dev := append_unit d u]> (heap m)) m) ≡ₚ u :: all_units m.
Proof.
  intros Hwf Hd.
  rewrite (all_units_heap _ (registry_wf_append m dev _ Hwf)), (all_units_heap m Hwf).
  simpl. apply (flat_map_insert_perm _ _ _ d); [done | apply storage_units_append].
Qed.

Lemma all_units_register (m : StorageManager) (id : string) (d : StorageDevice) :
  registry_wf m -> get_device_by_id m id = None ->
  device_id d = id -> storage_units_of d = [] ->
  registry_wf (mkManager (heap m ++ [d]) (_devices m ++ [(id, length (heap m))])
                         (_mount_root_base m) (_cryptsetup m)) /\
  all_units (mkManager (heap m ++ [d]) (_devices m ++ [(id, length (heap m))])
                       (_mount_root_base m) (_cryptsetup m)) = all_units m.
Proof.
  intros Hwf Hfree Hid Hu.
  assert (registry_wf (mkManager (heap m ++ [d]) (_devices m ++ [(id, length (heap m))])
                                 (_mount_root_base m) (_cryptsetup m))) as Hwf'.
  { by apply registry_wf_register. }
  split; [done|]. rewrite (all_units_heap _ Hwf'), (all_units_heap m Hwf). simpl.
  rewrite flat_map_app. simpl. by rewrite Hu, !app_nil_r.
Qed.

Lemma add_device_units (c : M StorageManager nat) (id : string) (d : StorageDevice)
    (m m' : StorageManager) (a : nat) :
  (get_device_by_id m id = None -> c m = register id d m) ->
  (forall b, get_device_by_id m id = Some b -> c m = (Raise (already_exists m b), m)) ->
  device_id d = id -> storage_units_of d = [] ->
  registry_wf m -> c m = (Ok a, m') ->
  registry_wf m' /\ all_units m' = all_units m.
Proof.
  intros Hfresh Hdup Hid Hu Hwf H.
  destruct (get_device_by_id m id) as [b|] eqn:E.
  - by rewrite (Hdup b eq_refl) in H.
  - rewrite (Hfresh eq_refl), (register_spec _ _ _ E) in H.
    destruct (id_in_use m id) eqn:Efree; [done|]. injection H as <- <-.
    by apply all_units_register.
Qed.

Lemma declared_entry_mount_point (p : UnitParams) (item : dict pyval)
    (mp : option string) :
  p_mount_point p = pyget item "mount_point" ->
  declared_mount_point (p_mount_point p) mp -> mp = entry_mount_point item.
Proof.
  intros ->. unfold declared_mount_point, entry_mount_point.
  by destruct (pyget item "mount_point").
Qed.

Lemma units_declared_add (cls : UnitClass)
    (add : UnitParams -> M StorageManager StorageUnit) (p : UnitParams)
    (u : StorageUnit) (m' : StorageManager) (item : dict pyval)
    (acc : list (dict pyval)) (s : StorageInstaller) (us : dict StorageUnit) :
  unit_factory cls add -> p_mount_point p = pyget item "mount_point" ->
  add p (_smanager s) = (Ok u, m') -> units_declared acc s ->
  units_declared (acc ++ [item]) (set_units us (set_smanager m' s)).
Proof.
  intros Hf Hmp Hadd [Hwf Hp].
  destruct (Hf p _ u m' Hadd) as (_ & _ & Hdecl & _ & dev & d & Hd & ->).
  apply (declared_entry_mount_point _ item) in Hdecl; [|done].
  split; simpl.
  - by apply registry_wf_append.
  - rewrite (all_units_step_unit _ _ _ _ Hwf Hd), map_app. simpl.
    rewrite Hp, Hdecl. apply Permutation_cons_append.
Qed.

Lemma for_each_acc {St A B} (P : list B -> St -> Prop) (f : A -> list B)
    (body : A -> M St unit) (l : list A) :
  (forall x acc s1 s2, x ∈ l -> P acc s1 -> body x s1 = (Ok tt, s2) -> P (acc ++ f x) s2) ->
  forall acc s s', P acc s -> for_each l body s = (Ok tt, s') ->
                   P (acc ++ flat_map f l) s'.
Proof.
  induction l as [|x l IH]; intros Hstep acc s s' HP H; simpl in *.
  - injection H as <-. by rewrite app_nil_r.
  - apply bind_ok_inv in H as ([] & s1 & Hx & H).
    rewrite app_assoc. apply (fun Hl => IH Hl _ s1 s'); [| |done].
    + intros y acc' sa sb Hy. apply Hstep. by right.
    + apply (Hstep x acc s s1); [left | done | done].
Qed.

Lemma add_disk_units (id : string) (m m' : StorageManager) (a : nat) :
  registry_wf m -> add_disk id m = (Ok a, m') ->
  registry_wf m' /\ all_units m' = all_units m.
Proof.
  apply (add_device_units _ id (Disk id [])); [apply add_disk_fresh | | done | done].
  intros b. apply add_disk_dup.
Qed.

Lemma add_raid_units (id : string) (level : pyval) (members : list StorageUnit)
    (metadata : string) (m m' : StorageManager) (a : nat) :
  registry_wf m -> add_raid id level members metadata m = (Ok a, m') ->
  registry_wf m' /\ all_units m' = all_units m.
Proof.
  apply (add_device_units _ id (RAID id level metadata members []));
    [apply add_raid_fresh | | done | done].
  intros b. apply add_raid_dup.
Qed.

Lemma add_vg_units (id : string) (pvs : list StorageUnit) (m m' : StorageManager)
    (a : nat) :
  registry_wf m -> add_vg id pvs m = (Ok a, m') ->
  registry_wf m' /\ all_units m' = all_units m.
Proof.
  apply (add_device_units _ id (VolumeGroup id pvs [])); [apply add_vg_fresh | | done | done].
  intros b. apply add_vg_dup.
Qed.

Lemma units_declared_unit (cls : UnitClass)
    (add : UnitParams -> M StorageManager StorageUnit) (item : dict pyval)
    (acc : list (dict pyval)) (s s' : StorageInstaller) :
  unit_factory cls add -> units_declared acc s ->
  parse_unit_item add item s = (Ok tt, s') -> units_declared (acc ++ [item]) s'.
Proof.
  intros Hf HP H.
  apply parse_unit_item_ok in H as (p & u & m' & _ & Hmp & Hadd & _ & ->).
  by apply (units_declared_add cls add p u).
Qed.

Lemma units_declared_units (cls : UnitClass)
    (add : UnitParams -> M StorageManager StorageUnit) (l acc : list (dict pyval))
    (s s' : StorageInstaller) :
  unit_factory cls add -> units_declared acc s ->
  for_each l (parse_unit_item add) s = (Ok tt, s') -> units_declared (acc ++ l) s'.
Proof.
  intros Hf HP H. rewrite <- (flat_map_singleton l).
  revert acc s s' HP H. apply for_each_acc.
  intros x acc s1 s2 _. by apply units_declared_unit with cls.
Qed.

Lemma units_declared_manager (acc : list (dict pyval)) (s : StorageInstaller)
    (m' : StorageManager) :
  units_declared acc s -> registry_wf m' /\ all_units m' = all_units (_smanager s) ->
  units_declared acc (set_smanager m' s).
Proof. intros [_ Hp] [Hwf Hu]. split; simpl; [done | by rewrite Hu]. Qed.

Lemma units_declared_disk_item (item : dict pyval) (acc : list (dict pyval))
    (s s' : StorageInstaller) :
  units_declared acc s -> parse_disk_item item s = (Ok tt, s') ->
  units_declared (acc ++ entries item "partitions") s'.
Proof.
  intros HP H.
  apply parse_disk_item_ok in H as (id & disk & m1 & pl & _ & Hadd & Hpl & H).
  rewrite (entries_ok _ _ _ Hpl).
  eapply units_declared_units; [apply (add_partition_factory disk) | | exact H].
  apply units_declared_manager; [done|]. eapply add_disk_units; [apply HP | done].
Qed.

Lemma units_declared_crypto_item (item : dict pyval) (acc : list (dict pyval))
    (s s' : StorageInstaller) :
  units_declared acc s -> parse_crypto_item item s = (Ok tt, s') ->
  units_declared (acc ++ [item]) s'.
Proof.
  intros HP H.
  apply parse_crypto_item_ok in H as (p & part_id & part & u & m' & _ & Hmp & _ & _ & Hadd & _ & ->).
  by apply (units_declared_add CryptoVolume
              (fun p => add_volume (_cryptsetup (_smanager s)) p part) p u
              m' item acc s _ (add_volume_factory _ part)).
Qed.

Lemma parse_raid_item_parts (item : dict pyval) (s s' : StorageInstaller) :
  parse_raid_item item s = (Ok tt, s') ->
  exists id level members metadata raid m1 part_list,
    add_raid id level members metadata (_smanager s) = (Ok raid, m1) /\
    read_dict_list item "partitions" = Ok part_list /\
    for_each part_list (parse_unit_item (add_partition raid)) (set_smanager m1 s)
      = (Ok tt, s').
Proof.
  unfold parse_raid_item. intros H.
  apply bind_ok_inv in H as (raid_id & ? & Hid & H). apply lift_ok_inv in Hid as [Hid ->].
  apply bind_ok_inv in H as (level & ? & Hlv & H). apply lift_ok_inv in Hlv as [Hlv ->].
  apply bind_ok_inv in H as (md & ? & Hmd & H). apply lift_ok_inv in Hmd as [Hmd ->].
  apply bind_ok_inv in H as (ml & ? & Hml & H). apply lift_ok_inv in Hml as [Hml ->].
  apply bind_ok_inv in H as (members & s1 & Hms & H).
  apply readonly_ok_inv in Hms as ->;
    [|apply readonly_map_M; intros; apply readonly_unit_by_id].
  apply bind_ok_inv in H as (raid & s2 & Hadd & H).
  apply on_manager_ok_inv in Hadd as (m' & Hadd & ->).
  apply bind_ok_inv in H as (pl & ? & Hpl & H). apply lift_ok_inv in Hpl as [Hpl ->].
  by exists (path_join "/dev/md" raid_id), level, members,
            (if String.eqb md "" then "1.2" else md), raid, m', pl.
Qed.

Lemma parse_vg_item_parts (item : dict pyval) (s s' : StorageInstaller) :
  parse_vg_item item s = (Ok tt, s') ->
  exists id physical_volumes vg m1 lv_list,
    add_vg id physical_volumes (_smanager s) = (Ok vg, m1) /\
    read_dict_list item "logical_volumes" = Ok lv_list /\
    for_each lv_list (parse_unit_item (add_lv vg)) (set_smanager m1 s) = (Ok tt, s').
Proof.
  unfold parse_vg_item. intros H.
  apply bind_ok_inv in H as (vg_id & ? & Hid & H). apply lift_ok_inv in Hid as [Hid ->].
  apply bind_ok_inv in H as (pvl & ? & Hpvl & H). apply lift_ok_inv in Hpvl as [Hpvl ->].
  apply bind_ok_inv in H as (pvs & s1 & Hpvs & H).
  apply readonly_ok_inv in Hpvs as ->;
    [|apply readonly_map_M; intros; apply readonly_unit_by_id].
  apply bind_ok_inv in H as (vg & s2 & Hadd & H).
  apply on_manager_ok_inv in Hadd as (m' & Hadd & ->).
  apply bind_ok_inv in H as (ll & ? & Hll & H). apply lift_ok_inv in Hll as [Hll ->].
  by exists vg_id, pvs, vg, m', ll.
Qed.

Lemma units_declared_raid_item (item : dict pyval) (acc : list (dict pyval))
    (s s' : StorageInstaller) :
  units_declared acc s -> parse_raid_item item s = (Ok tt, s') ->
  units_declared (acc ++ entries item "partitions") s'.
Proof.
  intros HP H.
  apply parse_raid_item_parts in H as (id & lv & ms & md & raid & m1 & pl & Hadd & Hpl & H).
  rewrite (entries_ok _ _ _ Hpl).
  eapply units_declared_units; [apply (add_partition_factory raid) | | exact H].
  apply units_declared_manager; [done|]. eapply add_raid_units; [apply HP | done].
Qed.

Lemma units_declared_vg_item (item : dict pyval) (acc : list (dict pyval))
    (s s' : StorageInstaller) :
  units_declared acc s -> parse_vg_item item s = (Ok tt, s') ->
  units_declared (acc ++ entries item "logical_volumes") s'.
Proof.
  intros HP H.
  apply parse_vg_item_parts in H as (id & pvs & vg & m1 & ll & Hadd & Hll & H).
  rewrite (entries_ok _ _ _ Hll).
  eapply units_declared_units; [apply (add_lv_factory vg) | | exact H].
  apply units_declared_manager; [done|]. eapply add_vg_units; [apply HP | done].
Qed.

Lemma units_declared_sections (root : string) (data : dict pyval)
    (flags : bool * bool * bool * bool) (s4 : StorageInstaller) :
  parse_sections (initial_installer root (PDict data)) = (Ok flags, s4) ->
  units_declared (unit_entries data) s4.
Proof.
  unfold parse_sections. intros H.
  apply bind_ok_inv in H as (b1 & s1 & H1 & H).
  apply bind_ok_inv in H as (b2 & s2 & H2 & H).
  apply bind_ok_inv in H as (b3 & s3 & H3 & H).
  apply bind_ok_inv in H as (b4 & s4' & H4 & H).
  injection H as _ <-.
  pose proof (stepwise_run _ _ _ _ stepwise_parse_disks H1) as S1.
  pose proof (stepwise_run _ _ _ _ stepwise_parse_crypto_volumes H2) as S2.
  pose proof (stepwise_run _ _ _ _ stepwise_parse_raids H3) as S3.
  apply installer_steps_data in S1, S2, S3. simpl in S1.
  rewrite S2, S1 in S3. rewrite S1 in S2.
  apply parse_disks_ok in H1 as (dl & Hdl & H1). simpl in Hdl.
  apply parse_crypto_volumes_ok in H2 as (cl & Hcl & H2). rewrite S1 in Hcl.
  apply parse_raids_ok in H3 as (rl & Hrl & H3). rewrite S2 in Hrl.
  apply parse_volume_groups_ok in H4 as (vl & Hvl & H4). rewrite S3 in Hvl.
  unfold unit_entries.
  rewrite (entries_ok _ _ _ Hdl), (entries_ok _ _ _ Hcl), (entries_ok _ _ _ Hrl),
    (entries_ok _ _ _ Hvl).
  rewrite <- (flat_map_singleton cl) at 1. rewrite !app_assoc.
  revert H4. apply for_each_acc; [intros x acc sa sb _; apply units_declared_vg_item|].
  revert H3. apply for_each_acc; [intros x acc sa sb _; apply units_declared_raid_item|].
  revert H2. apply for_each_acc; [intros x acc sa sb _; apply units_declared_crypto_item|].
  revert H1. apply (for_each_acc units_declared _ _ _
                      (fun x acc sa sb _ => units_declared_disk_item x acc sa sb) []).
  split; [apply initial_registry_wf | by vm_compute].
Qed.

Lemma mount_points_unique_step (m m' : StorageManager) :
  registry_wf m -> mount_points_unique m -> manager_step m m' -> mount_points_unique m'.
Proof.
  intros Hwf Hnd Hstep. unfold mount_points_unique in *.
  destruct Hstep as [|id d Hid Hd Hu _|dev d u Hd Hmp _|v]; [done| | |done].
  - by rewrite (proj2 (all_units_register m id d Hwf Hid Hd Hu)).
  - rewrite (all_units_step_unit m dev d u Hwf Hd). simpl.
    destruct (mount_point u) as [mp|] eqn:E; [|done].
    apply NoDup_cons. split; [|done].
    destruct (Hmp mp eq_refl) as [_ Hfree]. intros Hin.
    apply list_elem_of_omap in Hin as (x & Hx & Hxmp).
    apply list_elem_of_In in Hx.
    pose proof (find_none _ _ Hfree x Hx) as Hno.
    unfold has_mount_point in Hno. by apply bool_decide_eq_false in Hno.
Qed.

Lemma init_mount_points_unique (root : string) (config : dict pyval)
    (s : StorageInstaller) :
  StorageInstaller_init root config = Ok s ->
  registry_wf (_smanager s) /\ mount_points_unique (_smanager s).
Proof.
  apply (init_ok_inv (fun s => registry_wf (_smanager s) /\
                               mount_points_unique (_smanager s))).
  - intros data. split; [apply initial_registry_wf | apply NoDup_nil_2].
  - intros s1 s2 HI Hstep. revert HI Hstep.
    apply (manager_step_installer (fun m => registry_wf m /\ mount_points_unique m)).
    intros m m' [Hwf Hnd] Hs. split.
    + by apply (registry_wf_step m).
    + by apply (mount_points_unique_step m).
Qed.

Lemma init_ok_parsed (root : string) (config : dict pyval) (s : StorageInstaller) :
  StorageInstaller_init root config = Ok s ->
  exists data flags s4,
    pyget config "storage" = PDict data /\
    parse_sections (initial_installer root (PDict data)) = (Ok flags, s4) /\
    (exists u, u ∈ all_units (_smanager s4) /\ mount_point u = Some "/") /\
    _smanager s = _smanager s4.
Proof.
  intros H. pose proof (init_ok_steps _ _ _ H) as (data0 & Hi & Hsetup & _).
  apply init_ok_sections in H
    as (data & s1 & s2 & s3 & s4 & b1 & b2 & b3 & b4 & Hd & H1 & H2 & H3 & H4 & Hv & _).
  unfold Installer_init in Hi. simpl in Hi. rewrite Hd in Hi. injection Hi as <-.
  assert (parse_sections (initial_installer root (PDict data)) = (Ok (b1, b2, b3, b4), s4))
    as Hp.
  { unfold parse_sections.
    by rewrite (bind_run_ok _ _ _ _ _ H1), (bind_run_ok _ _ _ _ _ H2),
      (bind_run_ok _ _ _ _ _ H3), (bind_run_ok _ _ _ _ _ H4). }
  assert (registry_wf (_smanager s4)) as Hwf.
  { pose proof (stepwise_run _ _ _ _ stepwise_parse_sections Hp) as Hsteps.
    revert Hsteps. apply (installer_steps_manager registry_wf);
      [apply registry_wf_step | apply initial_registry_wf]. }
  apply (root_mounted_iff _ Hwf) in Hv.
  destruct (setup_returns _ _ _ Hp Hwf Hv) as (s' & Hs' & Hm & _).
  rewrite Hsetup in Hs'. injection Hs' as <-.
  by exists data, (b1, b2, b3, b4), s4.
Qed.

Lemma filter_none {A} (f : A -> option string) (k : string) (l : list A) :
  k ∉ omap f l -> List.filter (fun x => bool_decide (f x = Some k)) l = [].
Proof.
  induction l as [|x l IH]; [done|]. simpl. intros Hk.
  destruct (f x) as [y|] eqn:E.
  - apply not_elem_of_cons in Hk as [Hne Hk].
    rewrite bool_decide_eq_false_2 by congruence. by apply IH.
  - rewrite bool_decide_eq_false_2 by congruence. by apply IH.
Qed.

Lemma filter_unique {A} (f : A -> option string) (k : string) (l : list A) (u : A) :
  NoDup (omap f l) -> u ∈ l -> f u = Some k ->
  List.filter (fun x => bool_decide (f x = Some k)) l = [u].
Proof.
  induction l as [|x l IH]; intros Hnd Hu Hk; [by apply elem_of_nil in Hu|].
  simpl in *. apply elem_of_cons in Hu as [<-|Hu].
  - rewrite Hk in *. apply NoDup_cons in Hnd as [Hnot _].
    rewrite bool_decide_eq_true_2 by done. f_equal. by apply filter_none.
  - destruct (f x) as [y|] eqn:E.
    + apply NoDup_cons in Hnd as [Hnot Hnd].
      rewrite bool_decide_eq_false_2; [by apply IH|].
      intros [= ->]. apply Hnot. apply list_elem_of_omap. by exists u.
    + rewrite bool_decide_eq_false_2 by congruence. by apply IH.
Qed.

Lemma filter_perm_length {A} (p : A -> bool) (l l' : list A) :
  l ≡ₚ l' -> length (List.filter p l) = length (List.filter p l').
Proof.
  induction 1 as [|x l l' _ IH|x y l|l l' l'' _ IH1 _ IH2]; simpl.
  - done.
  - destruct (p x); simpl; congruence.
  - destruct (p x), (p y); done.
  - congruence.
Qed.

Lemma filter_map_length {A B} (p : B -> bool) (f : A -> B) (l : list A) :
  length (List.filter p (map f l)) = length (List.filter (fun x => p (f x)) l).
Proof.
  induction l as [|x l IH]; [done|]. simpl. destruct (p (f x)); simpl; congruence.
Qed.

(** After the constructor returned, one unit is mounted at [/]. *)
Lemma init_root_units (root : string) (config : dict pyval) (s : StorageInstaller) :
  StorageInstaller_init root config = Ok s -> exists u, root_units (_smanager s) = [u].
Proof.
  intros H. destruct (init_mount_points_unique _ _ _ H) as [_ Hnd].
  apply init_ok_parsed in H as (data & flags & s4 & _ & _ & (u & Hu & Hmp) & Hm).
  rewrite <- Hm in Hu. exists u.
  apply (filter_unique mount_point "/" _ u Hnd Hu Hmp).
Qed.

(** After the constructor returned, one unit entry of the configuration
    declares the mount point [/]. *)
Lemma init_root_declared (root : string) (config data : dict pyval)
    (s : StorageInstaller) :
  StorageInstaller_init root config = Ok s -> pyget config "storage" = PDict data ->
  length (List.filter declares_root (unit_entries data)) = 1.
Proof.
  intros H Hd. destruct (init_root_units _ _ _ H) as [u Hu].
  apply init_ok_parsed in H as (data' & flags & s4 & Hd' & Hp & _ & Hm).
  assert (data' = data) as -> by congruence.
  apply units_declared_sections in Hp as [_ Hp].
  rewrite Hm in Hu. unfold root_units in Hu.
  apply (f_equal length) in Hu. simpl in Hu. rewrite <- Hu.
  apply (filter_perm_length (fun o => bool_decide (o = Some "/"))) in Hp.
  rewrite !filter_map_length in Hp. symmetry. exact Hp.
Qed.

(** When the constructor of the storage installer raises,
    [_install_config] ends there: it has logged one line and made the
    directory of the target root, and nothing else. *)
Lemma install_config_rejected (config : dict pyval) (copy_config : bool)
    (others : res (list OtherInstaller)) (h : Host) :
  is_ok (StorageInstaller_init TARGET_ROOT config) = false ->
  is_ok (fst (_install_config config copy_config others h)) = false /\
  trace (snd (_install_config config copy_config others h))
  = trace h ++ [LogLine ("Creating a temporary root " ++ TARGET_ROOT);
                Call (os_makedirs TARGET_ROOT true)].
Proof.
  intros H.
  cbv [_install_config bind add_log_line call emit on_world lift].
  cbn [world trace].
  destruct (ext (os_makedirs TARGET_ROOT true) (world h)) as [[[]|e] w].
  - destruct (StorageInstaller_init TARGET_ROOT config); [done|].
    cbn [fst snd world trace is_ok]. split; [done | by rewrite <- app_assoc].
  - cbn [fst snd world trace is_ok]. split; [done | by rewrite <- app_assoc].
Qed.

(** C6: after the constructor returned, exactly one unit is mounted at
    [/]; a configuration whose unit entries do not declare the mount point
    [/] exactly once (none does, or more than one does) is rejected by the
    constructor; and when the constructor raises, [_install_config] has
    only logged a line and made the directory of the target root: no
    command was run and no device was touched. *)
Theorem exactly_one_root_mount_point :
  (forall (root : string) (config : dict pyval) (s : StorageInstaller),
     StorageInstaller_init root config = Ok s ->
     exists u, root_units (_smanager s) = [u]) /\
  (forall (root : string) (config data : dict pyval),
     pyget config "storage" = PDict data ->
     length (List.filter declares_root (unit_entries data)) <> 1 ->
     is_ok (StorageInstaller_init root config) = false) /\
  (forall (config : dict pyval) (copy_config : bool)
          (others : res (list OtherInstaller)) (h : Host),
     is_ok (StorageInstaller_init TARGET_ROOT config) = false ->
     is_ok (fst (_install_config config copy_config others h)) = false /\
     trace (snd (_install_config config copy_config others h))
     = trace h ++ [LogLine ("Creating a temporary root " ++ TARGET_ROOT);
                   Call (os_makedirs TARGET_ROOT true)]).
Proof.
  split; [|split].
  - apply init_root_units.
  - intros root config data Hd Hne.
    destruct (StorageInstaller_init root config) as [s|e] eqn:H; [|done].
    destruct Hne. by apply (init_root_declared root config data s).
  - apply install_config_rejected.
Qed.

(** ** One namespace for the ids of units and devices *)

Lemma id_in_use_elem (m : StorageManager) (id : string) :
  id_in_use m id = true <-> id ∈ map fst (_devices m) ++ map unit_id (all_units m).
Proof.
  unfold id_in_use, all_units, get_device_by_id.
  rewrite orb_true_iff, elem_of_app, bool_decide_eq_true. split; intros [H|H].
  - left. destruct (dict_get (_devices m) id) as [a|] eqn:E; [|by destruct H].
    apply dict_get_Some_elem in E. by apply (list_elem_of_fmap_2 fst) in E.
  - right. apply existsb_exists in H as (u & Hu & Heq). apply String.eqb_eq in Heq as <-.
    apply list_elem_of_In in Hu. by apply (list_elem_of_fmap_2 unit_id).
  - left. destruct (dict_get (_devices m) id) as [a|] eqn:E; [by eexists|].
    by apply dict_get_None in E.
  - right. apply list_elem_of_fmap in H as (u & -> & Hu). apply existsb_exists.
    exists u. split; [by apply list_elem_of_In | apply String.eqb_refl].
Qed.

Lemma id_in_use_iff (m : StorageManager) (id : string) :
  id_in_use m id = true
  <-> is_Some (get_device_by_id m id) \/ exists u, u ∈ all_units m /\ unit_id u = id.
Proof.
  rewrite id_in_use_elem, elem_of_app. unfold get_device_by_id. split; intros [H|H].
  - left. destruct (dict_get (_devices m) id) as [a|] eqn:E; [by eexists|].
    by apply dict_get_None in E.
  - right. apply list_elem_of_fmap in H as (u & -> & Hu). by exists u.
  - left. destruct H as [a E]. apply dict_get_Some_elem in E.
    by apply (list_elem_of_fmap_2 fst) in E.
  - right. destruct H as (u & Hu & <-). by apply (list_elem_of_fmap_2 unit_id).
Qed.

Lemma id_not_in_use (m : StorageManager) (id : string) :
  id_in_use m id = false -> id ∉ map fst (_devices m) ++ map unit_id (all_units m).
Proof. intros H Hin. apply id_in_use_elem in Hin. congruence. Qed.

Lemma ids_distinct_step (m m' : StorageManager) :
  registry_wf m -> ids_distinct m -> manager_step m m' -> ids_distinct m'.
Proof.
  intros Hwf Hd Hstep. unfold ids_distinct in *.
  destruct Hstep as [|id d Hid Hdid Hu Hfree|dev d u Hdev Hmp Hfree|v]; [done| | |done].
  - destruct (all_units_register m id d Hwf Hid Hdid Hu) as [_ ->]. simpl.
    rewrite map_app, <- app_assoc. simpl. rewrite <- Permutation_middle.
    apply NoDup_cons. split; [by apply id_not_in_use | done].
  - simpl. rewrite (all_units_step_unit m dev d u Hwf Hdev). simpl.
    rewrite <- Permutation_middle.
    apply NoDup_cons. split; [by apply id_not_in_use | done].
Qed.

Lemma add_partition_in_use (dev : nat) (p : UnitParams) (m : StorageManager)
    (id : string) :
  id_in_use m id = true -> p_id p = PStr id ->
  exists e, add_partition dev p m = (Raise e, m).
Proof.
  intros H Hp. unfold add_partition, bind. pose proof (check_rest_state dev m) as Hc.
  destruct (check_rest_of_container dev m) as [[[]|e] m']; simpl in Hc; subst;
    [|by eexists].
  rewrite Hp. by apply new_unit_in_use.
Qed.

Lemma add_lv_in_use (dev : nat) (p : UnitParams) (m : StorageManager) (id : string) :
  id_in_use m id = true -> p_id p = PStr id ->
  exists e, add_lv dev p m = (Raise e, m).
Proof.
  intros H Hp. unfold add_lv, bind. pose proof (check_rest_state dev m) as Hc.
  destruct (check_rest_of_container dev m) as [[[]|e] m']; simpl in Hc; subst;
    [|by eexists].
  rewrite Hp. by apply new_unit_in_use.
Qed.

Lemma add_volume_in_use (dev : nat) (p : UnitParams) (part : StorageUnit)
    (m : StorageManager) (id : string) :
  id_in_use m id = true -> p_id p = PStr id ->
  exists e, add_volume dev p part m = (Raise e, m).
Proof.
  intros H Hp. unfold add_volume. case_bool_decide; [|by eexists].
  rewrite Hp. by apply new_unit_in_use.
Qed.

Lemma register_in_use (c : M StorageManager nat) (id : string) (d : StorageDevice)
    (m : StorageManager) :
  (get_device_by_id m id = None -> c m = register id d m) ->
  (forall a, get_device_by_id m id = Some a -> c m = (Raise (already_exists m a), m)) ->
  id_in_use m id = true -> exists e, c m = (Raise e, m).
Proof.
  intros Hfresh Hdup H. destruct (get_device_by_id m id) as [a|] eqn:E.
  - rewrite (Hdup a eq_refl). by eexists.
  - rewrite (Hfresh eq_refl), (register_spec _ _ _ E), H. by eexists.
Qed.

(** C4: the ids of units and devices share one namespace.  Whatever id a
    device is registered under or a unit of a registered device has, a
    second registration under it is refused and leaves the manager as it
    is, whether as a disk, a volume group or a RAID ([add_disk], [add_vg],
    [add_raid]) or as a partition, a logical volume or a crypto volume (the
    unit factories); a device id that is taken is refused with the message
    of the manager, and a unit id that the installer's table holds is
    refused by [_add_unit].  After the constructor returned, no two of the
    units and devices share an id. *)
Theorem duplicate_ids_rejected :
  (forall (m : StorageManager) (id : string),
     is_Some (get_device_by_id m id) \/ (exists u, u ∈ all_units m /\ unit_id u = id) ->
     (exists e, add_disk id m = (Raise e, m)) /\
     (forall pvs, exists e, add_vg id pvs m = (Raise e, m)) /\
     (forall level members metadata,
        exists e, add_raid id level members metadata m = (Raise e, m)) /\
     (forall dev p, p_id p = PStr id ->
        (exists e, add_partition dev p m = (Raise e, m)) /\
        (exists e, add_lv dev p m = (Raise e, m)) /\
        (forall part, exists e, add_volume dev p part m = (Raise e, m)))) /\
  (forall (m : StorageManager) (id : string) (a : nat),
     get_device_by_id m id = Some a ->
     add_disk id m = (Raise (already_exists m a), m) /\
     (forall pvs, add_vg id pvs m = (Raise (already_exists m a), m)) /\
     (forall level members metadata,
        add_raid id level members metadata m = (Raise (already_exists m a), m))) /\
  (forall (s : StorageInstaller) (u : StorageUnit),
     is_Some (dict_get (_units s) (unit_id u)) ->
     _add_unit u s
     = (Raise (ValueError ("Unit with id '" ++ unit_id u ++ "' is already defined")), s)) /\
  (forall (root : string) (config : dict pyval) (s : StorageInstaller),
     StorageInstaller_init root config = Ok s ->
     NoDup (map fst (_units s)) /\ NoDup (map fst (_devices (_smanager s))) /\
     NoDup (map fst (_devices (_smanager s)) ++ map unit_id (all_units (_smanager s)))).
Proof.
  split; [|split; [|split]].
  - intros m id H. apply id_in_use_iff in H.
    split; [apply (register_in_use _ id (Disk id []));
              [apply add_disk_fresh | intros a; apply add_disk_dup | done]|].
    split; [intros pvs; apply (register_in_use _ id (VolumeGroup id pvs []));
              [apply add_vg_fresh | intros a; apply add_vg_dup | done]|].
    split; [intros level members metadata;
            apply (register_in_use _ id (RAID id level metadata members []));
              [apply add_raid_fresh | intros a; apply add_raid_dup | done]|].
    intros dev p Hp.
    split; [by apply (add_partition_in_use dev p m id)|].
    split; [by apply (add_lv_in_use dev p m id)|].
    intros part. by apply (add_volume_in_use dev p part m id).
  - intros m id a H.
    split; [by apply add_disk_dup|].
    split; intros; [by apply add_vg_dup | by apply add_raid_dup].
  - intros s u H. apply dict_contains_true in H.
    unfold _add_unit, bind, get. by rewrite H.
  - intros root config s H. split.
    + revert H. apply (init_ok_inv (fun s => NoDup (map fst (_units s))));
        [intros; constructor | apply unit_ids_step].
    + assert (registry_wf (_smanager s) /\ ids_distinct (_smanager s)) as [[_ Hnd] Hd];
        [|done].
      revert H.
      apply (init_ok_inv
               (fun s => registry_wf (_smanager s) /\ ids_distinct (_smanager s))).
      * intros data. split; [apply initial_registry_wf|].
        unfold ids_distinct. vm_compute. apply NoDup_singleton.
      * intros s1 s2 HI.
        apply (manager_step_installer (fun m => registry_wf m /\ ids_distinct m));
          [|done].
        intros m m' [Hwf Hdis] Hstep.
        split; [by apply (registry_wf_step m) | by apply (ids_distinct_step m)].
Qed.

(** * Further properties of the modelled code *)

(** ** The registry of devices *)

Lemma register_lookup (c : M StorageManager nat) (id : string) (d : StorageDevice)
    (m m' : StorageManager) (a : nat) :
  (get_device_by_id m id = None -> c m = register id d m) ->
  (forall b, get_device_by_id m id = Some b -> c m = (Raise (already_exists m b), m)) ->
  device_id d = id -> storage_units_of d = [] ->
  registry_wf m -> c m = (Ok a, m') ->
  get_device_by_id m id = None /\
  get_device_by_id m' id = Some a /\ deref m' a = Some d /\
  (forall k, k <> id -> get_device_by_id m' k = get_device_by_id m k) /\
  (forall b d', deref m b = Some d' -> deref m' b = Some d') /\
  get_devices_by_type m' (device_class d) = get_devices_by_type m (device_class d) ++ [d] /\
  (forall t, t <> device_class d -> get_devices_by_type m' t = get_devices_by_type m t).
Proof.
  intros Hfresh Hdup Hid Hu Hwf H.
  destruct (get_device_by_id m id) as [b|] eqn:E.
  { by rewrite (Hdup b eq_refl) in H. }
  rewrite (Hfresh eq_refl), (register_spec _ _ _ E) in H.
  destruct (id_in_use m id); [done|]. injection H as <- <-.
  destruct (all_units_register m id d Hwf E Hid Hu) as [Hwf' _].
  split; [done|].
  split; [rewrite (get_device_by_id_app m id id _ _ _ _ E); by rewrite decide_True|].
  split; [unfold deref; simpl; by rewrite list_lookup_middle|].
  split.
  { intros k Hk. rewrite (get_device_by_id_app m id k _ _ _ _ E).
    by rewrite decide_False. }
  split; [intros b d' Hb; unfold deref in *; simpl; by apply lookup_app_l_Some|].
  unfold get_devices_by_type.
  rewrite (devices_values_heap _ Hwf'), (devices_values_heap _ Hwf). cbn [heap].
  split.
  - by rewrite filter_app, filter_cons_True.
  - intros t Ht. rewrite filter_app, filter_cons_False by done. apply app_nil_r.
Qed.

(** X1: on a manager built through its own operations, a device added by
    [add_disk], [add_vg] or [add_raid] is found again by [get_device_by_id]
    under the id it was added with, as the object it was constructed as
    (without units; a RAID with its level, metadata version and members, a
    volume group with its physical volumes); the id was free before; no
    other id of the registry and no other object changes; and
    [get_devices_by_type] lists the new device last among those of its
    class and leaves the other classes as they were. *)
Theorem added_device_is_found (m m' : StorageManager) (a : nat)
    (c : M StorageManager nat) (id : string) (d : StorageDevice) :
  reachable m ->
  (c = add_disk id /\ d = Disk id []) \/
  (exists pvs, c = add_vg id pvs /\ d = VolumeGroup id pvs []) \/
  (exists level members metadata,
     c = add_raid id level members metadata /\ d = RAID id level metadata members []) ->
  c m = (Ok a, m') ->
  get_device_by_id m id = None /\
  get_device_by_id m' id = Some a /\ deref m' a = Some d /\
  (forall k, k <> id -> get_device_by_id m' k = get_device_by_id m k) /\
  (forall b d', deref m b = Some d' -> deref m' b = Some d') /\
  get_devices_by_type m' (device_class d) = get_devices_by_type m (device_class d) ++ [d] /\
  (forall t, t <> device_class d -> get_devices_by_type m' t = get_devices_by_type m t).
Proof.
  intros Hm Hc. apply registry_wf_reachable in Hm.
  destruct Hc as [[-> ->]|[(pvs & -> & ->)|(level & members & metadata & -> & ->)]];
    apply register_lookup; try done.
  - apply add_disk_fresh.
  - intros b. apply add_disk_dup.
  - apply add_vg_fresh.
  - intros b. apply add_vg_dup.
  - apply add_raid_fresh.
  - intros b. apply add_raid_dup.
Qed.

(** ** The installer's table of units *)

(** X2: a unit registered by [_add_unit] is found again by [_unit_by_id]
    under its id; before, that id was unknown ([ValueError]); the lookup of
    every other id answers as before; and the manager is not touched. *)
Theorem added_unit_is_found (u : StorageUnit) (s s' : StorageInstaller) :
  _add_unit u s = (Ok tt, s') ->
  _unit_by_id (unit_id u) s' = (Ok u, s') /\
  _unit_by_id (unit_id u) s
  = (Raise (ValueError ("Unknown unit id '" ++ unit_id u ++ "'")), s) /\
  (forall id, id <> unit_id u -> fst (_unit_by_id id s') = fst (_unit_by_id id s)) /\
  _smanager s' = _smanager s.
Proof.
  intros H. apply add_unit_ok in H as [Hfree ->].
  unfold _unit_by_id, bind, get. simpl. rewrite Hfree.
  rewrite (dict_get_app_fresh _ _ _ _ Hfree), decide_True by done.
  repeat split; try done.
  intros id Hid. rewrite (dict_get_app_fresh _ _ _ _ Hfree), decide_False by done.
  by destruct (dict_get (_units s) id).
Qed.

(** ** Paths under the target root *)

Lemma prefix_app (a b : string) : String.prefix a (a ++ b) = true.
Proof.
  induction a as [|c a IH]; simpl; [by destruct b|].
  destruct (ascii_dec c c); [done | congruence].
Qed.

Lemma path_join_relative_prefix (a b : string) :
  isabs b = false -> String.prefix a (path_join a b) = true.
Proof.
  intros Hb. unfold path_join. rewrite Hb.
  destruct (_ || _); apply prefix_app.
Qed.

Lemma lstrip_slash_relative (s : string) : isabs (lstrip_slash s) = false.
Proof.
  induction s as [|c s IH]; [done|]. simpl.
  destruct (Ascii.eqb c "/") eqn:E; [done|]. simpl. by rewrite E.
Qed.

Lemma lstrip_slash_id (s : string) : isabs s = false -> lstrip_slash s = s.
Proof. destruct s as [|c s]; [done|]. simpl. by intros ->. Qed.

Lemma path_under_root_base (m : StorageManager) (base path : string) :
  _mount_root_base m = Some base -> base <> "" ->
  _path_relative_to_mount_root_base m path = abs_target_path base path /\
  String.prefix base (_path_relative_to_mount_root_base m path) = true.
Proof.
  unfold _path_relative_to_mount_root_base, abs_target_path.
  intros -> Hbase. apply String.eqb_neq in Hbase. rewrite Hbase.
  assert ((if isabs path then lstrip_slash path else path) = lstrip_slash path) as ->.
  { destruct (isabs path) eqn:E; [done | by rewrite lstrip_slash_id]. }
  split; [done|]. apply path_join_relative_prefix, lstrip_slash_relative.
Qed.

(** X3: with a non-empty mount root base, the directory that the manager
    mounts a path at is the one the installer's [abs_target_path] gives for
    that base; it starts with the base, and leading slashes of the path do
    not matter.  Without a base (none, or the empty string) the path is
    used as it is. *)
Theorem path_relative_to_mount_root_base_spec (m : StorageManager) (path : string) :
  (forall base, _mount_root_base m = Some base -> base <> "" ->
     _path_relative_to_mount_root_base m path = abs_target_path base path /\
     String.prefix base (_path_relative_to_mount_root_base m path) = true /\
     _path_relative_to_mount_root_base m ("/" ++ path)
     = _path_relative_to_mount_root_base m path) /\
  (_mount_root_base m = None \/ _mount_root_base m = Some "" ->
     _path_relative_to_mount_root_base m path = path).
Proof.
  split.
  - intros base Hm Hbase.
    destruct (path_under_root_base m base path Hm Hbase) as [Heq Hp].
    split; [done|]. split; [done|].
    rewrite Heq, (proj1 (path_under_root_base m base ("/" ++ path) Hm Hbase)).
    done.
  - unfold _path_relative_to_mount_root_base. by intros [->| ->].
Qed.

Lemma mount_one_under_root_base (m : StorageManager) (base : string)
    (item : string * StorageUnit) :
  _mount_root_base m = Some base -> base <> "" ->
  emits (under_root_base base) (mount_one m item).
Proof.
  intros Hm Hbase. destruct item as [mp u]. unfold mount_one.
  destruct (path_under_root_base m base mp Hm Hbase) as [_ Hp].
  repeat first [ apply emits_ret | apply emits_run_cmd; exact Hp
               | apply emits_bind; [|intros] ].
Qed.

(** X4: with a non-empty mount root base, [mount] only runs [mkdir -p] and
    [mount -t] on directories under the base, and [unmount] only runs
    [umount] on directories under the base, whether they return or raise:
    nothing outside the target root is mounted, created or unmounted. *)
Theorem mount_and_unmount_stay_under_root_base (m : StorageManager) (base : string) :
  _mount_root_base m = Some base -> base <> "" ->
  emits (under_root_base base) (mount m) /\ emits (under_root_base base) (unmount m).
Proof.
  intros Hm Hbase. split.
  - apply emits_for_each. intros x. by apply mount_one_under_root_base.
  - apply emits_for_each. intros [mp u]. unfold unmount_one.
    destruct (path_under_root_base m base mp Hm Hbase) as [_ Hp].
    repeat first [ apply emits_ret | apply emits_run_cmd; exact Hp
                 | apply emits_bind; [|intros] ].
Qed.

(** ** Queries of the machine *)

(** X5: [write_mdadm_conf] writes what [mdadm --detail --scan] printed,
    byte for byte, and never an empty file.  It runs the scan; when the
    scan exits with status 0 and printed something, the one call that
    follows writes exactly that output to [path] in binary mode, and
    [write_mdadm_conf] ends as that call does; when the scan printed
    nothing it raises [RuntimeError] and nothing is written; no other file
    is written and nothing else is run. *)
Theorem write_mdadm_conf_never_empty (path : string) (h : Host) :
  (exists evs,
     trace (snd (write_mdadm_conf path h))
     = trace h ++ Run ["mdadm"; "--detail"; "--scan"] :: evs /\
     (evs = [] \/
      exists r w',
        subprocess_run ["mdadm"; "--detail"; "--scan"] (world h) = (Ok r, w') /\
        returncode r = 0%Z /\ stdout r <> "" /\
        evs = [Call (write_file path "wb" (stdout r))]) /\
     (is_ok (fst (write_mdadm_conf path h)) = true -> evs <> [])) /\
  (forall w',
     subprocess_run ["mdadm"; "--detail"; "--scan"] (world h)
     = (Ok (mkCompleted 0 ""), w') ->
     write_mdadm_conf path h
     = (Raise (RuntimeError "mdadm did not find any RAID devices"),
        mkHost w' (trace h ++ [Run ["mdadm"; "--detail"; "--scan"]]))) /\
  (forall r w',
     subprocess_run ["mdadm"; "--detail"; "--scan"] (world h) = (Ok r, w') ->
     returncode r = 0%Z -> stdout r <> "" ->
     write_mdadm_conf path h
     = (fst (ext (write_file path "wb" (stdout r)) w'),
        mkHost (snd (ext (write_file path "wb" (stdout r)) w'))
               (trace h ++ [Run ["mdadm"; "--detail"; "--scan"];
                            Call (write_file path "wb" (stdout r))]))).
Proof.
  unfold write_mdadm_conf, run_cmd, call, bind, emit, on_world, raise, ret.
  cbn [world trace]. split; [|split].
  - destruct (subprocess_run _ (world h)) as [[r|e] w]; cbn [fst snd trace world].
    + destruct (Z.eqb_spec (returncode r) 0) as [Hrc|Hrc]; cbn [negb andb fst snd trace world].
      2: { exists []. split; [done|]. split; [by left | done]. }
      destruct (String.eqb_spec (stdout r) "") as [Heq|Hne]; cbn [fst snd trace world].
      { exists []. split; [done|]. split; [by left | done]. }
      exists [Call (write_file path "wb" (stdout r))].
      destruct (ext _ w) as [[[]|e] w']; cbn [fst snd trace world];
        (split; [by rewrite <- app_assoc|]);
        (split; [right; by exists r, w | done]).
    + exists []. split; [done|]. split; [by left | done].
  - intros w' ->. done.
  - intros r w' -> Hrc Hne. cbn [fst snd trace world]. rewrite Hrc.
    cbn [Z.eqb negb andb].
    destruct (String.eqb_spec (stdout r) "") as [Heq|_]; [done|].
    cbn [fst snd trace world].
    destruct (ext _ w') as [[[]|e] w'']; cbn [fst snd]; by rewrite <- app_assoc.
Qed.

Lemma lstrip_head (s : string) :
  match lstrip s with String c _ => is_space c = false | EmptyString => True end.
Proof.
  induction s as [|c s IH]; [done|]. simpl.
  destruct (is_space c) eqn:E; [done | by simpl].
Qed.

Lemma rstrip_head (c : ascii) (s : string) :
  is_space c = false -> exists r, rstrip (String c s) = String c r.
Proof.
  intros Hc. simpl. destruct (rstrip s); [|by eexists].
  rewrite Hc. by eexists.
Qed.

Lemma rstrip_idem (s : string) : rstrip (rstrip s) = rstrip s.
Proof.
  induction s as [|c s IH]; [done|]. simpl.
  destruct (rstrip s) as [|c' r] eqn:E.
  - destruct (is_space c) eqn:Ec; [done|]. simpl. by rewrite Ec.
  - change (match rstrip (String c' r) with
            | EmptyString => if is_space c then EmptyString else String c EmptyString
            | String a t => String c (String a t)
            end = String c (String c' r)).
    by rewrite IH.
Qed.

Lemma strip_idem (s : string) : strip (strip s) = strip s.
Proof.
  unfold strip. pose proof (lstrip_head s) as H.
  destruct (lstrip s) as [|c t]; [done|].
  destruct (rstrip_head c t H) as [r Hr]. rewrite Hr.
  cbn [lstrip]. rewrite H, <- Hr. apply rstrip_idem.
Qed.

Lemma strip_ends (s : string) :
  match strip s with String c _ => is_space c = false | EmptyString => True end.
Proof.
  unfold strip. pose proof (lstrip_head s) as H.
  destruct (lstrip s) as [|c t]; [done|].
  destruct (rstrip_head c t H) as [r ->]. done.
Qed.

Lemma lstrip_spaces (s : string) :
  Forall (fun c => is_space c = true) (list_ascii_of_string s) -> lstrip s = "".
Proof.
  induction s as [|c s IH]; [done|]. simpl. intros H.
  apply Forall_cons in H as [-> H]. by apply IH.
Qed.

(** X6: [get_fs_uuid] runs one [blkid] query, whatever the outcome.  When
    the query exits with status 0 and its output is text in ASCII, the
    value returned is that output without the white space around it, which
    is never empty (stripping it again changes nothing, and it starts with
    a character that is not white space); when that output is only white
    space, or empty, [get_fs_uuid] raises [RuntimeError].  (Output outside
    ASCII is not covered: there [decode()] can raise and [strip()] knows
    more white space.) *)
Theorem get_fs_uuid_not_empty (device_path : string) (h : Host) :
  trace (snd (get_fs_uuid device_path h)) = trace h ++ [Run (blkid_args device_path)] /\
  (forall out w',
     subprocess_run (blkid_args device_path) (world h) = (Ok (mkCompleted 0 out), w') ->
     ascii_text out = true ->
     if String.eqb (strip out) ""
     then fst (get_fs_uuid device_path h)
          = Raise (RuntimeError
                     ("Unable to determine a file system UUID of " ++ device_path))
     else fst (get_fs_uuid device_path h) = Ok (strip out) /\
          strip (strip out) = strip out /\
          exists c rest, strip out = String c rest /\ is_space c = false) /\
  (forall out w',
     subprocess_run (blkid_args device_path) (world h) = (Ok (mkCompleted 0 out), w') ->
     ascii_text out = true ->
     Forall (fun c => is_space c = true) (list_ascii_of_string out) ->
     fst (get_fs_uuid device_path h)
     = Raise (RuntimeError ("Unable to determine a file system UUID of " ++ device_path))).
Proof.
  unfold get_fs_uuid, run_cmd, bind, emit, on_world, raise, ret. cbn [world trace].
  destruct (subprocess_run _ (world h)) as [[[status out]|e] w] eqn:Hrun;
    cbn [fst snd trace world returncode stdout negb andb].
  2: { split; [done|]. split; intros ? ? [=]. }
  destruct (Z.eqb_spec status 0) as [->|Hst];
    cbn [fst snd trace world negb stdout returncode].
  2: { split; [done|]. split; intros ? ? [= -> _ _]; done. }
  destruct (String.eqb_spec (strip out) "") as [He|Hne]; cbn [fst snd trace world].
  - split; [done|]. split.
    + intros out' w' [= <- <-] _. by rewrite He.
    + done.
  - split; [done|]. split.
    + intros out' w' [= <- <-] _.
      destruct (String.eqb_spec (strip out) "") as [He|_]; [done|].
      split; [done|]. split; [apply strip_idem|].
      pose proof (strip_ends out) as Hc. destruct (strip out) as [|c r]; [done|].
      by exists c, r.
    + intros out' w' [= <- <-] _ Hsp. destruct Hne.
      unfold strip. by rewrite lstrip_spaces.
Qed.

(** ** Looking units up *)

Lemma find_head_filter {A} (p : A -> bool) (l : list A) :
  find p l = head (List.filter p l).
Proof. induction l as [|x l IH]; [done|]. simpl. by destruct (p x). Qed.

Lemma find_unique_perm {A} (f : A -> option string) (k : string) (l1 l2 : list A) :
  l1 ≡ₚ l2 -> NoDup (omap f l2) ->
  find (fun x => bool_decide (f x = Some k)) l1
  = find (fun x => bool_decide (f x = Some k)) l2.
Proof.
  intros Hp Hnd. rewrite !find_head_filter.
  destruct (List.filter (fun x => bool_decide (f x = Some k)) l2) as [|u us] eqn:E.
  - assert (k ∉ omap f l1) as Hk.
    { rewrite Hp. intros Hin. apply list_elem_of_omap in Hin as (x & Hx & Hfx).
      assert (In x (List.filter (fun x => bool_decide (f x = Some k)) l2)) as Hin.
      { apply filter_In. split; [by apply list_elem_of_In | by apply bool_decide_eq_true]. }
      by rewrite E in Hin. }
    by rewrite (filter_none f k l1 Hk).
  - assert (In u (List.filter (fun x => bool_decide (f x = Some k)) l2)) as Hin
      by (rewrite E; left; done).
    apply filter_In in Hin as [Hu Hfu]. apply bool_decide_eq_true in Hfu.
    apply list_elem_of_In in Hu.
    rewrite (filter_unique f k l2 u Hnd Hu Hfu) in E. injection E as <-.
    rewrite (filter_unique f k l1 u); [done | by rewrite Hp | by rewrite Hp | done].
Qed.

Lemma find_mount_points (mp : string) (l : list StorageUnit) :
  mp <> "" ->
  option_map snd (find (fun x => String.eqb mp (fst x))
                       (omap (fun u => mp' ← mount_point_set u; Some (mp', u)) l))
  = find (has_mount_point mp) l.
Proof.
  intros Hmp. induction l as [|u l IH]; [done|]. simpl.
  unfold mount_point_set, has_mount_point at 1.
  destruct (mount_point u) as [mp'|] eqn:E; simpl.
  - destruct (String.eqb_spec mp' "") as [->|Hne]; simpl.
    + rewrite bool_decide_eq_false_2 by congruence. exact IH.
    + destruct (String.eqb_spec mp mp') as [->|Hne'].
      * by rewrite bool_decide_eq_true_2.
      * rewrite bool_decide_eq_false_2 by congruence. exact IH.
  - exact IH.
Qed.

Lemma mount_points_unique_reachable (m : StorageManager) :
  reachable m -> registry_wf m /\ mount_points_unique m.
Proof.
  apply (reachable_ind_step (fun m => registry_wf m /\ mount_points_unique m)).
  - split; [|apply NoDup_nil_2]. split; [done|]. simpl. apply NoDup_singleton.
  - intros m1 m2 [Hwf Hnd] Hs. split.
    + by apply (registry_wf_step m1).
    + by apply (mount_points_unique_step m1).
Qed.

(** X7: on a manager built through its own operations, the public
    [get_unit_by_mount_point], which walks the set of devices in whatever
    order the set is iterated, and the private [_get_unit_by_mount_point]
    behind [check_can_mount_to], which walks the registry in insertion
    order, give the same answer for every non-empty mount point; at most
    one unit has it. *)
Theorem mount_point_lookups_agree (m : StorageManager) (mp : string) :
  reachable m -> mp <> "" ->
  get_unit_by_mount_point m mp = _get_unit_by_mount_point m mp /\
  (forall u v, u ∈ all_units m -> v ∈ all_units m ->
     mount_point u = Some mp -> mount_point v = Some mp -> u = v).
Proof.
  intros Hm Hmp. apply mount_points_unique_reachable in Hm as [Hwf Hnd]. split.
  - unfold get_unit_by_mount_point, mount_points, _get_unit_by_mount_point.
    rewrite (find_mount_points mp _ Hmp).
    apply (find_unique_perm mount_point mp); [by apply storage_units_perm | exact Hnd].
  - intros u v Hu Hv Hmu Hmv.
    pose proof (filter_unique mount_point mp _ u Hnd Hu Hmu) as H1.
    pose proof (filter_unique mount_point mp _ v Hnd Hv Hmv) as H2.
    congruence.
Qed.

(** X8: after the constructor returned, [efi_mount_point] is the mount
    point of a unit that carries the flag [esp]: of the only such unit when
    there is one, whatever the order in which the set of devices is
    iterated; and it is [None] when no unit carries the flag. *)
Theorem efi_mount_point_of_esp_unit (root : string) (config : dict pyval)
    (s : StorageInstaller) :
  StorageInstaller_init root config = Ok s ->
  (forall mp, efi_mount_point s = Some mp ->
     exists u, u ∈ all_units (_smanager s) /\ ESP ∈ flags u /\ mount_point u = Some mp) /\
  ((forall u, u ∈ all_units (_smanager s) -> ESP ∉ flags u) ->
     efi_mount_point s = None) /\
  (forall u, u ∈ all_units (_smanager s) -> ESP ∈ flags u ->
     (forall v, v ∈ all_units (_smanager s) -> ESP ∈ flags v -> v = u) ->
     efi_mount_point s = mount_point u).
Proof.
  intros H. destruct (init_mount_points_unique _ _ _ H) as [Hwf _].
  pose proof (storage_units_perm _ Hwf) as Hp. unfold efi_mount_point.
  destruct (find _ (storage_units (_smanager s))) as [w|] eqn:E.
  - apply find_some in E as [Hw Hesp]. apply bool_decide_eq_true in Hesp.
    apply list_elem_of_In in Hw. rewrite Hp in Hw.
    split; [intros mp Hmp; by exists w|]. split.
    + intros Hno. by destruct (Hno w Hw).
    + intros u Hu Hu' Huniq. by rewrite (Huniq w Hw Hesp).
  - split; [done|]. split; [done|].
    intros u Hu Hesp _. rewrite <- Hp in Hu. apply list_elem_of_In in Hu.
    pose proof (find_none _ _ E u Hu) as Hno. simpl in Hno.
    by apply bool_decide_eq_false in Hno.
Qed.

(** ** The table of units and the devices *)

Lemma units_registered_add (cls : UnitClass)
    (add : UnitParams -> M StorageManager StorageUnit) (p : UnitParams)
    (u : StorageUnit) (m' : StorageManager) (s : StorageInstaller) :
  unit_factory cls add -> add p (_smanager s) = (Ok u, m') -> units_registered s ->
  units_registered (set_units (_units s ++ [(unit_id u, u)]) (set_smanager m' s)).
Proof.
  intros Hf Hadd [Hwf Hp].
  destruct (Hf p _ u m' Hadd) as (_ & _ & _ & _ & dev & d & Hd & ->).
  split; simpl.
  - by apply registry_wf_append.
  - rewrite (all_units_step_unit _ _ _ _ Hwf Hd). unfold dict_values in *.
    rewrite map_app. simpl. rewrite Hp. symmetry. apply Permutation_cons_append.
Qed.

Lemma units_registered_manager (s : StorageInstaller) (m' : StorageManager) :
  units_registered s -> registry_wf m' /\ all_units m' = all_units (_smanager s) ->
  units_registered (set_smanager m' s).
Proof. intros [_ Hp] [Hwf Hu]. split; simpl; [done | by rewrite Hu]. Qed.

Lemma units_registered_units (cls : UnitClass)
    (add : UnitParams -> M StorageManager StorageUnit) (l : list (dict pyval))
    (s s' : StorageInstaller) :
  unit_factory cls add -> units_registered s ->
  for_each l (parse_unit_item add) s = (Ok tt, s') -> units_registered s'.
Proof.
  intros Hf HP H.
  refine (proj1 (for_each_ok_inv2 units_registered _ _ _ _ _ HP H)).
  intros x s1 s2 _ H1 Hx.
  apply parse_unit_item_ok in Hx as (p & u & m' & _ & _ & Hadd & _ & ->).
  by apply (units_registered_add cls add p).
Qed.

Lemma units_registered_disk_item (item : dict pyval) (s s' : StorageInstaller) :
  units_registered s -> parse_disk_item item s = (Ok tt, s') -> units_registered s'.
Proof.
  intros HP H.
  apply parse_disk_item_ok in H as (id & disk & m1 & pl & _ & Hadd & _ & H).
  eapply units_registered_units; [apply (add_partition_factory disk) | | exact H].
  apply units_registered_manager; [done|]. eapply add_disk_units; [apply HP | done].
Qed.

Lemma units_registered_crypto_item (item : dict pyval) (s s' : StorageInstaller) :
  units_registered s -> parse_crypto_item item s = (Ok tt, s') -> units_registered s'.
Proof.
  intros HP H.
  apply parse_crypto_item_ok in H
    as (p & part_id & part & u & m' & _ & _ & _ & _ & Hadd & _ & ->).
  by apply (units_registered_add CryptoVolume
              (fun p => add_volume (_cryptsetup (_smanager s)) p part) p u m' s
              (add_volume_factory _ part)).
Qed.

Lemma units_registered_raid_item (item : dict pyval) (s s' : StorageInstaller) :
  units_registered s -> parse_raid_item item s = (Ok tt, s') -> units_registered s'.
Proof.
  intros HP H.
  apply parse_raid_item_parts in H as (id & lv & ms & md & raid & m1 & pl & Hadd & _ & H).
  eapply units_registered_units; [apply (add_partition_factory raid) | | exact H].
  apply units_registered_manager; [done|]. eapply add_raid_units; [apply HP | done].
Qed.

Lemma units_registered_vg_item (item : dict pyval) (s s' : StorageInstaller) :
  units_registered s -> parse_vg_item item s = (Ok tt, s') -> units_registered s'.
Proof.
  intros HP H.
  apply parse_vg_item_parts in H as (id & pvs & vg & m1 & ll & Hadd & _ & H).
  eapply units_registered_units; [apply (add_lv_factory vg) | | exact H].
  apply units_registered_manager; [done|]. eapply add_vg_units; [apply HP | done].
Qed.

Lemma units_registered_sections (root : string) (data : pyval)
    (flags : bool * bool * bool * bool) (s4 : StorageInstaller) :
  parse_sections (initial_installer root data) = (Ok flags, s4) ->
  units_registered s4.
Proof.
  unfold parse_sections. intros H.
  apply bind_ok_inv in H as (b1 & s1 & H1 & H).
  apply bind_ok_inv in H as (b2 & s2 & H2 & H).
  apply bind_ok_inv in H as (b3 & s3 & H3 & H).
  apply bind_ok_inv in H as (b4 & s4' & H4 & H).
  injection H as _ <-.
  apply parse_disks_ok in H1 as (dl & _ & H1).
  apply parse_crypto_volumes_ok in H2 as (cl & _ & H2).
  apply parse_raids_ok in H3 as (rl & _ & H3).
  apply parse_volume_groups_ok in H4 as (vl & _ & H4).
  refine (proj1 (for_each_ok_inv2 units_registered _ _ _ _
                   (fun x sa sb _ => units_registered_vg_item x sa sb) _ H4)).
  refine (proj1 (for_each_ok_inv2 units_registered _ _ _ _
                   (fun x sa sb _ => units_registered_raid_item x sa sb) _ H3)).
  refine (proj1 (for_each_ok_inv2 units_registered _ _ _ _
                   (fun x sa sb _ => units_registered_crypto_item x sa sb) _ H2)).
  refine (proj1 (for_each_ok_inv2 units_registered _ _ _ _
                   (fun x sa sb _ => units_registered_disk_item x sa sb) _ H1)).
  split; [apply initial_registry_wf | by vm_compute].
Qed.

(** What the constructor leaves of the parsing: the manager and the table
    of units are those reached when the four sections were parsed. *)
Lemma init_ok_parsed_units (root : string) (config : dict pyval) (s : StorageInstaller) :
  StorageInstaller_init root config = Ok s ->
  exists data flags s4,
    pyget config "storage" = PDict data /\
    parse_sections (initial_installer root (PDict data)) = (Ok flags, s4) /\
    _smanager s = _smanager s4 /\ _units s = _units s4.
Proof.
  intros H. pose proof (init_ok_steps _ _ _ H) as (data0 & Hi & Hsetup & _).
  apply init_ok_parsed in H as (data & flags & s4 & Hd & Hp & Hroot & _).
  unfold Installer_init in Hi. simpl in Hi. rewrite Hd in Hi. injection Hi as <-.
  assert (registry_wf (_smanager s4)) as Hwf.
  { pose proof (stepwise_run _ _ _ _ stepwise_parse_sections Hp) as Hsteps.
    revert Hsteps. apply (installer_steps_manager registry_wf);
      [apply registry_wf_step | apply initial_registry_wf]. }
  destruct (setup_returns _ _ _ Hp Hwf Hroot) as (s' & Hs' & Hm & Hu).
  rewrite Hsetup in Hs'. injection Hs' as <-.
  by exists data, flags, s4.
Qed.

Lemma unit_keys_match_step (s1 s2 : StorageInstaller) :
  unit_keys_match s1 -> installer_step s1 s2 -> unit_keys_match s2.
Proof.
  unfold unit_keys_match. intros H1 Hs. destruct Hs as [| u Hu | | |]; simpl; try done.
  apply Forall_app. split; [done|]. by apply Forall_singleton.
Qed.

Lemma init_units_registered (root : string) (config : dict pyval)
    (s : StorageInstaller) :
  StorageInstaller_init root config = Ok s ->
  dict_values (_units s) ≡ₚ all_units (_smanager s).
Proof.
  intros H. apply init_ok_parsed_units in H as (data & flags & s4 & _ & Hp & Hm & Hu).
  apply units_registered_sections in Hp as [_ Hp]. by rewrite Hm, Hu.
Qed.

(** X9: after the constructor returned, the installer's table of units
    holds exactly the units of the manager's devices, each once and under
    its own id; so no two units of the devices share an id. *)
Theorem units_table_matches_devices (root : string) (config : dict pyval)
    (s : StorageInstaller) :
  StorageInstaller_init root config = Ok s ->
  dict_values (_units s) ≡ₚ all_units (_smanager s) /\
  (forall id u, dict_get (_units s) id = Some u -> unit_id u = id) /\
  NoDup (map unit_id (all_units (_smanager s))).
Proof.
  intros H.
  assert (unit_keys_match s) as Hk.
  { revert H. apply (init_ok_inv unit_keys_match);
      [intros; constructor | apply unit_keys_match_step]. }
  assert (NoDup (map fst (_units s))) as Hnd.
  { revert H. apply (init_ok_inv (fun s => NoDup (map fst (_units s))));
      [intros; constructor | apply unit_ids_step]. }
  apply init_units_registered in H as Hp.
  split; [done|]. split.
  - intros id u Hget. apply dict_get_Some_elem in Hget.
    unfold unit_keys_match in Hk. rewrite Forall_forall in Hk.
    by apply (Hk (id, u)).
  - rewrite <- Hp. unfold dict_values. rewrite map_map.
    rewrite (map_ext_Forall _ fst); [done|].
    exact Hk.
Qed.

(** ** What parsing leaves alone *)

Section KeepsFacts.
Context {B : Type} (f : StorageInstaller -> B).
Hypothesis keeps_manager : forall m s, f (set_smanager m s) = f s.
Hypothesis keeps_units : forall us s, f (set_units us s) = f s.

Lemma keeps_readonly {A} (c : M StorageInstaller A) : readonly c -> keeps f c.
Proof. intros Hc s. by rewrite Hc. Qed.

Lemma keeps_bind {A C} (c : M StorageInstaller A) (k : A -> M StorageInstaller C) :
  keeps f c -> (forall a, keeps f (k a)) -> keeps f (bind c k).
Proof.
  intros Hc Hk s. specialize (Hc s). unfold bind.
  destruct (c s) as [[a|e] s1]; simpl in *; [|done].
  by rewrite Hk.
Qed.

Lemma keeps_for_each {A} (l : list A) (body : A -> M StorageInstaller unit) :
  (forall x, keeps f (body x)) -> keeps f (for_each l body).
Proof.
  intros Hb. induction l; simpl; [by apply keeps_readonly, readonly_ret|].
  by apply keeps_bind.
Qed.

Lemma keeps_on_manager {A} (c : M StorageManager A) : keeps f (on_manager c).
Proof.
  intros s. unfold on_manager. destruct (c (_smanager s)). simpl. apply keeps_manager.
Qed.

Lemma keeps_add_unit (u : StorageUnit) : keeps f (_add_unit u).
Proof.
  intros s. unfold _add_unit, bind, get. simpl.
  destruct (dict_contains _ _); simpl; [done | apply keeps_units].
Qed.

Lemma keeps_parse_unit_item (add : UnitParams -> M StorageManager StorageUnit)
    (item : dict pyval) :
  keeps f (parse_unit_item add item).
Proof.
  unfold parse_unit_item.
  apply keeps_bind; [apply keeps_readonly, readonly_from_dict|]. intros p.
  apply keeps_bind; [apply keeps_on_manager|]. intros u. apply keeps_add_unit.
Qed.

Ltac keeps_tac :=
  repeat first
    [ apply keeps_parse_unit_item | apply keeps_on_manager | apply keeps_add_unit
    | apply keeps_readonly;
        first [ apply readonly_ret | apply readonly_raise | apply readonly_lift
              | apply readonly_get | apply readonly_from_dict | apply readonly_unit_by_id
              | apply readonly_map_M; intros; apply readonly_unit_by_id ]
    | apply keeps_for_each; intros
    | apply keeps_bind; [|intros]
    | match goal with
      | |- keeps _ (if ?b then _ else _) => destruct b
      end ].

Lemma keeps_parse_sections : keeps f parse_sections.
Proof.
  unfold parse_sections, _parse_disks, _parse_crypto_volumes, _parse_raids,
    _parse_volume_groups, parse_disk_item, parse_crypto_item, parse_raid_item,
    parse_vg_item.
  keeps_tac.
Qed.

End KeepsFacts.

Lemma parse_section_flag (key : string) (body : dict pyval -> M StorageInstaller unit)
    (s s' : StorageInstaller) (b : bool) :
  (s0 <- get ;;
   if negb (dict_contains (_data s0) key) then ret false
   else l <- lift (read_dict_list (_data s0) key) ;;
        for_each l body ;;; ret (nonempty l)) s = (Ok b, s') ->
  b = nonempty (entries (_data s) key).
Proof.
  intros H. apply bind_ok_inv in H as (s0 & s1 & Hg & H). injection Hg as <- <-.
  unfold entries. destruct (dict_contains (_data s) key) eqn:E; simpl in H.
  - apply bind_ok_inv in H as (l & s1 & Hl & H). apply lift_ok_inv in Hl as [Hl ->].
    rewrite Hl. apply bind_ok_inv in H as ([] & s2 & _ & H). by injection H as <- _.
  - rewrite (read_dict_list_absent _ _ E). by injection H as <- _.
Qed.

Lemma parse_sections_flags (s0 s4 : StorageInstaller) (b1 b2 b3 b4 : bool) :
  parse_sections s0 = (Ok (b1, b2, b3, b4), s4) ->
  b2 = nonempty (entries (_data s0) "crypto_volumes") /\
  b3 = nonempty (entries (_data s0) "raids") /\
  b4 = nonempty (entries (_data s0) "volume_groups").
Proof.
  unfold parse_sections. intros H.
  apply bind_ok_inv in H as (c1 & s1 & H1 & H).
  apply bind_ok_inv in H as (c2 & s2 & H2 & H).
  apply bind_ok_inv in H as (c3 & s3 & H3 & H).
  apply bind_ok_inv in H as (c4 & s4' & H4 & H).
  injection H as -> -> -> -> _.
  pose proof (stepwise_run _ _ _ _ stepwise_parse_disks H1) as S1.
  pose proof (stepwise_run _ _ _ _ stepwise_parse_crypto_volumes H2) as S2.
  pose proof (stepwise_run _ _ _ _ stepwise_parse_raids H3) as S3.
  apply installer_steps_data in S1, S2, S3.
  apply parse_section_flag in H2, H3, H4.
  rewrite S1 in H2. rewrite S2, S1 in H3. rewrite S3, S2, S1 in H4. done.
Qed.

(** ** The packages of the storage installer *)

Lemma elem_of_set_add {A} `{EqDecision A} (x y : A) (l : list A) :
  x ∈ set_add y l <-> x = y \/ x ∈ l.
Proof.
  unfold set_add. destruct (bool_decide_reflect (y ∈ l)) as [Hy|Hy].
  - split; [by right | intros [->|]; done].
  - rewrite elem_of_app, list_elem_of_singleton. tauto.
Qed.

Lemma NoDup_set_add {A} `{EqDecision A} (y : A) (l : list A) :
  NoDup l -> NoDup (set_add y l).
Proof.
  intros Hl. unfold set_add. destruct (bool_decide_reflect (y ∈ l)) as [Hy|Hy]; [done|].
  apply NoDup_app. split; [done|]. split; [|apply NoDup_singleton].
  intros x Hx Hx'. by apply list_elem_of_singleton in Hx' as ->.
Qed.

Lemma elem_of_add_all (names l : list string) (x : string) :
  x ∈ fold_left (fun l x => set_add x l) names l <-> x ∈ names \/ x ∈ l.
Proof.
  revert l. induction names as [|n names IH]; intros l; simpl.
  - rewrite elem_of_nil. tauto.
  - rewrite IH, elem_of_set_add, elem_of_cons. tauto.
Qed.

Lemma cond_add_package (b : bool) (names : list string) (s : StorageInstaller) :
  exists s', (if b then add_package names else ret tt) s = (Ok tt, s') /\
             _units s' = _units s /\
             forall x, x ∈ _packages s' <-> (b = true /\ x ∈ names) \/ x ∈ _packages s.
Proof.
  destruct b.
  - eexists. split; [reflexivity|]. split; [done|]. intros x. simpl.
    rewrite elem_of_add_all. tauto.
  - exists s. split; [done|]. split; [done|]. intros x. split; [by right|].
    by intros [[? _]|].
Qed.

Lemma fs_packages_loop (l : list FSType) (s : StorageInstaller) :
  exists s', for_each l (fun fs => match fs_to_pkg fs with
                                   | Some pkg => add_package [pkg]
                                   | None => ret tt
                                   end) s = (Ok tt, s') /\
             _units s' = _units s /\
             forall x, x ∈ _packages s' <->
                       (exists fs, fs ∈ l /\ fs_to_pkg fs = Some x) \/ x ∈ _packages s.
Proof.
  revert s. induction l as [|fs l IH]; intros s.
  - exists s. split; [done|]. split; [done|]. intros x. split; [by right|].
    intros [(fs & Hfs & _)|]; [by apply elem_of_nil in Hfs | done].
  - simpl.
    assert (exists s1, match fs_to_pkg fs with
                       | Some pkg => add_package [pkg]
                       | None => ret tt
                       end s = (Ok tt, s1) /\
                       _units s1 = _units s /\
                       forall x, x ∈ _packages s1 <-> fs_to_pkg fs = Some x \/ x ∈ _packages s)
      as (s1 & H1 & Hu1 & Hx1).
    { destruct (fs_to_pkg fs) as [pkg|].
      - eexists. split; [reflexivity|]. split; [done|]. intros x. simpl.
        rewrite elem_of_set_add. split; intros [H|H]; try (by right); left; congruence.
      - exists s. split; [done|]. split; [done|].
        intros x. split; [by right | by intros [|]]. }
    destruct (IH s1) as (s' & Hs' & Hu' & Hx'). exists s'.
    rewrite (bind_run_ok _ _ _ _ _ H1). split; [done|].
    split; [congruence|]. intros x.
    rewrite Hx', Hx1. split.
    + intros [(fs' & Hin & Hpkg)|[Hpkg|Hold]]; [| |by right].
      * left. exists fs'. split; [by right | done].
      * left. exists fs. split; [by left | done].
    + intros [(fs' & Hin & Hpkg)|Hold]; [|by right; right].
      apply elem_of_cons in Hin as [->|Hin]; [by right; left|].
      left. by exists fs'.
Qed.

Lemma collect_file_systems (us : list StorageUnit) (l : list FSType) :
  NoDup l ->
  NoDup (fold_left (fun l u => match fs_type u with Some t => set_add t l | None => l end)
                   us l) /\
  forall fs, fs ∈ fold_left (fun l u => match fs_type u with
                                        | Some t => set_add t l | None => l end) us l
             <-> (exists u, u ∈ us /\ fs_type u = Some fs) \/ fs ∈ l.
Proof.
  revert l. induction us as [|u us IH]; intros l Hl; simpl.
  - split; [done|]. intros fs. split; [by right|].
    intros [(u & Hu & _)|]; [by apply elem_of_nil in Hu | done].
  - destruct (fs_type u) as [t|] eqn:E.
    + destruct (IH (set_add t l) (NoDup_set_add t l Hl)) as [Hnd Hin].
      split; [done|]. intros fs. rewrite Hin, elem_of_set_add. split.
      * intros [(v & Hv & Hfs)|[->|Hold]]; [| |by right].
        -- left. exists v. split; [by right | done].
        -- left. exists u. split; [by left | done].
      * intros [(v & Hv & Hfs)|Hold]; [|by right; right].
        apply elem_of_cons in Hv as [->|Hv]; [right; left; congruence|].
        left. by exists v.
    + destruct (IH l Hl) as [Hnd Hin]. split; [done|]. intros fs. rewrite Hin. split.
      * intros [(v & Hv & Hfs)|Hold]; [|by right].
        left. exists v. split; [by right | done].
      * intros [(v & Hv & Hfs)|Hold]; [|by right].
        apply elem_of_cons in Hv as [->|Hv]; [congruence|].
        left. by exists v.
Qed.

Lemma nonempty_true {A} (l : list A) : nonempty l = true <-> l <> [].
Proof. by destruct l. Qed.

Lemma setup_packages (s0 s : StorageInstaller) :
  StorageInstaller_setup s0 = (Ok tt, s) -> _packages s0 = [] ->
  forall pkg, pkg ∈ _packages s <->
    (entries (_data s0) "raids" <> [] /\ pkg ∈ ["mdadm"; "mdadm-udev"]) \/
    (entries (_data s0) "crypto_volumes" <> []
     /\ pkg ∈ ["cryptsetup"; "cryptsetup-openrc"]) \/
    (entries (_data s0) "volume_groups" <> [] /\ pkg ∈ ["lvm2"]) \/
    (exists u, u ∈ dict_values (_units s) /\ fs_package u = Some pkg).
Proof.
  intros H Hp0 pkg. unfold StorageInstaller_setup in H.
  apply bind_ok_inv in H as (b1 & s1 & H1 & H).
  apply bind_ok_inv in H as (b2 & s2 & H2 & H).
  apply bind_ok_inv in H as (b3 & s3 & H3 & H).
  apply bind_ok_inv in H as (b4 & s4 & H4 & H).
  assert (parse_sections s0 = (Ok (b1, b2, b3, b4), s4)) as Hp.
  { unfold parse_sections.
    by rewrite (bind_run_ok _ _ _ _ _ H1), (bind_run_ok _ _ _ _ _ H2),
      (bind_run_ok _ _ _ _ _ H3), (bind_run_ok _ _ _ _ _ H4). }
  destruct (parse_sections_flags _ _ _ _ _ _ Hp) as (-> & -> & ->).
  pose proof (keeps_parse_sections _packages (fun _ _ => eq_refl) (fun _ _ => eq_refl) s0)
    as Hk.
  rewrite Hp, Hp0 in Hk. simpl in Hk.
  apply bind_ok_inv in H as ([] & s5 & H5 & H). injection H5 as <-.
  apply bind_ok_inv in H as ([] & s6 & H6 & H).
  unfold _validate, bind, get in H6. simpl in H6.
  destruct (get_unit_by_mount_point (_smanager s4) "/"); [|done]. injection H6 as <-.
  destruct (cond_add_package (nonempty (entries (_data s0) "raids"))
              ["mdadm"; "mdadm-udev"]
              (set_has b1 (nonempty (entries (_data s0) "crypto_volumes"))
                 (nonempty (entries (_data s0) "raids"))
                 (nonempty (entries (_data s0) "volume_groups")) s4))
    as (s7 & E7 & U7 & X7).
  rewrite (bind_run_ok _ _ _ _ _ E7) in H.
  destruct (cond_add_package (nonempty (entries (_data s0) "crypto_volumes"))
              ["cryptsetup"; "cryptsetup-openrc"] s7) as (s8 & E8 & U8 & X8).
  rewrite (bind_run_ok _ _ _ _ _ E8) in H.
  destruct (cond_add_package (nonempty (entries (_data s0) "volume_groups"))
              ["lvm2"] s8) as (s9 & E9 & U9 & X9).
  rewrite (bind_run_ok _ _ _ _ _ E9) in H.
  unfold bind at 1, get in H. cbv zeta in H. unfold bind at 1, put in H.
  destruct (collect_file_systems (dict_values (_units s9)) [] NoDup_nil_2)
    as [Hnd Hfs].
  destruct (fs_packages_loop
              (set_iter FSType
                 (fold_left (fun l u => match fs_type u with
                                        | Some t => set_add t l | None => l end)
                            (dict_values (_units s9)) []))
              (set_file_systems
                 (fold_left (fun l u => match fs_type u with
                                        | Some t => set_add t l | None => l end)
                            (dict_values (_units s9)) []) s9))
    as (s' & E & U & X).
  rewrite E in H. injection H as <-.
  rewrite X, X9, X8, X7. simpl. rewrite Hk, U. simpl.
  rewrite !nonempty_true.
  assert ((exists fs, fs ∈ set_iter FSType
                       (fold_left (fun l u => match fs_type u with
                                              | Some t => set_add t l | None => l end)
                                  (dict_values (_units s9)) [])
                      /\ fs_to_pkg fs = Some pkg)
          <-> exists u, u ∈ dict_values (_units s9) /\ fs_package u = Some pkg) as ->.
  { split.
    - intros (fs & Hin & Hpkg). rewrite (set_iter_perm _ _ Hnd) in Hin.
      apply Hfs in Hin as [(u & Hu & Hfu)|Hin]; [|by apply elem_of_nil in Hin].
      exists u. split; [done|]. unfold fs_package. by rewrite Hfu.
    - intros (u & Hu & Hpkg). unfold fs_package in Hpkg.
      destruct (fs_type u) as [fs|] eqn:Hfu; [|done]. simpl in Hpkg.
      exists fs. split; [|done]. rewrite (set_iter_perm _ _ Hnd).
      apply Hfs. left. by exists u. }
  rewrite elem_of_nil. tauto.
Qed.

(** X10: after the constructor returned, the packages the storage installer
    asks for are exactly: [mdadm] and [mdadm-udev] when the [raids] section
    has an entry, [cryptsetup] and [cryptsetup-openrc] when the
    [crypto_volumes] section has an entry, [lvm2] when the [volume_groups]
    section has an entry, and for every unit of the devices the tool that
    makes its file system ([e2fsprogs] for ext4, [xfsprogs] for xfs,
    [dosfstools] for vfat). *)
Theorem packages_follow_device_mix (root : string) (config data : dict pyval)
    (s : StorageInstaller) (pkg : string) :
  StorageInstaller_init root config = Ok s -> pyget config "storage" = PDict data ->
  pkg ∈ _packages s <->
    (entries data "raids" <> [] /\ pkg ∈ ["mdadm"; "mdadm-udev"]) \/
    (entries data "crypto_volumes" <> [] /\ pkg ∈ ["cryptsetup"; "cryptsetup-openrc"]) \/
    (entries data "volume_groups" <> [] /\ pkg ∈ ["lvm2"]) \/
    (exists u, u ∈ all_units (_smanager s) /\ fs_package u = Some pkg).
Proof.
  intros H Hd. pose proof (init_units_registered _ _ _ H) as Hp.
  apply init_ok_steps in H as (data0 & Hi & Hsetup & _).
  unfold Installer_init in Hi. simpl in Hi. rewrite Hd in Hi. injection Hi as <-.
  rewrite (setup_packages _ _ Hsetup eq_refl pkg). simpl.
  assert ((exists u, u ∈ dict_values (_units s) /\ fs_package u = Some pkg)
          <-> exists u, u ∈ all_units (_smanager s) /\ fs_package u = Some pkg) as ->; [|done].
  split; intros (u & Hu & Hpkg); exists u; (split; [|done]).
  - by rewrite <- Hp.
  - by rewrite Hp.
Qed.

(** ** What [post_apply] does *)

(** X11: whether it returns or raises, [post_apply] of the storage
    installer only queries the UUIDs of block devices and writes
    [/etc/fstab] under the target root; it scans the RAIDs, writes
    [/etc/mdadm.conf] (never empty) and enables [mdadm] and [mdadm-raid]
    only when the configuration has RAIDs, and enables [lvm] only when it
    has volume groups.  It writes no other file and enables no other
    service; in particular nothing is done for [dmcrypt]. *)
Theorem post_apply_touches_only_storage_config (s : StorageInstaller) :
  emits (post_apply_event s) (StorageInstaller_post_apply s).
Proof.
  unfold StorageInstaller_post_apply, start_event.
  apply emits_bind; [by apply emits_emit|]. intros _.
  apply emits_bind.
  { unfold write_fstab. apply emits_bind.
    - apply emits_map_M. intros u. apply emits_bind; [|intros; apply emits_ret].
      unfold fs_uuid, get_fs_uuid. apply emits_bind.
      + apply emits_run_cmd. left. by eexists.
      + intros r. destruct (String.eqb _ _); [apply emits_raise | apply emits_ret].
    - intros lines. apply emits_call. left. by eexists. }
  intros _. apply emits_bind.
  { destruct (_has_raids s) eqn:Hr; [|apply emits_ret].
    apply emits_bind.
    - unfold write_mdadm_conf. apply emits_bind.
      + apply emits_run_cmd. right. left. split; [done | by left].
      + intros r. destruct (String.eqb_spec (stdout r) "") as [|Hne];
          [apply emits_raise|].
        apply emits_call. right. split; [done|]. by exists (stdout r).
    - intros _. apply emits_for_each_in. intros service Hin.
      unfold enable_service, run_in_chroot.
      apply emits_bind; [|intros; apply emits_ret].
      apply emits_run_cmd. right. left. split; [done|]. right. by exists service. }
  intros _. destruct (_has_lvm s) eqn:Hl; [|apply emits_ret].
  unfold enable_service, run_in_chroot.
  apply emits_bind; [|intros; apply emits_ret].
  apply emits_run_cmd. right. right. done.
Qed.

(** ** The order of the life-cycle calls *)

Section RecordsFacts.
Context {B : Type} (obs : event -> option B).

Lemma unobserved_omap (evs : list event) :
  Forall (fun e => obs e = None) evs -> omap obs evs = [].
Proof. induction 1 as [|e evs He _ IH]; [done|]. simpl. by rewrite He. Qed.

Lemma records_emits {A} (c : M Host A) :
  emits (fun e => obs e = None) c -> records obs [] c.
Proof.
  intros Hc h a h' H. destruct (Hc h) as (evs & Ht & Hevs). rewrite H in Ht.
  exists evs. split; [done | by apply unobserved_omap].
Qed.

Lemma records_emit (e : event) (b : B) : obs e = Some b -> records obs [b] (emit e).
Proof.
  intros He h a h' [= <- <-]. exists [e]. split; [done|]. simpl. by rewrite He.
Qed.

Lemma records_bind {A C} (l1 l2 : list B) (c : M Host A) (k : A -> M Host C) :
  records obs l1 c -> (forall a, records obs l2 (k a)) -> records obs (l1 ++ l2) (bind c k).
Proof.
  intros Hc Hk h b h' H. apply bind_ok_inv in H as (a & h1 & H1 & H2).
  destruct (Hc _ _ _ H1) as (evs1 & Ht1 & Hp1).
  destruct (Hk a _ _ _ H2) as (evs2 & Ht2 & Hp2).
  exists (evs1 ++ evs2). split; [by rewrite Ht2, Ht1, app_assoc|].
  by rewrite omap_app, Hp1, Hp2.
Qed.

Lemma records_for_each {A} (g : A -> list B) (l : list A) (f : A -> M Host unit) :
  (forall x, x ∈ l -> records obs (g x) (f x)) ->
  records obs (flat_map g l) (for_each l f).
Proof.
  induction l as [|x l IH]; intros Hf; simpl.
  - apply records_emits, emits_ret.
  - apply records_bind; [apply Hf; left|]. intros _. apply IH.
    intros y Hy. apply Hf. by right.
Qed.

End RecordsFacts.

Lemma storage_installer_no_phase (s : StorageInstaller) :
  emits (fun e => phase_of e = None) (StorageInstaller_apply s) /\
  emits (fun e => phase_of e = None) (StorageInstaller_post_apply s) /\
  emits (fun e => phase_of e = None) (StorageInstaller_cleanup s).
Proof.
  split; [|split].
  - unfold StorageInstaller_apply, create_filesystems, mount, mount_one, start_event.
    repeat emits_step.
  - unfold StorageInstaller_post_apply, write_fstab, fs_uuid, get_fs_uuid,
      write_mdadm_conf, enable_service, run_in_chroot, start_event.
    repeat emits_step.
  - unfold StorageInstaller_cleanup, unmount, unmount_one, deactivate_block_devices,
      start_event.
    repeat emits_step.
Qed.

Lemma records_call_phase (p : phase) (l : list (nat * Installer)) :
  (forall ni, ni ∈ l ->
     emits (fun e => phase_of e = None) (i_apply (snd ni)) /\
     emits (fun e => phase_of e = None) (i_post_apply (snd ni)) /\
     emits (fun e => phase_of e = None) (i_cleanup (snd ni))) ->
  records phase_of (map (fun i => (i, p)) (map fst l)) (for_each l (call_phase p)).
Proof.
  intros Hl.
  assert (map (fun i => (i, p)) (map fst l)
          = flat_map (fun ni : nat * Installer => [(fst ni, p)]) l) as ->.
  { induction l as [|x l IH]; [done|]. simpl. f_equal. apply IH.
    intros ni Hni. apply Hl. by right. }
  apply records_for_each. intros ni Hni. destruct (Hl ni Hni) as (Ha & Hp & Hc).
  unfold call_phase.
  apply (records_bind phase_of [(fst ni, p)] []).
  - by apply records_emit.
  - intros _. apply records_emits. by destruct p.
Qed.

Lemma enumerate_fst {A} (l : list A) : map fst (enumerate l) = seq 0 (length l).
Proof.
  unfold enumerate. generalize 0. induction l as [|x l IH]; intros n; [done|].
  simpl. by rewrite IH.
Qed.

(** X12: when [_install_config] has run its installers to the end, the
    life-cycle calls it made are: [apply()] of every installer in the order
    of the list, then [post_apply()] of every installer in that order, then
    [cleanup()] of every installer in the reverse order; each installer got
    each call once, and the storage installer, first in the list, was set
    up first and torn down last. *)
Theorem installers_run_in_phases (s : StorageInstaller) (others : list OtherInstaller)
    (copy_config : bool) (h h' : Host) :
  run_installers (storage_as_installer s :: map other_as_installer others) copy_config h
  = (Ok tt, h') ->
  exists evs,
    trace h' = trace h ++ evs /\
    omap phase_of evs
    = map (fun i => (i, PApply)) (seq 0 (Datatypes.S (length others)))
      ++ map (fun i => (i, PPostApply)) (seq 0 (Datatypes.S (length others)))
      ++ map (fun i => (i, PCleanup)) (rev (seq 0 (Datatypes.S (length others)))).
Proof.
  set (installers := storage_as_installer s :: map other_as_installer others).
  assert (length installers = Datatypes.S (length others)) as Hlen
    by (simpl; by rewrite length_map).
  assert (forall ni, ni ∈ enumerate installers ->
            emits (fun e => phase_of e = None) (i_apply (snd ni)) /\
            emits (fun e => phase_of e = None) (i_post_apply (snd ni)) /\
            emits (fun e => phase_of e = None) (i_cleanup (snd ni))) as Hno.
  { intros [i inst] Hin. apply enumerate_elem in Hin. simpl.
    apply elem_of_cons in Hin as [->|Hin]; [apply storage_installer_no_phase|].
    apply list_elem_of_fmap in Hin as (o & -> & _).
    repeat split; apply emits_on_world. }
  intros H.
  assert (records phase_of
            (map (fun i => (i, PApply)) (map fst (enumerate installers))
             ++ map (fun i => (i, PPostApply)) (map fst (enumerate installers))
             ++ [] ++ map (fun i => (i, PCleanup)) (rev (map fst (enumerate installers)))
             ++ [])
            (run_installers installers copy_config)) as Hr; cycle 1.
  { destruct (Hr h tt h' H) as (evs & Ht & Hp). exists evs. split; [done|].
    by rewrite Hp, enumerate_fst, Hlen, app_nil_r. }
  unfold run_installers.
  apply records_bind; [by apply records_call_phase|]. intros _.
  apply records_bind; [by apply records_call_phase|]. intros _.
  apply records_bind.
  { apply records_emits. destruct copy_config; [|apply emits_ret].
    unfold _copy_yaml_config, start_event. repeat emits_step. }
  intros _. apply records_bind.
  { rewrite <- map_rev. apply records_call_phase.
    intros ni Hni. apply Hno. apply list_elem_of_In, in_rev.
    by apply list_elem_of_In. }
  intros _. apply records_emits. unfold add_log_line, start_event. repeat emits_step.
Qed.

(** ** Making the file systems *)

Lemma run_op_shape (o : factory_op) (m : StorageManager) :
  run_op o m = m \/
  (exists id d, device_class d <> TCryptsetup /\
     run_op o m = mkManager (heap m ++ [d]) (_devices m ++ [(id, length (heap m))])
                            (_mount_root_base m) (_cryptsetup m)) \/
  (exists dev d u, deref m dev = Some d /\
     run_op o m = set_heap (<[dev := append_unit d u]> (heap m)) m) \/
  (exists v, run_op o m = set_mount_root_base v m).
Proof.
  assert (forall cls dev id size fs opts mp fl pass part,
            snd (new_unit cls dev id size fs opts mp fl pass part m) = m \/
            exists dev' d u, deref m dev' = Some d /\
              snd (new_unit cls dev id size fs opts mp fl pass part m)
              = set_heap (<[dev' := append_unit d u]> (heap m)) m) as Hnew.
  { intros. pose proof (new_unit_spec cls dev id size fs opts mp fl pass part m) as H.
    destruct (new_unit _ _ _ _ _ _ _ _ _ _ m) as [[u|e] m']; simpl; [|by left].
    destruct H as (d & Hd & _ & _ & _ & _ & _ & ->). right. by exists dev, d, u. }
  destruct o; simpl.
  - destruct (get_device_by_id m id) as [a|] eqn:H.
    + left. by rewrite (add_disk_dup _ _ _ H).
    + rewrite (add_disk_fresh _ _ H), (register_spec _ _ _ H).
      destruct (id_in_use m id); [by left|]. right. left.
      by exists id, (Disk id []).
  - destruct (get_device_by_id m id) as [a|] eqn:H.
    + left. by rewrite (add_vg_dup _ _ _ _ H).
    + rewrite (add_vg_fresh _ _ _ H), (register_spec _ _ _ H).
      destruct (id_in_use m id); [by left|]. right. left.
      by exists id, (VolumeGroup id physical_volumes []).
  - destruct (get_device_by_id m id) as [a|] eqn:H.
    + left. by rewrite (add_raid_dup _ _ _ _ _ _ H).
    + rewrite (add_raid_fresh _ _ _ _ _ H), (register_spec _ _ _ H).
      destruct (id_in_use m id); [by left|]. right. left.
      by exists id, (RAID id level metadata members []).
  - unfold add_partition, bind. pose proof (check_rest_state dev m) as H.
    destruct (check_rest_of_container dev m) as [[[]|e] m']; simpl in H; subst;
      [|by left].
    destruct (Hnew Partition dev (p_id p) (p_size p) (p_fs_type p) (p_fs_opts p)
                (p_mount_point p) (p_flags p) (p_crypto_passphrase p) None) as [H'|H'];
      [by left | by right; right; left].
  - unfold add_lv, bind. pose proof (check_rest_state dev m) as H.
    destruct (check_rest_of_container dev m) as [[[]|e] m']; simpl in H; subst;
      [|by left].
    destruct (Hnew LogicalVolume dev (p_id p) (p_size p) (p_fs_type p) (p_fs_opts p)
                (p_mount_point p) [] PNone None) as [H'|H'];
      [by left | by right; right; left].
  - unfold add_volume. case_bool_decide; [|by left].
    destruct (Hnew CryptoVolume (_cryptsetup m) (p_id p) 0%Z (p_fs_type p) (p_fs_opts p)
                (p_mount_point p) [] PNone (Some (unit_id part))) as [H'|H'];
      [by left | by right; right; left].
  - right. right. right. by exists v.
Qed.

Lemma device_class_append (d : StorageDevice) (u : StorageUnit) :
  device_class (append_unit d u) = device_class d.
Proof. by destruct d. Qed.

Lemma cryptsetup_single_reachable (m : StorageManager) :
  reachable m -> cryptsetup_single m.
Proof.
  induction 1 as [|o m Hm (vols & rest & Hc & Hh & Hrest)].
  { exists [], []. by repeat split. }
  destruct (run_op_shape o m)
    as [->|[(id & d & Hd & ->)|[(dev & d & u & Hd & ->)|(v & ->)]]].
  - by exists vols, rest.
  - exists vols, (rest ++ [d]). simpl. rewrite Hh. split; [done|]. split; [done|].
    apply Forall_app. split; [done | by apply Forall_singleton].
  - unfold deref in Hd. rewrite Hh in Hd. simpl. rewrite Hh.
    destruct dev as [|dev]; simpl in *.
    + injection Hd as <-. by exists (vols ++ [u]), rest.
    + exists vols, (<[dev := append_unit d u]> rest). split; [done|]. split; [done|].
      apply Forall_insert; [done|]. rewrite device_class_append.
      rewrite Forall_lookup in Hrest. by apply (Hrest dev).
  - by exists vols, rest.
Qed.

Lemma filter_classes (l : list StorageDevice) :
  l ≡ₚ filter (fun d => device_class d = TDisk) l
       ++ filter (fun d => device_class d = TCryptsetup) l
       ++ filter (fun d => device_class d = TRAID) l
       ++ filter (fun d => device_class d = TVolumeGroup) l.
Proof.
  induction l as [|d l IH]; [done|].
  rewrite !filter_cons.
  destruct (device_class d) eqn:E; repeat case_decide; try done; simpl;
    rewrite IH at 1; rewrite ?app_assoc; rewrite <- ?Permutation_middle;
    by rewrite <- ?app_assoc.
Qed.

Lemma records_make_fs (units : list StorageUnit) :
  records formatted (map unit_id units)
    (for_each units (fun u => call (unit_make_fs (unit_id u)))).
Proof.
  assert (map unit_id units = flat_map (fun u => [unit_id u]) units) as ->.
  { induction units as [|u us IH]; [done|]. simpl. by rewrite IH. }
  apply records_for_each. intros u _. unfold call.
  apply (records_bind formatted [unit_id u] []); [by apply records_emit|].
  intros _. apply records_emits, emits_on_world.
Qed.

Lemma records_make_all (create : string -> ext_call) (l : list StorageDevice) :
  (forall id, formatted (Call (create id)) = None) ->
  records formatted (map unit_id (flat_map storage_units_of l))
    (for_each l (fun d =>
       call (create (device_id d)) ;;;
       for_each (storage_units_of d) (fun u => call (unit_make_fs (unit_id u))))).
Proof.
  intros Hc.
  assert (map unit_id (flat_map storage_units_of l)
          = flat_map (fun d => map unit_id (storage_units_of d)) l) as ->.
  { induction l as [|d l IH]; [done|]. simpl. by rewrite map_app, IH. }
  apply records_for_each. intros d _.
  apply (records_bind formatted [] (map unit_id (storage_units_of d))).
  - apply records_emits, emits_call, Hc.
  - intros _. apply records_make_fs.
Qed.

(** X13: on a manager built through its own operations, a
    [create_filesystems] that returns has made the file system of every
    unit of every device exactly once: first those of the partitions of the
    disks, then those of the crypto volumes, then those of the partitions
    of the RAIDs, then those of the logical volumes of the volume groups,
    within a class in the order of the registry. *)
Theorem create_filesystems_formats_every_unit (m : StorageManager) (h h' : Host) :
  reachable m -> create_filesystems m h = (Ok tt, h') ->
  exists evs,
    trace h' = trace h ++ evs /\
    omap formatted evs
    = map unit_id (units_of_class m TDisk ++ units_of_class m TCryptsetup
                   ++ units_of_class m TRAID ++ units_of_class m TVolumeGroup) /\
    omap formatted evs ≡ₚ map unit_id (all_units m).
Proof.
  intros Hm H. pose proof (registry_wf_reachable m Hm) as Hwf.
  destruct (cryptsetup_single_reachable m Hm) as (vols & rest & Hc & Hh & Hrest).
  assert (units_of_class m TCryptsetup
          = from_option storage_units_of [] (deref m (_cryptsetup m))) as Hvols.
  { unfold units_of_class, get_devices_by_type, deref.
    rewrite (devices_values_heap m Hwf), Hc, Hh.
    rewrite filter_cons_True by done.
    assert (filter (fun d => device_class d = TCryptsetup) rest = []) as ->.
    { clear Hh. induction Hrest as [|d rest Hd _ IH]; [done|].
      by rewrite filter_cons_False. }
    simpl. by rewrite app_nil_r. }
  assert (records formatted
            (map unit_id (units_of_class m TDisk) ++ map unit_id (units_of_class m TCryptsetup)
             ++ map unit_id (units_of_class m TRAID)
             ++ map unit_id (units_of_class m TVolumeGroup))
            (create_filesystems m)) as Hr.
  { unfold create_filesystems.
    apply records_bind; [by apply records_make_all|]. intros _.
    apply (records_bind formatted []); [by apply records_emits, emits_call|]. intros _.
    apply records_bind; [rewrite Hvols; apply records_make_fs|]. intros _.
    apply records_bind; [by apply records_make_all|]. intros _.
    by apply records_make_all. }
  destruct (Hr h tt h' H) as (evs & Ht & Hevs). exists evs. split; [done|].
  rewrite Hevs, <- !map_app. split; [done|].
  apply Permutation_map. unfold units_of_class, all_units, get_devices_by_type.
  rewrite <- !flat_map_app. rewrite !flat_map_concat_map.
  by rewrite <- (filter_classes (devices_values m)).
Qed.

(** ** The target root *)

Lemma new_unit_base cls dev id size fs opts mp fl pass part (m : StorageManager) :
  _mount_root_base (snd (new_unit cls dev id size fs opts mp fl pass part m))
  = _mount_root_base m.
Proof.
  pose proof (new_unit_spec cls dev id size fs opts mp fl pass part m) as H.
  destruct (new_unit _ _ _ _ _ _ _ _ _ _ m) as [[u|e] m']; simpl.
  - by destruct H as (d & _ & _ & _ & _ & _ & _ & ->).
  - by subst.
Qed.

Lemma add_partition_base (dev : nat) (p : UnitParams) (m : StorageManager) :
  _mount_root_base (snd (add_partition dev p m)) = _mount_root_base m.
Proof.
  unfold add_partition, bind. pose proof (check_rest_state dev m) as H.
  destruct (check_rest_of_container dev m) as [[[]|e] m']; simpl in H; subst;
    [apply new_unit_base | done].
Qed.

Lemma add_lv_base (dev : nat) (p : UnitParams) (m : StorageManager) :
  _mount_root_base (snd (add_lv dev p m)) = _mount_root_base m.
Proof.
  unfold add_lv, bind. pose proof (check_rest_state dev m) as H.
  destruct (check_rest_of_container dev m) as [[[]|e] m']; simpl in H; subst;
    [apply new_unit_base | done].
Qed.

Lemma add_volume_base (dev : nat) (p : UnitParams) (part : StorageUnit)
    (m : StorageManager) :
  _mount_root_base (snd (add_volume dev p part m)) = _mount_root_base m.
Proof. unfold add_volume. case_bool_decide; [apply new_unit_base | done]. Qed.

Lemma add_disk_base (id : string) (m : StorageManager) :
  _mount_root_base (snd (add_disk id m)) = _mount_root_base m.
Proof.
  destruct (get_device_by_id m id) as [a|] eqn:H.
  - by rewrite (add_disk_dup _ _ _ H).
  - rewrite (add_disk_fresh _ _ H), (register_spec _ _ _ H).
    by destruct (id_in_use m id).
Qed.

Lemma add_vg_base (id : string) (pvs : list StorageUnit) (m : StorageManager) :
  _mount_root_base (snd (add_vg id pvs m)) = _mount_root_base m.
Proof.
  destruct (get_device_by_id m id) as [a|] eqn:H.
  - by rewrite (add_vg_dup _ _ _ _ H).
  - rewrite (add_vg_fresh _ _ _ H), (register_spec _ _ _ H).
    by destruct (id_in_use m id).
Qed.

Lemma add_raid_base (id : string) (level : pyval) (members : list StorageUnit)
    (metadata : string) (m : StorageManager) :
  _mount_root_base (snd (add_raid id level members metadata m)) = _mount_root_base m.
Proof.
  destruct (get_device_by_id m id) as [a|] eqn:H.
  - by rewrite (add_raid_dup _ _ _ _ _ _ H).
  - rewrite (add_raid_fresh _ _ _ _ _ H), (register_spec _ _ _ H).
    by destruct (id_in_use m id).
Qed.

Lemma keeps_base_on_manager {A} (c : M StorageManager A) :
  (forall m, _mount_root_base (snd (c m)) = _mount_root_base m) ->
  keeps (fun s => _mount_root_base (_smanager s)) (on_manager c).
Proof.
  intros Hc s. unfold on_manager. specialize (Hc (_smanager s)).
  by destruct (c (_smanager s)).
Qed.

Lemma keeps_base_parse_sections :
  keeps (fun s => _mount_root_base (_smanager s)) parse_sections.
Proof.
  unfold parse_sections, _parse_disks, _parse_crypto_volumes, _parse_raids,
    _parse_volume_groups, parse_disk_item, parse_crypto_item, parse_raid_item,
    parse_vg_item, parse_unit_item.
  repeat first
    [ apply keeps_base_on_manager; intros;
        first [ apply add_disk_base | apply add_vg_base | apply add_raid_base
              | apply add_partition_base | apply add_lv_base | apply add_volume_base ]
    | apply keeps_add_unit; done
    | apply keeps_readonly;
        first [ apply readonly_ret | apply readonly_raise | apply readonly_lift
              | apply readonly_get | apply readonly_from_dict | apply readonly_unit_by_id
              | apply readonly_map_M; intros; apply readonly_unit_by_id ]
    | apply keeps_for_each; intros
    | apply keeps_bind; [|intros]
    | match goal with
      | |- keeps _ (if ?b then _ else _) => destruct b
      end ].
Qed.

Lemma target_root_step (s1 s2 : StorageInstaller) :
  installer_step s1 s2 -> target_root s2 = target_root s1.
Proof. by destruct 1. Qed.

(** After the constructor returned, the installer and its manager work on
    the target root they were given. *)
Lemma init_target_root (root : string) (config : dict pyval) (s : StorageInstaller) :
  StorageInstaller_init root config = Ok s ->
  target_root s = root /\ _mount_root_base (_smanager s) = Some root.
Proof.
  intros H. split.
  - revert H. apply (init_ok_inv (fun s => target_root s = root)); [done|].
    intros s1 s2 <- Hs. by apply target_root_step.
  - apply init_ok_parsed in H as (data & flags & s4 & _ & Hp & _ & ->).
    pose proof (keeps_base_parse_sections (initial_installer root (PDict data))) as Hk.
    by rewrite Hp in Hk.
Qed.

(** X14: after the constructor returned for a non-empty target root,
    [apply] and [cleanup] of the storage installer, whether they return or
    raise, only load file-system modules, drive the device tools, and
    create, mount on, bind-mount on and unmount directories whose path, as
    a string, starts with the target root; they write no file and remove no
    directory.  This is a statement on the strings passed to the commands:
    a mount point with a [..] component still names a directory outside the
    target root, and the sources of the bind mounts ([/dev], [/proc] and
    [/sys] of the host) are not under it. *)
Theorem apply_and_cleanup_stay_under_target_root (root : string) (config : dict pyval)
    (s : StorageInstaller) :
  StorageInstaller_init root config = Ok s -> root <> "" ->
  emits (storage_event_under root) (StorageInstaller_apply s) /\
  emits (storage_event_under root) (StorageInstaller_cleanup s).
Proof.
  intros H Hroot. destruct (init_target_root _ _ _ H) as [Ht Hb].
  assert (forall mp, String.prefix root
                       (_path_relative_to_mount_root_base (_smanager s) mp) = true) as Hp.
  { intros mp. by apply path_under_root_base. }
  assert (forall p, String.prefix root (abs_target_path root p) = true) as Ha.
  { intros p. apply path_join_relative_prefix, lstrip_slash_relative. }
  split.
  - unfold StorageInstaller_apply, start_event. rewrite Ht.
    apply emits_bind; [by apply emits_emit|]. intros _.
    apply emits_bind.
    { apply emits_for_each. intros fs.
      apply emits_bind; [by apply emits_run_cmd | intros; apply emits_ret]. }
    intros _. apply emits_bind.
    { unfold create_filesystems. repeat emits_step. }
    intros _. apply emits_bind.
    { apply emits_for_each. intros [mp u]. unfold mount_one.
      repeat first [ apply emits_ret | apply emits_run_cmd; apply Hp
                   | apply emits_bind; [|intros] ]. }
    intros _. apply emits_for_each. intros mnt.
    repeat first [ apply emits_ret | apply emits_run_cmd; apply Ha
                 | apply emits_call; apply Ha | apply emits_bind; [|intros] ].
  - unfold StorageInstaller_cleanup, start_event. rewrite Ht.
    apply emits_bind; [by apply emits_emit|]. intros _.
    apply emits_bind.
    { apply emits_for_each. intros mnt.
      repeat first [ apply emits_ret | apply emits_run_cmd; apply Ha
                   | apply emits_bind; [|intros] ]. }
    intros _. apply emits_bind.
    { apply emits_for_each. intros [mp u]. unfold unmount_one.
      repeat first [ apply emits_ret | apply emits_run_cmd; apply Hp
                   | apply emits_bind; [|intros] ]. }
    intros _. unfold deactivate_block_devices. repeat emits_step.
Qed.

(** ** The password file *)

Lemma split_colon_cons (s : string) : exists t ts, split_colon s = t :: ts.
Proof.
  induction s as [|c s (t & ts & IH)]; [by eexists _, _|]. simpl.
  destruct (Ascii.eqb c ":"); [by eexists _, _|]. rewrite IH. by eexists _, _.
Qed.

Lemma join_cons_char (c : ascii) (t : string) (ts : list string) :
  join ":" (String c t :: ts) = String c (join ":" (t :: ts)).
Proof. unfold join. simpl. by destruct ts. Qed.

Lemma join_split_colon (s : string) : join ":" (split_colon s) = s.
Proof.
  induction s as [|c s IH]; [done|]. simpl.
  destruct (Ascii.eqb_spec c ":") as [->|Hc].
  - destruct (split_colon_cons s) as (t & ts & E). rewrite E in *.
    unfold join in *. simpl in *. by rewrite IH.
  - destruct (split_colon_cons s) as (t & ts & E). rewrite E in *.
    by rewrite join_cons_char, IH.
Qed.

Lemma split_colon_no_colon (s : string) :
  Forall (fun t => has_colon t = false) (split_colon s).
Proof.
  induction s as [|c s IH]; [by repeat constructor|]. simpl.
  destruct (Ascii.eqb c ":") eqn:Hc; [by constructor|].
  destruct (split_colon_cons s) as (t & ts & E). rewrite E in *.
  apply Forall_cons in IH as [Ht Hts]. constructor; [|done]. simpl. by rewrite Hc.
Qed.

Lemma split_colon_field (t : string) :
  has_colon t = false -> split_colon t = [t].
Proof.
  induction t as [|c t IH]; [done|]. simpl. intros H.
  apply orb_false_iff in H as [-> H]. by rewrite IH.
Qed.

Lemma split_colon_sep (s : string) :
  split_colon (String ":" s) = EmptyString :: split_colon s.
Proof. done. Qed.

Lemma split_colon_char (c : ascii) (s : string) :
  Ascii.eqb c ":" = false ->
  split_colon (String c s)
  = match split_colon s with
    | t :: ts => String c t :: ts
    | [] => [String c EmptyString]
    end.
Proof. simpl. by intros ->. Qed.

Lemma split_colon_join (t : string) (ts : list string) :
  has_colon t = false -> Forall (fun t => has_colon t = false) ts ->
  split_colon (join ":" (t :: ts)) = t :: ts.
Proof.
  intros Ht Hts. revert t Ht. induction Hts as [|t' ts Ht' _ IH]; intros t Ht.
  - by apply split_colon_field.
  - induction t as [|c t IHt].
    + change (join ":" ("" :: t' :: ts)) with (String ":" (join ":" (t' :: ts))).
      rewrite split_colon_sep. by rewrite IH.
    + simpl in Ht. apply orb_false_iff in Ht as [Hc Ht].
      rewrite join_cons_char, (split_colon_char _ _ Hc). by rewrite (IHt Ht).
Qed.

(** X15: the fields of a line of the password file.  Joining the fields of
    a line with [':'] gives the line back, a line has at least one field
    and no field holds a [':'].  When [update_user_hash] has set the hash
    and the day in a line of at least three fields, and neither holds a
    [':'] (the constructor of the users installer refuses such a password
    hash), the line read back has the same number of fields, with the hash
    second, the day third and every other field as it was. *)
Theorem shadow_line_fields (line : string) :
  join ":" (split_colon line) = line /\
  split_colon line <> [] /\
  Forall (fun t => has_colon t = false) (split_colon line) /\
  (forall password_hash days tokens',
     set_hash_fields (split_colon line) password_hash days = Some tokens' ->
     has_colon password_hash = false -> has_colon days = false ->
     split_colon (join ":" tokens') = tokens' /\
     length tokens' = length (split_colon line) /\
     tokens' !! 0 = split_colon line !! 0 /\
     tokens' !! 1 = Some password_hash /\ tokens' !! 2 = Some days /\
     drop 3 tokens' = drop 3 (split_colon line)).
Proof.
  split; [apply join_split_colon|].
  split; [by destruct (split_colon_cons line) as (t & ts & ->)|].
  pose proof (split_colon_no_colon line) as Hno. split; [done|].
  intros password_hash days tokens' Hset Hh Hd.
  destruct (split_colon line) as [|t0 [|t1 [|t2 rest]]]; try done.
  injection Hset as <-.
  apply Forall_cons in Hno as [H0 Hno]. apply Forall_cons in Hno as [_ Hno].
  apply Forall_cons in Hno as [_ Hno].
  split; [|done]. apply split_colon_join; [done|]. by repeat constructor.
Qed.

Lemma update_lines_spec (lines : list string) (user password_hash days : string) :
  match update_lines lines user password_hash days with
  | Some (lines', found) =>
      length lines' = length lines /\
      (found = true <-> exists line, line ∈ lines /\ first_field line = user) /\
      forall i line, lines !! i = Some line ->
        if String.eqb (first_field line) user
        then exists t1 t2 rest,
               split_colon line = user :: t1 :: t2 :: rest /\
               lines' !! i = Some (join ":" (user :: password_hash :: days :: rest))
        else lines' !! i = Some line
  | None =>
      exists line, line ∈ lines /\ first_field line = user /\
                   length (split_colon line) < 3
  end.
Proof.
  induction lines as [|line lines IH]; simpl.
  { split; [done|]. split; [|done]. split; [done|].
    intros (line & Hin & _). by apply elem_of_nil in Hin. }
  fold (first_field line).
  destruct (String.eqb_spec (first_field line) user) as [Hu|Hu]; simpl.
  - unfold first_field in Hu.
    destruct (split_colon line) as [|t0 [|t1 [|t2 rest]]] eqn:E; simpl in *.
    + exists line. split; [left|]. unfold first_field. rewrite E. split; [done|]. simpl. lia.
    + exists line. split; [left|]. unfold first_field. rewrite E. split; [done|]. simpl. lia.
    + exists line. split; [left|]. unfold first_field. rewrite E. split; [done|]. simpl. lia.
    + destruct (update_lines lines user password_hash days) as [[lines' found]|]; simpl.
      * destruct IH as (Hlen & Hfound & Hlines). split; [by rewrite Hlen|]. split.
        { split; [|done]. intros _. exists line. split; [left|].
          unfold first_field. by rewrite E. }
        intros [|i] l Hl; simpl in *.
        -- injection Hl as <-. unfold first_field. rewrite E. simpl.
           rewrite Hu, String.eqb_refl. by exists t1, t2, rest.
        -- by apply Hlines.
      * destruct IH as (l & Hin & Hl). exists l. split; [by right | done].
  - destruct (update_lines lines user password_hash days) as [[lines' found]|]; simpl.
    + destruct IH as (Hlen & Hfound & Hlines). split; [by rewrite Hlen|]. split.
      { rewrite Hfound. split.
        - intros (l & Hin & Hl). exists l. split; [by right | done].
        - intros (l & Hin & Hl). apply elem_of_cons in Hin as [->|Hin]; [done|].
          by exists l. }
      intros [|i] l Hl; simpl in *.
      * injection Hl as <-. by rewrite (proj2 (String.eqb_neq _ _) Hu).
      * by apply Hlines.
    + destruct IH as (l & Hin & Hl). exists l. split; [by right | done].
Qed.

(** X16: [update_user_hash] rewrites the password file piece by piece, a
    piece being a line as [readlines()] returns it, with its line end.
    When it writes, the data written is the concatenation of as many pieces
    as were read; the piece of every line whose first field is not the user
    is as it was, and the piece of every line of the user is the user, the
    hash, the day and the fields after the third, joined by [':']; at least
    one line was the user's.  The line end of a line belongs to its last
    field: a line of the user with more than three fields keeps it, and one
    with exactly three fields loses it with the third field, so that what
    follows in the file is joined to that line.  When no line is the user's
    it raises [RuntimeError], and when a line of the user has fewer than
    three fields the assignment raises [IndexError]; in both cases nothing
    is written. *)
Theorem update_user_hash_rewrites_user_lines (lines : list string)
    (etc_shadow user password_hash days : string) :
  match update_user_hash lines etc_shadow user password_hash days with
  | Written data =>
      exists lines',
        data = String.concat "" lines' /\ length lines' = length lines /\
        (exists line, line ∈ lines /\ first_field line = user) /\
        forall i line, lines !! i = Some line ->
          if String.eqb (first_field line) user
          then exists t1 t2 rest,
                 split_colon line = user :: t1 :: t2 :: rest /\
                 lines' !! i = Some (join ":" (user :: password_hash :: days :: rest))
          else lines' !! i = Some line
  | Raised_RuntimeError msg =>
      msg = ("No user '" ++ user ++ "' found in '" ++ etc_shadow ++ "'")%string /\
      forall line, line ∈ lines -> first_field line <> user
  | Raised_IndexError =>
      exists line, line ∈ lines /\ first_field line = user /\
                   length (split_colon line) < 3
  end.
Proof.
  unfold update_user_hash.
  pose proof (update_lines_spec lines user password_hash days) as H.
  destruct (update_lines lines user password_hash days) as [[lines' [|]]|].
  - destruct H as (Hlen & Hfound & Hlines). exists lines'.
    split; [done|]. split; [done|]. split; [by apply Hfound | done].
  - destruct H as (Hlen & Hfound & Hlines). split; [done|].
    intros line Hin Hu. assert (false = true) as Hf; [|done].
    apply Hfound. by exists line.
  - done.
Qed.

(** ** Mounting and unmounting compose *)

Lemma mount_point_set_elem (l : list StorageUnit) (mp : string) :
  mp ∈ omap mount_point_set l -> mp ∈ omap mount_point l.
Proof.
  intros H. apply list_elem_of_omap in H as (u & Hu & Hmp).
  apply list_elem_of_omap. exists u. split; [done|].
  unfold mount_point_set in Hmp. destruct (mount_point u) as [mp'|]; [|done].
  by destruct (String.eqb mp' "").
Qed.

Lemma mount_point_set_NoDup (l : list StorageUnit) :
  NoDup (omap mount_point l) -> NoDup (omap mount_point_set l).
Proof.
  induction l as [|u l IH]; [done|]. simpl. unfold mount_point_set at 1.
  destruct (mount_point u) as [mp|]; [|done]. intros H.
  apply NoDup_cons in H as [Hmp H].
  destruct (String.eqb mp ""); [by apply IH|].
  apply NoDup_cons. split; [|by apply IH].
  intros Hin. by apply Hmp, mount_point_set_elem.
Qed.

Lemma mount_points_keys (l : list StorageUnit) :
  map fst (omap (fun u => mp ← mount_point_set u; Some (mp, u)) l)
  = omap mount_point_set l.
Proof.
  induction l as [|u l IH]; [done|]. csimpl.
  destruct (mount_point_set u); csimpl; by rewrite IH.
Qed.

Lemma mount_points_NoDup (m : StorageManager) :
  reachable m -> NoDup (map fst (mount_points m)).
Proof.
  intros Hm. apply mount_points_unique_reachable in Hm as [Hwf Hnd].
  unfold mount_points. rewrite (mount_points_keys (storage_units m)).
  apply mount_point_set_NoDup.
  by rewrite (storage_units_perm m Hwf).
Qed.

Lemma records_flat_singletons {A B} (g : A -> B) (l : list A) :
  flat_map (fun x => [g x]) l = map g l.
Proof. induction l as [|x l IH]; [done|]. simpl. by rewrite IH. Qed.

(** X17: on a manager built through its own operations, an [unmount] that
    returns after a [mount] that returned has unmounted exactly the
    directories that were mounted on, each once, the last mounted first. *)
Theorem unmount_undoes_mount (m : StorageManager) (h h1 h2 : Host) :
  reachable m -> mount m h = (Ok tt, h1) -> unmount m h1 = (Ok tt, h2) ->
  exists evs1 evs2,
    trace h1 = trace h ++ evs1 /\ trace h2 = trace h1 ++ evs2 /\
    omap mounted_dir evs1
    = map (fun item => _path_relative_to_mount_root_base m (fst item)) (mount_items m) /\
    omap unmounted_dir evs2 = rev (omap mounted_dir evs1).
Proof.
  intros Hm H1 H2.
  assert (records mounted_dir
            (map (fun item => _path_relative_to_mount_root_base m (fst item))
                 (mount_items m)) (mount m)) as Hr1.
  { rewrite <- records_flat_singletons. apply records_for_each. intros [mp u] _.
    unfold mount_one.
    apply (records_bind mounted_dir [] [_]).
    { apply records_emits. by apply emits_run_cmd. }
    intros _. apply (records_bind mounted_dir [_] []).
    - unfold run_cmd. apply (records_bind mounted_dir [_] []).
      + by apply records_emit.
      + intros _. apply records_emits. repeat emits_step.
    - intros _. apply records_emits, emits_ret. }
  assert (records unmounted_dir
            (map (fun item => _path_relative_to_mount_root_base m (fst item))
                 (unmount_items m)) (unmount m)) as Hr2.
  { rewrite <- records_flat_singletons. apply records_for_each. intros [mp u] _.
    unfold unmount_one.
    apply (records_bind unmounted_dir [_] []).
    - unfold run_cmd. apply (records_bind unmounted_dir [_] []).
      + by apply records_emit.
      + intros _. apply records_emits. repeat emits_step.
    - intros _. apply records_emits, emits_ret. }
  destruct (Hr1 _ _ _ H1) as (evs1 & Ht1 & He1).
  destruct (Hr2 _ _ _ H2) as (evs2 & Ht2 & He2).
  exists evs1, evs2. repeat (split; [done|]).
  rewrite He1, He2, <- map_rev. f_equal.
  unfold unmount_items, mount_items. apply sorted_reverse.
  by apply mount_points_NoDup.
Qed.

(** ** Devices are built on the units of earlier devices *)

Lemma members_of_append (d : StorageDevice) (u : StorageUnit) :
  members_of (append_unit d u) = members_of d.
Proof. by destruct d. Qed.

Lemma deref_append (m : StorageManager) (dev a : nat) (d0 d : StorageDevice)
    (u : StorageUnit) :
  deref m dev = Some d0 ->
  deref (set_heap (<[dev := append_unit d0 u]> (heap m)) m) a = Some d ->
  exists d1, deref m a = Some d1 /\ members_of d = members_of d1 /\
             device_class d = device_class d1 /\
             (forall v, v ∈ storage_units_of d1 -> v ∈ storage_units_of d).
Proof.
  unfold deref. simpl. intros Hd0 Hd.
  destruct (decide (a = dev)) as [->|Hne].
  - rewrite list_lookup_insert_eq in Hd by (by eapply lookup_lt_Some).
    injection Hd as <-. exists d0. split; [done|].
    rewrite members_of_append, device_class_append, storage_units_append.
    repeat split; try done. intros v Hv. apply elem_of_app. by left.
  - rewrite list_lookup_insert_ne in Hd by done. by exists d.
Qed.

Lemma deref_append_old (m : StorageManager) (dev a : nat) (d0 d : StorageDevice)
    (u : StorageUnit) :
  deref m dev = Some d0 -> deref m a = Some d ->
  exists d1, deref (set_heap (<[dev := append_unit d0 u]> (heap m)) m) a = Some d1 /\
             device_class d1 = device_class d /\
             (forall v, v ∈ storage_units_of d -> v ∈ storage_units_of d1).
Proof.
  unfold deref. simpl. intros Hd0 Hd.
  destruct (decide (a = dev)) as [->|Hne].
  - rewrite list_lookup_insert_eq by (by eapply lookup_lt_Some).
    rewrite Hd0 in Hd. injection Hd as ->. eexists. split; [done|].
    rewrite device_class_append, storage_units_append. split; [done|].
    intros v Hv. apply elem_of_app. by left.
  - rewrite list_lookup_insert_ne by done. by exists d.
Qed.

Lemma layered_append (m : StorageManager) (dev : nat) (d0 : StorageDevice)
    (u : StorageUnit) :
  deref m dev = Some d0 -> layered m ->
  layered (set_heap (<[dev := append_unit d0 u]> (heap m)) m).
Proof.
  intros Hd0 Hl a d v Hd Hv.
  destruct (deref_append m dev a d0 d u Hd0 Hd) as (d1 & Hd1 & Hmem & Hcls & _).
  rewrite Hmem in Hv.
  destruct (Hl a d1 v Hd1 Hv) as (a' & d' & Hd' & Hv' & Hb).
  destruct (deref_append_old m dev a' d0 d' u Hd0 Hd') as (d2 & Hd2 & Hcls2 & Hsub).
  exists a', d2. split; [done|]. split; [by apply Hsub|].
  unfold comes_before in *. by rewrite Hcls, Hcls2.
Qed.

Lemma no_vg_append (m : StorageManager) (dev : nat) (d0 : StorageDevice)
    (u : StorageUnit) :
  deref m dev = Some d0 -> no_vg m ->
  no_vg (set_heap (<[dev := append_unit d0 u]> (heap m)) m).
Proof.
  intros Hd0 Hn a d Hd.
  destruct (deref_append m dev a d0 d u Hd0 Hd) as (d1 & Hd1 & _ & -> & _).
  by apply (Hn a).
Qed.

Lemma all_units_elem (m : StorageManager) (u : StorageUnit) :
  registry_wf m -> u ∈ all_units m ->
  exists a d, deref m a = Some d /\ u ∈ storage_units_of d.
Proof.
  intros Hwf Hu. rewrite (all_units_heap m Hwf) in Hu.
  apply list_elem_of_In, in_flat_map in Hu as (d & Hd & Hu).
  apply list_elem_of_In, list_elem_of_lookup in Hd as [a Ha].
  exists a, d. split; [done | by apply list_elem_of_In].
Qed.

Lemma layered_register (m : StorageManager) (id : string) (d : StorageDevice) :
  registry_wf m -> layered m ->
  (forall u, u ∈ members_of d -> u ∈ all_units m) ->
  (device_class d = TRAID -> no_vg m) ->
  layered (mkManager (heap m ++ [d]) (_devices m ++ [(id, length (heap m))])
                     (_mount_root_base m) (_cryptsetup m)).
Proof.
  intros Hwf Hl Hmem Hraid a d1 u Hd1 Hu. unfold deref in *. simpl in *.
  destruct (decide (a < length (heap m))) as [Hlt|Hge].
  - rewrite lookup_app_l in Hd1 by done.
    destruct (Hl a d1 u Hd1 Hu) as (a' & d' & Hd' & Hu' & Hb).
    exists a', d'. split; [by apply lookup_app_l_Some | done].
  - assert (a = length (heap m) /\ d1 = d) as [-> ->].
    { rewrite lookup_app_r in Hd1 by lia.
      destruct (a - length (heap m)) as [|k] eqn:E; simpl in Hd1; [|done].
      split; [lia | congruence]. }
    destruct (all_units_elem m u Hwf (Hmem u Hu)) as (a' & d' & Hd' & Hu').
    exists a', d'. split; [by apply lookup_app_l_Some|]. split; [done|].
    assert (a' < length (heap m)) as Hlt by (by eapply lookup_lt_Some).
    unfold comes_before.
    destruct d as [id0 us|id0 lv md ms us|id0 pvs us|id0 us]; simpl in Hu;
      try (by apply elem_of_nil in Hu).
    + specialize (Hraid eq_refl a' d' Hd'). destruct (device_class d'); simpl; try done;
        first [ left; lia | right; done ].
    + destruct (device_class d'); simpl; first [ left; lia | right; done ].
Qed.

Lemma no_vg_register (m : StorageManager) (id : string) (d : StorageDevice) :
  no_vg m -> device_class d <> TVolumeGroup ->
  no_vg (mkManager (heap m ++ [d]) (_devices m ++ [(id, length (heap m))])
                   (_mount_root_base m) (_cryptsetup m)).
Proof.
  intros Hn Hd a d1 Hd1. unfold deref in *. simpl in *.
  apply lookup_app_Some in Hd1 as [Hd1|[_ Hd1]]; [by apply (Hn a)|].
  destruct (a - length (heap m)); simpl in Hd1; [|done]. congruence.
Qed.

Lemma table_units (s : StorageInstaller) (id : string) (u : StorageUnit) :
  units_registered s -> dict_get (_units s) id = Some u -> u ∈ all_units (_smanager s).
Proof.
  intros [_ Hp] Hget. rewrite <- Hp. apply dict_get_Some_elem in Hget.
  unfold dict_values. by apply (list_elem_of_fmap_2 snd) in Hget.
Qed.

Lemma map_M_unit_by_id_ok (l : list string) (s s' : StorageInstaller)
    (us : list StorageUnit) :
  map_M _unit_by_id l s = (Ok us, s') ->
  s' = s /\ Forall (fun u => exists id, dict_get (_units s) id = Some u) us.
Proof.
  revert us. induction l as [|id l IH]; intros us H; simpl in H.
  - injection H as <- <-. done.
  - apply bind_ok_inv in H as (u & s1 & Hu & H).
    unfold _unit_by_id, bind, get in Hu. simpl in Hu.
    destruct (dict_get (_units s) id) as [v|] eqn:E; [|done]. injection Hu as <- <-.
    apply bind_ok_inv in H as (us' & s2 & Hus & H). injection H as <- <-.
    destruct (IH _ Hus) as [-> Hall]. split; [done|].
    constructor; [by exists id | done].
Qed.

Lemma layers_add (b : bool) (cls : UnitClass)
    (add : UnitParams -> M StorageManager StorageUnit) (p : UnitParams)
    (u : StorageUnit) (m' : StorageManager) (s : StorageInstaller) :
  unit_factory cls add -> add p (_smanager s) = (Ok u, m') -> built_in_layers b s ->
  built_in_layers b (set_units (_units s ++ [(unit_id u, u)]) (set_smanager m' s)).
Proof.
  intros Hf Hadd (Hr & Hl & Hn).
  split; [by apply (units_registered_add cls add p)|].
  destruct (Hf p _ u m' Hadd) as (_ & _ & _ & _ & dev & d & Hd & ->).
  split; simpl.
  - by apply layered_append.
  - intros Hb. apply no_vg_append; auto.
Qed.

Lemma layers_units (b : bool) (cls : UnitClass)
    (add : UnitParams -> M StorageManager StorageUnit) (l : list (dict pyval))
    (s s' : StorageInstaller) :
  unit_factory cls add -> built_in_layers b s ->
  for_each l (parse_unit_item add) s = (Ok tt, s') -> built_in_layers b s'.
Proof.
  intros Hf HP H.
  refine (proj1 (for_each_ok_inv2 (built_in_layers b) _ _ _ _ _ HP H)).
  intros x s1 s2 _ H1 Hx.
  apply parse_unit_item_ok in Hx as (p & u & m' & _ & _ & Hadd & _ & ->).
  by apply (layers_add b cls add p).
Qed.

Lemma layers_register (b : bool) (c : M StorageManager nat) (id : string)
    (d : StorageDevice) (s : StorageInstaller) (m' : StorageManager) (a : nat) :
  (get_device_by_id (_smanager s) id = None ->
   c (_smanager s) = register id d (_smanager s)) ->
  (forall x, get_device_by_id (_smanager s) id = Some x ->
             c (_smanager s) = (Raise (already_exists (_smanager s) x), _smanager s)) ->
  device_id d = id -> storage_units_of d = [] ->
  Forall (fun u => exists k, dict_get (_units s) k = Some u) (members_of d) ->
  (device_class d = TRAID -> b = true) ->
  (b = true -> device_class d <> TVolumeGroup) ->
  built_in_layers b s -> c (_smanager s) = (Ok a, m') ->
  built_in_layers b (set_smanager m' s).
Proof.
  intros Hfresh Hdup Hid Hu Hmem Hraid Hvg (Hr & Hl & Hn) H.
  destruct (get_device_by_id (_smanager s) id) as [x|] eqn:E.
  { by rewrite (Hdup x eq_refl) in H. }
  rewrite (Hfresh eq_refl), (register_spec _ _ _ E) in H.
  destruct (id_in_use (_smanager s) id); [done|]. injection H as <- <-.
  pose proof Hr as [Hwf _].
  split; [|split]; simpl.
  - apply units_registered_manager; [done|]. by apply all_units_register.
  - apply layered_register; [done | done | | by auto].
    intros u Hu'. rewrite Forall_forall in Hmem.
    destruct (Hmem u Hu') as [k Hk]. by apply (table_units s k).
  - intros Hb. apply no_vg_register; auto.
Qed.

Lemma layers_disk_item (item : dict pyval) (s s' : StorageInstaller) :
  built_in_layers true s -> parse_disk_item item s = (Ok tt, s') ->
  built_in_layers true s'.
Proof.
  intros HP H.
  apply parse_disk_item_ok in H as (id & disk & m1 & pl & _ & Hadd & _ & H).
  eapply layers_units; [apply (add_partition_factory disk) | | exact H].
  apply (layers_register true (add_disk id) id (Disk id []) s m1 disk);
    try done; [apply add_disk_fresh | apply add_disk_dup].
Qed.

Lemma layers_crypto_item (item : dict pyval) (s s' : StorageInstaller) :
  built_in_layers true s -> parse_crypto_item item s = (Ok tt, s') ->
  built_in_layers true s'.
Proof.
  intros HP H.
  apply parse_crypto_item_ok in H
    as (p & part_id & part & u & m' & _ & _ & _ & _ & Hadd & _ & ->).
  by apply (layers_add true CryptoVolume
              (fun p => add_volume (_cryptsetup (_smanager s)) p part) p u m' s
              (add_volume_factory _ part)).
Qed.

Lemma parse_raid_item_members (item : dict pyval) (s s' : StorageInstaller) :
  parse_raid_item item s = (Ok tt, s') ->
  exists id level members metadata raid m1 part_list,
    Forall (fun u => exists k, dict_get (_units s) k = Some u) members /\
    add_raid id level members metadata (_smanager s) = (Ok raid, m1) /\
    for_each part_list (parse_unit_item (add_partition raid)) (set_smanager m1 s)
      = (Ok tt, s').
Proof.
  unfold parse_raid_item. intros H.
  apply bind_ok_inv in H as (raid_id & ? & Hid & H). apply lift_ok_inv in Hid as [Hid ->].
  apply bind_ok_inv in H as (level & ? & Hlv & H). apply lift_ok_inv in Hlv as [Hlv ->].
  apply bind_ok_inv in H as (md & ? & Hmd & H). apply lift_ok_inv in Hmd as [Hmd ->].
  apply bind_ok_inv in H as (ml & ? & Hml & H). apply lift_ok_inv in Hml as [Hml ->].
  apply bind_ok_inv in H as (members & s1 & Hms & H).
  apply map_M_unit_by_id_ok in Hms as [-> Hms].
  apply bind_ok_inv in H as (raid & s2 & Hadd & H).
  apply on_manager_ok_inv in Hadd as (m' & Hadd & ->).
  apply bind_ok_inv in H as (pl & ? & Hpl & H). apply lift_ok_inv in Hpl as [Hpl ->].
  by exists (path_join "/dev/md" raid_id), level, members,
            (if String.eqb md "" then "1.2" else md), raid, m', pl.
Qed.

Lemma parse_vg_item_members (item : dict pyval) (s s' : StorageInstaller) :
  parse_vg_item item s = (Ok tt, s') ->
  exists id physical_volumes vg m1 lv_list,
    Forall (fun u => exists k, dict_get (_units s) k = Some u) physical_volumes /\
    add_vg id physical_volumes (_smanager s) = (Ok vg, m1) /\
    for_each lv_list (parse_unit_item (add_lv vg)) (set_smanager m1 s) = (Ok tt, s').
Proof.
  unfold parse_vg_item. intros H.
  apply bind_ok_inv in H as (vg_id & ? & Hid & H). apply lift_ok_inv in Hid as [Hid ->].
  apply bind_ok_inv in H as (pvl & ? & Hpvl & H). apply lift_ok_inv in Hpvl as [Hpvl ->].
  apply bind_ok_inv in H as (pvs & s1 & Hpvs & H).
  apply map_M_unit_by_id_ok in Hpvs as [-> Hpvs].
  apply bind_ok_inv in H as (vg & s2 & Hadd & H).
  apply on_manager_ok_inv in Hadd as (m' & Hadd & ->).
  apply bind_ok_inv in H as (ll & ? & Hll & H). apply lift_ok_inv in Hll as [Hll ->].
  by exists vg_id, pvs, vg, m', ll.
Qed.

Lemma layers_raid_item (item : dict pyval) (s s' : StorageInstaller) :
  built_in_layers true s -> parse_raid_item item s = (Ok tt, s') ->
  built_in_layers true s'.
Proof.
  intros HP H.
  apply parse_raid_item_members in H
    as (id & lv & ms & md & raid & m1 & pl & Hms & Hadd & H).
  eapply layers_units; [apply (add_partition_factory raid) | | exact H].
  apply (layers_register true (add_raid id lv ms md) id (RAID id lv md ms []) s m1 raid);
    try done; [apply add_raid_fresh | apply add_raid_dup].
Qed.

Lemma layers_vg_item (item : dict pyval) (s s' : StorageInstaller) :
  built_in_layers false s -> parse_vg_item item s = (Ok tt, s') ->
  built_in_layers false s'.
Proof.
  intros HP H.
  apply parse_vg_item_members in H as (id & pvs & vg & m1 & ll & Hpvs & Hadd & H).
  eapply layers_units; [apply (add_lv_factory vg) | | exact H].
  apply (layers_register false (add_vg id pvs) id (VolumeGroup id pvs []) s m1 vg);
    try done; [apply add_vg_fresh | apply add_vg_dup].
Qed.

Lemma layers_sections (root : string) (data : pyval)
    (flags : bool * bool * bool * bool) (s4 : StorageInstaller) :
  parse_sections (initial_installer root data) = (Ok flags, s4) ->
  built_in_layers false s4.
Proof.
  unfold parse_sections. intros H.
  apply bind_ok_inv in H as (b1 & s1 & H1 & H).
  apply bind_ok_inv in H as (b2 & s2 & H2 & H).
  apply bind_ok_inv in H as (b3 & s3 & H3 & H).
  apply bind_ok_inv in H as (b4 & s4' & H4 & H).
  injection H as _ <-.
  apply parse_disks_ok in H1 as (dl & _ & H1).
  apply parse_crypto_volumes_ok in H2 as (cl & _ & H2).
  apply parse_raids_ok in H3 as (rl & _ & H3).
  apply parse_volume_groups_ok in H4 as (vl & _ & H4).
  refine (proj1 (for_each_ok_inv2 (built_in_layers false) _ _ _ _
                   (fun x sa sb _ => layers_vg_item x sa sb) _ H4)).
  assert (built_in_layers true s3) as (Hr & Hl & _); [|by split; [|split]].
  refine (proj1 (for_each_ok_inv2 (built_in_layers true) _ _ _ _
                   (fun x sa sb _ => layers_raid_item x sa sb) _ H3)).
  refine (proj1 (for_each_ok_inv2 (built_in_layers true) _ _ _ _
                   (fun x sa sb _ => layers_crypto_item x sa sb) _ H2)).
  refine (proj1 (for_each_ok_inv2 (built_in_layers true) _ _ _ _
                   (fun x sa sb _ => layers_disk_item x sa sb) _ H1)).
  split; [split; [apply initial_registry_wf | by vm_compute]|].
  split.
  - intros a d u Hd Hu. unfold deref in Hd. simpl in Hd.
    destruct a as [|a]; simpl in Hd; [|done]. injection Hd as <-.
    by apply elem_of_nil in Hu.
  - intros _ a d Hd. unfold deref in Hd. simpl in Hd.
    destruct a as [|a]; simpl in Hd; [|done]. by injection Hd as <-.
Qed.

Lemma init_layered (root : string) (config : dict pyval) (s : StorageInstaller) :
  StorageInstaller_init root config = Ok s ->
  registry_wf (_smanager s) /\ layered (_smanager s).
Proof.
  intros H.
  apply init_ok_parsed_units in H as (data & flags & s4 & _ & Hp & -> & _).
  apply layers_sections in Hp as ((Hwf & _) & Hl & _). done.
Qed.

(** X18: in the installer the constructor returns, every member of a RAID
    and every physical volume of a volume group is a unit of a registered
    device that [create_filesystems] goes through earlier: of a disk or of
    the crypto volumes, of a RAID registered before it, or (for a volume
    group only) of a RAID or of a volume group registered before it.  A
    RAID is never built on a logical volume, and no device on a unit of
    its own. *)
Theorem members_are_units_of_earlier_devices (root : string) (config : dict pyval)
    (s : StorageInstaller) (a : nat) (d : StorageDevice) (u : StorageUnit) :
  StorageInstaller_init root config = Ok s ->
  deref (_smanager s) a = Some d -> u ∈ members_of d ->
  exists a' d',
    deref (_smanager s) a' = Some d' /\ u ∈ storage_units_of d' /\
    (layer (device_class d') < layer (device_class d) \/
     (device_class d' = device_class d /\ a' < a)) /\
    (device_class d = TRAID -> device_class d' <> TVolumeGroup).
Proof.
  intros H Hd Hu. destruct (init_layered _ _ _ H) as [_ Hl].
  destruct (Hl a d u Hd Hu) as (a' & d' & Hd' & Hu' & Hb).
  exists a', d'. repeat split; try done.
  intros Hc Hc'. unfold comes_before in Hb. rewrite Hc, Hc' in Hb. simpl in Hb.
  destruct Hb as [Hb|[Hb _]]; [lia | done].
Qed.

(** ** The order in which [create_filesystems] sets the devices up *)

Section PrecedesFacts.
Context {A : Type}.
Implicit Types (x y : A) (l k : list A).

Lemma precedes_app x y l k : x ∈ l -> y ∈ k -> precedes x y (l ++ k).
Proof.
  intros Hx Hy. apply list_elem_of_split in Hx as (l1 & l2 & ->).
  apply list_elem_of_split in Hy as (k1 & k2 & ->).
  exists l1, (l2 ++ k1), k2. rewrite <- ?app_assoc. simpl. by rewrite <- ?app_assoc.
Qed.

Lemma precedes_app_l x y l k : precedes x y l -> precedes x y (l ++ k).
Proof.
  intros (l1 & l2 & l3 & ->). exists l1, l2, (l3 ++ k).
  rewrite <- ?app_assoc. simpl. by rewrite <- ?app_assoc.
Qed.

Lemma precedes_app_r x y l k : precedes x y k -> precedes x y (l ++ k).
Proof.
  intros (l1 & l2 & l3 & ->). exists (l ++ l1), l2, l3. by rewrite <- app_assoc.
Qed.

Lemma precedes_lookup x y l (i j : nat) :
  l !! i = Some x -> l !! j = Some y -> i < j -> precedes x y l.
Proof.
  intros Hi Hj Hlt.
  apply list_elem_of_split_length in Hi as (l1 & l2 & -> & ->).
  rewrite lookup_app_r in Hj by lia.
  destruct (j - length l1) as [|n] eqn:E; [lia|]. simpl in Hj.
  apply list_elem_of_split_length in Hj as (k1 & k2 & -> & _).
  by exists l1, k1, k2.
Qed.

Lemma precedes_filter (P : A -> Prop) `{forall x, Decision (P x)} x y l :
  precedes x y l -> P x -> P y -> precedes x y (filter P l).
Proof.
  intros (l1 & l2 & l3 & ->) Hx Hy.
  exists (filter P l1), (filter P l2), (filter P l3).
  rewrite filter_app, filter_cons_True by done.
  by rewrite filter_app, filter_cons_True by done.
Qed.

Lemma precedes_map {B} (f : A -> B) x y l :
  precedes x y l -> precedes (f x) (f y) (map f l).
Proof.
  intros (l1 & l2 & l3 & ->). exists (map f l1), (map f l2), (map f l3).
  rewrite map_app. simpl. by rewrite map_app.
Qed.

Lemma omap_split {B} (obs : B -> option A) (evs : list B) x l1 l2 :
  omap obs evs = l1 ++ x :: l2 ->
  exists (p1 : list B) (e : B) (p2 : list B),
    evs = p1 ++ e :: p2 /\ obs e = Some x /\ omap obs p1 = l1 /\ omap obs p2 = l2.
Proof.
  revert l1. induction evs as [|e evs IH]; intros l1 H; csimpl in H.
  { by destruct l1. }
  destruct (obs e) as [b|] eqn:E.
  - destruct l1 as [|c l1]; simpl in H; injection H as -> H.
    + exists [], e, evs. by repeat split.
    + destruct (IH _ H) as (p1 & e' & p2 & -> & He' & Hp1 & Hp2).
      exists (e :: p1), e', p2. csimpl. rewrite E, Hp1. by repeat split.
  - destruct (IH _ H) as (p1 & e' & p2 & -> & He' & Hp1 & Hp2).
    exists (e :: p1), e', p2. csimpl. rewrite E. by repeat split.
Qed.

Lemma precedes_omap {B} (obs : B -> option A) (evs : list B) x y :
  precedes x y (omap obs evs) ->
  exists (e1 e2 : B) (p1 p2 p3 : list B),
    obs e1 = Some x /\ obs e2 = Some y /\ evs = p1 ++ e1 :: p2 ++ e2 :: p3.
Proof.
  intros (l1 & l2 & l3 & H).
  apply omap_split in H as (p1 & e1 & p2 & -> & He1 & _ & H).
  apply omap_split in H as (p3 & e2 & p4 & -> & He2 & _).
  by exists e1, e2, p1, p3, p4.
Qed.

End PrecedesFacts.

Lemma set_up_call (e : event) (c : ext_call) : set_up e = Some c -> e = Call c.
Proof. destruct e as [|c'| | |]; try done. destruct c'; simpl; congruence. Qed.

Lemma records_create_class (m : StorageManager) (t : DeviceClass)
    (create : string -> ext_call) :
  (forall d, device_class d = t -> create (device_id d) = create_call d) ->
  (forall id, set_up (Call (create id)) = Some (create id)) ->
  records set_up (map create_call (get_devices_by_type m t))
    (for_each (get_devices_by_type m t) (fun d =>
       call (create (device_id d)) ;;;
       for_each (storage_units_of d) (fun u => call (unit_make_fs (unit_id u))))).
Proof.
  intros Hcreate Hobs.
  assert (forall l : list StorageDevice,
            map create_call l = flat_map (fun d => [create_call d]) l) as ->.
  { induction l as [|d l IH]; [done|]. simpl. by rewrite IH. }
  apply records_for_each. intros d Hd.
  apply list_elem_of_filter in Hd as [Hd _].
  apply (records_bind set_up [create_call d] []).
  - unfold call. apply (records_bind set_up [create_call d] []).
    + apply records_emit. by rewrite Hobs, Hcreate.
    + intros _. apply records_emits, emits_on_world.
  - intros _. apply records_emits, emits_for_each. intros u. by apply emits_call.
Qed.

Lemma records_create_filesystems (m : StorageManager) :
  records set_up
    (map create_call (get_devices_by_type m TDisk)
     ++ [cryptsetup_open_volumes]
     ++ map create_call (get_devices_by_type m TRAID)
     ++ map create_call (get_devices_by_type m TVolumeGroup))
    (create_filesystems m).
Proof.
  unfold create_filesystems.
  apply records_bind; [apply records_create_class; [by intros [] | done]|]. intros _.
  apply (records_bind set_up [cryptsetup_open_volumes]).
  { unfold call. apply (records_bind set_up [cryptsetup_open_volumes] []).
    - by apply records_emit.
    - intros _. apply records_emits, emits_on_world. }
  intros _.
  apply (records_bind set_up []).
  { apply records_emits, emits_for_each. intros u. by apply emits_call. }
  intros _.
  apply records_bind; [apply records_create_class; [by intros [] | done]|]. intros _.
  apply records_create_class; [by intros [] | done].
Qed.

Lemma created_in_order (hp : list StorageDevice) (a' a : nat) (d' d : StorageDevice) :
  hp !! a' = Some d' -> hp !! a = Some d -> comes_before d' a' d a ->
  device_class d = TRAID \/ device_class d = TVolumeGroup ->
  precedes (create_call d') (create_call d)
    (map create_call (filter (fun x => device_class x = TDisk) hp)
     ++ [cryptsetup_open_volumes]
     ++ map create_call (filter (fun x => device_class x = TRAID) hp)
     ++ map create_call (filter (fun x => device_class x = TVolumeGroup) hp)).
Proof.
  intros Hd' Hd Hb Hcls.
  assert (forall (t : DeviceClass) (x : StorageDevice) (i : nat),
            hp !! i = Some x -> device_class x = t ->
            create_call x ∈ map create_call (filter (fun x => device_class x = t) hp))
    as Hin.
  { intros t x i Hx Ht. apply (list_elem_of_fmap_2 create_call).
    apply list_elem_of_filter. split; [done | by eapply list_elem_of_lookup_2]. }
  assert (forall t : DeviceClass,
            device_class d' = t -> device_class d = t -> a' < a ->
            precedes (create_call d') (create_call d)
              (map create_call (filter (fun x => device_class x = t) hp))) as Hsame.
  { intros t Ht' Ht Hlt. apply precedes_map, precedes_filter; [|done..].
    by apply (precedes_lookup _ _ _ a' a). }
  assert (device_class d' = TCryptsetup -> create_call d' = cryptsetup_open_volumes)
    as Hopen by (by destruct d').
  unfold comes_before in Hb.
  destruct (device_class d') eqn:E', (device_class d) eqn:E; simpl in Hb;
    destruct Hcls as [Hcls|Hcls]; try done;
    destruct Hb as [Hb|[Hb Hlt]]; try done; try lia.
  - (* a disk, then a RAID *)
    apply precedes_app; [by eapply Hin|].
    rewrite !elem_of_app. right. left. by eapply Hin.
  - (* a disk, then a volume group *)
    apply precedes_app; [by eapply Hin|].
    rewrite !elem_of_app. right. right. by eapply Hin.
  - (* two RAIDs *)
    apply precedes_app_r, precedes_app_r, precedes_app_l. by apply Hsame.
  - (* a RAID, then a volume group *)
    apply precedes_app_r, precedes_app_r, precedes_app; by eapply Hin.
  - (* two volume groups *)
    apply precedes_app_r, precedes_app_r, precedes_app_r. by apply Hsame.
  - (* the crypto volumes, then a RAID *)
    rewrite Hopen by done. apply precedes_app_r, precedes_app.
    + by apply list_elem_of_singleton.
    + rewrite elem_of_app. left. by eapply Hin.
  - (* the crypto volumes, then a volume group *)
    rewrite Hopen by done. apply precedes_app_r, precedes_app.
    + by apply list_elem_of_singleton.
    + rewrite elem_of_app. right. by eapply Hin.
Qed.

(** X19: for the installer the constructor returns, a [create_filesystems]
    that returns sets every RAID and every volume group up after the device
    that holds the member it is built on: for each member of a RAID and
    each physical volume of a volume group, the partitions of its disk or
    RAID are created, or the crypto volumes opened, before the call that
    creates the RAID or the volume group. *)
Theorem devices_are_created_after_their_members (root : string) (config : dict pyval)
    (s : StorageInstaller) (h h' : Host) (a : nat) (d : StorageDevice)
    (u : StorageUnit) :
  StorageInstaller_init root config = Ok s ->
  create_filesystems (_smanager s) h = (Ok tt, h') ->
  deref (_smanager s) a = Some d -> u ∈ members_of d ->
  exists a' d' l1 l2 l3,
    deref (_smanager s) a' = Some d' /\ u ∈ storage_units_of d' /\
    trace h' = trace h ++ l1 ++ Call (create_call d') :: l2
                            ++ Call (create_call d) :: l3.
Proof.
  intros H Hrun Hd Hu. destruct (init_layered _ _ _ H) as [Hwf Hl].
  destruct (Hl a d u Hd Hu) as (a' & d' & Hd' & Hu' & Hb).
  exists a', d'.
  destruct (records_create_filesystems _ h tt h' Hrun) as (evs & Ht & Hevs).
  assert (precedes (create_call d') (create_call d) (omap set_up evs)) as Hp.
  { rewrite Hevs. unfold get_devices_by_type. rewrite (devices_values_heap _ Hwf).
    apply (created_in_order _ a' a); try done.
    destruct d; simpl in Hu; try (by apply elem_of_nil in Hu); auto. }
  apply precedes_omap in Hp as (e1 & e2 & l1 & l2 & l3 & He1 & He2 & ->).
  apply set_up_call in He1 as ->. apply set_up_call in He2 as ->.
  by exists l1, l2, l3.
Qed.

(** ** The order in which [deactivate_block_devices] takes the devices down *)

Lemma precedes_flat_map {A B} (g : A -> list B) (x y : A) (x' y' : B) (l : list A) :
  precedes x y l -> x' ∈ g x -> y' ∈ g y -> precedes x' y' (flat_map g l).
Proof.
  intros (l1 & l2 & l3 & ->) Hx Hy.
  rewrite flat_map_app. simpl. apply precedes_app_r, precedes_app; [done|].
  rewrite flat_map_app. simpl. rewrite !elem_of_app. right. by left.
Qed.

Lemma call_of_call (e : event) (c : ext_call) : call_of e = Some c -> e = Call c.
Proof. destruct e; simpl; congruence. Qed.

Lemma records_stop_class (m : StorageManager) (t : DeviceClass)
    (stop : string -> ext_call) :
  (forall d, device_class d = t -> stop_call d = Some (stop (device_id d))) ->
  records call_of
    (flat_map (fun d => option_list (stop_call d)) (get_devices_by_type m t))
    (for_each (get_devices_by_type m t) (fun d => call (stop (device_id d)))).
Proof.
  intros Hstop. apply records_for_each. intros d Hd.
  apply list_elem_of_filter in Hd as [Hd _]. rewrite (Hstop d Hd). simpl.
  unfold call. apply (records_bind call_of [stop (device_id d)] []).
  - by apply records_emit.
  - intros _. apply records_emits, emits_on_world.
Qed.

Lemma records_deactivate_block_devices (m : StorageManager) :
  records call_of
    (flat_map (fun d => option_list (stop_call d)) (get_devices_by_type m TVolumeGroup)
     ++ flat_map (fun d => option_list (stop_call d)) (get_devices_by_type m TRAID)
     ++ [cryptsetup_close_volumes])
    (deactivate_block_devices m).
Proof.
  unfold deactivate_block_devices.
  apply records_bind; [apply records_stop_class; by intros []|]. intros _.
  apply records_bind; [apply records_stop_class; by intros []|]. intros _.
  unfold call. apply (records_bind call_of [cryptsetup_close_volumes] []).
  - by apply records_emit.
  - intros _. apply records_emits, emits_on_world.
Qed.

Lemma stopped_in_order (hp : list StorageDevice) (a' a : nat) (d' d : StorageDevice)
    (c' c : ext_call) :
  hp !! a' = Some d' -> hp !! a = Some d -> comes_before d' a' d a ->
  stop_call d' = Some c' -> stop_call d = Some c ->
  device_class d = TRAID \/ device_class d = TVolumeGroup ->
  let stops t :=
    flat_map (fun x => option_list (stop_call x))
             (filter (fun x => device_class x = t) hp) in
  (device_class d' <> device_class d ->
   precedes c c' (stops TVolumeGroup ++ stops TRAID ++ [cryptsetup_close_volumes])) /\
  (device_class d' = device_class d ->
   a' < a /\
   precedes c' c (stops TVolumeGroup ++ stops TRAID ++ [cryptsetup_close_volumes])).
Proof.
  intros Hd' Hd Hb Hc' Hc Hcls stops.
  assert (forall (t : DeviceClass) (x : StorageDevice) (i : nat) (k : ext_call),
            hp !! i = Some x -> device_class x = t -> stop_call x = Some k ->
            k ∈ stops t) as Hin.
  { intros t x i k Hx Ht Hk. apply list_elem_of_In, in_flat_map. exists x. split.
    - apply list_elem_of_In, list_elem_of_filter.
      split; [done | by eapply list_elem_of_lookup_2].
    - rewrite Hk. by left. }
  assert (forall t : DeviceClass,
            device_class d' = t -> device_class d = t -> a' < a ->
            precedes c' c (stops t)) as Hsame.
  { intros t Ht' Ht Hlt.
    apply (precedes_flat_map _ d' d); [|rewrite Hc'; apply list_elem_of_here
                                        |rewrite Hc; apply list_elem_of_here].
    apply precedes_filter; [|done..]. by apply (precedes_lookup _ _ _ a' a). }
  assert (device_class d' = TCryptsetup -> c' = cryptsetup_close_volumes) as Hclose.
  { destruct d'; try done. simpl in Hc'. congruence. }
  assert (device_class d' <> TDisk) as Hdisk by (by destruct d').
  unfold comes_before in Hb.
  destruct (device_class d') eqn:E', (device_class d) eqn:E; simpl in Hb;
    destruct Hcls as [Hcls|Hcls]; try done;
    (split; [intros Hne|intros Heq]); try done;
    destruct Hb as [Hb|[Hb Hlt]]; try done; try lia.
  - (* two RAIDs *)
    split; [done|]. apply precedes_app_r, precedes_app_l. by apply Hsame.
  - (* a volume group on a RAID *)
    apply precedes_app; [by apply (Hin _ d a)|].
    rewrite elem_of_app. left. by apply (Hin _ d' a').
  - (* two volume groups *)
    split; [done|]. apply precedes_app_l. by apply Hsame.
  - (* a RAID on crypto volumes *)
    rewrite Hclose by done. apply precedes_app_r, precedes_app; [by apply (Hin _ d a)|].
    by apply list_elem_of_singleton.
  - (* a volume group on crypto volumes *)
    rewrite Hclose by done. apply precedes_app; [by apply (Hin _ d a)|].
    rewrite elem_of_app. right. by apply list_elem_of_singleton.
Qed.

(** X20: for the installer the constructor returns, a
    [deactivate_block_devices] that returns takes a device down before the
    device of another class that holds a member of it: a volume group is
    deactivated before the RAID is stopped, or the crypto volumes closed,
    that hold its physical volumes, and a RAID is stopped before the crypto
    volumes that hold its members are closed.  Between two devices of one
    class (a RAID on a partition of a RAID, a volume group on a logical
    volume of a volume group) the order is that of the registry: the one
    built upon is taken down first.  Disks are not taken down. *)
Theorem devices_are_stopped_class_by_class (root : string) (config : dict pyval)
    (s : StorageInstaller) (h h' : Host) (a : nat) (d : StorageDevice)
    (u : StorageUnit) :
  StorageInstaller_init root config = Ok s ->
  deactivate_block_devices (_smanager s) h = (Ok tt, h') ->
  deref (_smanager s) a = Some d -> u ∈ members_of d ->
  exists a' d',
    deref (_smanager s) a' = Some d' /\ u ∈ storage_units_of d' /\
    forall c' c, stop_call d' = Some c' -> stop_call d = Some c ->
      (device_class d' <> device_class d ->
       exists l1 l2 l3,
         trace h' = trace h ++ l1 ++ Call c :: l2 ++ Call c' :: l3) /\
      (device_class d' = device_class d ->
       a' < a /\
       exists l1 l2 l3,
         trace h' = trace h ++ l1 ++ Call c' :: l2 ++ Call c :: l3).
Proof.
  intros H Hrun Hd Hu. destruct (init_layered _ _ _ H) as [Hwf Hl].
  destruct (Hl a d u Hd Hu) as (a' & d' & Hd' & Hu' & Hb).
  exists a', d'. split; [done|]. split; [done|]. intros c' c Hc' Hc.
  destruct (records_deactivate_block_devices _ h tt h' Hrun) as (evs & Ht & Hevs).
  unfold get_devices_by_type in Hevs. rewrite (devices_values_heap _ Hwf) in Hevs.
  destruct (stopped_in_order _ a' a d' d c' c Hd' Hd Hb Hc' Hc) as [Hne Heq].
  { destruct d; simpl in Hu; try (by apply elem_of_nil in Hu); auto. }
  rewrite <- Hevs in Hne, Heq. rewrite Ht.
  split.
  - intros Hcls. destruct (precedes_omap _ _ _ _ (Hne Hcls))
      as (e1 & e2 & l1 & l2 & l3 & He1 & He2 & ->).
    apply call_of_call in He1 as ->. apply call_of_call in He2 as ->.
    by exists l1, l2, l3.
  - intros Hcls. destruct (Heq Hcls) as [Hlt Hp]. split; [done|].
    destruct (precedes_omap _ _ _ _ Hp) as (e1 & e2 & l1 & l2 & l3 & He1 & He2 & ->).
    apply call_of_call in He1 as ->. apply call_of_call in He2 as ->.
    by exists l1, l2, l3.
Qed.

End Installation.

(** ** Instances on concrete data *)

Lemma mount_ascending_unmount_reverse_example :
  NoDup (map fst (mount_points in_order example_manager)) /\
  omap mounted_dir
    (trace unit (snd (mount unit machine_ok in_order example_block_device example_manager
                        (mkHost unit tt []))))
  = ["/mnt/target_root/"; "/mnt/target_root/boot"; "/mnt/target_root/boot/efi";
     "/mnt/target_root/home"] /\
  omap unmounted_dir
    (trace unit (snd (unmount unit machine_ok in_order example_manager
                        (mkHost unit tt []))))
  = ["/mnt/target_root/home"; "/mnt/target_root/boot/efi"; "/mnt/target_root/boot";
     "/mnt/target_root/"].
Proof.
  assert (NoDup (map fst (mount_points in_order example_manager))) as Hnd.
  { vm_compute. apply (bool_decide_unpack _). by vm_compute. }
  split; [exact Hnd|].
  destruct (mount_ascending_unmount_reverse unit machine_ok ext_ok in_order
              example_block_device example_manager Hnd) as (_ & _ & _ & Hm & Hu).
  specialize (Hm (mkHost unit tt [])). specialize (Hu (mkHost unit tt [])).
  assert (first_failure unit machine_ok ext_ok
            (flat_map (mount_commands example_block_device example_manager)
                      (mount_items in_order example_manager)) tt = None) as Em
    by (vm_compute; reflexivity).
  assert (first_failure unit machine_ok ext_ok
            (map (unmount_command example_manager)
                 (rev (mount_items in_order example_manager))) tt = None) as Eu
    by (vm_compute; reflexivity).
  cbn [world] in Hm, Hu. rewrite Em in Hm. rewrite Eu in Hu.
  destruct Hm as [_ Hm]. destruct Hu as [_ Hu]. rewrite Hm, Hu.
  split; vm_compute; reflexivity.
Defined.

(** C1, counterexample: on a machine where [mount] fails, the storage
    installer's [apply()] raises after the partitions were created and
    formatted; [_install_config] ends there and no teardown is attempted.
    The same happens when the [apply()] of another installer raises. *)
Lemma cleanup_skipped_when_apply_raises :
  (fst (_install_config unit machine_mount_fails ext_ok in_order example_block_device
          example_config false (Ok []) (mkHost unit tt []))
     = Raise (RuntimeError
                "mount -t ext4 /dev/disk/by-partlabel/root /mnt/target_root/: failed") /\
   existsb is_teardown
     (trace unit (snd (_install_config unit machine_mount_fails ext_ok in_order
                         example_block_device example_config false (Ok [])
                         (mkHost unit tt [])))) = false) /\
  (fst (_install_config unit machine_ok ext_ok in_order example_block_device
          example_config false
          (Ok [mkOther unit (ret tt) (ret tt) (ret tt);
               mkOther unit (raise (RuntimeError "apk add failed")) (ret tt) (ret tt)])
          (mkHost unit tt []))
     = Raise (RuntimeError "apk add failed") /\
   existsb is_teardown
     (trace unit (snd (_install_config unit machine_ok ext_ok in_order
                         example_block_device example_config false
                         (Ok [mkOther unit (ret tt) (ret tt) (ret tt);
                              mkOther unit (raise (RuntimeError "apk add failed"))
                                      (ret tt) (ret tt)])
                         (mkHost unit tt [])))) = false).
Proof. by vm_compute. Qed.

(** C2, counterexample: on a machine where [umount] fails, the first
    teardown step of [cleanup] raises; the failure is not logged and none of
    the remaining teardown steps is attempted. *)
Lemma cleanup_failure_is_raised :
  match StorageInstaller_init in_order "/mnt/target_root" example_config with
  | Ok s =>
      StorageInstaller_cleanup unit machine_umount_fails ext_ok in_order s (mkHost unit tt [])
      = (Raise (RuntimeError "umount /mnt/target_root/dev: failed"),
         mkHost unit tt [StartEvent "Unmounting file systems";
                         Run ["umount"; "/mnt/target_root/dev"]]) /\
      cleanup_steps in_order s
      = [Run ["umount"; "/mnt/target_root/dev"];
         Run ["umount"; "/mnt/target_root/proc"];
         Run ["umount"; "/mnt/target_root/sys"];
         Run ["umount"; "/mnt/target_root/boot"];
         Run ["umount"; "/mnt/target_root/"];
         Call cryptsetup_close_volumes]
  | Raise _ => False
  end.
Proof. by vm_compute. Qed.

Lemma cryptsetup_always_registered_example :
  reachable (run_op (op_add_volume (example_params "secret" EXT4 (PStr "/secret"))
                                   (mkUnit Partition "/dev/vda" 1 "data" 0 None [] None []
                                           PNone None))
               (run_op (op_add_disk "/dev/vda") StorageManager_init)) /\
  add_disk "__cryptsetup__"
    (run_op (op_add_volume (example_params "secret" EXT4 (PStr "/secret"))
                           (mkUnit Partition "/dev/vda" 1 "data" 0 None [] None []
                                   PNone None))
       (run_op (op_add_disk "/dev/vda") StorageManager_init))
  = (Raise (ValueError "__cryptsetup__ already exists"),
     run_op (op_add_volume (example_params "secret" EXT4 (PStr "/secret"))
                           (mkUnit Partition "/dev/vda" 1 "data" 0 None [] None []
                                   PNone None))
       (run_op (op_add_disk "/dev/vda") StorageManager_init)).
Proof.
  assert (reachable (run_op (op_add_volume (example_params "secret" EXT4 (PStr "/secret"))
                                   (mkUnit Partition "/dev/vda" 1 "data" 0 None [] None []
                                           PNone None))
               (run_op (op_add_disk "/dev/vda") StorageManager_init))) as Hr
    by (do 2 apply reachable_step; apply reachable_init).
  split; [exact Hr|].
  apply (cryptsetup_always_registered in_order (fun A l _ => Permutation_refl l) _ Hr).
Defined.

Lemma duplicate_ids_rejected_example :
  add_disk "/dev/vda" example_manager
  = (Raise (ValueError "/dev/vda already exists"), example_manager) /\
  (exists e, add_vg "root" [] example_manager = (Raise e, example_manager)) /\
  (exists e, add_partition 1 (example_params "/dev/vda" EXT4 PNone) example_manager
             = (Raise e, example_manager)) /\
  StorageInstaller_init in_order "/mnt/target_root" config_shared_id
  = Raise (ValueError "id 'data' is already in use").
Proof.
  split.
  { apply (proj1 (proj2 (duplicate_ids_rejected in_order)) example_manager "/dev/vda" 1).
    reflexivity. }
  split.
  { apply (proj1 (duplicate_ids_rejected in_order) example_manager "root").
    apply id_in_use_iff. vm_compute. reflexivity. }
  split.
  { apply (proj1 (duplicate_ids_rejected in_order) example_manager "/dev/vda");
      [|reflexivity].
    apply id_in_use_iff. vm_compute. reflexivity. }
  vm_compute. reflexivity.
Defined.

Lemma raid_registered_under_dev_md_example :
  registered_as
    (_smanager (snd (parse_raid_item
       [("id", PStr "md0"); ("level", PInt 1); ("metadata", PStr "1.2")]
       (initial_installer "/mnt/target_root" (PDict [])))))
    "/dev/md/md0" TRAID /\
  registered_as
    (_smanager (snd (parse_raid_item
       [("id", PStr "/dev/md0"); ("level", PInt 1); ("metadata", PStr "1.2")]
       (initial_installer "/mnt/target_root" (PDict [])))))
    "/dev/md0" TRAID.
Proof.
  split.
  - apply (proj1 (proj2 (raid_registered_under_dev_md in_order))
             [("id", PStr "md0"); ("level", PInt 1); ("metadata", PStr "1.2")]
             (initial_installer "/mnt/target_root" (PDict [])) _ "md0");
      reflexivity.
  - destruct (proj1 (proj2 (proj2 (proj2 (raid_registered_under_dev_md in_order))))
                [("id", PStr "/dev/md0"); ("level", PInt 1); ("metadata", PStr "1.2")]
                (initial_installer "/mnt/target_root" (PDict []))
                (snd (parse_raid_item
                        [("id", PStr "/dev/md0"); ("level", PInt 1);
                         ("metadata", PStr "1.2")]
                        (initial_installer "/mnt/target_root" (PDict []))))
                "/dev/md0") as (_ & _ & _ & Habs).
    + reflexivity.
    + reflexivity.
    + exact (proj2 (Habs eq_refl)).
Defined.

(** C9, counterexample: a RAID whose configured id is the absolute path
    [/dev/md0] is registered under that id itself, and nothing is
    registered under [/dev/md//dev/md0]. *)
Lemma raid_with_absolute_id_not_prefixed :
  match StorageInstaller_init in_order "/mnt/target_root" config_raid_absolute_id with
  | Ok s =>
      get_device_by_id (_smanager s) "/dev/md//dev/md0" = None /\
      option_map device_class
        (get_device_by_id (_smanager s) "/dev/md0" ≫= deref (_smanager s))
      = Some TRAID
  | Raise _ => False
  end.
Proof. by vm_compute. Qed.

(** C8: the metadata version of a RAID entry is not optional for the code.
    The example configuration of [installers/storage.py], whose RAID entry
    has no [metadata] key, is rejected; the version [1.2] is only used when
    the key is present with the empty string as its value. *)
Theorem raid_entry_without_metadata_rejected :
  StorageInstaller_init in_order "/mnt/target_root" (source_example_config [])
    = Raise (ValueError "'metadata' is not set") /\
  match StorageInstaller_init in_order "/mnt/target_root"
          (source_example_config [("metadata", PStr "")]) with
  | Ok s =>
      get_device_by_id (_smanager s) "/dev/md/some_raid" ≫= deref (_smanager s)
      = Some (RAID "/dev/md/some_raid" (PInt 1) "1.2"
                (omap (dict_get (_units s)) ["raid_vda"; "raid_vdb"])
                (omap (dict_get (_units s)) ["pv1"; "pv2"]))
  | Raise _ => False
  end.
Proof. by vm_compute. Qed.

Lemma write_fstab_renders_spec_example :
  exists h',
    write_fstab unit machine_ok ext_ok in_order example_block_device example_manager
      "/mnt/target_root/etc/fstab" (mkHost unit tt []) = (Ok tt, h') /\
    trace unit h'
    = map (fun u => Run (blkid_args (example_block_device u)))
          (fstab_units in_order example_manager)
      ++ [Call (write_file "/mnt/target_root/etc/fstab" "w"
                  (String.concat ""
                     (map (fun u => spec_fstab_line "ABCD" u)
                          (fstab_units in_order example_manager))))].
Proof.
  apply (proj1 (proj2 (proj2 (proj2
           (write_fstab_renders_spec unit machine_ok ext_ok in_order example_block_device
              example_manager "/mnt/target_root/etc/fstab"))))
           (fun _ => "ABCD") (mkHost unit tt [])).
  - intros u w _. exists ("ABCD" ++ String "010" "")%string, w.
    split; [reflexivity | split; [reflexivity | discriminate]].
  - intros data w. exists w. reflexivity.
Defined.

Lemma write_fstab_example_file :
  String.concat "" (map (fun u => spec_fstab_line "ABCD" u)
                        (fstab_units in_order example_manager))
  = ("UUID=ABCD / ext4 defaults 0 1" ++ String "010"
     ("UUID=ABCD /boot ext4 defaults 0 2" ++ String "010"
     ("UUID=ABCD /boot/efi vfat defaults 0 2" ++ String "010"
     ("UUID=ABCD /home ext4 defaults 0 2" ++ String "010"
     ("UUID=ABCD none swap defaults 0 0" ++ String "010" "")))))%string.
Proof. by vm_compute. Qed.


Lemma crypto_volume_only_on_disk_partition_example :
  is_ok (StorageInstaller_init in_order "/mnt/target_root" (config_crypto_on "pv2")) = false /\
  is_ok (StorageInstaller_init in_order "/mnt/target_root" (config_crypto_on "home")) = false.
Proof.
  split.
  - apply (proj1 (crypto_volume_only_on_disk_partition in_order
                    (fun A l _ => Permutation_refl l))
             "/mnt/target_root" (config_crypto_on "pv2")
             (default [] (as_dict (pyget (config_crypto_on "pv2") "storage")))
             (entries (default [] (as_dict (pyget (config_crypto_on "pv2") "storage")))
                      "crypto_volumes")
             [("id", PStr "crypto_volume"); ("on_partition", PStr "pv2");
              ("fs_type", PStr "ext4"); ("mount_point", PStr "/secret")]
             "pv2").
    + reflexivity.
    + reflexivity.
    + vm_compute. left.
    + reflexivity.
    + apply (bool_decide_unpack _). vm_compute. exact I.
  - apply (proj1 (crypto_volume_only_on_disk_partition in_order
                    (fun A l _ => Permutation_refl l))
             "/mnt/target_root" (config_crypto_on "home")
             (default [] (as_dict (pyget (config_crypto_on "home") "storage")))
             (entries (default [] (as_dict (pyget (config_crypto_on "home") "storage")))
                      "crypto_volumes")
             [("id", PStr "crypto_volume"); ("on_partition", PStr "home");
              ("fs_type", PStr "ext4"); ("mount_point", PStr "/secret")]
             "home").
    + reflexivity.
    + reflexivity.
    + vm_compute. left.
    + reflexivity.
    + apply (bool_decide_unpack _). vm_compute. exact I.
Defined.

Lemma exactly_one_root_mount_point_example :
  (exists s, StorageInstaller_init in_order "/mnt/target_root" example_config = Ok s /\
             exists u, root_units (_smanager s) = [u]) /\
  is_ok (StorageInstaller_init in_order "/mnt/target_root"
           (config_two_partitions "/boot" "/home")) = false /\
  is_ok (StorageInstaller_init in_order "/mnt/target_root"
           (config_two_partitions "/" "/")) = false /\
  trace unit (snd (_install_config unit machine_ok ext_ok in_order example_block_device (config_two_partitions "/" "/") false
                (Ok []) (mkHost unit tt [])))
  = [LogLine "Creating a temporary root /mnt/target_root";
     Call (os_makedirs "/mnt/target_root" true)].
Proof.
  pose proof (exactly_one_root_mount_point unit machine_ok ext_ok in_order example_block_device
                (fun A l _ => Permutation_refl l)) as (H1 & H2 & H3).
  split; [|split; [|split]].
  - eexists. split; [vm_compute; reflexivity|].
    apply (H1 "/mnt/target_root" example_config). vm_compute. reflexivity.
  - apply (H2 "/mnt/target_root" (config_two_partitions "/boot" "/home")
              (default [] (as_dict (pyget (config_two_partitions "/boot" "/home") "storage")))).
    + reflexivity.
    + vm_compute. lia.
  - apply (H2 "/mnt/target_root" (config_two_partitions "/" "/")
              (default [] (as_dict (pyget (config_two_partitions "/" "/") "storage")))).
    + reflexivity.
    + vm_compute. lia.
  - refine (proj2 (H3 (config_two_partitions "/" "/") false (Ok []) (mkHost unit tt []) _)).
    apply (H2 "/mnt/target_root" (config_two_partitions "/" "/")
              (default [] (as_dict (pyget (config_two_partitions "/" "/") "storage")))).
    + reflexivity.
    + vm_compute. lia.
Defined.

(** ** Instances of the further properties *)

Lemma example_built_reachable : reachable example_built.
Proof. unfold example_built. do 4 apply reachable_step. apply reachable_init. Qed.

Lemma added_device_is_found_example :
  get_device_by_id example_built "/dev/vdb" = None /\
  get_device_by_id (snd (add_disk "/dev/vdb" example_built)) "/dev/vdb" = Some 2 /\
  deref (snd (add_disk "/dev/vdb" example_built)) 2 = Some (Disk "/dev/vdb" []).
Proof.
  destruct (added_device_is_found example_built (snd (add_disk "/dev/vdb" example_built)) 2
              (add_disk "/dev/vdb") "/dev/vdb" (Disk "/dev/vdb" []))
    as (H1 & H2 & H3 & _).
  - apply example_built_reachable.
  - left. split; reflexivity.
  - reflexivity.
  - split; [exact H1|]. split; [exact H2 | exact H3].
Defined.

Lemma added_unit_is_found_example :
  _unit_by_id "root"
    (snd (_add_unit example_root_unit (initial_installer "/mnt/target_root" PNone)))
  = (Ok example_root_unit,
     snd (_add_unit example_root_unit (initial_installer "/mnt/target_root" PNone))).
Proof.
  apply (proj1 (added_unit_is_found example_root_unit
                  (initial_installer "/mnt/target_root" PNone)
                  (snd (_add_unit example_root_unit
                          (initial_installer "/mnt/target_root" PNone)))
                  eq_refl)).
Defined.

Lemma path_relative_to_mount_root_base_spec_example :
  _path_relative_to_mount_root_base example_built "/boot/efi"
  = abs_target_path "/mnt/target_root" "/boot/efi" /\
  String.prefix "/mnt/target_root"
    (_path_relative_to_mount_root_base example_built "/boot/efi") = true.
Proof.
  destruct (proj1 (path_relative_to_mount_root_base_spec example_built "/boot/efi")
              "/mnt/target_root") as (H1 & H2 & _).
  - reflexivity.
  - discriminate.
  - split; [exact H1 | exact H2].
Defined.

Lemma mount_and_unmount_stay_under_root_base_example :
  emits unit (under_root_base "/mnt/target_root")
    (mount unit machine_ok in_order example_block_device example_built).
Proof.
  apply (mount_and_unmount_stay_under_root_base unit machine_ok in_order
           example_block_device example_built "/mnt/target_root").
  - reflexivity.
  - discriminate.
Defined.

Lemma write_mdadm_conf_never_empty_example :
  write_mdadm_conf unit machine_silent ext_ok "/mnt/target_root/etc/mdadm.conf"
    (mkHost unit tt [])
  = (Raise (RuntimeError "mdadm did not find any RAID devices"),
     mkHost unit tt [Run ["mdadm"; "--detail"; "--scan"]]) /\
  write_mdadm_conf unit machine_ok ext_ok "/mnt/target_root/etc/mdadm.conf"
    (mkHost unit tt [])
  = (Ok tt,
     mkHost unit tt
       [Run ["mdadm"; "--detail"; "--scan"];
        Call (write_file "/mnt/target_root/etc/mdadm.conf" "wb"
                (stdout (mkCompleted 0 ("ABCD" ++ String "010" ""))))]).
Proof.
  split.
  - apply (proj1 (proj2 (write_mdadm_conf_never_empty unit machine_silent ext_ok
                           "/mnt/target_root/etc/mdadm.conf" (mkHost unit tt []))) tt).
    reflexivity.
  - apply (proj2 (proj2 (write_mdadm_conf_never_empty unit machine_ok ext_ok
                           "/mnt/target_root/etc/mdadm.conf" (mkHost unit tt [])))
             (mkCompleted 0 ("ABCD" ++ String "010" "")) tt).
    + reflexivity.
    + reflexivity.
    + discriminate.
Defined.

Lemma get_fs_uuid_not_empty_example :
  fst (get_fs_uuid unit machine_ok "/dev/vda1" (mkHost unit tt [])) = Ok "ABCD".
Proof.
  apply (proj1 (proj2 (get_fs_uuid_not_empty unit machine_ok "/dev/vda1"
                         (mkHost unit tt [])))
           ("ABCD" ++ String "010" "")%string tt eq_refl eq_refl).
Defined.

Lemma mount_point_lookups_agree_example :
  get_unit_by_mount_point in_order example_built "/boot"
  = _get_unit_by_mount_point example_built "/boot".
Proof.
  apply (mount_point_lookups_agree in_order (fun A l _ => Permutation_refl l)
           example_built "/boot").
  - apply example_built_reachable.
  - discriminate.
Defined.

Lemma efi_mount_point_of_esp_unit_example :
  exists s,
    StorageInstaller_init in_order "/mnt/target_root" config_with_esp = Ok s /\
    exists u, u ∈ all_units (_smanager s) /\ ESP ∈ flags u /\
              mount_point u = Some "/boot/efi".
Proof.
  eexists. split; [vm_compute; reflexivity|].
  refine (proj1 (efi_mount_point_of_esp_unit in_order (fun A l _ => Permutation_refl l)
                   "/mnt/target_root" config_with_esp _ _) "/boot/efi" _).
  - vm_compute. reflexivity.
  - vm_compute. reflexivity.
Defined.

Lemma units_table_matches_devices_example :
  exists s,
    StorageInstaller_init in_order "/mnt/target_root" config_with_esp = Ok s /\
    NoDup (map unit_id (all_units (_smanager s))).
Proof.
  eexists. split; [vm_compute; reflexivity|].
  refine (proj2 (proj2 (units_table_matches_devices in_order
                          (fun A l _ => Permutation_refl l)
                          "/mnt/target_root" config_with_esp _ _))).
  vm_compute. reflexivity.
Defined.

Lemma packages_follow_device_mix_example :
  exists s,
    StorageInstaller_init in_order "/mnt/target_root" config_with_esp = Ok s /\
    "dosfstools" ∈ _packages s.
Proof.
  eexists. split; [vm_compute; reflexivity|].
  refine (proj2 (packages_follow_device_mix unit machine_ok in_order
                   example_block_device (fun A l _ => Permutation_refl l)
                   "/mnt/target_root" config_with_esp
                   (default [] (as_dict (pyget config_with_esp "storage"))) _
                   "dosfstools" _ _) _).
  - vm_compute. reflexivity.
  - reflexivity.
  - right. right. right. eexists. split; [vm_compute; left|]. reflexivity.
Defined.

Lemma installers_run_in_phases_example :
  omap phase_of
    (trace unit
       (snd (run_installers unit ext_ok
               [storage_as_installer unit machine_ok ext_ok in_order example_block_device
                  example_installer;
                other_as_installer unit (mkOther unit (ret tt) (ret tt) (ret tt))]
               false (mkHost unit tt []))))
  = [(0, PApply); (1, PApply); (0, PPostApply); (1, PPostApply);
     (1, PCleanup); (0, PCleanup)].
Proof.
  destruct (installers_run_in_phases unit machine_ok ext_ok in_order example_block_device
              example_installer [mkOther unit (ret tt) (ret tt) (ret tt)] false
              (mkHost unit tt [])
              (snd (run_installers unit ext_ok
                      [storage_as_installer unit machine_ok ext_ok in_order
                         example_block_device example_installer;
                       other_as_installer unit (mkOther unit (ret tt) (ret tt) (ret tt))]
                      false (mkHost unit tt []))))
    as (evs & Ht & Hp).
  - vm_compute. reflexivity.
  - rewrite Ht. exact Hp.
Defined.

Lemma create_filesystems_formats_every_unit_example :
  omap formatted
    (trace unit (snd (create_filesystems unit ext_ok example_built (mkHost unit tt []))))
  = ["boot"; "root"].
Proof.
  destruct (create_filesystems_formats_every_unit unit ext_ok example_built
              (mkHost unit tt [])
              (snd (create_filesystems unit ext_ok example_built (mkHost unit tt []))))
    as (evs & Ht & Hp & _).
  - apply example_built_reachable.
  - vm_compute. reflexivity.
  - change (trace unit (mkHost unit tt []) ++ evs) with evs in Ht.
    rewrite Ht, Hp. vm_compute. reflexivity.
Defined.

Lemma apply_and_cleanup_stay_under_target_root_example :
  exists s,
    StorageInstaller_init in_order "/mnt/target_root" config_with_esp = Ok s /\
    emits unit (storage_event_under "/mnt/target_root")
      (StorageInstaller_apply unit machine_ok ext_ok in_order example_block_device s).
Proof.
  eexists. split; [vm_compute; reflexivity|].
  refine (proj1 (apply_and_cleanup_stay_under_target_root unit machine_ok ext_ok in_order
                   example_block_device (fun A l _ => Permutation_refl l)
                   "/mnt/target_root" config_with_esp _ _ _)).
  - vm_compute. reflexivity.
  - discriminate.
Defined.

Lemma shadow_line_fields_example :
  split_colon (join ":" ["root"; "!"; "20000"; "0"; "99999"; "7"; ""; ""; ""])
  = ["root"; "!"; "20000"; "0"; "99999"; "7"; ""; ""; ""].
Proof.
  apply (proj2 (proj2 (proj2 (shadow_line_fields "root:x:19000:0:99999:7:::")))
           "!" "20000" ["root"; "!"; "20000"; "0"; "99999"; "7"; ""; ""; ""]);
    reflexivity.
Defined.

Lemma unmount_undoes_mount_example :
  exists evs1 evs2,
    omap mounted_dir evs1 = ["/mnt/target_root/"; "/mnt/target_root/boot"] /\
    omap unmounted_dir evs2 = ["/mnt/target_root/boot"; "/mnt/target_root/"] /\
    trace unit (snd (unmount unit machine_ok in_order example_built
                       (snd (mount unit machine_ok in_order example_block_device
                               example_built (mkHost unit tt [])))))
    = evs1 ++ evs2.
Proof.
  destruct (unmount_undoes_mount unit machine_ok in_order example_block_device
              (fun A l _ => Permutation_refl l) example_built (mkHost unit tt [])
              (snd (mount unit machine_ok in_order example_block_device example_built
                      (mkHost unit tt [])))
              (snd (unmount unit machine_ok in_order example_built
                      (snd (mount unit machine_ok in_order example_block_device
                              example_built (mkHost unit tt []))))))
    as (evs1 & evs2 & Ht1 & Ht2 & Hm & Hu).
  - apply example_built_reachable.
  - vm_compute. reflexivity.
  - vm_compute. reflexivity.
  - exists evs1, evs2. rewrite Hu, Hm. split; [vm_compute; reflexivity|].
    split; [vm_compute; reflexivity|]. rewrite Ht2, Ht1. reflexivity.
Defined.

Lemma members_are_units_of_earlier_devices_example :
  exists s d u,
    StorageInstaller_init in_order "/mnt/target_root" config_layered = Ok s /\
    deref (_smanager s) 2 = Some d /\ u ∈ members_of d /\
    exists a' d',
      deref (_smanager s) a' = Some d' /\ u ∈ storage_units_of d' /\
      (layer (device_class d') < layer (device_class d) \/
       (device_class d' = device_class d /\ a' < 2)) /\
      (device_class d = TRAID -> device_class d' <> TVolumeGroup).
Proof.
  eexists _, _, _. split; [vm_compute; reflexivity|].
  split; [vm_compute; reflexivity|].
  split; [simpl; apply list_elem_of_here|].
  refine (members_are_units_of_earlier_devices in_order (fun A l _ => Permutation_refl l)
            "/mnt/target_root" config_layered _ 2 _ _ _ _ _).
  - vm_compute. reflexivity.
  - vm_compute. reflexivity.
  - simpl. apply list_elem_of_here.
Defined.

Lemma devices_are_created_after_their_members_example :
  exists s d u,
    StorageInstaller_init in_order "/mnt/target_root" config_layered = Ok s /\
    deref (_smanager s) 3 = Some d /\ u ∈ members_of d /\
    exists a' d' l1 l2 l3,
      deref (_smanager s) a' = Some d' /\ u ∈ storage_units_of d' /\
      trace unit (snd (create_filesystems unit ext_ok (_smanager s) (mkHost unit tt [])))
      = trace unit (mkHost unit tt [])
        ++ l1 ++ Call (create_call d') :: l2 ++ Call (create_call d) :: l3.
Proof.
  eexists _, _, _. split; [vm_compute; reflexivity|].
  split; [vm_compute; reflexivity|].
  split; [simpl; apply list_elem_of_here|].
  refine (devices_are_created_after_their_members unit ext_ok in_order
            (fun A l _ => Permutation_refl l) "/mnt/target_root" config_layered
            _ (mkHost unit tt []) _ 3 _ _ _ _ _ _).
  - vm_compute. reflexivity.
  - vm_compute. reflexivity.
  - vm_compute. reflexivity.
  - simpl. apply list_elem_of_here.
Defined.

Lemma devices_are_stopped_class_by_class_example :
  exists s d u,
    StorageInstaller_init in_order "/mnt/target_root" config_layered = Ok s /\
    deref (_smanager s) 3 = Some d /\ u ∈ members_of d /\
    exists a' d',
      deref (_smanager s) a' = Some d' /\ u ∈ storage_units_of d' /\
      forall c' c, stop_call d' = Some c' -> stop_call d = Some c ->
        (device_class d' <> device_class d ->
         exists l1 l2 l3,
           trace unit (snd (deactivate_block_devices unit ext_ok (_smanager s)
                              (mkHost unit tt [])))
           = trace unit (mkHost unit tt []) ++ l1 ++ Call c :: l2 ++ Call c' :: l3) /\
        (device_class d' = device_class d ->
         a' < 3 /\
         exists l1 l2 l3,
           trace unit (snd (deactivate_block_devices unit ext_ok (_smanager s)
                              (mkHost unit tt [])))
           = trace unit (mkHost unit tt []) ++ l1 ++ Call c' :: l2 ++ Call c :: l3).
Proof.
  eexists _, _, _. split; [vm_compute; reflexivity|].
  split; [vm_compute; reflexivity|].
  split; [simpl; apply list_elem_of_here|].
  refine (devices_are_stopped_class_by_class unit ext_ok in_order
            (fun A l _ => Permutation_refl l) "/mnt/target_root" config_layered
            _ (mkHost unit tt []) _ 3 _ _ _ _ _ _).
  - vm_compute. reflexivity.
  - vm_compute. reflexivity.
  - vm_compute. reflexivity.
  - simpl. apply list_elem_of_here.
Defined.

(** A line of the user with exactly three fields loses its line end: the
    line that follows is joined to it. *)
Lemma update_user_hash_joins_short_line :
  update_user_hash [("root:old:1" ++ String "010" "")%string;
                    ("bin:x:2" ++ String "010" "")%string]
    "/etc/shadow" "root" "HASH" "19000"
  = Written ("root:HASH:19000bin:x:2" ++ String "010" "")%string.
Proof. reflexivity. Qed.
